(** * Central hub of the ESP32 smart-home parameter bus: a shallow embedding

    The development follows the Python sources of the hub:

    - [Py]            the Python values that travel through the hub and the
                      builtins the sources apply to them;
    - [Base]          components/base.py: typed parameters, change callbacks,
                      components and their lookups;
    - [CentralHub]    central_hub.py: the mirror [Parameter] of a remote device;
    - [NetworkActions], [ActionManager], [Watcher], [WebServer]
                      the four local components;
    - [ActionManagerComponent], [WatcherComponent], [WebServerComponent]
                      the methods of the components that act through the hub;
    - [Hub]           the callbacks the components register, and the hub as
                      [CentralHub] builds and starts it.

    Python objects are mutable and shared.  Parameter objects therefore live
    in a store keyed by object reference; a component's dictionaries hold
    references, and a change callback is a state transformer on the whole
    store. *)

From Stdlib Require Import ZArith Floats List Bool Lia Ascii String.
From stdpp Require Import gmap strings list pretty sorting.

Local Open Scope Z_scope.

(** * Python values and builtins *)

Module Py.

(** The scalar values JSON decoding produces, and [None]. *)
Inductive PyVal :=
| VNone
| VBool (b : bool)
| VInt (z : Z)
| VFloat (f : float)
| VStr (s : string).

(** Exceptions the modelled builtins raise. *)
Inductive Exn := ValueError | TypeError | OverflowError.

(** Builtins whose result on a text the development does not compute:
    [int(s)] and [float(s)] on a [str] ([None] where Python raises
    [ValueError]), [str(f)] on a [float], and [hash(s)] on a [str]. *)
Class PyBuiltins := {
  int_of_str : string -> option Z;
  float_of_str : string -> option float;
  str_of_float : float -> string;
  hash_of_str : string -> Z
}.

(** [int(f)]: truncation toward zero; [OverflowError] on an infinity and
    [ValueError] on a NaN. *)
Definition int_of_float (f : float) : Exn + Z :=
  match Prim2SF f with
  | S754_zero _ => inr 0
  | S754_finite s m e =>
      let a := if 0 <=? e then Z.pos m * 2 ^ e else Z.pos m / 2 ^ (- e) in
      inr (if s then - a else a)
  | S754_infinity _ => inl OverflowError
  | S754_nan => inl ValueError
  end.

(** [float(z)]: the nearest double, ties to even; [OverflowError] when the
    integer is too large for a double. *)
Definition float_of_int (z : Z) : Exn + float :=
  let f := SF2Prim (binary_normalize prec emax z 0 false) in
  if is_infinity f then inl OverflowError else inr f.

(** Whether the double [f] and the integer [z] denote the same number. *)
Definition float_eq_int (f : float) (z : Z) : bool :=
  match Prim2SF f with
  | S754_zero _ => z =? 0
  | S754_finite s m e =>
      let v := if s then Z.neg m else Z.pos m in
      if 0 <=? e then z =? v * 2 ^ e else z * 2 ^ (- e) =? v
  | _ => false
  end.

Definition int_of_bool (b : bool) : Z := if b then 1 else 0.

(** [a == b]. Booleans are integers; integers and doubles compare by value;
    values of unrelated types are unequal. *)
Definition py_eq (a b : PyVal) : bool :=
  match a, b with
  | VNone, VNone => true
  | VBool x, VBool y => Bool.eqb x y
  | VBool x, VInt y | VInt y, VBool x => int_of_bool x =? y
  | VBool x, VFloat y | VFloat y, VBool x => float_eq_int y (int_of_bool x)
  | VInt x, VInt y => x =? y
  | VInt x, VFloat y | VFloat y, VInt x => float_eq_int y x
  | VFloat x, VFloat y => PrimFloat.eqb x y
  | VStr x, VStr y => String.eqb x y
  | _, _ => false
  end.

(** [a != b]. *)
Definition py_ne (a b : PyVal) : bool := negb (py_eq a b).

(** Truth value: [bool(v)], and the test of [if v] and [not v]. *)
Definition truthy (v : PyVal) : bool :=
  match v with
  | VNone => false
  | VBool b => b
  | VInt z => negb (z =? 0)
  | VFloat f => negb (PrimFloat.eqb f 0%float)
  | VStr s => negb (String.eqb s "")
  end.

(** [s.lower()], on the ASCII letters: texts are sequences of bytes here,
    and the sources compare the result with ASCII words only, which no
    other letter lowers to. *)
Definition lower_ascii (c : ascii) : ascii :=
  let n := nat_of_ascii c in
  if (65 <=? n)%nat && (n <=? 90)%nat then ascii_of_nat (n + 32) else c.

Fixpoint lower (s : string) : string :=
  match s with
  | EmptyString => EmptyString
  | String c s' => String (lower_ascii c) (lower s')
  end.

Section Builtins.
Context `{PyBuiltins}.

(** [int(v)]. *)
Definition py_int (v : PyVal) : Exn + Z :=
  match v with
  | VNone => inl TypeError
  | VBool b => inr (int_of_bool b)
  | VInt z => inr z
  | VFloat f => int_of_float f
  | VStr s => match int_of_str s with Some z => inr z | None => inl ValueError end
  end.

(** [float(v)]. *)
Definition py_float (v : PyVal) : Exn + float :=
  match v with
  | VNone => inl TypeError
  | VBool b => float_of_int (int_of_bool b)
  | VInt z => float_of_int z
  | VFloat f => inr f
  | VStr s => match float_of_str s with Some f => inr f | None => inl ValueError end
  end.

(** [str(v)]. *)
Definition py_str (v : PyVal) : string :=
  match v with
  | VNone => "None"
  | VBool b => if b then "True" else "False"
  | VInt z => pretty z
  | VFloat f => str_of_float f
  | VStr s => s
  end.

End Builtins.

(** [min(a, b)] and [max(a, b)] keep their first argument unless the second
    is strictly smaller (resp. larger). *)
Definition int_min (a b : Z) : Z := if b <? a then b else a.
Definition int_max (a b : Z) : Z := if a <? b then b else a.
Definition float_min (a b : float) : float := if PrimFloat.ltb b a then b else a.
Definition float_max (a b : float) : float := if PrimFloat.ltb a b then b else a.

End Py.
Export Py.

(** * components/base.py: parameters, callbacks, components *)

Module Base.

Inductive ParameterType := INT | FLOAT | BOOL | STRING.

(** [ParameterType.value]. *)
Definition ParameterType_value (t : ParameterType) : string :=
  match t with INT => "int" | FLOAT => "float" | BOOL => "bool" | STRING => "str" end.

Definition ParameterType_eqb (a b : ParameterType) : bool :=
  match a, b with
  | INT, INT | FLOAT, FLOAT | BOOL, BOOL | STRING, STRING => true
  | _, _ => false
  end.

(** The four concrete subclasses of [BaseParameter], each with the fields
    it adds to the base class. *)
Inductive ParamClass :=
| IntParameter (min_val max_val default_val : Z)
| FloatParameter (min_val max_val default_val : float)
| BoolParameter (default_val : bool)
| StringParameter (default_val : string).

(** The [param_type] property of each subclass. *)
Definition param_type (k : ParamClass) : ParameterType :=
  match k with
  | IntParameter _ _ _ => INT
  | FloatParameter _ _ _ => FLOAT
  | BoolParameter _ => BOOL
  | StringParameter _ => STRING
  end.

Definition default_val (k : ParamClass) : PyVal :=
  match k with
  | IntParameter _ _ d => VInt d
  | FloatParameter _ _ d => VFloat d
  | BoolParameter d => VBool d
  | StringParameter d => VStr d
  end.

(** A reference to a parameter object. *)
Definition ref := nat.

(** The arguments a change callback receives:
    [callback(self, row, col, value, old_value)]. *)
Record CallArgs := mkArgs {
  cb_param : ref;
  cb_row : Z;
  cb_col : Z;
  cb_new : PyVal;
  cb_old : PyVal
}.

(** How a call ends: it returns, it raises, the notification loop needed more
    steps than the fuel allowed, or the reference names no object (never the
    case for a reference taken from the store). *)
Inductive Outcome (A : Type) :=
| Returned (a : A)
| Raised (e : Exn)
| NoFuel
| Dangling.
Arguments Returned {A} a.
Arguments Raised {A} e.
Arguments NoFuel {A}.
Arguments Dangling {A}.

Section ParameterObjects.
Context {CB : Type}.

(** A parameter object. [cls] is its class with the subclass fields;
    [_on_change_callbacks] holds the registered callables. The wall-clock
    stamp [last_updated], which nothing reads back, is left out. *)
Record BaseParameter := mkParameter {
  name : string;
  param_id : Z;
  rows : Z;
  cols : Z;
  read_only : bool;
  _values : gmap (Z * Z) PyVal;
  _on_change_callbacks : list CB;
  cls : ParamClass
}.

Definition with_values (p : BaseParameter) (vs : gmap (Z * Z) PyVal) : BaseParameter :=
  mkParameter (name p) (param_id p) (rows p) (cols p) (read_only p) vs
    (_on_change_callbacks p) (cls p).

Definition with_callbacks (p : BaseParameter) (cbs : list CB) : BaseParameter :=
  mkParameter (name p) (param_id p) (rows p) (cols p) (read_only p) (_values p)
    cbs (cls p).

(** [for r in range(rows): for c in range(cols)], in iteration order. *)
Definition cells (rows cols : Z) : list (Z * Z) :=
  r ← seqZ 0 rows; c ← seqZ 0 cols; [(r, c)].

(** [__post_init__]: every cell of the grid not yet in [_values] receives
    the default value. *)
Definition post_init (p : BaseParameter) : BaseParameter :=
  with_values p
    (foldl (fun vs rc =>
              match vs !! rc with
              | Some _ => vs
              | None => <[rc := default_val (cls p)]> vs
              end)
           (_values p) (cells (rows p) (cols p))).

(** The dataclass constructor as the [add_*_param] methods call it:
    [_values] and [_on_change_callbacks] start from their default factories. *)
Definition new_parameter (name : string) (param_id rows cols : Z) (k : ParamClass)
    (read_only : bool) : BaseParameter :=
  post_init (mkParameter name param_id rows cols read_only ∅ [] k).

(** [get_value]: [self._values.get((row, col))]. *)
Definition get_value (p : BaseParameter) (row col : Z) : PyVal :=
  default VNone (_values p !! (row, col)).

(** The coercion each subclass applies in [set_value] before it calls
    [super().set_value]: the coerced (and, for numbers, clamped) value, or
    the exception of the conversion. *)
Definition coerce `{PyBuiltins} (k : ParamClass) (value : PyVal) : Exn + PyVal :=
  match k with
  | IntParameter min_val max_val _ =>
      match py_int value with
      | inl e => inl e
      | inr v => inr (VInt (int_max min_val (int_min max_val v)))
      end
  | FloatParameter min_val max_val _ =>
      match py_float value with
      | inl e => inl e
      | inr v => inr (VFloat (float_max min_val (float_min max_val v)))
      end
  | BoolParameter _ =>
      inr (VBool match value with
                 | VStr s =>
                     let l := lower s in
                     String.eqb l "true" || String.eqb l "1" || String.eqb l "yes"
                 | _ => truthy value
                 end)
  | StringParameter _ =>
      inr (VStr match value with VNone => "" | _ => py_str value end)
  end.

(** The program state: the store of parameter objects and everything else
    ([Env]: tasks, sockets, the private state of components). *)
Record World {Env : Type} := mkWorld {
  params : gmap ref BaseParameter;
  env : Env
}.
Arguments World : clear implicits.
Arguments mkWorld {Env} params env.

Definition put {Env} (self : ref) (p : BaseParameter) (w : World Env) : World Env :=
  mkWorld (<[self := p]> (params w)) (env w).

(** [on_change]: append the callback to the list of the object. *)
Definition on_change {Env} (self : ref) (callback : CB) (w : World Env) : World Env :=
  match params w !! self with
  | Some p => put self (with_callbacks p (_on_change_callbacks p ++ [callback])) w
  | None => w
  end.

Section SetValue.
Context `{PyBuiltins} {Env : Type}.

(** What calling a callback does to the state. An exception the callback
    raises is caught and logged by the caller, so only the state it leaves
    matters. *)
Variable call : CB -> CallArgs -> World Env -> World Env.

(** [for callback in self._on_change_callbacks: callback(...)]. The loop
    walks the list object by index and reads it afresh at every step, as a
    Python list iterator does. Returns the calls made, in order, and how the
    loop ended. *)
Fixpoint notify (fuel : nat) (self : ref) (args : CallArgs) (i : nat) (w : World Env)
    : list (CB * CallArgs) * Outcome (World Env) :=
  match params w !! self with
  | None => ([], Dangling)
  | Some p =>
      match _on_change_callbacks p !! i with
      | None => ([], Returned w)
      | Some callback =>
          match fuel with
          | O => ([], NoFuel)
          | S fuel' =>
              let '(calls, o) := notify fuel' self args (S i) (call callback args w) in
              ((callback, args) :: calls, o)
          end
      end
  end.

(** [BaseParameter.set_value]: the store, then the notification. The
    assignment [self.last_updated = datetime.now()] between the two has
    no counterpart here, the objects having no [last_updated]: a state is
    a state of the program up to these stamps. *)
Definition BaseParameter_set_value (fuel : nat) (self : ref) (row col : Z)
    (value : PyVal) (do_notify : bool) (w : World Env)
    : list (CB * CallArgs) * Outcome (World Env) :=
  match params w !! self with
  | None => ([], Dangling)
  | Some p =>
      let old_value := get_value p row col in
      let w' := put self (with_values p (<[(row, col) := value]> (_values p))) w in
      if do_notify && py_ne old_value value
      then notify fuel self (mkArgs self row col value old_value) 0 w'
      else ([], Returned w')
  end.

(** [set_value] of the object's class: coerce, then the base method. *)
Definition set_value (fuel : nat) (self : ref) (row col : Z)
    (value : PyVal) (do_notify : bool) (w : World Env)
    : list (CB * CallArgs) * Outcome (World Env) :=
  match params w !! self with
  | None => ([], Dangling)
  | Some p =>
      match coerce (cls p) value with
      | inl e => ([], Raised e)
      | inr v => BaseParameter_set_value fuel self row col v do_notify w
      end
  end.

End SetValue.

(** [set_value(..., notify=False)] calls nobody: the write alone, the
    stamp [last_updated] apart as in [BaseParameter_set_value]. *)
Definition set_value_quiet `{PyBuiltins} {Env} (self : ref) (row col : Z) (value : PyVal)
    (w : World Env) : Outcome (World Env) :=
  match params w !! self with
  | None => Dangling
  | Some p =>
      match coerce (cls p) value with
      | inl e => Raised e
      | inr v => Returned (put self (with_values p (<[(row, col) := v]> (_values p))) w)
      end
  end.

(** ** Components *)

(** [dict.get] and [d[k] = v] on a dictionary with text keys, which keeps
    its keys in insertion order: assigning to a key already present keeps
    its place. *)
Fixpoint od_get {V} (k : string) (d : list (string * V)) : option V :=
  match d with
  | [] => None
  | (k', v) :: d' => if String.eqb k k' then Some v else od_get k d'
  end.

Fixpoint od_set {V} (k : string) (v : V) (d : list (string * V)) : list (string * V) :=
  match d with
  | [] => [(k, v)]
  | (k', v') :: d' => if String.eqb k k' then (k, v) :: d' else (k', v') :: od_set k v d'
  end.

(** [d.values()]. *)
Definition od_values {V} (d : list (string * V)) : list V := map snd d.

(** A component: [parameters] by name and [params_by_id] by identifier,
    both holding references to the same parameter objects. *)
Record Component := mkComponent {
  comp_name : string;
  parameters : list (string * ref);
  params_by_id : gmap Z ref
}.

(** [Component.__init__]. *)
Definition new_component (n : string) : Component := mkComponent n [] ∅.

(** The four [add_*_param] methods, which differ in the class they
    construct only. [next_param_id] is the class-level counter
    [Component._next_param_id]; the new object gets a reference not in use.
    Returns the component, the new object and the counter. *)
Definition add_param {Env} (c : Component) (pname : string) (rows cols : Z)
    (k : ParamClass) (ro : bool) (next_param_id : Z) (w : World Env)
    : Component * ref * Z * World Env :=
  let pid := next_param_id in
  let r := fresh (dom (params w)) in
  let p := new_parameter pname pid rows cols k ro in
  (mkComponent (comp_name c) (od_set pname r (parameters c)) (<[pid := r]> (params_by_id c)),
   r, next_param_id + 1, put r p w).

(** [get_param] and [get_param_by_id]. *)
Definition get_param (c : Component) (pname : string) : option ref :=
  od_get pname (parameters c).

Definition get_param_by_id (c : Component) (pid : Z) : option ref :=
  params_by_id c !! pid.

(** The [type_map] of [get_param_by_type_and_index]. *)
Definition type_map (s : string) : option ParameterType :=
  if String.eqb s "int" then Some INT
  else if String.eqb s "float" then Some FLOAT
  else if String.eqb s "bool" then Some BOOL
  else if String.eqb s "str" then Some STRING
  else if String.eqb s "string" then Some STRING
  else None.

(** The loop of [get_param_by_type_and_index] over [parameters.values()],
    [count] being the number of parameters of the type met so far. *)
Fixpoint nth_of_type {Env} (w : World Env) (target_type : ParameterType) (idx count : Z)
    (l : list ref) : option ref :=
  match l with
  | [] => None
  | r :: l' =>
      match params w !! r with
      | Some p =>
          if ParameterType_eqb (param_type (cls p)) target_type
          then if count =? idx then Some r
               else nth_of_type w target_type idx (count + 1) l'
          else nth_of_type w target_type idx count l'
      | None => nth_of_type w target_type idx count l'
      end
  end.

(** [get_param_by_type_and_index]. *)
Definition get_param_by_type_and_index {Env} (w : World Env) (c : Component)
    (ptype : string) (idx : Z) : option ref :=
  match type_map (lower ptype) with
  | None => None
  | Some target_type => nth_of_type w target_type idx 0 (od_values (parameters c))
  end.

End ParameterObjects.
Arguments BaseParameter : clear implicits.
Arguments World : clear implicits.
Arguments mkWorld {CB Env} params env.

End Base.
Export Base.

(** * central_hub.py: the mirror of a remote device *)

Module CentralHub.

(** The class [Parameter] ([RemoteParameter] here, the name being a keyword
    of Rocq): the hub's record of one parameter of a remote device.
    [min_val] and [max_val] are whatever the device reported ([VNone] when
    it reported nothing). *)
Record RemoteParameter := mkRemote {
  param_id : Z;
  name : string;
  param_type : string;
  rows : Z;
  cols : Z;
  read_only : bool;
  min_val : PyVal;
  max_val : PyVal;
  values : gmap (Z * Z) PyVal
}.

(** [Parameter.set_value]: [self.values[(row, col)] = value]. *)
Definition set_value (p : RemoteParameter) (row col : Z) (value : PyVal) : RemoteParameter :=
  mkRemote (param_id p) (name p) (param_type p) (rows p) (cols p) (read_only p)
    (min_val p) (max_val p) (<[(row, col) := value]> (values p)).

(** [Parameter.get_value]: [self.values.get((row, col))]. *)
Definition get_value (p : RemoteParameter) (row col : Z) : PyVal :=
  default VNone (values p !! (row, col)).

(** The reply to a [get_param_info] request for one index, field by field
    ([None]: the key is absent). *)
Record ParamInfo := mkInfo {
  r_name : option string;
  r_param_id : option Z;
  r_rows : option Z;
  r_cols : option Z;
  r_readOnly : option bool;
  r_min : PyVal;
  r_max : PyVal
}.

(** The object [_discover_params_of_type] builds from a reply; a reply
    without a name is skipped. *)
Definition discovered_parameter (ptype : string) (response : ParamInfo) : option RemoteParameter :=
  match r_name response with
  | None => None
  | Some n =>
      Some (mkRemote (default 0 (r_param_id response)) n ptype
              (default 1 (r_rows response)) (default 1 (r_cols response))
              (default false (r_readOnly response))
              (r_min response) (r_max response) ∅)
  end.

(** [Component] of central_hub.py has the shape of the local one: two
    dictionaries of references to the same objects. *)
Definition Component := Base.Component.

(** [ESP32Device]: the parameter objects of the device and its components
    by name. The connection fields are left out. *)
Record ESP32Device := mkDevice {
  ip : string;
  objects : gmap ref RemoteParameter;
  components : list (string * Component)
}.

(** [Component.add_parameter] on the component [cname] of the device, for a
    parameter object just built. *)
Definition add_parameter (d : ESP32Device) (cname : string) (p : RemoteParameter) : ESP32Device :=
  let r := fresh (dom (objects d)) in
  mkDevice (ip d) (<[r := p]> (objects d))
    (map (fun '(n, c) =>
            if String.eqb n cname
            then (n, mkComponent (comp_name c) (od_set (name p) r (parameters c))
                       (<[param_id p := r]> (params_by_id c)))
            else (n, c))
         (components d)).

(** [ESP32Device.get_param_by_id]: the first component that knows the
    identifier, with the object. *)
Fixpoint find_param_by_id (pid : Z) (cs : list (string * Component)) : option (Component * ref) :=
  match cs with
  | [] => None
  | (_, c) :: cs' =>
      match Base.get_param_by_id c pid with
      | Some r => Some (c, r)
      | None => find_param_by_id pid cs'
      end
  end.

Definition get_param_by_id (d : ESP32Device) (pid : Z) : option (Component * ref) :=
  find_param_by_id pid (components d).

(** A [param_update] push frame. *)
Record ParamUpdate := mkUpdate {
  u_param_id : option Z;
  u_row : Z;
  u_col : Z;
  u_value : PyVal
}.

Definition cache_key (cname pname : string) (row col : Z) : string :=
  cname +:+ "." +:+ pname +:+ "[" +:+ pretty row +:+ "," +:+ pretty col +:+ "]".

Definition cache_key_id (pid row col : Z) : string :=
  "param_" +:+ pretty pid +:+ "[" +:+ pretty row +:+ "," +:+ pretty col +:+ "]".

(** [_handle_param_update]: store the pushed value in the object as it
    comes, and in the flat cache of the device under both keys. An unknown
    identifier is logged and dropped. *)
Definition _handle_param_update (d : ESP32Device) (cache : gmap string (gmap string PyVal))
    (data : ParamUpdate) : ESP32Device * gmap string (gmap string PyVal) :=
  match u_param_id data with
  | None => (d, cache)
  | Some pid =>
      match get_param_by_id d pid with
      | None => (d, cache)
      | Some (component, r) =>
          match objects d !! r with
          | None => (d, cache)
          | Some param =>
              let row := u_row data in
              let col := u_col data in
              let value := u_value data in
              let d' := mkDevice (ip d) (<[r := set_value param row col value]> (objects d))
                          (components d) in
              let dev_cache := default ∅ (cache !! ip d) in
              let dev_cache := <[cache_key (comp_name component) (name param) row col := value]> dev_cache in
              let dev_cache := <[cache_key_id pid row col := value]> dev_cache in
              (d', <[ip d := dev_cache]> cache)
          end
      end
  end.

End CentralHub.

(** * components/network_actions.py: the trigger cell *)

Module NetworkActions.

Definition NUM_NETWORK_ACTIONS : Z := 100.

(** What [asyncio.create_task] is handed: the coroutine to run later. *)
Inductive Task :=
| ExecuteAction (index : PyVal)
    (* NetworkActionsComponent._execute_action(index) *)
| BroadcastUpdate (pid row col : Z) (value : PyVal)
    (* WebServerComponent._broadcast_update(pid, row, col, value) *).

(** The callables registered on the parameters of the component:
    the bound method [_on_trigger_change] of a component whose [trigger]
    attribute is the object [trigger]; the closure [make_callback(pid)] the
    protocol server registers on every local parameter when it starts; and
    any other callable, known by a number. *)
Inductive Callback :=
| OnTriggerChange (trigger : ref)
| Broadcast (pid : Z)
| Other (n : nat).

(** The part of the state the callbacks below touch: the tasks created, in
    order of creation. *)
Definition Env := list Task.

(** [new_value >= 0]; [None] where the comparison raises [TypeError]. *)
Definition ge_zero (v : PyVal) : option bool :=
  match v with
  | VInt z => Some (0 <=? z)
  | VBool _ => Some true
  | VFloat f => Some (PrimFloat.leb 0%float f)
  | VNone | VStr _ => None
  end.

Section Callbacks.
Context `{PyBuiltins}.

(** What the callables other than the two of the hub do. *)
Variable other : nat -> CallArgs -> World Callback Env -> World Callback Env.

(** [_on_trigger_change]: for a value at or above zero, create the task of
    the network action and write [-1] back with [notify=False]. *)
Definition _on_trigger_change (trigger : ref) (a : CallArgs) (w : World Callback Env)
    : World Callback Env :=
  match ge_zero (cb_new a) with
  | Some true =>
      let w1 := mkWorld (params w) (env w ++ [ExecuteAction (cb_new a)]) in
      match set_value_quiet trigger 0 0 (VInt (-1)) w1 with
      | Returned w2 => w2
      | _ => w1
      end
  | _ => w
  end.

(** The closure of [make_callback(pid)]: create the broadcast task. *)
Definition broadcast_callback (pid : Z) (a : CallArgs) (w : World Callback Env)
    : World Callback Env :=
  mkWorld (params w) (env w ++ [BroadcastUpdate pid (cb_row a) (cb_col a) (cb_new a)]).

Definition call (cb : Callback) (a : CallArgs) (w : World Callback Env)
    : World Callback Env :=
  match cb with
  | OnTriggerChange trigger => _on_trigger_change trigger a w
  | Broadcast pid => broadcast_callback pid a w
  | Other n => other n a w
  end.

End Callbacks.

(** The [trigger] parameter as [__init__] builds it,
    [add_int_param("trigger", rows=1, cols=1, min_val=-1,
     max_val=NUM_NETWORK_ACTIONS - 1, default_val=-1)],
    with the callback [__init__] registers on it. *)
Definition trigger_class : ParamClass := IntParameter (-1) (NUM_NETWORK_ACTIONS - 1) (-1).

Definition new_trigger (self : ref) (pid : Z) : BaseParameter Callback :=
  with_callbacks (new_parameter "trigger" pid 1 1 trigger_class false)
    [OnTriggerChange self].

End NetworkActions.

(** ** The guarded entries of the component *)

Module NetworkActionsComponent.
Import NetworkActions.

(** [send_message]: the action of slot [index] is awaited for an index of
    the table, [0 <= index < NUM_NETWORK_ACTIONS], and nothing is done
    for another. Returns the coroutine awaited, if any. *)
Definition send_message (index : Z) : option Task :=
  if (0 <=? index) && (index <? NUM_NETWORK_ACTIONS)
  then Some (ExecuteAction (VInt index))
  else None.

Section Config.
Context `{PyBuiltins} {CB Env : Type}.
Variable call : CB -> CallArgs -> World CB Env -> World CB Env.

(** [set_message_config]: the text [config], which is
    [json.dumps(config)], goes to the row [index] of the object
    [network_messages] for an index of the table, and nothing is written
    for another. *)
Definition set_message_config (fuel : nat) (network_messages : ref) (index : Z)
    (config : string) (w : World CB Env) : list (CB * CallArgs) * Outcome (World CB Env) :=
  if (0 <=? index) && (index <? NUM_NETWORK_ACTIONS)
  then Base.set_value call fuel network_messages index 0 (VStr config) true w
  else ([], Returned w).

End Config.

End NetworkActionsComponent.

(** * components/action_manager.py: the timed queue *)

Module ActionManager.

(** An action as the queue receives it. [wait_after_ms] is [None] when the
    key is absent. *)
Record Action := mkAction {
  device : string;
  a_param_id : option Z;
  component : option string;
  param : option string;
  a_row : Z;
  a_col : Z;
  value : PyVal;
  wait_after_ms : option PyVal
}.

(** [QueuedAction]; times are the doubles [time.time()] returns. *)
Record QueuedAction := mkQueued {
  execute_at : float;
  action : Action
}.

(** The order of the dataclass ([order=True], [action] not compared):
    by [execute_at]. *)
Definition QueuedAction_lt (a b : QueuedAction) : bool :=
  PrimFloat.ltb (execute_at a) (execute_at b).

(** A time that compares with every other: not a NaN. *)
Definition ordered_time (t : float) : Prop := is_nan t = false.

(** The [heapq] module by its contract. [heappush] and [heappop] keep a
    list arranged as a heap: the item at index 0 is a least one, and
    [heappop] removes it. The order guarantee is for items whose times
    compare. *)
Class HeapQ := {
  heappush : list QueuedAction -> QueuedAction -> list QueuedAction;
  heappop : list QueuedAction -> option (QueuedAction * list QueuedAction);
  is_heap : list QueuedAction -> Prop;
  is_heap_nil : is_heap [];
  heappush_perm : forall h x, heappush h x ≡ₚ x :: h;
  heappush_heap : forall h x,
    is_heap h -> ordered_time (execute_at x) -> is_heap (heappush h x);
  heappop_nonempty : forall h, h <> [] -> is_Some (heappop h);
  heappop_perm : forall h x h', heappop h = Some (x, h') -> h ≡ₚ x :: h';
  heappop_heap : forall h x h',
    is_heap h -> heappop h = Some (x, h') ->
    head h = Some x /\ is_heap h' /\
    Forall (fun y => QueuedAction_lt y x = false) h'
}.

(** [wait_ms / 1000.0]. *)
Definition div_1000 (wait_ms : PyVal) : Exn + float :=
  match wait_ms with
  | VInt z =>
      match float_of_int z with
      | inl e => inl e
      | inr f => inr (f / 1000)%float
      end
  | VBool b =>
      match float_of_int (int_of_bool b) with
      | inl e => inl e
      | inr f => inr (f / 1000)%float
      end
  | VFloat f => inr (f / 1000)%float
  | VNone | VStr _ => inl TypeError
  end.

(** [action.get('wait_after_ms', 0) / 1000.0]. *)
Definition delay (a : Action) : Exn + float :=
  div_1000 (default (VInt 0) (wait_after_ms a)).

Section Queue.
Context `{HeapQ}.

(** The loop of [_queue_actions]. The queue is changed in place, so an
    exception leaves the actions pushed so far in it: the result is the
    queue and the exception, if any. *)
Fixpoint queue_loop (current_time cumulative_delay : float) (actions : list Action)
    (queue : list QueuedAction) : list QueuedAction * option Exn :=
  match actions with
  | [] => (queue, None)
  | a :: rest =>
      let execute_at := (current_time + cumulative_delay)%float in
      let queued := mkQueued execute_at a in
      let queue := heappush queue queued in
      match delay a with
      | inl e => (queue, Some e)
      | inr d => queue_loop current_time (cumulative_delay + d)%float rest queue
      end
  end.

(** [_queue_actions], with [current_time] the reading of [time.time()].
    On a normal return the length of the queue is then written to the
    [queue_length] cell. *)
Definition _queue_actions (current_time : float) (actions : list Action)
    (queue : list QueuedAction) : list QueuedAction * option Exn :=
  queue_loop current_time 0%float actions queue.

(** One turn of the loop of [_process_queue]. *)
Inductive Step :=
| Sleep (seconds : float)
| Execute (next_action : QueuedAction) (queue : list QueuedAction) (queue_length : Z).

(** [enabled] is the reading of the [enabled] cell and [now] the reading of
    [time.time()]. When the head is due it is popped, the new length goes to
    the [queue_length] cell and the action of the head is executed. *)
Definition _process_queue_step (enabled : PyVal) (now : float)
    (queue : list QueuedAction) : Step :=
  if negb (truthy enabled) then Sleep 0x1.999999999999ap-4%float
  else
    match queue with
    | [] => Sleep 0x1.999999999999ap-5%float
    | next_action :: _ =>
        if PrimFloat.leb (execute_at next_action) now
        then
          match heappop queue with
          | Some (_, queue') => Execute next_action queue' (Z.of_nat (length queue'))
          | None => Sleep 0x1.999999999999ap-4%float (* not on a list with a head *)
          end
        else Sleep (float_min (execute_at next_action - now)%float 0x1.999999999999ap-4%float)
    end.

(** The loop over successive turns, each with its readings of the [enabled]
    cell and of the clock: the actions executed, in order, each with the
    clock reading of its turn. *)
Fixpoint _process_queue (turns : list (PyVal * float)) (queue : list QueuedAction)
    : list (float * QueuedAction) :=
  match turns with
  | [] => []
  | (enabled, now) :: rest =>
      match _process_queue_step enabled now queue with
      | Sleep _ => _process_queue rest queue
      | Execute next_action queue' _ => (now, next_action) :: _process_queue rest queue'
      end
  end.

End Queue.

End ActionManager.

(** * components/watcher.py: edge detection *)

Module Watcher.

Definition NUM_WATCH_SLOTS : Z := 50.

(** The two batches of a slot: [_trigger_actions(slot, rising=True)] and
    [_trigger_actions(slot, rising=False)]. *)
Inductive Edge := Rising | Falling.

Section Evaluation.
Context {CB : Type}.

(** [_evaluate_expression] under the variable values of the tick: the
    truth value of the expression, or [None] where it raises. *)
Variable _evaluate_expression : PyVal -> option bool.

(** The body of the loop over the slots for one slot. [expressions] is the
    parameter object of the expressions and [_prev_results] the dictionary
    of recorded results. Returns the batch fired, if any, and the
    dictionary. [_trigger_actions] handles its own errors and returns
    normally. *)
Definition evaluate_slot (expressions : BaseParameter CB) (slot : Z)
    (_prev_results : gmap Z bool) : option Edge * gmap Z bool :=
  let expr := Base.get_value expressions slot 0 in
  if negb (truthy expr) then (None, _prev_results)
  else
    match _evaluate_expression expr with
    | None => (None, _prev_results)
    | Some result =>
        let prev_result := _prev_results !! slot in
        let fired :=
          match prev_result with
          | Some prev =>
              if negb prev && result then Some Rising
              else if prev && negb result then Some Falling
              else None
          | None => None
          end in
        (fired, <[slot := result]> _prev_results)
    end.

(** [for slot in range(NUM_WATCH_SLOTS)] over the slots [slots]: the
    batches fired, in order, and the dictionary at the end. *)
Fixpoint evaluate_slots (expressions : BaseParameter CB) (slots : list Z)
    (_prev_results : gmap Z bool) : list (Z * Edge) * gmap Z bool :=
  match slots with
  | [] => ([], _prev_results)
  | slot :: rest =>
      let '(fired, prev1) := evaluate_slot expressions slot _prev_results in
      let '(fired_rest, prev2) := evaluate_slots expressions rest prev1 in
      (match fired with Some e => (slot, e) :: fired_rest | None => fired_rest end, prev2)
  end.

(** One tick of [_evaluation_loop]: nothing when the [enabled] cell reads
    false, else every slot in turn. *)
Definition evaluation_tick (enabled : PyVal) (expressions : BaseParameter CB)
    (_prev_results : gmap Z bool) : list (Z * Edge) * gmap Z bool :=
  if negb (truthy enabled) then ([], _prev_results)
  else evaluate_slots expressions (seqZ 0 NUM_WATCH_SLOTS) _prev_results.

End Evaluation.

End Watcher.

(** * components/web_server.py: subscriptions and the protocol handler *)

Module WebServer.

(** A client connection, by reference. *)
Abbreviation WS := nat (only parsing).

(** A subscription key [(param_id, row, col)]. *)
Abbreviation Key := (Z * Z * Z)%type (only parsing).

(** [SubscriptionManager]: the keys of each client and the clients of each
    key. *)
Record SubscriptionManager := mkSubs {
  _subscriptions : gmap WS (gset Key);
  _param_subscribers : gmap Key (gset WS)
}.

(** [SubscriptionManager.__init__]. *)
Definition new_manager : SubscriptionManager := mkSubs ∅ ∅.

(** [subscribe]. *)
Definition subscribe (ws : WS) (pid row col : Z) (m : SubscriptionManager)
    : SubscriptionManager :=
  let key : Key := (pid, row, col) in
  let subs := match _subscriptions m !! ws with
              | None => <[ws := ∅]> (_subscriptions m)
              | Some _ => _subscriptions m
              end in
  let subs := alter (fun keys => keys ∪ {[key]}) ws subs in
  let psubs := match _param_subscribers m !! key with
               | None => <[key := ∅]> (_param_subscribers m)
               | Some _ => _param_subscribers m
               end in
  let psubs := alter (fun clients => clients ∪ {[ws]}) key psubs in
  mkSubs subs psubs.

(** The lines [unsubscribe] and [remove_client] share: drop the client from
    the set of the key, and the key with it when the set is left empty. *)
Definition discard_subscriber (ws : WS) (key : Key) (psubs : gmap Key (gset WS))
    : gmap Key (gset WS) :=
  match psubs !! key with
  | None => psubs
  | Some clients =>
      let clients := clients ∖ {[ws]} in
      if decide (clients = ∅) then delete key psubs else <[key := clients]> psubs
  end.

(** [unsubscribe]. *)
Definition unsubscribe (ws : WS) (pid row col : Z) (m : SubscriptionManager)
    : SubscriptionManager :=
  let key : Key := (pid, row, col) in
  mkSubs (alter (fun keys => keys ∖ {[key]}) ws (_subscriptions m))
         (discard_subscriber ws key (_param_subscribers m)).

(** [remove_client]. *)
Definition remove_client (ws : WS) (m : SubscriptionManager) : SubscriptionManager :=
  match _subscriptions m !! ws with
  | None => m
  | Some keys =>
      mkSubs (delete ws (_subscriptions m))
             (foldr (discard_subscriber ws) (_param_subscribers m) (elements keys))
  end.

(** [get_subscribers]. *)
Definition get_subscribers (pid row col : Z) (m : SubscriptionManager) : gset WS :=
  default ∅ (_param_subscribers m !! (pid, row, col)).

(** A request, field by field as [request.get] reads it: [None] for an
    absent key, [row] and [col] with their default [0] applied, [value]
    [VNone] when absent. *)
Record Request := mkRequest {
  msg_type : option string;
  q_param_id : option Z;
  comp : option string;
  comp_id : option Z;
  param : option string;
  q_param_type : option string;
  idx : option Z;
  row : Z;
  col : Z;
  value : PyVal
}.

(** The metadata of one parameter in a reply; [min] and [max] are present
    for the classes that have the attributes. *)
Record ParamMeta := mkMeta {
  m_name : string;
  m_param_id : Z;
  m_type : string;
  m_rows : Z;
  m_cols : Z;
  m_readOnly : bool;
  m_min : option PyVal;
  m_max : option PyVal
}.

(** The replies of [_handle_message]. *)
Inductive Response :=
| Error (msg : string)                 (* {'error': msg} *)
| Success                              (* {'success': True} *)
| Failure (msg : string)               (* {'success': False, 'error': msg} *)
| FailureExn (e : Exn)                 (* {'success': False, 'error': str(e)} *)
| Components (l : list (string * Z))   (* {'components': [{'name', 'id'}...]} *)
| ComponentParams (name : string) (component_id : Z) (l : list ParamMeta)
| Count (n : Z)                        (* {'count': n} *)
| ParamInfo (m : ParamMeta)            (* the metadata, identifier under 'param_id' *)
| ParamValue (name : string) (id : Z) (type : string) (v : PyVal)
| Value (v : PyVal)                    (* {'value': v} *).

(** Truth of a text read from a request: present and not empty. *)
Definition nonempty (s : option string) : bool :=
  match s with
  | Some t => negb (String.eqb t "")
  | None => false
  end.

Section Handler.
Context `{PyBuiltins} {CB Env : Type}.
Variable call : CB -> CallArgs -> World CB Env -> World CB Env.

(** [self.hub.local_components]. *)
Variable local_components : list (string * Component).

Definition min_of (k : ParamClass) : option PyVal :=
  match k with
  | IntParameter lo _ _ => Some (VInt lo)
  | FloatParameter lo _ _ => Some (VFloat lo)
  | _ => None
  end.

Definition max_of (k : ParamClass) : option PyVal :=
  match k with
  | IntParameter _ hi _ => Some (VInt hi)
  | FloatParameter _ hi _ => Some (VFloat hi)
  | _ => None
  end.

Definition meta (p : BaseParameter CB) : ParamMeta :=
  mkMeta (Base.name p) (Base.param_id p) (ParameterType_value (Base.param_type (cls p)))
    (Base.rows p) (Base.cols p) (Base.read_only p) (min_of (cls p)) (max_of (cls p)).

(** The objects behind a list of references. *)
Definition objects_of (w : World CB Env) (l : list ref) : list (BaseParameter CB) :=
  omap (fun r => params w !! r) l.

Definition component_id (n : string) : Z := Z.land (hash_of_str n) 0xFFFFFFFF.

(** [for comp in ...values(): param = comp.get_param_by_id(param_id);
     if param: break]. *)
Fixpoint find_by_id (pid : Z) (cs : list Component) : option ref :=
  match cs with
  | [] => None
  | c :: cs' =>
      match Base.get_param_by_id c pid with
      | Some r => Some r
      | None => find_by_id pid cs'
      end
  end.

(** The lookup [get_param] and [set_param] both start with: by identifier,
    else by component and name, else by component, type and index. *)
Definition lookup_param (w : World CB Env) (request : Request) : option ref :=
  match q_param_id request with
  | Some pid => find_by_id pid (od_values local_components)
  | None =>
      if nonempty (comp request) && nonempty (param request) then
        match od_get (default "" (comp request)) local_components with
        | Some c => Base.get_param c (default "" (param request))
        | None => None
        end
      else
        match nonempty (comp request), q_param_type request, idx request with
        | true, Some ptype, Some i =>
            match od_get (default "" (comp request)) local_components with
            | Some c => Base.get_param_by_type_and_index w c ptype i
            | None => None
            end
        | _, _, _ => None
        end
  end.

(** The branch [get_components]. *)
Definition handle_get_components : Response :=
  Components (map (fun '(n, _) => (n, component_id n)) local_components).

(** The branch [get_component_params]. *)
Definition handle_get_component_params (w : World CB Env) (request : Request) : Response :=
  let found :=
    if nonempty (comp request) then
      match od_get (default "" (comp request)) local_components with
      | Some c => Some (default "" (comp request), c)
      | None => None
      end
    else
      match comp_id request with
      | Some id => List.find (fun '(n, _) => component_id n =? id) local_components
      | None => None
      end in
  match found with
  | None => Error "component not found"
  | Some (n, c) =>
      ComponentParams n (component_id n)
        (map meta (objects_of w (od_values (parameters c))))
  end.

(** The branch [get_param_info]. *)
Definition handle_get_param_info (w : World CB Env) (request : Request) : Response :=
  let i := default (-1) (idx request) in
  if negb (nonempty (comp request)) || negb (nonempty (q_param_type request))
  then Error "missing comp or param_type"
  else
    match od_get (default "" (comp request)) local_components with
    | None => Error "component not found"
    | Some c =>
        let typed_params :=
          filter (fun p => ParameterType_value (Base.param_type (cls p))
                           = default "" (q_param_type request))
                 (objects_of w (od_values (parameters c))) in
        if i =? -1 then Count (Z.of_nat (length typed_params))
        else if (i <? 0) || (Z.of_nat (length typed_params) <=? i)
        then Error "index out of range"
        else
          match typed_params !! Z.to_nat i with
          | Some p => ParamInfo (meta p)
          | None => Error "index out of range"
          end
    end.

(** The branch [get_param]. *)
Definition handle_get_param (w : World CB Env) (request : Request) : Response :=
  match lookup_param w request with
  | None => Error "parameter not found"
  | Some r =>
      match params w !! r with
      | None => Error "parameter not found"
      | Some p =>
          ParamValue (Base.name p) (Base.param_id p)
            (ParameterType_value (Base.param_type (cls p)))
            (Base.get_value p (row request) (col request))
      end
  end.

(** The branch [set_param] / [SET]: the calls made to callbacks, and the
    reply with the state. *)
Definition handle_set_param (fuel : nat) (w : World CB Env) (request : Request)
    : list (CB * CallArgs) * Outcome (Response * World CB Env) :=
  match value request with
  | VNone => ([], Returned (Failure "missing value field", w))
  | _ =>
      match lookup_param w request with
      | None => ([], Returned (Failure "parameter not found", w))
      | Some r =>
          match params w !! r with
          | None => ([], Dangling)
          | Some p =>
              if Base.read_only p
              then ([], Returned (Failure "parameter is read-only", w))
              else
                match Base.set_value call fuel r (row request) (col request)
                        (value request) true w with
                | (calls, Returned w') => (calls, Returned (Success, w'))
                | (calls, Raised e) => (calls, Returned (FailureExn e, w))
                | (calls, NoFuel) => (calls, NoFuel)
                | (calls, Dangling) => (calls, Dangling)
                end
          end
      end
  end.

(** The branch [subscribe]. *)
Definition handle_subscribe (websocket : WS) (m : SubscriptionManager)
    (w : World CB Env) (request : Request) : Response * SubscriptionManager :=
  match q_param_id request with
  | None => (Error "missing param_id", m)
  | Some pid =>
      match find_by_id pid (od_values local_components) with
      | None => (Error "parameter not found", m)
      | Some r =>
          match params w !! r with
          | None => (Error "parameter not found", m)
          | Some p =>
              (Value (Base.get_value p (row request) (col request)),
               subscribe websocket pid (row request) (col request) m)
          end
      end
  end.

(** The branch [unsubscribe]. *)
Definition handle_unsubscribe (websocket : WS) (m : SubscriptionManager)
    (request : Request) : Response * SubscriptionManager :=
  match q_param_id request with
  | None => (Error "missing param_id", m)
  | Some pid => (Success, unsubscribe websocket pid (row request) (col request) m)
  end.

(** [_handle_message]: the calls made to callbacks, and the reply with the
    subscriptions and the state. *)
Definition _handle_message (fuel : nat) (websocket : WS) (request : Request)
    (m : SubscriptionManager) (w : World CB Env)
    : list (CB * CallArgs) * Outcome (Response * SubscriptionManager * World CB Env) :=
  if negb (nonempty (msg_type request))
  then ([], Returned (Error "missing type field", m, w))
  else
    let t := default "" (msg_type request) in
    if String.eqb t "get_components"
    then ([], Returned (handle_get_components, m, w))
    else if String.eqb t "get_component_params"
    then ([], Returned (handle_get_component_params w request, m, w))
    else if String.eqb t "get_param_info"
    then ([], Returned (handle_get_param_info w request, m, w))
    else if String.eqb t "get_param"
    then ([], Returned (handle_get_param w request, m, w))
    else if String.eqb t "set_param" || String.eqb t "SET"
    then
      match handle_set_param fuel w request with
      | (calls, Returned (resp, w')) => (calls, Returned (resp, m, w'))
      | (calls, Raised e) => (calls, Raised e)
      | (calls, NoFuel) => (calls, NoFuel)
      | (calls, Dangling) => (calls, Dangling)
      end
    else if String.eqb t "subscribe"
    then let '(resp, m') := handle_subscribe websocket m w request in
         ([], Returned (resp, m', w))
    else if String.eqb t "unsubscribe"
    then let '(resp, m') := handle_unsubscribe websocket m request in
         ([], Returned (resp, m', w))
    else ([], Returned (Error ("unknown message type: " +:+ t), m, w)).

End Handler.

End WebServer.

(** * components/action_manager.py: executing an action *)

Module ActionManagerComponent.
Import ActionManager.

(** [_resolve_device]: ['self'] in any case of the letters, else the
    address the nickname stands for, else the text itself. *)
Definition _resolve_device (_nickname_map : gmap string string) (device : string) : string :=
  if String.eqb (lower device) "self" then "self"
  else match _nickname_map !! device with
       | Some ip => ip
       | None => device
       end.

(** The frame [_execute_remote_action] sends:
    [{'type': 'SET', 'param_id', 'row', 'col', 'value'}]. *)
Record SetFrame := mkSet {
  s_param_id : Z;
  s_row : Z;
  s_col : Z;
  s_value : PyVal
}.

Section Execute.
Context `{PyBuiltins} {CB Env : Type}.
Variable call : CB -> CallArgs -> World CB Env -> World CB Env.

(** [self.hub]: [None] for a component outside a hub, else the local
    components, the mirrors of the devices by address and the addresses
    with an open connection ([device.websocket]). *)
Variable hub : option (list (string * Component)
                       * gmap string CentralHub.ESP32Device * gset string).

(** The search of [_execute_local_action]: by identifier across the local
    components, else by the names of the component and the parameter. *)
Definition find_local (local_components : list (string * Component)) (action : Action)
    : option ref :=
  match a_param_id action with
  | Some pid => WebServer.find_by_id pid (od_values local_components)
  | None =>
      if WebServer.nonempty (component action) && WebServer.nonempty (param action) then
        match od_get (default "" (component action)) local_components with
        | Some c => Base.get_param c (default "" (param action))
        | None => None
        end
      else None
  end.

(** [_execute_local_action]: the write, unless the parameter is missing
    or read-only. An exception of the write is not caught here. *)
Definition _execute_local_action (fuel : nat) (action : Action) (row col : Z)
    (value : PyVal) (w : World CB Env) : list (CB * CallArgs) * Outcome (World CB Env) :=
  match hub with
  | None => ([], Returned w)
  | Some (local_components, _, _) =>
      match find_local local_components action with
      | None => ([], Returned w)
      | Some r =>
          match params w !! r with
          | None => ([], Dangling)
          | Some p =>
              if Base.read_only p then ([], Returned w)
              else Base.set_value call fuel r row col value true w
          end
      end
  end.

(** [_execute_remote_action]: the frame handed to the connection of the
    device, if any. The identifier is the one of the action, or else the
    one the mirror of the device has for the names of the action. *)
Definition _execute_remote_action (device_ip : string) (action : Action) (row col : Z)
    (value : PyVal) : option (string * SetFrame) :=
  match hub with
  | None => None
  | Some (_, devices, websockets) =>
      match devices !! device_ip with
      | None => None
      | Some device =>
          let param_id :=
            match a_param_id action with
            | Some pid => Some pid
            | None =>
                if WebServer.nonempty (component action) && WebServer.nonempty (param action)
                then
                  c ← od_get (default "" (component action)) (CentralHub.components device);
                  r ← od_get (default "" (param action)) (parameters c);
                  p ← CentralHub.objects device !! r;
                  Some (CentralHub.param_id p)
                else None
            end in
          match param_id with
          | None => None
          | Some pid =>
              if decide (device_ip ∈ websockets)
              then Some (device_ip, mkSet pid row col value)
              else None
          end
      end
  end.

(** [_execute_action]: on the hub itself when the device resolves to
    ['self'], else on the remote device. Returns the calls made to
    callbacks, the frame sent and how the write ended. *)
Definition _execute_action (_nickname_map : gmap string string) (fuel : nat)
    (action : Action) (w : World CB Env)
    : list (CB * CallArgs) * option (string * SetFrame) * Outcome (World CB Env) :=
  let value := value action in
  let row := a_row action in
  let col := a_col action in
  let target_device := _resolve_device _nickname_map (device action) in
  if String.eqb target_device "self" then
    let '(calls, o) := _execute_local_action fuel action row col value w in
    (calls, None, o)
  else ([], _execute_remote_action target_device action row col value, Returned w).

End Execute.

End ActionManagerComponent.

(** * components/watcher.py: the variables and their sources *)

Module WatcherComponent.

(** A variable definition as [_refresh_variables] reads it with
    [var_def.get]: [device] with its default ['self'] applied, [row] and
    [col] with their default [0], [component] and [param] [None] when
    absent. *)
Record VarDef := mkVarDef {
  device : string;
  component : option string;
  param : option string;
  row : Z;
  col : Z
}.

(** [_resolve_device], the same text as in the ActionManager. *)
Definition _resolve_device (_nickname_map : gmap string string) (device : string) : string :=
  if String.eqb (lower device) "self" then "self"
  else match _nickname_map !! device with
       | Some ip => ip
       | None => device
       end.

(** A text or [None] inside an f-string. *)
Definition fmt (o : option string) : string := default "None" o.

Section Variables.
Context {CB Env : Type}.

(** [self.hub]: [None] for a component outside a hub, else the local
    components and [remote_state_cache]. *)
Variable hub : option (list (string * Component) * gmap string (gmap string PyVal)).

(** The parameter objects of the local components. *)
Variable w : World CB Env.

(** [_get_param_value]: the cell of a local parameter, or the value
    cached for the cell of a remote one; [None] when there is none. *)
Definition _get_param_value (device : string) (component_name param_name : option string)
    (row col : Z) : PyVal :=
  if String.eqb device "self" then
    match hub, component_name with
    | Some (local_components, _), Some cn =>
        match od_get cn local_components with
        | Some comp =>
            match param_name ≫= Base.get_param comp with
            | Some r =>
                match params w !! r with
                | Some p => Base.get_value p row col
                | None => VNone
                end
            | None => VNone
            end
        | None => VNone
        end
    | _, _ => VNone
    end
  else
    match hub with
    | Some (_, remote_state_cache) =>
        match remote_state_cache !! device with
        | Some cached_state =>
            default VNone
              (cached_state !! CentralHub.cache_key (fmt component_name) (fmt param_name) row col)
        | None => VNone
        end
    | None => VNone
    end.

(** The loop of [_refresh_variables] over [_var_defs.items()]. A
    definition whose reading raises ([None] here) is skipped, and a source
    that gives [None] leaves the variable as it is. *)
Fixpoint refresh_loop (_nickname_map : gmap string string)
    (_var_defs : list (string * option VarDef)) (_var_values : list (string * PyVal))
    : list (string * PyVal) :=
  match _var_defs with
  | [] => _var_values
  | (_, None) :: rest => refresh_loop _nickname_map rest _var_values
  | (var_name, Some var_def) :: rest =>
      let device := _resolve_device _nickname_map (device var_def) in
      let value := _get_param_value device (component var_def) (param var_def)
                     (row var_def) (col var_def) in
      refresh_loop _nickname_map rest
        match value with
        | VNone => _var_values
        | _ => od_set var_name value _var_values
        end
  end.

(** [_refresh_variables]. *)
Definition _refresh_variables (_nickname_map : gmap string string)
    (_var_defs : list (string * option VarDef)) (_var_values : list (string * PyVal))
    : list (string * PyVal) :=
  match hub with
  | None => _var_values
  | Some _ => refresh_loop _nickname_map _var_defs _var_values
  end.

End Variables.

(** [get_variable_value]. *)
Definition get_variable_value (_var_values : list (string * PyVal)) (name : string) : PyVal :=
  default VNone (od_get name _var_values).

End WatcherComponent.

(** * components/web_server.py: the clients of the server *)

Module WebServerComponent.
Import WebServer.

(** The clients of the server: the subscriptions and the set [_clients]
    of the open connections. *)
Record Server := mkServer {
  subscriptions : SubscriptionManager;
  _clients : gset nat
}.

(** What a connection delivers: a text that is no JSON, a JSON text that
    is no object (a list, a number, a text: values without [get]), or an
    object, the request, with its [id] if it has one. *)
Inductive Frame :=
| NotJSON
| NotObject
| Decoded (request : Request) (id : option PyVal).

(** What the server sends back on the connection. *)
Inductive Reply :=
| Answer (response : Response) (id : option PyVal)
    (* the response of [_handle_message], with the [id] of the request *)
| InvalidJSON                     (* {'error': 'Invalid JSON'} *)
| NoGet                           (* {'error': str(e)}, [e] the AttributeError of [request.get] *)
| ErrorOf (e : Exn)               (* {'error': str(e)} *).

(** [total + 1]. *)
Definition add_one (total : PyVal) : Exn + PyVal :=
  match total with
  | VInt z => inr (VInt (z + 1))
  | VBool b => inr (VInt (int_of_bool b + 1))
  | VFloat f => inr (VFloat (f + 1)%float)
  | VNone | VStr _ => inl TypeError
  end.

Section Clients.
Context `{PyBuiltins} {CB Env : Type}.
Variable call : CB -> CallArgs -> World CB Env -> World CB Env.

(** [self.hub.local_components], and the two parameter objects the
    handlers of a connection write: [connected_clients_param] and
    [total_messages_param]. *)
Variable local_components : list (string * Component).
Variable connected_clients_param total_messages_param : ref.

(** [self.connected_clients_param.set_value(0, 0, len(self._clients),
    notify=True)]. *)
Definition set_connected_clients (fuel : nat) (s : Server) (w : World CB Env)
    : list (CB * CallArgs) * Outcome (Server * World CB Env) :=
  match Base.set_value call fuel connected_clients_param 0 0
          (VInt (Z.of_nat (size (_clients s)))) true w with
  | (calls, Returned w') => (calls, Returned (s, w'))
  | (calls, Raised e) => (calls, Raised e)
  | (calls, NoFuel) => (calls, NoFuel)
  | (calls, Dangling) => (calls, Dangling)
  end.

(** [_remove_client]. *)
Definition _remove_client (fuel : nat) (ws : nat) (s : Server) (w : World CB Env)
    : list (CB * CallArgs) * Outcome (Server * World CB Env) :=
  set_connected_clients fuel
    (mkServer (remove_client ws (subscriptions s)) (_clients s ∖ {[ws]})) w.

(** [for ws in dead_clients: self._remove_client(ws)]. *)
Fixpoint remove_clients (fuel : nat) (dead_clients : list nat) (s : Server)
    (w : World CB Env) : list (CB * CallArgs) * Outcome (Server * World CB Env) :=
  match dead_clients with
  | [] => ([], Returned (s, w))
  | ws :: rest =>
      match _remove_client fuel ws s w with
      | (calls, Returned (s', w')) =>
          let '(calls', o) := remove_clients fuel rest s' w' in
          (calls ++ calls', o)
      | (calls, o) => (calls, o)
      end
  end.

(** [_broadcast_update]. [send_ok] tells for which clients [ws.send]
    returns; for the others it raises [ConnectionClosed]. The subscribers
    are visited in the order of the set. Returns the frame and the clients
    it was handed to, the calls made to callbacks, and how the clean-up
    ended. *)
Definition _broadcast_update (fuel : nat) (send_ok : nat -> bool) (param_id row col : Z)
    (value : PyVal) (s : Server) (w : World CB Env)
    : (CentralHub.ParamUpdate * list nat)
      * list (CB * CallArgs) * Outcome (Server * World CB Env) :=
  let subscribers := get_subscribers param_id row col (subscriptions s) in
  let message := CentralHub.mkUpdate (Some param_id) row col value in
  if decide (subscribers = ∅) then ((message, []), [], Returned (s, w))
  else
    let dead_clients := List.filter (fun ws => negb (send_ok ws)) (elements subscribers) in
    let '(calls, o) := remove_clients fuel dead_clients s w in
    ((message, elements subscribers), calls, o).

(** The body of the loop of [_handle_client] for one frame: count it,
    decode it, handle it, reply. *)
Definition handle_frame (fuel : nat) (websocket : nat) (frame : Frame) (s : Server)
    (w : World CB Env) : list (CB * CallArgs) * Outcome (Reply * Server * World CB Env) :=
  match params w !! total_messages_param with
  | None => ([], Dangling)
  | Some counter =>
      match add_one (Base.get_value counter 0 0) with
      | inl e => ([], Returned (ErrorOf e, s, w))
      | inr total =>
          match set_value_quiet total_messages_param 0 0 total w with
          | Raised e => ([], Returned (ErrorOf e, s, w))
          | NoFuel => ([], NoFuel)
          | Dangling => ([], Dangling)
          | Returned w1 =>
              match frame with
              | NotJSON => ([], Returned (InvalidJSON, s, w1))
              | NotObject => ([], Returned (NoGet, s, w1))
              | Decoded request id =>
                  match _handle_message call local_components fuel websocket request
                          (subscriptions s) w1 with
                  | (calls, Returned (response, m, w2)) =>
                      (calls, Returned (Answer response id, mkServer m (_clients s), w2))
                  | (calls, Raised e) => (calls, Returned (ErrorOf e, s, w1))
                  | (calls, NoFuel) => (calls, NoFuel)
                  | (calls, Dangling) => (calls, Dangling)
                  end
              end
          end
      end
  end.

(** [async for message in websocket], over the frames that arrive until
    the connection closes: the replies, in order. *)
Fixpoint handle_frames (fuel : nat) (websocket : nat) (frames : list Frame) (s : Server)
    (w : World CB Env)
    : list (CB * CallArgs) * Outcome (list Reply * Server * World CB Env) :=
  match frames with
  | [] => ([], Returned ([], s, w))
  | frame :: rest =>
      match handle_frame fuel websocket frame s w with
      | (calls, Returned (reply, s1, w1)) =>
          match handle_frames fuel websocket rest s1 w1 with
          | (calls', Returned (replies, s2, w2)) =>
              (calls ++ calls', Returned (reply :: replies, s2, w2))
          | (calls', Raised e) => (calls ++ calls', Raised e)
          | (calls', NoFuel) => (calls ++ calls', NoFuel)
          | (calls', Dangling) => (calls ++ calls', Dangling)
          end
      | (calls, Raised e) => (calls, Raised e)
      | (calls, NoFuel) => (calls, NoFuel)
      | (calls, Dangling) => (calls, Dangling)
      end
  end.

(** [_handle_client]: the connection is added to [_clients] and counted,
    its frames are handled, and when it closes it is removed with its
    subscriptions. *)
Definition _handle_client (fuel : nat) (websocket : nat) (frames : list Frame) (s : Server)
    (w : World CB Env)
    : list (CB * CallArgs) * Outcome (list Reply * Server * World CB Env) :=
  match set_connected_clients fuel
          (mkServer (subscriptions s) (_clients s ∪ {[websocket]})) w with
  | (calls0, Returned (s0, w0)) =>
      match handle_frames fuel websocket frames s0 w0 with
      | (calls1, Returned (replies, s1, w1)) =>
          match _remove_client fuel websocket s1 w1 with
          | (calls2, Returned (s2, w2)) =>
              (calls0 ++ calls1 ++ calls2, Returned (replies, s2, w2))
          | (calls2, Raised e) => (calls0 ++ calls1 ++ calls2, Raised e)
          | (calls2, NoFuel) => (calls0 ++ calls1 ++ calls2, NoFuel)
          | (calls2, Dangling) => (calls0 ++ calls1 ++ calls2, Dangling)
          end
      | (calls1, Raised e) => (calls0 ++ calls1, Raised e)
      | (calls1, NoFuel) => (calls0 ++ calls1, NoFuel)
      | (calls1, Dangling) => (calls0 ++ calls1, Dangling)
      end
  | (calls0, Raised e) => (calls0, Raised e)
  | (calls0, NoFuel) => (calls0, NoFuel)
  | (calls0, Dangling) => (calls0, Dangling)
  end.

End Clients.

End WebServerComponent.

(** * The callbacks the hub registers *)

Module Hub.
Import ActionManager.

(** The callables the four components register with [on_change]: the
    bound methods of the components and the closure
    [_setup_broadcast_callbacks] makes for the identifier of each
    parameter. *)
Inductive Callback :=
| OnTriggerChange             (* NetworkActionsComponent._on_trigger_change *)
| OnNetworkNicknamesChange    (* NetworkActionsComponent._on_nicknames_change *)
| OnActionToSendChange        (* ActionManagerComponent._on_action_to_send_change *)
| OnNicknamesChange           (* ActionManagerComponent._on_nicknames_change *)
| OnVariablesChange           (* WatcherComponent._on_variables_change *)
| Broadcast (pid : Z)         (* make_callback(pid) of the WebServerComponent *).

(** What [json.loads] makes of the text written to [action_to_send],
    read with [data.get('actions', [])]. *)
Inductive Document :=
| NoJSON                           (* json.JSONDecodeError *)
| NoObject                         (* a document without [get]: AttributeError *)
| Batch (actions : list Action)    (* the list under 'actions', [] when absent *).

(** [json.loads] on the texts the components parse ([None]: the text is
    no JSON), and [json.dumps] on a nickname dictionary. The texts are
    taken to hold documents of the shape the components expect. *)
Class Json := {
  loads_nicknames : string -> option (gmap string string);
  loads_actions : string -> Document;
  loads_variables : string -> option (list (string * option WatcherComponent.VarDef));
  dumps_nicknames : gmap string string -> string
}.

(** The parameter objects the callbacks reach through the attributes of
    their component. *)
Record Attributes := mkAttributes {
  trigger : ref;               (* NetworkActionsComponent.trigger *)
  network_nicknames : ref;     (* NetworkActionsComponent.device_nicknames *)
  action_to_send : ref;        (* ActionManagerComponent.action_to_send *)
  queue_length : ref;          (* ActionManagerComponent.queue_length *)
  device_nicknames : ref;      (* ActionManagerComponent.device_nicknames *)
  variables : ref              (* WatcherComponent.variables *)
}.

(** The state of the components besides the parameter objects. The
    nickname dictionaries are objects too: a component holds a reference
    to its dictionary, and two components can hold the same one. [stuck]
    is set when a notification started inside a callback needs more fuel
    than there is, or an attribute names no object. *)
Record State := mkState {
  tasks : list NetworkActions.Task;          (* asyncio.create_task, in order *)
  dicts : gmap ref (gmap string string);     (* the nickname dictionaries *)
  network_nickname_map : ref;                (* NetworkActionsComponent._nickname_map *)
  action_nickname_map : ref;                 (* ActionManagerComponent._nickname_map *)
  watcher_nickname_map : ref;                (* WatcherComponent._nickname_map *)
  _action_queue : list QueuedAction;         (* ActionManagerComponent._action_queue *)
  _var_defs : list (string * option WatcherComponent.VarDef);
  time_time : float;                         (* the reading of time.time() *)
  stuck : bool
}.

Definition add_task (t : NetworkActions.Task) (st : State) : State :=
  mkState (tasks st ++ [t]) (dicts st) (network_nickname_map st) (action_nickname_map st)
    (watcher_nickname_map st) (_action_queue st) (_var_defs st) (time_time st) (stuck st).

(** [self._nickname_map = m] in the NetworkActions component: a new
    dictionary object. *)
Definition bind_network_nicknames (m : gmap string string) (st : State) : State :=
  let r := fresh (dom (dicts st)) in
  mkState (tasks st) (<[r := m]> (dicts st)) r (action_nickname_map st)
    (watcher_nickname_map st) (_action_queue st) (_var_defs st) (time_time st) (stuck st).

(** [self._nickname_map = m] in the ActionManager: a new dictionary
    object. *)
Definition bind_action_nicknames (m : gmap string string) (st : State) : State :=
  let r := fresh (dom (dicts st)) in
  mkState (tasks st) (<[r := m]> (dicts st)) (network_nickname_map st) r
    (watcher_nickname_map st) (_action_queue st) (_var_defs st) (time_time st) (stuck st).

(** [self._nickname_map = {}] in the constructor of the Watcher. *)
Definition bind_watcher_nicknames (m : gmap string string) (st : State) : State :=
  let r := fresh (dom (dicts st)) in
  mkState (tasks st) (<[r := m]> (dicts st)) (network_nickname_map st)
    (action_nickname_map st) r (_action_queue st) (_var_defs st) (time_time st) (stuck st).

Definition with_dicts (d : gmap ref (gmap string string)) (st : State) : State :=
  mkState (tasks st) d (network_nickname_map st) (action_nickname_map st)
    (watcher_nickname_map st) (_action_queue st) (_var_defs st) (time_time st) (stuck st).

(** [WatcherComponent.set_nickname_map]: the watcher holds the dictionary
    it is given. *)
Definition set_nickname_map (nickname_map : ref) (st : State) : State :=
  mkState (tasks st) (dicts st) (network_nickname_map st) (action_nickname_map st)
    nickname_map (_action_queue st) (_var_defs st) (time_time st) (stuck st).

Definition with_queue (q : list QueuedAction) (st : State) : State :=
  mkState (tasks st) (dicts st) (network_nickname_map st) (action_nickname_map st)
    (watcher_nickname_map st) q (_var_defs st) (time_time st) (stuck st).

Definition with_var_defs (d : list (string * option WatcherComponent.VarDef)) (st : State)
    : State :=
  mkState (tasks st) (dicts st) (network_nickname_map st) (action_nickname_map st)
    (watcher_nickname_map st) (_action_queue st) d (time_time st) (stuck st).

Definition stick (st : State) : State :=
  mkState (tasks st) (dicts st) (network_nickname_map st) (action_nickname_map st)
    (watcher_nickname_map st) (_action_queue st) (_var_defs st) (time_time st) true.

Definition on_env (f : State -> State) (w : World Callback State) : World Callback State :=
  mkWorld (params w) (f (env w)).

Section Callbacks.
Context `{PyBuiltins} `{HeapQ} `{Json}.

(** The attributes of the components. *)
Variable self : Attributes.

(** The steps allowed to a notification that starts inside a callback. *)
Variable fuel : nat.

(** The cell [(0, 0)] of the object an attribute names. *)
Definition cell (r : ref) (w : World Callback State) : option PyVal :=
  p ← params w !! r; Some (Base.get_value p 0 0).

(** The dictionary [_parse_nicknames] binds for the text [raw] of the
    cell: the decoded one, an empty one when the text is empty or no
    JSON; [None] when [json.loads] raises [TypeError], the cell holding
    no text. *)
Definition parsed_nicknames (raw : PyVal) : option (gmap string string) :=
  if truthy raw then
    match raw with
    | VStr s => Some (default ∅ (loads_nicknames s))
    | _ => None
    end
  else Some ∅.

(** [_parse_nicknames] of the NetworkActions component and of the
    ActionManager. *)
Definition network_parse_nicknames (w : World Callback State) : World Callback State :=
  match cell (network_nicknames self) w with
  | None => on_env stick w
  | Some raw =>
      match parsed_nicknames raw with
      | Some m => on_env (bind_network_nicknames m) w
      | None => w
      end
  end.

Definition _parse_nicknames (w : World Callback State) : World Callback State :=
  match cell (device_nicknames self) w with
  | None => on_env stick w
  | Some raw =>
      match parsed_nicknames raw with
      | Some m => on_env (bind_action_nicknames m) w
      | None => w
      end
  end.

(** [_parse_variables] of the Watcher. *)
Definition _parse_variables (w : World Callback State) : World Callback State :=
  match cell (variables self) w with
  | None => on_env stick w
  | Some raw =>
      if truthy raw then
        match raw with
        | VStr s => on_env (with_var_defs (default [] (loads_variables s))) w
        | _ => w
        end
      else on_env (with_var_defs []) w
  end.

(** [_on_trigger_change]. *)
Definition _on_trigger_change (a : CallArgs) (w : World Callback State)
    : World Callback State :=
  match NetworkActions.ge_zero (cb_new a) with
  | Some true =>
      let w1 := on_env (add_task (NetworkActions.ExecuteAction (cb_new a))) w in
      match set_value_quiet (trigger self) 0 0 (VInt (-1)) w1 with
      | Returned w2 => w2
      | Raised _ => w1
      | NoFuel | Dangling => on_env stick w1
      end
  | _ => w
  end.

(** The closure of [make_callback(pid)]. *)
Definition broadcast_callback (pid : Z) (a : CallArgs) (w : World Callback State)
    : World Callback State :=
  on_env (add_task (NetworkActions.BroadcastUpdate pid (cb_row a) (cb_col a) (cb_new a))) w.

Section Nested.

(** The callbacks as a notification inside a callback calls them. *)
Variable call : Callback -> CallArgs -> World Callback State -> World Callback State.

(** [_queue_actions] of the ActionManager: the batch goes to the queue
    and the length of the queue to [queue_length], with notification.
    Returns the state it leaves and the exception it raises, if any. *)
Definition _queue_actions (actions : list Action) (w : World Callback State)
    : World Callback State * option Exn :=
  let '(queue, raised) :=
    ActionManager._queue_actions (time_time (env w)) actions (_action_queue (env w)) in
  let w1 := on_env (with_queue queue) w in
  match raised with
  | Some e => (w1, Some e)
  | None =>
      match Base.set_value call fuel (queue_length self) 0 0
              (VInt (Z.of_nat (length queue))) true w1 with
      | (_, Returned w2) => (w2, None)
      | (_, Raised e) => (w1, Some e)
      | (_, NoFuel) | (_, Dangling) => (on_env stick w1, None)
      end
  end.

(** [_on_action_to_send_change]: a text that is not empty is decoded and
    its actions are queued; whatever happens to it, the cell is cleared
    without notification. *)
Definition _on_action_to_send_change (a : CallArgs) (w : World Callback State)
    : World Callback State :=
  if negb (truthy (cb_new a)) then w
  else
    let w1 :=
      match cb_new a with
      | VStr s =>
          match loads_actions s with
          | Batch (action :: actions) => (_queue_actions (action :: actions) w).1
          | _ => w
          end
      | _ => w
      end in
    match set_value_quiet (action_to_send self) 0 0 (VStr "") w1 with
    | Returned w2 => w2
    | Raised _ => w1
    | NoFuel | Dangling => on_env stick w1
    end.

End Nested.

(** What calling a callback does to the state. [depth] bounds the
    notifications inside notifications. *)
Fixpoint call (depth : nat) (cb : Callback) (a : CallArgs) (w : World Callback State)
    : World Callback State :=
  match cb with
  | OnTriggerChange => _on_trigger_change a w
  | OnNetworkNicknamesChange => network_parse_nicknames w
  | OnNicknamesChange => _parse_nicknames w
  | OnVariablesChange => _parse_variables w
  | Broadcast pid => broadcast_callback pid a w
  | OnActionToSendChange =>
      match depth with
      | O => on_env stick w
      | S depth' => _on_action_to_send_change (call depth') a w
      end
  end.

(** [ActionManagerComponent.add_nickname]: the entry goes into the
    dictionary the component holds, and the dictionary, as text, to
    [device_nicknames]. *)
Definition add_nickname (depth fuel' : nat) (nickname ip_address : string)
    (w : World Callback State)
    : list (Callback * CallArgs) * Outcome (World Callback State) :=
  let st := env w in
  match dicts st !! action_nickname_map st with
  | None => ([], Dangling)
  | Some m =>
      let m' := <[nickname := ip_address]> m in
      let w1 := on_env (with_dicts (<[action_nickname_map st := m']> (dicts st))) w in
      Base.set_value (call depth) fuel' (device_nicknames self) 0 0
        (VStr (dumps_nicknames m')) true w1
  end.

End Callbacks.

(** ** The hub as [CentralHub] builds and starts it *)

(** The identifier counter [Component._next_param_id] and the state. *)
Definition Building : Type := Z * World Callback State.

(** An [add_*_param] call of a constructor. *)
Definition add (c : Component) (name : string) (rows cols : Z) (k : ParamClass) (ro : bool)
    (b : Building) : Component * ref * Building :=
  let '(c', r, n, w) := add_param c name rows cols k ro b.1 b.2 in
  (c', r, (n, w)).

(** What the constructors leave: the local components by name, the
    attributes the callbacks use, the parameter objects [local_ip_param],
    [connected_clients_param] and [total_messages_param] of the server,
    and the state. *)
Record Built := mkBuilt {
  local_components : list (string * Component);
  attributes : Attributes;
  local_ip_param : ref;
  connected_clients_param : ref;
  total_messages_param : ref;
  world : World Callback State
}.

(** [CentralHub._init_local_components]: the constructors of the four
    components, in order, each adding its parameters and registering its
    callbacks; then the Watcher is given the nickname dictionary of the
    ActionManager. [port] is the port of the server, [local_ip] the
    address [_get_local_ip] finds and [now] the clock. *)
Definition _init_local_components (port : Z) (local_ip : string) (now : float) : Built :=
  let b : Building := (1, mkWorld ∅ (mkState [] ∅ 0%nat 0%nat 0%nat [] [] now false)) in
  (* NetworkActionsComponent() *)
  let c := new_component "NetworkActions" in
  let '(c, _, b) :=
    add c "network_messages" NetworkActions.NUM_NETWORK_ACTIONS 1 (StringParameter "") false b in
  let '(c, trigger, b) :=
    add c "trigger" 1 1 (IntParameter (-1) (NetworkActions.NUM_NETWORK_ACTIONS - 1) (-1))
      false b in
  let '(c, _, b) := add c "last_response" 1 1 (StringParameter "") true b in
  let '(c, network_nicknames, b) :=
    add c "device_nicknames" 1 1 (StringParameter "{}") false b in
  let w := on_env (bind_network_nicknames ∅) b.2 in
  let w := on_change trigger OnTriggerChange w in
  let w := on_change network_nicknames OnNetworkNicknamesChange w in
  let network_actions := c in
  let b : Building := (b.1, w) in
  (* ActionManagerComponent() *)
  let c := new_component "ActionManager" in
  let '(c, action_to_send, b) := add c "action_to_send" 1 1 (StringParameter "") false b in
  let '(c, queue_length, b) := add c "queue_length" 1 1 (IntParameter 0 999999 0) true b in
  let '(c, _, b) := add c "enabled" 1 1 (BoolParameter true) false b in
  let '(c, device_nicknames, b) :=
    add c "device_nicknames" 1 1 (StringParameter "{}") false b in
  let w := on_env (bind_action_nicknames ∅) b.2 in
  let w := on_change action_to_send OnActionToSendChange w in
  let w := on_change device_nicknames OnNicknamesChange w in
  let action_manager := c in
  let b : Building := (b.1, w) in
  (* WatcherComponent() *)
  let c := new_component "Watcher" in
  let '(c, variables, b) := add c "variables" 1 1 (StringParameter "{}") false b in
  let '(c, _, b) :=
    add c "expressions" Watcher.NUM_WATCH_SLOTS 1 (StringParameter "") false b in
  let '(c, _, b) :=
    add c "rising_actions" Watcher.NUM_WATCH_SLOTS 1 (StringParameter "") false b in
  let '(c, _, b) :=
    add c "falling_actions" Watcher.NUM_WATCH_SLOTS 1 (StringParameter "") false b in
  let '(c, _, b) := add c "enabled" 1 1 (BoolParameter true) false b in
  let '(c, _, b) := add c "eval_count" 1 1 (IntParameter 0 999999999 0) true b in
  let w := on_env (bind_watcher_nicknames ∅) b.2 in
  let w := on_change variables OnVariablesChange w in
  let watcher := c in
  let b : Building := (b.1, w) in
  (* WebServerComponent(port=self.ws_port) *)
  let c := new_component "WebServer" in
  let '(c, _, b) := add c "port" 1 1 (IntParameter 1 65535 port) true b in
  let '(c, local_ip_param, b) := add c "local_ip" 1 1 (StringParameter local_ip) true b in
  let '(c, connected_clients_param, b) :=
    add c "connected_clients" 1 1 (IntParameter 0 1000 0) true b in
  let '(c, total_messages_param, b) :=
    add c "total_messages" 1 1 (IntParameter 0 999999999 0) true b in
  let web_server := c in
  (* self.watcher.set_nickname_map(self.action_manager._nickname_map) *)
  let w := on_env (fun st => set_nickname_map (action_nickname_map st) st) b.2 in
  mkBuilt
    [("NetworkActions", network_actions); ("ActionManager", action_manager);
     ("Watcher", watcher); ("WebServer", web_server)]
    (mkAttributes trigger network_nicknames action_to_send queue_length device_nicknames
       variables)
    local_ip_param connected_clients_param total_messages_param w.

(** [WebServerComponent._setup_broadcast_callbacks]: on every parameter
    of every local component, the closure for its identifier. *)
Definition _setup_broadcast_callbacks (local_components : list (string * Component))
    (w : World Callback State) : World Callback State :=
  foldl (fun w r =>
           match params w !! r with
           | Some p => on_change r (Broadcast (Base.param_id p)) w
           | None => w
           end)
        w (c ← od_values local_components; od_values (parameters c)).

Section Start.
Context `{PyBuiltins} `{Json}.

(** [CentralHub.start], up to the start of the servers: every component
    is initialized, in order (the two nickname texts and the variables
    are parsed, the address is written again, [local_ip] being what
    [_get_local_ip] finds now), and the server registers its broadcast
    closures. *)
Definition start (local_ip : string) (hub : Built) : Built :=
  let w := network_parse_nicknames (attributes hub) (world hub) in
  let w := _parse_nicknames (attributes hub) w in
  let w := _parse_variables (attributes hub) w in
  let w := match set_value_quiet (local_ip_param hub) 0 0 (VStr local_ip) w with
           | Returned w' => w'
           | _ => on_env stick w
           end in
  mkBuilt (local_components hub) (attributes hub) (local_ip_param hub)
    (connected_clients_param hub) (total_messages_param hub)
    (_setup_broadcast_callbacks (local_components hub) w).

End Start.

(** [WatcherComponent._resolve_device] and
    [ActionManagerComponent._resolve_device] in a state of the hub. *)
Definition watcher_resolves (st : State) (device : string) : string :=
  WatcherComponent._resolve_device (default ∅ (dicts st !! watcher_nickname_map st)) device.

Definition action_manager_resolves (st : State) (device : string) : string :=
  ActionManagerComponent._resolve_device (default ∅ (dicts st !! action_nickname_map st))
    device.

End Hub.

(** * The vocabulary of the properties *)

(** ** Keys that order the doubles *)

Module FloatKeys.

(** A key in [Z * Z * Z] whose lexicographic order is the order of the
    doubles that are not NaN. *)
Definition key (f : spec_float) : option (Z * Z * Z) :=
  match f with
  | S754_nan => None
  | S754_zero _ => Some (0, 0, 0)
  | S754_infinity s => Some (if s then -2 else 2, 0, 0)
  | S754_finite s m e => Some (if s then (-1, - e, Z.neg m) else (1, e, Z.pos m))
  end.

Definition lex (a b : Z * Z * Z) : comparison :=
  let '(a1, a2, a3) := a in
  let '(b1, b2, b3) := b in
  match a1 ?= b1 with
  | Eq => match a2 ?= b2 with Eq => a3 ?= b3 | c => c end
  | c => c
  end.

Definition lex_le (a b : Z * Z * Z) : Prop :=
  let '(a1, a2, a3) := a in
  let '(b1, b2, b3) := b in
  a1 < b1 \/ (a1 = b1 /\ (a2 < b2 \/ (a2 = b2 /\ a3 <= b3))).

End FloatKeys.

(** ** Cells, stores and callbacks *)

Module ParameterSpec.

(** A value of the declared type of the class. *)
Definition has_declared_type (k : ParamClass) (v : PyVal) : Prop :=
  match k, v with
  | IntParameter _ _ _, VInt _
  | FloatParameter _ _ _, VFloat _
  | BoolParameter _, VBool _
  | StringParameter _, VStr _ => True
  | _, _ => False
  end.

(** A number within [[min_val, max_val]]; no condition on the other types. *)
Definition within_bounds (k : ParamClass) (v : PyVal) : Prop :=
  match k, v with
  | IntParameter lo hi _, VInt z => lo <= z <= hi
  | FloatParameter lo hi _, VFloat f =>
      PrimFloat.leb lo f = true /\ PrimFloat.leb f hi = true
  | _, _ => True
  end.

Definition cell_ok (k : ParamClass) (v : PyVal) : Prop :=
  has_declared_type k v /\ within_bounds k v.

(** [min_val <= default_val <= max_val]. *)
Definition class_ok (k : ParamClass) : Prop := within_bounds k (default_val k).

Section Cells.
Context {CB : Type}.

(** Every cell of the grid holds a value of the declared type, within the
    bounds. *)
Definition grid_ok (p : BaseParameter CB) : Prop :=
  forall r c, 0 <= r < rows p -> 0 <= c < cols p ->
    cell_ok (cls p) (get_value p r c).

Definition param_ok (p : BaseParameter CB) : Prop :=
  class_ok (cls p) /\ grid_ok p.

Definition store_ok {Env} (w : World CB Env) : Prop :=
  forall r p, params w !! r = Some p -> param_ok p.

Definition calls_of (a : CallArgs) (l : list CB) : list (CB * CallArgs) :=
  map (fun cb => (cb, a)) l.

Section Callbacks.
Context {Env : Type}.
Variable call : CB -> CallArgs -> World CB Env -> World CB Env.

(** Callbacks that keep the store in order. *)
Definition callbacks_keep_store_ok : Prop :=
  forall cb a w, store_ok w -> store_ok (call cb a w).

(** Callbacks that leave the list of [self] alone or register further
    callbacks on it: [on_change] is the one operation on the list. *)
Definition callbacks_only_register (self : ref) : Prop :=
  forall cb a (w : World CB Env) q,
    params w !! self = Some q ->
    exists q', params (call cb a w) !! self = Some q' /\
               _on_change_callbacks q `prefix_of` _on_change_callbacks q'.

(** A callback [r] that registers [c] on [self], and callbacks other than
    [r] that leave the list of [self] as it is. *)
Definition registers (self : ref) (r c : CB) : Prop :=
  forall a (w : World CB Env) q,
    params w !! self = Some q ->
    exists q', params (call r a w) !! self = Some q' /\
               _on_change_callbacks q' = _on_change_callbacks q ++ [c].

Definition others_keep_list (self : ref) (r : CB) : Prop :=
  forall cb, cb <> r ->
  forall a (w : World CB Env) q,
    params w !! self = Some q ->
    exists q', params (call cb a w) !! self = Some q' /\
               _on_change_callbacks q' = _on_change_callbacks q.

End Callbacks.
End Cells.

(** A call of [set_value] on some parameter object, with the fuel of its
    notification. *)
Record Write := mkWrite {
  w_self : ref;
  w_row : Z;
  w_col : Z;
  w_value : PyVal;
  w_notify : bool;
  w_fuel : nat
}.

(** A sequence of writes. One that raises leaves the state as it was; with
    one that does not end there is no later state. *)
Fixpoint run_writes `{PyBuiltins} {CB Env : Type}
    (call : CB -> CallArgs -> World CB Env -> World CB Env)
    (ops : list Write) (w : World CB Env) : option (World CB Env) :=
  match ops with
  | [] => Some w
  | op :: rest =>
      match set_value call (w_fuel op) (w_self op) (w_row op) (w_col op)
              (w_value op) (w_notify op) w with
      | (_, Returned w') => run_writes call rest w'
      | (_, Raised _) => run_writes call rest w
      | (_, _) => None
      end
  end.

End ParameterSpec.

(** ** The watcher *)

Module WatcherSpec.

Section Evaluated.
Context {CB : Type}.
Variable _evaluate_expression : PyVal -> option bool.
Variable expressions : BaseParameter CB.

(** The result the evaluation of a slot produces in a tick: none when the
    expression is empty or its evaluation raises. *)
Definition evaluated (slot : Z) : option bool :=
  let expr := get_value expressions slot 0 in
  if truthy expr then _evaluate_expression expr else None.

End Evaluated.

End WatcherSpec.

(** ** The subscriptions *)

Module SubscriptionSpec.
Import WebServer.

(** The keys of a client and the clients of a key, empty when there is no
    entry. *)
Definition keys_of (m : SubscriptionManager) (ws : WS) : gset Key :=
  default ∅ (_subscriptions m !! ws).

Definition clients_of (m : SubscriptionManager) (key : Key) : gset WS :=
  default ∅ (_param_subscribers m !! key).

(** The two maps agree, and no key maps to the empty set. *)
Definition consistent (m : SubscriptionManager) : Prop :=
  (forall ws key, ws ∈ clients_of m key <-> key ∈ keys_of m ws) /\
  (forall key clients, _param_subscribers m !! key = Some clients -> clients <> ∅).

(** The operations of the manager. *)
Inductive Op :=
| Subscribe (ws : WS) (pid row col : Z)
| Unsubscribe (ws : WS) (pid row col : Z)
| RemoveClient (ws : WS).

Definition apply_op (m : SubscriptionManager) (op : Op) : SubscriptionManager :=
  match op with
  | Subscribe ws pid row col => subscribe ws pid row col m
  | Unsubscribe ws pid row col => unsubscribe ws pid row col m
  | RemoveClient ws => remove_client ws m
  end.

End SubscriptionSpec.

(** ** The queue *)

Module QueueSpec.
Import ActionManager.

(** The time of the item compares with every other. *)
Definition stamp_ordered (q : QueuedAction) : Prop := ordered_time (execute_at q).

(** [a] is due no later than [b]. *)
Definition due_before (a b : QueuedAction) : Prop :=
  PrimFloat.leb (execute_at a) (execute_at b) = true.

(** A heap that meets the contract of [HeapQ]: the list kept in order of
    time, a new item going before the first item that is due later. *)
Fixpoint insert_by_time (x : QueuedAction) (h : list QueuedAction) : list QueuedAction :=
  match h with
  | [] => [x]
  | y :: h' => if QueuedAction_lt x y then x :: y :: h' else y :: insert_by_time x h'
  end.

Definition ordered_heap (h : list QueuedAction) : Prop :=
  StronglySorted due_before h /\ Forall stamp_ordered h.

End QueueSpec.

(** * Concrete states for the examples *)

Module Examples.

(** Builtins for the examples: [int(s)] reads an optional sign and decimal
    digits; no text is read as a double. *)
Fixpoint digits (s : string) (acc : Z) : option Z :=
  match s with
  | EmptyString => Some acc
  | String c s' =>
      let n := Z.of_nat (nat_of_ascii c) in
      if (48 <=? n) && (n <=? 57) then digits s' (10 * acc + (n - 48)) else None
  end.

Definition decimal (s : string) : option Z :=
  match s with
  | EmptyString => None
  | String "-" (String c s') => option_map Z.opp (digits (String c s') 0)
  | String "+" (String c s') => digits (String c s') 0
  | _ => digits s 0
  end.

#[export] Instance plain_builtins : PyBuiltins := {
  int_of_str := decimal;
  float_of_str := fun _ => None;
  str_of_float := fun _ => "float";
  hash_of_str := fun s => Z.of_nat (String.length s)
}.

(** Callbacks named by numbers that do nothing, on a state with nothing
    but the parameters. *)
Definition idle : nat -> CallArgs -> World nat unit -> World nat unit := fun _ _ w => w.

(** A world with one parameter of a component ["X"]: an integer ["y"] in
    [0, 100], with two callbacks registered. *)
Definition one_int : Component * ref * Z * World nat unit :=
  let '(c, r, n, w) :=
    add_param (new_component "X") "y" 1 1 (IntParameter 0 100 0) false 1 (mkWorld ∅ tt) in
  (c, r, n, on_change r 8%nat (on_change r 7%nat w)).

End Examples.

Module C2Example.

(** Callbacks named by numbers that note their number in the state. *)
Definition noting : nat -> CallArgs -> World nat (list nat) -> World nat (list nat) :=
  fun n _ w => mkWorld (params w) (env w ++ [n]).

(** A world with one parameter of a component ["X"]: an integer ["y"] in
    [0, 100], with the callbacks 7 and 8 registered, in this order, and
    nothing noted yet. *)
Definition one_int : Component * ref * Z * World nat (list nat) :=
  let '(c, r, n, w) :=
    add_param (new_component "X") "y" 1 1 (IntParameter 0 100 0) false 1 (mkWorld ∅ []) in
  (c, r, n, on_change r 8%nat (on_change r 7%nat w)).

End C2Example.

Module C7Example.

(** Callback 7 registers callback 9 on the parameter object 0; the other
    callbacks do nothing. *)
Definition registering (cb : nat) (a : CallArgs) (w : World nat unit) : World nat unit :=
  if (cb =? 7)%nat then on_change 0%nat 9%nat w else w.

End C7Example.

Module TriggerExample.
Import NetworkActions.

(** The trigger object of a NetworkActions component (reference 0,
    identifier 2) once the protocol server has registered its broadcast
    closure on it; no task created yet. *)
Definition trigger_world : World Callback Env :=
  on_change 0%nat (Broadcast 2) (mkWorld {[0%nat := new_trigger 0%nat 2]} []).

Definition no_other : nat -> CallArgs -> World Callback Env -> World Callback Env :=
  fun _ _ w => w.

End TriggerExample.

Module WatcherExample.

(** A watcher whose slot 3 holds ["lux > 50"], with an evaluation that
    finds that expression true and raises on ["bad"]. *)
Definition expressions : BaseParameter nat :=
  let p := new_parameter "expressions" 2 Watcher.NUM_WATCH_SLOTS 1 (StringParameter "") false in
  with_values p (<[(3, 0) := VStr "lux > 50"]> (_values p)).

Definition evaluate (expr : PyVal) : option bool :=
  match expr with
  | VStr s => if String.eqb s "lux > 50" then Some true
              else if String.eqb s "bad" then None else Some false
  | _ => None
  end.

End WatcherExample.

Module ServerExample.

(** The parameters [ActionManagerComponent.__init__] adds, in its order,
    on an empty store with the identifier counter at 1: [action_to_send],
    the read-only [queue_length], [enabled] and [device_nicknames]. *)
Definition action_manager : Component * Z * World nat unit :=
  let c := new_component "ActionManager" in
  let '(c, _, n, w) := add_param c "action_to_send" 1 1 (StringParameter "") false 1
                         (mkWorld ∅ tt) in
  let '(c, _, n, w) := add_param c "queue_length" 1 1 (IntParameter 0 999999 0) true n w in
  let '(c, _, n, w) := add_param c "enabled" 1 1 (BoolParameter true) false n w in
  let '(c, _, n, w) := add_param c "device_nicknames" 1 1 (StringParameter "{}") false n w in
  (c, n, w).

Definition local_components : list (string * Component) :=
  [("ActionManager", action_manager.1.1)].

Definition hub_world : World nat unit := action_manager.2.

(** [{"type": "get_param_info", "comp": "ActionManager", "param_type": t,
      "idx": i}]. *)
Definition get_info (t : string) (i : Z) : WebServer.Request :=
  WebServer.mkRequest (Some "get_param_info") None (Some "ActionManager") None None
    (Some t) (Some i) 0 0 VNone.

End ServerExample.

Module QueueExample.
Import ActionManager.

(** The batch of the timed sequence: [y = 1], then after 500 ms [y = 2],
    both on the component ["X"] of the hub itself. *)
Definition first : Action :=
  mkAction "self" None (Some "X") (Some "y") 0 0 (VInt 1) (Some (VInt 500)).
Definition second : Action :=
  mkAction "self" None (Some "X") (Some "y") 0 0 (VInt 2) (Some (VInt 0)).

(** Readings of the [enabled] cell and of the clock at successive turns. *)
Definition turns : list (PyVal * float) :=
  [(VBool true, 1000%float); (VBool true, 1000.25%float);
   (VBool false, 1000.5%float); (VBool true, 1000.5%float)].

End QueueExample.

(** ** Components and their listings *)

Module ComponentSpec.

Section Listing.
Context {CB Env : Type}.

(** The reference names an object of the type. *)
Definition has_type (w : World CB Env) (t : ParameterType) (r : ref) : bool :=
  match params w !! r with
  | Some p => ParameterType_eqb (param_type (cls p)) t
  | None => false
  end.

(** The parameters of the type, in the order of [parameters.values()]. *)
Definition of_type (w : World CB Env) (t : ParameterType) (c : Component) : list ref :=
  List.filter (has_type w t) (od_values (parameters c)).

(** Every reference the component lists names an object of the store. *)
Definition listed_in_store (w : World CB Env) (c : Component) : Prop :=
  forall r, r ∈ od_values (parameters c) -> is_Some (params w !! r).

End Listing.

End ComponentSpec.

(** ** Requests of the protocol *)

Module ProtocolSpec.
Import WebServer.

(** The request with another [type] and the other fields as they are. *)
Definition with_type (t : string) (request : Request) : Request :=
  mkRequest (Some t) (q_param_id request) (comp request) (comp_id request)
    (param request) (q_param_type request) (idx request) (row request) (col request)
    (value request).

End ProtocolSpec.

(** ** The history of a subscription *)

Module SubscriptionHistory.
Import WebServer SubscriptionSpec.

(** What an operation makes of the subscription of the client [ws] to
    [key]: its own [subscribe] to the key sets it, its own [unsubscribe]
    from the key and its removal clear it, and every other operation
    leaves it. *)
Definition after (ws : nat) (key : Z * Z * Z) (subscribed : bool) (op : Op) : bool :=
  match op with
  | Subscribe ws' pid row col =>
      if decide (ws' = ws /\ (pid, row, col) = key) then true else subscribed
  | Unsubscribe ws' pid row col =>
      if decide (ws' = ws /\ (pid, row, col) = key) then false else subscribed
  | RemoveClient ws' => if decide (ws' = ws) then false else subscribed
  end.

(** The subscription after a sequence of operations on a new manager. *)
Definition subscribed (ops : list Op) (ws : nat) (key : Z * Z * Z) : bool :=
  foldl (after ws key) false ops.

End SubscriptionHistory.

(** ** The subscriptions of the other clients *)

Module SessionSpec.
Import WebServer SubscriptionSpec.

(** Apart from the client [websocket], the subscriptions in [m] are as
    in [m0]. *)
Definition others_as_in (websocket : nat) (m0 m : SubscriptionManager) : Prop :=
  forall ws' key, ws' <> websocket -> ws' ∈ clients_of m key <-> ws' ∈ clients_of m0 key.

End SessionSpec.

(** ** The sources of the watcher's variables *)

Module VariableSpec.
Import WatcherComponent.

Section Source.
Context {CB Env : Type}.
Variable hub : option (list (string * Component) * gmap string (gmap string PyVal)).
Variable w : World CB Env.
Variable nick : gmap string string.

(** The value the source of a definition gives. *)
Definition source (d : VarDef) : PyVal :=
  _get_param_value hub w (_resolve_device nick (device d)) (component d) (param d)
    (row d) (col d).

End Source.

End VariableSpec.

(** ** Stores the protocol can serve *)

Module StoreSpec.

Section Store.
Context {CB Env : Type}.

(** Every reference a local component holds, by name or by identifier,
    names an object of the store. *)
Definition components_in_store (local_components : list (string * Component))
    (w : World CB Env) : Prop :=
  forall n c, (n, c) ∈ local_components ->
    (forall r, r ∈ od_values (parameters c) -> is_Some (params w !! r)) /\
    (forall i r, params_by_id c !! i = Some r -> is_Some (params w !! r)).

(** No object has more than [fuel] callbacks. *)
Definition callbacks_within (fuel : nat) (w : World CB Env) : Prop :=
  forall r p, params w !! r = Some p -> (length (_on_change_callbacks p) <= fuel)%nat.

(** The object but for its cells. *)
Definition shape (p : BaseParameter CB) : BaseParameter CB := with_values p ∅.

(** The same objects, but for their cells. *)
Definition same_shapes (w w' : World CB Env) : Prop :=
  forall r, shape <$> params w' !! r = shape <$> params w !! r.

End Store.

End StoreSpec.

(** ** Callbacks that write cells *)

Module CallbackSpec.

Section Callbacks.
Context {CB Env : Type}.
Variable call : CB -> CallArgs -> World CB Env -> World CB Env.

(** Callbacks that write cells only: they add, remove and reshape no
    object, so every list of subscribers stays as it is. *)
Definition callbacks_keep_shapes : Prop :=
  forall cb a w, StoreSpec.same_shapes w (call cb a w).

(** Callbacks that leave the object [r] alone. *)
Definition callbacks_leave (r : ref) : Prop :=
  forall cb a w, params (call cb a w) !! r = params w !! r.

(** The callbacks [cbs] leave the object [r] alone. *)
Definition subscribers_leave (cbs : list CB) (r : ref) : Prop :=
  forall cb a w, cb ∈ cbs -> params (call cb a w) !! r = params w !! r.

End Callbacks.

End CallbackSpec.

(** ** Checking a store *)

Module StoreCheck.
Import ParameterSpec.

Definition has_declared_typeb (k : ParamClass) (v : PyVal) : bool :=
  match k, v with
  | IntParameter _ _ _, VInt _
  | FloatParameter _ _ _, VFloat _
  | BoolParameter _, VBool _
  | StringParameter _, VStr _ => true
  | _, _ => false
  end.

Definition within_boundsb (k : ParamClass) (v : PyVal) : bool :=
  match k, v with
  | IntParameter lo hi _, VInt z => (lo <=? z) && (z <=? hi)
  | FloatParameter lo hi _, VFloat f => PrimFloat.leb lo f && PrimFloat.leb f hi
  | _, _ => true
  end.

(** The test of [param_ok], cell by cell over the grid. *)
Definition param_okb {CB} (p : BaseParameter CB) : bool :=
  within_boundsb (cls p) (default_val (cls p)) &&
  forallb (fun rc => has_declared_typeb (cls p) (get_value p rc.1 rc.2)
                     && within_boundsb (cls p) (get_value p rc.1 rc.2))
          (cells (rows p) (cols p)).

(** The test of [store_ok]. *)
Definition store_okb {CB Env} (w : World CB Env) : bool :=
  forallb (fun rp => param_okb rp.2) (map_to_list (params w)).

(** The tests of [components_in_store] and [callbacks_within]. *)
Definition in_storeb {CB Env} (w : World CB Env) (r : ref) : bool :=
  match params w !! r with
  | Some _ => true
  | None => false
  end.

Definition components_in_storeb {CB Env} (local_components : list (string * Component))
    (w : World CB Env) : bool :=
  forallb (fun nc => forallb (in_storeb w) (od_values (parameters nc.2))
                     && forallb (fun ir => in_storeb w ir.2)
                                (map_to_list (params_by_id nc.2)))
          local_components.

Definition callbacks_withinb {CB Env} (fuel : nat) (w : World CB Env) : bool :=
  forallb (fun rp => (length (_on_change_callbacks rp.2) <=? fuel)%nat)
          (map_to_list (params w)).

End StoreCheck.

(** ** The hub's nickname dictionaries and the [action_to_send] cell *)

Module NicknameSpec.

(** The Watcher holds the dictionary object [r0], and [r0] holds [m0]. *)
Definition watcher_holds (r0 : ref) (m0 : gmap string string) (st : Hub.State) : Prop :=
  Hub.watcher_nickname_map st = r0 /\ Hub.dicts st !! r0 = Some m0.


End NicknameSpec.

Module ActionToSendSpec.

(** The object [action_to_send] names is a text parameter whose cell
    [(0, 0)] holds a value that satisfies [R]. *)
Definition holds `{PyBuiltins} (self : Hub.Attributes) (R : PyVal -> Prop)
    (w : World Hub.Callback Hub.State) : Prop :=
  exists p d, params w !! Hub.action_to_send self = Some p /\
              cls p = StringParameter d /\ R (get_value p 0 0).

End ActionToSendSpec.

Module HubSpec.

(** The tasks the broadcast closures of the identifiers [pids] create
    when they are called with [a]. *)
Definition broadcasts (pids : list Z) (a : CallArgs) : list NetworkActions.Task :=
  map (fun pid => NetworkActions.BroadcastUpdate pid (cb_row a) (cb_col a) (cb_new a)) pids.

(** The state with the tasks [ts] created. *)
Definition with_tasks (ts : list NetworkActions.Task) (st : Hub.State) : Hub.State :=
  foldl (fun st t => Hub.add_task t st) st ts.

End HubSpec.

(** * Further states for the examples *)

Module MirrorExample.

(** The mirror of a device at 10.0.0.46 with one component, ["Light"],
    and one integer parameter, ["level"], of identifier 7; the nickname
    ["porch"] for the device; and a watcher variable ["lux"] on the cell
    [(0, 0)] of that parameter. *)
Definition level : CentralHub.RemoteParameter :=
  CentralHub.mkRemote 7 "level" "int" 1 1 false (VInt 0) (VInt 100) ∅.

Definition device : CentralHub.ESP32Device :=
  CentralHub.add_parameter
    (CentralHub.mkDevice "10.0.0.46" ∅ [("Light", new_component "Light")]) "Light" level.

Definition light : Component :=
  default (new_component "") (od_get "Light" (CentralHub.components device)).

Definition nicknames : gmap string string := {["porch" := "10.0.0.46"]}.

Definition variables : list (string * option WatcherComponent.VarDef) :=
  [("lux", Some (WatcherComponent.mkVarDef "porch" (Some "Light") (Some "level") 0 0))].

End MirrorExample.

Module WebServerExample.

(** The parameters [WebServerComponent.__init__] adds, in its order, after
    those of the ActionManager: [port], [local_ip], [connected_clients]
    (reference 6) and [total_messages] (reference 7), all read-only. *)
Definition web_server : Component * Z * World nat unit :=
  let '(_, n, w) := ServerExample.action_manager in
  let c := new_component "WebServer" in
  let '(c, _, n, w) := add_param c "port" 1 1 (IntParameter 1 65535 80) true n w in
  let '(c, _, n, w) := add_param c "local_ip" 1 1 (StringParameter "127.0.0.1") true n w in
  let '(c, _, n, w) := add_param c "connected_clients" 1 1 (IntParameter 0 1000 0) true n w in
  let '(c, _, n, w) := add_param c "total_messages" 1 1 (IntParameter 0 999999999 0) true n w in
  (c, n, w).

Definition local_components : list (string * Component) :=
  [("ActionManager", ServerExample.action_manager.1.1); ("WebServer", web_server.1.1)].

Definition hub_world : World nat unit := web_server.2.

(** No client yet. *)
Definition no_clients : WebServerComponent.Server :=
  WebServerComponent.mkServer WebServer.new_manager ∅.

(** The frames of a connection: a text that is no JSON, a subscription to
    the cell of [enabled] (identifier 3), and a write of that cell. *)
Definition frames : list WebServerComponent.Frame :=
  [WebServerComponent.NotJSON;
   WebServerComponent.Decoded
     (WebServer.mkRequest (Some "subscribe") (Some 3) None None None None None 0 0 VNone)
     (Some (VInt 1));
   WebServerComponent.Decoded
     (WebServer.mkRequest (Some "set_param") (Some 3) None None None None None 0 0
        (VBool false))
     None].

(** [{"type": "set_param", "param_id": 8, "value": 5}], a write to
    [total_messages]. *)
Definition set_total_messages : WebServer.Request :=
  WebServer.mkRequest (Some "set_param") (Some 8) None None None None None 0 0 (VInt 5).

(** Two clients, 1 and 2, subscribed to the cell of [enabled]. *)
Definition two_clients : WebServerComponent.Server :=
  WebServerComponent.mkServer
    (WebServer.subscribe 2%nat 3 0 0 (WebServer.subscribe 1%nat 3 0 0 WebServer.new_manager))
    {[1%nat; 2%nat]}.

End WebServerExample.

Module DeliveryExample.

(** A component with the parameter [enabled] (identifier 3, reference 0)
    once the server has registered its broadcast closure on it. *)
Definition served : Component * World NetworkActions.Callback NetworkActions.Env :=
  let '(c, r, _, w) :=
    add_param (new_component "ActionManager") "enabled" 1 1 (BoolParameter true) false 3
      (mkWorld ∅ []) in
  (c, on_change r (NetworkActions.Broadcast 3) w).

Definition local_components : list (string * Component) := [("ActionManager", served.1)].

End DeliveryExample.

Module HubExample.
Import Examples.

(** An action whose [wait_after_ms] is a text. *)
Definition broken : ActionManager.Action :=
  ActionManager.mkAction "self" None (Some "X") (Some "y") 0 0 (VInt 2) (Some (VStr "soon")).

(** A decoder for the examples: it knows the empty object, one nickname
    dictionary and two batches of actions. *)
#[export] Instance plain_json : Hub.Json := {
  loads_nicknames s :=
    if String.eqb s "{}" then Some ∅
    else if String.eqb s "{porch: 10.0.0.46}" then Some {["porch" := "10.0.0.46"]}
    else None;
  loads_actions s :=
    if String.eqb s "{actions: [first, second]}"
    then Hub.Batch [QueueExample.first; QueueExample.second]
    else if String.eqb s "{actions: [first, broken, second]}"
    then Hub.Batch [QueueExample.first; broken; QueueExample.second]
    else if String.eqb s "[]" then Hub.NoObject
    else Hub.NoJSON;
  loads_variables s := if String.eqb s "{}" then Some [] else None;
  dumps_nicknames m := if decide (m = ∅) then "{}" else "{porch: 10.0.0.46}"
}.

(** The hub of the configuration file, port 80, as it is built at time
    1000, and as it is once started. *)
Definition built : Hub.Built := Hub._init_local_components 80 "127.0.0.1" 1000%float.

Definition hub : Hub.Built := Hub.start "192.168.1.2" built.

(** The frames of a connection: a text that is no JSON, a write of 150 to
    [trigger] (identifier 2) and a batch of two actions written to
    [action_to_send] (identifier 5). *)
Definition frames : list WebServerComponent.Frame :=
  [WebServerComponent.NotJSON;
   WebServerComponent.Decoded
     (WebServer.mkRequest (Some "set_param") (Some 2) None None None None None 0 0 (VInt 150))
     (Some (VInt 1));
   WebServerComponent.Decoded
     (WebServer.mkRequest (Some "set_param") (Some 5) None None None None None 0 0
        (VStr "{actions: [first, second]}"))
     None].

(** [{"type": "set_param", "param_id": 6, "value": 5}], a write to
    [queue_length] of the ActionManager. *)
Definition set_queue_length : WebServer.Request :=
  WebServer.mkRequest (Some "set_param") (Some 6) None None None None None 0 0 (VInt 5).

(** The parameter object at the reference [r] in the started hub. *)
Definition object (r : ref) : BaseParameter Hub.Callback :=
  default (new_parameter "" 0 0 0 (StringParameter "") false) (params (Hub.world hub) !! r).

(** The state a run returns, [d] when it does not return. *)
Definition returned {A : Type} (d : A) (o : Outcome A) : A :=
  match o with
  | Returned a => a
  | _ => d
  end.

Section Runs.
Context `{ActionManager.HeapQ}.

(** The frames served to a connection of the started hub. *)
Definition session :=
  WebServerComponent.handle_frames (Hub.call (Hub.attributes hub) 2 1)
    (Hub.local_components hub) (Hub.total_messages_param hub) 3 1%nat frames
    WebServerExample.no_clients (Hub.world hub).

Definition after_session :=
  returned ([], WebServerExample.no_clients, Hub.world hub) session.2.

(** A nickname text written to [device_nicknames] of the started hub. *)
Definition porch_written :=
  set_value (Hub.call (Hub.attributes hub) 2 1) 3
    (Hub.device_nicknames (Hub.attributes hub)) 0 0 (VStr "{porch: 10.0.0.46}") true
    (Hub.world hub).

Definition after_porch_written := returned (Hub.world hub) porch_written.2.

(** [add_nickname] on the hub as built, and after [_parse_nicknames]. *)
Definition porch_added :=
  Hub.add_nickname (Hub.attributes built) 2 1 3 "porch" "10.0.0.46" (Hub.world built).

Definition porch_added_late :=
  Hub.add_nickname (Hub.attributes built) 2 1 3 "porch" "10.0.0.46"
    (Hub._parse_nicknames (Hub.attributes built) (Hub.world built)).

Definition after_porch_added_late := returned (Hub.world built) porch_added_late.2.

(** A batch of two actions written to [action_to_send] of the started
    hub. *)
Definition batch_written :=
  set_value (Hub.call (Hub.attributes hub) 2 1) 3
    (Hub.action_to_send (Hub.attributes hub)) 0 0 (VStr "{actions: [first, second]}") true
    (Hub.world hub).

Definition after_batch_written := returned (Hub.world hub) batch_written.2.

(** A connection of the started hub that sends [frames] and closes. *)
Definition connection :=
  WebServerComponent._handle_client (Hub.call (Hub.attributes hub) 2 1)
    (Hub.local_components hub) (Hub.connected_clients_param hub)
    (Hub.total_messages_param hub) 2 5%nat frames WebServerExample.no_clients
    (Hub.world hub).

(** An update of [last_response] (identifier 3) broadcast to two clients,
    the connection of the second one closed. *)
Definition client_dropped :=
  WebServerComponent._broadcast_update (Hub.call (Hub.attributes hub) 2 1)
    (Hub.connected_clients_param hub) 2 (fun ws => Nat.eqb ws 1) 3 0 0 (VStr "ok")
    WebServerExample.two_clients (Hub.world hub).

End Runs.

End HubExample.

(** * Properties *)


(** ** Order of the doubles *)

Module FloatOrder.
Import FloatKeys.


Lemma SFcompare_key f1 f2 :
  SFcompare f1 f2 =
  match key f1, key f2 with
  | Some a, Some b => Some (lex a b)
  | _, _ => None
  end.
Proof.
  destruct f1 as [s1|s1| |s1 m1 e1], f2 as [s2|s2| |s2 m2 e2]; simpl;
    try reflexivity; try (destruct s1; reflexivity); try (destruct s2; reflexivity);
    try (destruct s1, s2; reflexivity).
  destruct s1, s2; simpl; try reflexivity.
  rewrite Z.compare_opp, (Z.compare_antisym e1 e2).
  destruct (e1 ?= e2); reflexivity.
Qed.

Lemma lex_le_spec a b : lex_le a b <-> lex a b <> Gt.
Proof.
  destruct a as [[a1 a2] a3], b as [[b1 b2] b3]. unfold lex_le, lex.
  destruct (Z.compare_spec a1 b1), (Z.compare_spec a2 b2), (Z.compare_spec a3 b3);
    split; intros; try congruence; try lia.
Qed.

Lemma lex_lt_spec a b : lex a b = Lt <-> ~ lex_le b a.
Proof.
  destruct a as [[a1 a2] a3], b as [[b1 b2] b3]. unfold lex_le, lex.
  destruct (Z.compare_spec a1 b1), (Z.compare_spec a2 b2), (Z.compare_spec a3 b3);
    split; intros; try congruence; try lia.
Qed.

Lemma lex_le_trans a b c : lex_le a b -> lex_le b c -> lex_le a c.
Proof.
  destruct a as [[a1 a2] a3], b as [[b1 b2] b3], c as [[c1 c2] c3].
  unfold lex_le. lia.
Qed.

Lemma lex_le_refl a : lex_le a a.
Proof. destruct a as [[a1 a2] a3]. unfold lex_le. lia. Qed.

Lemma lex_le_total a b : lex_le a b \/ lex_le b a.
Proof.
  destruct a as [[a1 a2] a3], b as [[b1 b2] b3]. unfold lex_le. lia.
Qed.

(** [x <= y] on doubles, through the keys. *)
Lemma leb_key x y :
  PrimFloat.leb x y = true <->
  exists a b, key (Prim2SF x) = Some a /\ key (Prim2SF y) = Some b /\ lex_le a b.
Proof.
  rewrite FloatAxioms.leb_spec. unfold SFleb. rewrite SFcompare_key.
  destruct (key (Prim2SF x)) as [a|], (key (Prim2SF y)) as [b|]; split;
    try (intros; discriminate); try (intros (a' & b' & ? & ? & ?); discriminate).
  - intros Hc. exists a, b. repeat split; try reflexivity.
    apply lex_le_spec. destruct (lex a b); congruence.
  - intros (a' & b' & Ha & Hb & Hle). inversion Ha; inversion Hb; subst.
    apply lex_le_spec in Hle. destruct (lex a' b'); congruence.
Qed.

Lemma ltb_key x y :
  PrimFloat.ltb x y = true <->
  exists a b, key (Prim2SF x) = Some a /\ key (Prim2SF y) = Some b /\ ~ lex_le b a.
Proof.
  rewrite FloatAxioms.ltb_spec. unfold SFltb. rewrite SFcompare_key.
  destruct (key (Prim2SF x)) as [a|], (key (Prim2SF y)) as [b|]; split;
    try (intros; discriminate); try (intros (a' & b' & ? & ? & ?); discriminate).
  - intros Hc. exists a, b. repeat split; try reflexivity.
    apply lex_lt_spec. destruct (lex a b); congruence.
  - intros (a' & b' & Ha & Hb & Hle). inversion Ha; inversion Hb; subst.
    apply lex_lt_spec in Hle. rewrite Hle. reflexivity.
Qed.

Lemma is_nan_key x : is_nan x = false <-> exists a, key (Prim2SF x) = Some a.
Proof.
  unfold is_nan. rewrite FloatAxioms.eqb_spec. unfold SFeqb. rewrite SFcompare_key.
  destruct (key (Prim2SF x)) as [a|]; split; intros Hx.
  - eauto.
  - pose proof (lex_le_refl a) as H1. pose proof H1 as H2.
    apply lex_le_spec in H1.
    destruct (lex a a) eqn:E; try congruence; try reflexivity.
    apply lex_lt_spec in E. contradiction.
  - discriminate.
  - destruct Hx; discriminate.
Qed.

Lemma leb_refl x : is_nan x = false -> PrimFloat.leb x x = true.
Proof.
  intros [a Ha]%is_nan_key. apply leb_key. exists a, a.
  auto using lex_le_refl.
Qed.

Lemma leb_trans x y z :
  PrimFloat.leb x y = true -> PrimFloat.leb y z = true -> PrimFloat.leb x z = true.
Proof.
  intros (a & b & Ha & Hb & Hab)%leb_key (b' & c & Hb' & Hc & Hbc)%leb_key.
  rewrite Hb in Hb'. inversion Hb'; subst b'.
  apply leb_key. exists a, c. eauto using lex_le_trans.
Qed.

Lemma leb_not_nan x y :
  PrimFloat.leb x y = true -> is_nan x = false /\ is_nan y = false.
Proof.
  intros (a & b & Ha & Hb & _)%leb_key. split; apply is_nan_key; eauto.
Qed.

Lemma ltb_leb x y : PrimFloat.ltb x y = true -> PrimFloat.leb x y = true.
Proof.
  intros (a & b & Ha & Hb & Hn)%ltb_key. apply leb_key. exists a, b.
  repeat split; auto. destruct (lex_le_total a b); [assumption | contradiction].
Qed.

(** Among doubles that are not NaN, [y < x] fails exactly when [x <= y]. *)
Lemma not_ltb_leb x y :
  is_nan x = false -> is_nan y = false ->
  PrimFloat.ltb y x = false -> PrimFloat.leb x y = true.
Proof.
  intros [a Ha]%is_nan_key [b Hb]%is_nan_key Hlt.
  apply leb_key. exists a, b. repeat split; auto.
  destruct (lex_le_total a b) as [|Hba]; [assumption|].
  destruct (lex_le_spec a b) as [_ Hs].
  destruct (lex a b) eqn:E.
  - apply Hs. congruence.
  - apply Hs. congruence.
  - exfalso.
    assert (PrimFloat.ltb y x = true) as Hc; [|congruence].
    apply ltb_key. exists b, a. repeat split; auto.
    intros Hab. apply lex_le_spec in Hab. congruence.
Qed.

Lemma leb_not_ltb x y : PrimFloat.leb x y = true -> PrimFloat.ltb y x = false.
Proof.
  intros (a & b & Ha & Hb & Hab)%leb_key.
  destruct (PrimFloat.ltb y x) eqn:E; [|reflexivity].
  apply ltb_key in E as (b' & a' & Hb' & Ha' & Hn).
  rewrite Ha in Ha'. rewrite Hb in Hb'. inversion Ha'; inversion Hb'; subst.
  contradiction.
Qed.

End FloatOrder.

(** ** Parameters: the cells of the grid and the notification loop *)

Module ParameterFacts.
Import FloatOrder ParameterSpec.


Section Facts.
Context `{PyBuiltins} {CB : Type}.


Lemma default_val_typed k : has_declared_type k (default_val k).
Proof. destruct k; exact I. Qed.

Lemma int_clamp_bounds lo hi z : lo <= hi -> lo <= int_max lo (int_min hi z) <= hi.
Proof.
  intros Hle. unfold int_max, int_min.
  destruct (z <? hi) eqn:E1.
  - destruct (lo <? z) eqn:E2; lia.
  - destruct (lo <? hi) eqn:E2; lia.
Qed.

Lemma float_clamp_bounds lo hi f :
  PrimFloat.leb lo hi = true ->
  PrimFloat.leb lo (float_max lo (float_min hi f)) = true /\
  PrimFloat.leb (float_max lo (float_min hi f)) hi = true.
Proof.
  intros Hle. destruct (leb_not_nan _ _ Hle) as [Hlo Hhi].
  unfold float_max, float_min.
  destruct (PrimFloat.ltb f hi) eqn:E1.
  - destruct (PrimFloat.ltb lo f) eqn:E2.
    + split; apply ltb_leb; assumption.
    + split; [apply leb_refl|]; assumption.
  - destruct (PrimFloat.ltb lo hi) eqn:E2.
    + split; [assumption | apply leb_refl; assumption].
    + split; [apply leb_refl|]; assumption.
Qed.

Lemma coerce_ok k v v' : class_ok k -> coerce k v = inr v' -> cell_ok k v'.
Proof.
  destruct k as [lo hi d|lo hi d|d|d]; simpl; intros Hk Hc.
  - destruct (py_int v); inversion Hc; subst. split; [exact I|].
    simpl. apply int_clamp_bounds. unfold class_ok in Hk; simpl in Hk. lia.
  - destruct (py_float v); inversion Hc; subst. split; [exact I|].
    simpl. apply float_clamp_bounds. destruct Hk. eauto using leb_trans.
  - inversion Hc; subst. split; exact I.
  - inversion Hc; subst. split; exact I.
Qed.

(** [__post_init__] fills the missing cells of the grid and no other. *)
Lemma post_init_fold (d : PyVal) (l : list (Z * Z)) (vs : gmap (Z * Z) PyVal) k :
  foldl (fun vs rc => match vs !! rc with Some _ => vs | None => <[rc := d]> vs end) vs l !! k
  = match vs !! k with
    | Some v => Some v
    | None => if decide (k ∈ l) then Some d else None
    end.
Proof.
  revert vs. induction l as [|x l IH]; intros vs; simpl.
  - destruct (vs !! k); [reflexivity|].
    destruct (decide (k ∈ [])) as [Hin|]; [|reflexivity]. inversion Hin.
  - rewrite IH. destruct (vs !! x) eqn:Ex.
    + destruct (vs !! k) eqn:Ek; [reflexivity|].
      assert (k <> x) by congruence.
      destruct (decide (k ∈ l)), (decide (k ∈ x :: l)); try reflexivity.
      * exfalso. apply n. now right.
      * exfalso. apply elem_of_cons in e as [|]; auto.
    + destruct (decide (k = x)) as [->|Hne].
      * rewrite lookup_insert_eq, Ex.
        destruct (decide (x ∈ x :: l)) as [|Hn]; [reflexivity|]. exfalso. apply Hn. left.
      * rewrite lookup_insert_ne by congruence.
        destruct (vs !! k); [reflexivity|].
        destruct (decide (k ∈ l)), (decide (k ∈ x :: l)); try reflexivity.
        -- exfalso. apply n. now right.
        -- exfalso. apply elem_of_cons in e as [|]; auto.
Qed.

Lemma elem_of_cells rows cols r c :
  (r, c) ∈ cells rows cols <-> 0 <= r < rows /\ 0 <= c < cols.
Proof.
  unfold cells. rewrite list_elem_of_bind. split.
  - intros (r' & Hin & Hr'). apply list_elem_of_bind in Hin as (c' & Hin & Hc').
    apply list_elem_of_singleton in Hin. inversion Hin; subst.
    apply elem_of_seqZ in Hr', Hc'. lia.
  - intros [Hr Hc]. exists r. split; [|apply elem_of_seqZ; lia].
    apply list_elem_of_bind. exists c. split; [apply list_elem_of_singleton; reflexivity|].
    apply elem_of_seqZ. lia.
Qed.

Lemma post_init_get (p : BaseParameter CB) r c :
  get_value (post_init p) r c =
  match _values p !! (r, c) with
  | Some v => v
  | None => if decide (0 <= r < rows p /\ 0 <= c < cols p)
            then default_val (cls p) else VNone
  end.
Proof.
  unfold get_value, post_init. simpl. rewrite post_init_fold.
  destruct (_values p !! (r, c)); [reflexivity|].
  destruct (decide ((r, c) ∈ cells (rows p) (cols p))) as [Hin|Hin];
    destruct (decide (0 <= r < rows p /\ 0 <= c < cols p)) as [Hg|Hg]; try reflexivity;
    exfalso.
  - apply Hg, elem_of_cells, Hin.
  - apply Hin, elem_of_cells, Hg.
Qed.

Lemma new_parameter_get n pid nrows ncols k ro r c :
  get_value (new_parameter (CB:=CB) n pid nrows ncols k ro) r c =
  if decide (0 <= r < nrows /\ 0 <= c < ncols) then default_val k else VNone.
Proof. unfold new_parameter. rewrite post_init_get. simpl. rewrite lookup_empty. reflexivity. Qed.

Lemma new_parameter_ok n pid nrows ncols k ro :
  class_ok k -> param_ok (new_parameter (CB:=CB) n pid nrows ncols k ro).
Proof.
  intros Hk. split; [exact Hk|]. intros r c Hr Hc.
  rewrite new_parameter_get. simpl in *. rewrite decide_True by auto.
  split; [apply default_val_typed | exact Hk].
Qed.

Section Writes.
Context {Env : Type}.
Variable call : CB -> CallArgs -> World CB Env -> World CB Env.

(** With [notify=False] the method is the write alone. *)
Lemma set_value_quiet_eq fuel self row col v (w : World CB Env) :
  set_value call fuel self row col v false w = ([], set_value_quiet self row col v w).
Proof.
  unfold set_value, set_value_quiet, BaseParameter_set_value.
  destruct (params w !! self) as [p|]; [|reflexivity].
  destruct (coerce (cls p) v); reflexivity.
Qed.

Lemma get_value_insert (p : BaseParameter CB) row col v r c :
  get_value (with_values p (<[(row, col) := v]> (_values p))) r c =
  if decide ((row, col) = (r, c)) then v else get_value p r c.
Proof.
  unfold get_value. simpl. rewrite lookup_insert.
  destruct (decide ((row, col) = (r, c))); reflexivity.
Qed.

Lemma write_param_ok (p : BaseParameter CB) row col v :
  param_ok p -> cell_ok (cls p) v ->
  param_ok (with_values p (<[(row, col) := v]> (_values p))).
Proof.
  intros [Hk Hg] Hv. split; [exact Hk|]. intros r c Hr Hc.
  rewrite get_value_insert. simpl.
  destruct (decide ((row, col) = (r, c))); [exact Hv | apply Hg; assumption].
Qed.

Lemma put_store_ok self (p : BaseParameter CB) (w : World CB Env) :
  store_ok w -> param_ok p -> store_ok (put self p w).
Proof.
  intros Hw Hp r q. unfold put. simpl. rewrite lookup_insert.
  destruct (decide (self = r)); intros Hq.
  - inversion Hq; subst. exact Hp.
  - eapply Hw, Hq.
Qed.


Lemma notify_store_ok fuel : forall self a i w calls w',
  callbacks_keep_store_ok call -> store_ok w ->
  notify call fuel self a i w = (calls, Returned w') -> store_ok w'.
Proof.
  induction fuel as [|fuel IH]; intros self a i w calls w' Hcb Hw; simpl.
  - destruct (params w !! self) as [p|]; [|discriminate].
    destruct (_on_change_callbacks p !! i); [discriminate|].
    intros Heq; inversion Heq; subst. exact Hw.
  - destruct (params w !! self) as [p|]; [|discriminate].
    destruct (_on_change_callbacks p !! i) as [cb|].
    + destruct (notify call fuel self a (S i) (call cb a w)) as [calls0 o] eqn:En.
      intros Heq; inversion Heq; subst.
      eapply IH; [exact Hcb | apply Hcb, Hw | exact En].
    + intros Heq; inversion Heq; subst. exact Hw.
Qed.

Lemma set_value_store_ok fuel self row col v nfy (w : World CB Env) calls w' :
  callbacks_keep_store_ok call -> store_ok w ->
  set_value call fuel self row col v nfy w = (calls, Returned w') -> store_ok w'.
Proof.
  intros Hcb Hw. unfold set_value.
  destruct (params w !! self) as [p|] eqn:Ep; [|discriminate].
  destruct (coerce (cls p) v) as [e|v'] eqn:Ec; [discriminate|].
  unfold BaseParameter_set_value. rewrite Ep.
  assert (store_ok (put self (with_values p (<[(row, col) := v']> (_values p))) w)) as Hw1.
  { apply put_store_ok; [exact Hw|]. apply write_param_ok; [eapply Hw, Ep|].
    eapply coerce_ok; [|exact Ec]. eapply Hw, Ep. }
  destruct (nfy && py_ne (get_value p row col) v').
  - intros Hn. eapply notify_store_ok; eauto.
  - intros Heq; inversion Heq; subst. exact Hw1.
Qed.

(** A write that raises does so in the conversion, before anything is
    stored. *)
Lemma set_value_raised fuel self row col v nfy (w : World CB Env) calls e :
  set_value call fuel self row col v nfy w = (calls, Raised e) ->
  exists p, params w !! self = Some p /\ coerce (cls p) v = inl e.
Proof.
  unfold set_value. destruct (params w !! self) as [p|] eqn:Ep; [|discriminate].
  destruct (coerce (cls p) v) as [e'|v'] eqn:Ec.
  - intros Heq; inversion Heq; subst. eauto.
  - unfold BaseParameter_set_value. rewrite Ep.
    destruct (nfy && py_ne (get_value p row col) v').
    + intros Hn. exfalso. revert Hn.
      generalize (put self (with_values p (<[(row, col):=v']> (_values p))) w).
      generalize (mkArgs self row col v' (get_value p row col)). generalize 0%nat.
      clear. revert calls. induction fuel as [|fuel IH]; intros calls i a w; simpl.
      * destruct (params w !! self) as [p|]; [|discriminate].
        destruct (_on_change_callbacks p !! i); discriminate.
      * destruct (params w !! self) as [p|]; [|discriminate].
        destruct (_on_change_callbacks p !! i) as [cb|]; [|discriminate].
        destruct (notify call fuel self a (S i) (call cb a w)) as [calls0 o] eqn:En.
        intros Heq; inversion Heq; subst. eapply IH, En.
    + discriminate.
Qed.

(** *** The notification loop *)


(** The loop calls the callbacks [l] that stand in the list from index [i]
    on, in the order of the list, each on the state the call before it
    left, and goes on from the state the last of them leaves. *)
Lemma notify_runs self a : forall l i fuel (w : World CB Env) q pre post,
  callbacks_only_register call self ->
  params w !! self = Some q ->
  _on_change_callbacks q = pre ++ l ++ post ->
  length pre = i ->
  (length l <= fuel)%nat ->
  notify call fuel self a i w
  = (let '(rest, o) := notify call (fuel - length l) self a (i + length l)
                         (foldl (fun w cb => call cb a w) w l) in
     (calls_of a l ++ rest, o)).
Proof.
  induction l as [|cb l IH]; intros i fuel w q pre post Hreg Hq Hl Hi Hfuel.
  - simpl. rewrite Nat.sub_0_r, Nat.add_0_r.
    destruct (notify call fuel self a i w). reflexivity.
  - destruct fuel as [|fuel]; [simpl in Hfuel; lia|].
    assert (_on_change_callbacks q !! i = Some cb) as Hcb.
    { rewrite Hl, <- Hi. apply list_lookup_middle. reflexivity. }
    cbn [notify]. rewrite Hq, Hcb.
    destruct (Hreg cb a w q Hq) as (q' & Hq' & [k Hk]).
    rewrite (IH (S i) fuel (call cb a w) q' (pre ++ [cb]) (post ++ k) Hreg Hq').
    + cbn [foldl length]. replace (S i + length l)%nat with (i + S (length l))%nat by lia.
      replace (S fuel - S (length l))%nat with (fuel - length l)%nat by lia.
      destruct (notify call (fuel - length l) self a (i + S (length l)) _). reflexivity.
    + rewrite Hk, Hl. rewrite <- !app_assoc. reflexivity.
    + rewrite length_app. simpl. lia.
    + simpl in Hfuel. lia.
Qed.

(** With callbacks that leave the parameter objects alone the loop calls
    the registered callbacks once each and returns. *)
Lemma notify_quiet self a : forall fuel i (w : World CB Env) q,
  (forall cb a w, params (call cb a w) = params w) ->
  params w !! self = Some q ->
  (length (_on_change_callbacks q) - i <= fuel)%nat ->
  exists w', notify call fuel self a i w
             = (calls_of a (drop i (_on_change_callbacks q)), Returned w') /\
             params w' = params w.
Proof.
  induction fuel as [|fuel IH]; intros i w q Hq0 Hq Hfuel.
  - rewrite drop_ge by lia. simpl. rewrite Hq.
    rewrite (proj2 (lookup_ge_None _ _)) by lia. eauto.
  - simpl. rewrite Hq.
    destruct (_on_change_callbacks q !! i) as [cb|] eqn:Ei.
    + destruct (IH (S i) (call cb a w) q Hq0) as (w' & Hn & Hp).
      { rewrite Hq0. exact Hq. }
      { apply lookup_lt_Some in Ei. lia. }
      rewrite Hn. exists w'. rewrite (drop_S _ _ _ Ei). simpl.
      split; [reflexivity|]. rewrite Hp. apply Hq0.
    + apply lookup_ge_None in Ei. rewrite drop_ge by lia. simpl. eauto.
Qed.


Lemma drop_S_middle {A} (pre : list A) x rest :
  drop (S (length pre)) (pre ++ x :: rest) = rest.
Proof. induction pre; simpl; auto. Qed.

Lemma notify_stable self a r : forall fuel i (w : World CB Env) q,
  others_keep_list call self r ->
  params w !! self = Some q ->
  Forall (fun cb => cb <> r) (drop i (_on_change_callbacks q)) ->
  (length (_on_change_callbacks q) - i <= fuel)%nat ->
  exists w', notify call fuel self a i w
             = (calls_of a (drop i (_on_change_callbacks q)), Returned w').
Proof.
  induction fuel as [|fuel IH]; intros i w q Ho Hq Hne Hfuel.
  - rewrite drop_ge by lia. simpl. rewrite Hq.
    rewrite (proj2 (lookup_ge_None _ _)) by lia. eauto.
  - simpl. rewrite Hq.
    destruct (_on_change_callbacks q !! i) as [cb|] eqn:Ei.
    + rewrite (drop_S _ _ _ Ei) in Hne |- *. inversion Hne as [|? ? Hcb Hrest]; subst.
      destruct (Ho cb Hcb a w q Hq) as (q' & Hq' & Hl).
      destruct (IH (S i) (call cb a w) q' Ho Hq') as (w' & Hn).
      { rewrite Hl. exact Hrest. }
      { rewrite Hl. apply lookup_lt_Some in Ei. lia. }
      rewrite Hn, Hl. simpl. eauto.
    + apply lookup_ge_None in Ei. rewrite drop_ge by lia. simpl. eauto.
Qed.

Lemma notify_registering self a r c pre post : forall fuel i (w : World CB Env) q,
  registers call self r c -> others_keep_list call self r ->
  params w !! self = Some q ->
  _on_change_callbacks q = pre ++ r :: post ->
  (i <= length pre)%nat ->
  Forall (fun cb => cb <> r) (drop i pre) ->
  Forall (fun cb => cb <> r) post -> c <> r ->
  (length pre + length post + 2 - i <= fuel)%nat ->
  exists w', notify call fuel self a i w
             = (calls_of a (drop i (pre ++ r :: post ++ [c])), Returned w').
Proof.
  induction fuel as [|fuel IH]; intros i w q Hr Ho Hq Hl Hi Hpre Hpost Hc Hfuel; [lia|].
  simpl. rewrite Hq.
  destruct (decide (i = length pre)) as [->|Hlt].
  - rewrite Hl, list_lookup_middle by reflexivity.
    destruct (Hr a w q Hq) as (q' & Hq' & Hl').
    destruct (notify_stable self a r fuel (S (length pre)) (call r a w) q' Ho Hq')
      as (w' & Hn).
    { rewrite Hl', Hl, <- app_assoc. simpl. rewrite drop_S_middle.
      apply Forall_app. split; [exact Hpost | constructor; [exact Hc | constructor]]. }
    { rewrite Hl', Hl. repeat (rewrite length_app; simpl). lia. }
    rewrite Hn, Hl', Hl. exists w'. f_equal.
    rewrite <- app_assoc. simpl.
    rewrite drop_app_length, drop_S_middle. reflexivity.
  - assert (i < length pre)%nat as Hlt' by lia.
    destruct (lookup_lt_is_Some_2 pre i Hlt') as [cb Ei].
    assert (_on_change_callbacks q !! i = Some cb) as Eq.
    { rewrite Hl. apply lookup_app_l_Some, Ei. }
    rewrite Eq. rewrite (drop_S _ _ _ Ei) in Hpre.
    inversion Hpre as [|? ? Hcb Hrest]; subst.
    destruct (Ho cb Hcb a w q Hq) as (q' & Hq' & Hl').
    destruct (IH (S i) (call cb a w) q' Hr Ho Hq') as (w' & Hn); auto; try lia.
    { rewrite Hl'. exact Hl. }
    rewrite Hn. exists w'. f_equal.
    assert ((pre ++ r :: post ++ [c]) !! i = Some cb) as Ei'.
    { apply lookup_app_l_Some, Ei. }
    rewrite (drop_S _ _ _ Ei'). reflexivity.
Qed.

End Writes.

End Facts.
End ParameterFacts.


Import ParameterSpec ParameterFacts Examples.

(** ** Notification on change (C2) *)

(** C2. A [set_value(row, col, value, notify=True)] whose coerced and
    clamped value equals the value stored before stores it and calls no
    subscriber. When it differs, the subscribers registered are called in
    registration order, each with [(param, row, col, new, old)] and each
    on the state the call before it left: the loop reaches the end of the
    list it started with in the state [called], with these calls made,
    and goes on from there with what the callbacks registered meanwhile;
    when they registered nothing, the write returns in the state
    [called]. *)
Theorem C2_subscribers_called_iff_changed `{PyBuiltins} {CB Env : Type}
    (call : CB -> CallArgs -> World CB Env -> World CB Env)
    (fuel : nat) (self : ref) (row col : Z) (v v' : PyVal)
    (w : World CB Env) (p : BaseParameter CB) :
  params w !! self = Some p ->
  coerce (cls p) v = inr v' ->
  callbacks_only_register call self ->
  (length (_on_change_callbacks p) <= fuel)%nat ->
  let old := get_value p row col in
  let stored := put self (with_values p (<[(row, col) := v']> (_values p))) w in
  let a := mkArgs self row col v' old in
  let called := foldl (fun w cb => call cb a w) stored (_on_change_callbacks p) in
  (py_eq old v' = true ->
     set_value call fuel self row col v true w = ([], Returned stored)) /\
  (py_eq old v' = false ->
     set_value call fuel self row col v true w
     = (let '(rest, o) := notify call (fuel - length (_on_change_callbacks p)) self a
                            (length (_on_change_callbacks p)) called in
        (calls_of a (_on_change_callbacks p) ++ rest, o)) /\
     (forall q, params called !! self = Some q ->
                _on_change_callbacks q = _on_change_callbacks p ->
                set_value call fuel self row col v true w
                = (calls_of a (_on_change_callbacks p), Returned called))).
Proof.
  intros Hp Hc Hreg Hfuel old stored a called.
  unfold set_value, BaseParameter_set_value. rewrite Hp, Hc. unfold py_ne.
  fold old. fold stored. fold a.
  split; intros Heq; rewrite Heq; cbn [negb andb]; [reflexivity|].
  assert (notify call fuel self a 0 stored
          = (let '(rest, o) := notify call (fuel - length (_on_change_callbacks p)) self a
                                 (length (_on_change_callbacks p)) called in
             (calls_of a (_on_change_callbacks p) ++ rest, o))) as Hrun.
  { apply (notify_runs call self a (_on_change_callbacks p) 0 fuel stored
             (with_values p (<[(row, col) := v']> (_values p))) [] [] Hreg).
    - unfold stored, put. simpl. apply lookup_insert_eq.
    - simpl. rewrite app_nil_r. reflexivity.
    - reflexivity.
    - exact Hfuel. }
  split; [exact Hrun|].
  intros q Hq Hsame. rewrite Hrun.
  assert (notify call (fuel - length (_on_change_callbacks p)) self a
            (length (_on_change_callbacks p)) called = ([], Returned called)) as ->.
  { destruct (fuel - length (_on_change_callbacks p))%nat; simpl; rewrite Hq, Hsame;
      rewrite (proj2 (lookup_ge_None _ _)) by lia; reflexivity. }
  rewrite app_nil_r. reflexivity.
Qed.

Lemma C2_witness :
  exists w',
    set_value C2Example.noting 2 0%nat 0 0 (VInt 5) true C2Example.one_int.2
    = ([(7%nat, mkArgs 0%nat 0 0 (VInt 5) (VInt 0));
        (8%nat, mkArgs 0%nat 0 0 (VInt 5) (VInt 0))], Returned w') /\
    env C2Example.one_int.2 = [] /\
    env w' = [7%nat; 8%nat].
Proof.
  eexists. split.
  { refine (proj2 (proj2 (C2_subscribers_called_iff_changed C2Example.noting 2 0%nat 0 0
                            (VInt 5) (VInt 5) C2Example.one_int.2
                            (with_callbacks
                               (new_parameter "y" 1 1 1 (IntParameter 0 100 0) false)
                               [7%nat; 8%nat]) _ _ _ _) _) _ _ _).
    - vm_compute. reflexivity.
    - vm_compute. reflexivity.
    - intros cb a w q Hq. exists q. split; [exact Hq | reflexivity].
    - simpl. lia.
    - vm_compute. reflexivity.
    - vm_compute. reflexivity.
    - reflexivity. }
  split; vm_compute; reflexivity.
Defined.

(** ** Callbacks registered during a notification (C7) *)


(** C7, as stated, fails: callback 9, which callback 7 registers while the
    notification of a write to a parameter with the subscribers [7; 8] is in
    progress, is called for the same change. *)
Lemma C7_counterexample_no_snapshot :
  exists p calls,
    params one_int.2 !! 0%nat = Some p /\
    _on_change_callbacks p = [7%nat; 8%nat] /\
    fst (set_value C7Example.registering 5 0%nat 0 0 (VInt 5) true one_int.2) = calls /\
    (9%nat, mkArgs 0%nat 0 0 (VInt 5) (VInt 0)) ∈ calls.
Proof.
  eexists _, _. split; [vm_compute; reflexivity|].
  split; [reflexivity|]. split; [vm_compute; reflexivity|].
  do 2 right. left.
Qed.

(** C7, amended. The notification walks the list of subscribers itself, not
    a snapshot: when a subscriber [r] registers a callback [c] through
    [on_change] during the notification (and the other callbacks leave the
    list alone), [c] is called for the same change, after the subscribers
    registered before. *)
Theorem C7_registered_during_notification_is_called `{PyBuiltins} {CB Env : Type}
    (call : CB -> CallArgs -> World CB Env -> World CB Env)
    (fuel : nat) (self : ref) (row col : Z) (v v' : PyVal)
    (w : World CB Env) (p : BaseParameter CB) (pre post : list CB) (r c : CB) :
  params w !! self = Some p ->
  coerce (cls p) v = inr v' ->
  py_eq (get_value p row col) v' = false ->
  _on_change_callbacks p = pre ++ r :: post ->
  Forall (fun cb => cb <> r) pre ->
  Forall (fun cb => cb <> r) post ->
  c <> r ->
  registers call self r c ->
  others_keep_list call self r ->
  (length pre + length post + 2 <= fuel)%nat ->
  exists w',
    set_value call fuel self row col v true w
    = (map (fun cb => (cb, mkArgs self row col v' (get_value p row col)))
           (pre ++ r :: post ++ [c]),
       Returned w').
Proof.
  intros Hp Hc Hne Hl Hpre Hpost Hcr Hr Ho Hfuel.
  unfold set_value, BaseParameter_set_value. rewrite Hp, Hc. unfold py_ne.
  rewrite Hne. simpl.
  set (p1 := with_values p (<[(row, col):=v']> (_values p))).
  destruct (notify_registering call self
              (mkArgs self row col v' (get_value p row col)) r c pre post fuel 0
              (put self p1 w) p1 Hr Ho) as [w' Hn]; auto.
  - unfold put. simpl. apply lookup_insert_eq.
  - lia.
  - lia.
  - exists w'. rewrite Hn, drop_0. reflexivity.
Qed.

Lemma C7_witness :
  exists w',
    set_value C7Example.registering 5 0%nat 0 0 (VInt 5) true one_int.2
    = (map (fun cb => (cb, mkArgs 0%nat 0 0 (VInt 5) (VInt 0))) [7%nat; 8%nat; 9%nat],
       Returned w').
Proof.
  refine (C7_registered_during_notification_is_called C7Example.registering
            5 0%nat 0 0 (VInt 5) (VInt 5) one_int.2
            (with_callbacks (new_parameter "y" 1 1 1 (IntParameter 0 100 0) false)
               [7%nat; 8%nat])
            [] [8%nat] 7%nat 9%nat _ _ _ _ _ _ _ _ _ _).
  - vm_compute. reflexivity.
  - vm_compute. reflexivity.
  - vm_compute. reflexivity.
  - reflexivity.
  - constructor.
  - constructor; [lia | constructor].
  - lia.
  - intros a w q Hq. unfold C7Example.registering, on_change. simpl. rewrite Hq.
    eexists. split; [apply lookup_insert_eq | reflexivity].
  - intros cb Hcb a w q Hq. unfold C7Example.registering.
    destruct (Nat.eqb_spec cb 7) as [->|_]; [contradiction|].
    exists q. split; [exact Hq | reflexivity].
  - simpl. lia.
Defined.

(** ** Cells outside the grid (C9) *)

(** A write through callbacks that leave the parameter objects alone:
    it returns, and the coerced value is then the value of the cell. *)
Lemma set_value_stores `{PyBuiltins} {CB Env : Type}
    (call : CB -> CallArgs -> World CB Env -> World CB Env)
    (fuel : nat) (self : ref) (row col : Z) (v v' : PyVal) (do_notify : bool)
    (w : World CB Env) (p : BaseParameter CB) :
  params w !! self = Some p ->
  coerce (cls p) v = inr v' ->
  (forall cb a w, params (call cb a w) = params w) ->
  (length (_on_change_callbacks p) <= fuel)%nat ->
  exists calls w' p',
    set_value call fuel self row col v do_notify w = (calls, Returned w') /\
    params w' !! self = Some p' /\
    get_value p' row col = v' /\
    rows p' = rows p /\ cols p' = cols p.
Proof.
  intros Hp Hc Hq Hfuel.
  unfold set_value, BaseParameter_set_value. rewrite Hp, Hc.
  set (p1 := with_values p (<[(row, col):=v']> (_values p))).
  assert (params (put self p1 w) !! self = Some p1) as Hp1.
  { unfold put. simpl. apply lookup_insert_eq. }
  assert (get_value p1 row col = v') as Hg.
  { unfold p1. rewrite get_value_insert. rewrite decide_True; reflexivity. }
  destruct (do_notify && py_ne (get_value p row col) v').
  - destruct (notify_quiet call self (mkArgs self row col v' (get_value p row col))
                fuel 0 (put self p1 w) p1 Hq Hp1) as (w' & Hn & Hw'); [simpl; lia|].
    rewrite Hn. eexists _, w', p1. split; [reflexivity|].
    rewrite Hw'. auto.
  - eexists _, _, p1. split; [reflexivity|]. auto.
Qed.

(** C9. [set_value] checks no bounds: for any integers [row] and [col], in
    the grid or not, the write returns normally, the coerced value is
    stored under [(row, col)] and [get_value(row, col)] then returns it,
    with the dimensions as they were (callbacks that leave the parameter
    objects alone, fuel for one call each); and a cell outside the grid
    that was never written reads [None]. *)
Theorem C9_set_value_checks_no_bounds `{PyBuiltins} {CB Env : Type}
    (call : CB -> CallArgs -> World CB Env -> World CB Env)
    (fuel : nat) (self : ref) (row col : Z) (v v' : PyVal) (do_notify : bool)
    (w : World CB Env) (p : BaseParameter CB) :
  params w !! self = Some p ->
  coerce (cls p) v = inr v' ->
  (forall cb a w, params (call cb a w) = params w) ->
  (length (_on_change_callbacks p) <= fuel)%nat ->
  (exists calls w' p',
     set_value call fuel self row col v do_notify w = (calls, Returned w') /\
     params w' !! self = Some p' /\
     get_value p' row col = v' /\
     rows p' = rows p /\ cols p' = cols p) /\
  (forall n pid nrows ncols k ro r c,
     ~ (0 <= r < nrows /\ 0 <= c < ncols) ->
     get_value (new_parameter (CB:=CB) n pid nrows ncols k ro) r c = VNone).
Proof.
  intros Hp Hc Hq Hfuel. split.
  - eapply set_value_stores; eassumption.
  - intros n pid nrows ncols k ro r c Hout. rewrite new_parameter_get.
    destruct (decide (0 <= r < nrows /\ 0 <= c < ncols)); [contradiction | reflexivity].
Qed.

Lemma C9_witness :
  (exists calls w' p',
     set_value idle 2 0%nat 5 (-3) (VStr "42") true one_int.2 = (calls, Returned w') /\
     params w' !! 0%nat = Some p' /\
     get_value p' 5 (-3) = VInt 42 /\
     rows p' = 1 /\ cols p' = 1) /\
  (forall n pid nrows ncols k ro r c,
     ~ (0 <= r < nrows /\ 0 <= c < ncols) ->
     get_value (new_parameter (CB:=nat) n pid nrows ncols k ro) r c = VNone).
Proof.
  refine (C9_set_value_checks_no_bounds idle 2 0%nat 5 (-3) (VStr "42") (VInt 42) true
            one_int.2
            (with_callbacks (new_parameter "y" 1 1 1 (IntParameter 0 100 0) false)
               [7%nat; 8%nat]) _ _ _ _).
  - vm_compute. reflexivity.
  - vm_compute. reflexivity.
  - intros cb a w. reflexivity.
  - simpl. lia.
Defined.

(** ** Types and bounds of the cells (C1) *)


Lemma run_writes_store_ok `{PyBuiltins} {CB Env : Type}
    (call : CB -> CallArgs -> World CB Env -> World CB Env) ops :
  callbacks_keep_store_ok call ->
  forall w w', store_ok w -> run_writes call ops w = Some w' -> store_ok w'.
Proof.
  intros Hcb. induction ops as [|op ops IH]; intros w w' Hw; simpl.
  - intros Heq; inversion Heq; subst. exact Hw.
  - destruct (set_value call (w_fuel op) (w_self op) (w_row op) (w_col op)
                (w_value op) (w_notify op) w) as [calls [w1|e| |]] eqn:Es;
      try discriminate.
    + apply IH. eapply set_value_store_ok; eauto.
    + apply IH, Hw.
Qed.

Lemma run_writes_keeps_objects `{PyBuiltins} {CB Env : Type}
    (call : CB -> CallArgs -> World CB Env -> World CB Env) ops (self : ref) :
  (forall cb a w, is_Some (params w !! self) -> is_Some (params (call cb a w) !! self)) ->
  forall w w', is_Some (params w !! self) -> run_writes call ops w = Some w' ->
               is_Some (params w' !! self).
Proof.
  intros Hcb. induction ops as [|op ops IH]; intros w w' Hw; simpl.
  - intros Heq; inversion Heq; subst. exact Hw.
  - destruct (set_value call (w_fuel op) (w_self op) (w_row op) (w_col op)
                (w_value op) (w_notify op) w) as [calls [w1|e| |]] eqn:Es;
      try discriminate; [|apply IH, Hw].
    apply IH. revert Es. unfold set_value.
    destruct (params w !! w_self op) as [p|] eqn:Ep; [|discriminate].
    destruct (coerce (cls p) (w_value op)) as [e|v']; [discriminate|].
    unfold BaseParameter_set_value. rewrite Ep.
    set (w0 := put (w_self op) _ w).
    assert (is_Some (params w0 !! self)) as Hw0.
    { unfold w0, put. simpl. rewrite lookup_insert.
      destruct (decide (w_self op = self)); [eauto | exact Hw]. }
    destruct (w_notify op && py_ne (get_value p (w_row op) (w_col op)) v').
    + generalize (mkArgs (w_self op) (w_row op) (w_col op) v'
                    (get_value p (w_row op) (w_col op))).
      generalize 0%nat. revert Hw0. generalize w0. clear -Hcb. revert calls.
      induction (w_fuel op) as [|fuel IHf]; intros calls w0 Hw0 i a; simpl.
      * destruct (params w0 !! w_self op) as [q|]; [|discriminate].
        destruct (_on_change_callbacks q !! i); [discriminate|].
        intros Heq; inversion Heq; subst. exact Hw0.
      * destruct (params w0 !! w_self op) as [q|]; [|discriminate].
        destruct (_on_change_callbacks q !! i) as [cb|].
        -- destruct (notify call fuel (w_self op) a (S i) (call cb a w0)) as [c0 o] eqn:En.
           intros Heq; inversion Heq; subst. eapply IHf; [|exact En]. apply Hcb, Hw0.
        -- intros Heq; inversion Heq; subst. exact Hw0.
    + intros Heq; inversion Heq; subst. exact Hw0.
Qed.

(** C1, as stated, fails on the mirror objects: the object discovery
    builds for an integer parameter of one cell with [min=0], [max=100]
    reads [None] at [(0, 0)], which is no integer; and a pushed update
    stores [150] there as it comes. It also fails for a local parameter
    constructed with a default outside its bounds: the cell starts at the
    default. *)
Lemma C1_counterexample_remote_mirror :
  let info := CentralHub.mkInfo (Some "level") (Some 7) (Some 1) (Some 1) (Some false)
                (VInt 0) (VInt 100) in
  (exists p d d' r p',
     CentralHub.discovered_parameter "int" info = Some p /\
     (0 <= 0 < CentralHub.rows p /\ 0 <= 0 < CentralHub.cols p) /\
     CentralHub.min_val p = VInt 0 /\ CentralHub.max_val p = VInt 100 /\
     CentralHub.get_value p 0 0 = VNone /\
     d = CentralHub.add_parameter
           (CentralHub.mkDevice "10.0.0.46" ∅ [("Light", new_component "Light")]) "Light" p /\
     d' = fst (CentralHub._handle_param_update d ∅
                 (CentralHub.mkUpdate (Some 7) 0 0 (VInt 150))) /\
     CentralHub.get_param_by_id d' 7 = Some r /\
     CentralHub.objects d' !! r.2 = Some p' /\
     CentralHub.get_value p' 0 0 = VInt 150 /\
     ~ (0 <= 150 <= 100)) /\
  (get_value (new_parameter (CB:=nat) "level" 1 1 1 (IntParameter 0 100 200) false) 0 0
   = VInt 200 /\ ~ (0 <= 200 <= 100)).
Proof.
  intros info. split.
  - eexists _, _, _, _, _.
    split; [reflexivity|]. split; [simpl; lia|].
    split; [reflexivity|]. split; [reflexivity|]. split; [reflexivity|].
    split; [reflexivity|]. split; [reflexivity|].
    split; [vm_compute; reflexivity|]. split; [vm_compute; reflexivity|].
    split; [vm_compute; reflexivity|]. lia.
  - split; [vm_compute; reflexivity | lia].
Qed.

(** C1, amended to the parameters of local components. A parameter object
    an [add_*_param] method constructs with [min <= default <= max] holds,
    after any sequence of [set_value] calls on the objects of the store, at
    every cell of its grid a value of its declared type, within
    [[min, max]] for the numeric types (the callbacks keeping the objects of
    the store in that state). And a protocol [set_param] with value [150]
    on a writable integer parameter with [min=0], [max=100] is answered
    with success and leaves [100] in the cell (callbacks that leave the
    parameter objects alone, fuel for one call each). *)
Theorem C1_local_cells_typed_and_clamped `{PyBuiltins} {CB Env : Type}
    (call : CB -> CallArgs -> World CB Env -> World CB Env)
    (local_components : list (string * Component))
    (c : Component) (pname : string) (nrows ncols : Z) (k : ParamClass) (ro : bool)
    (next_id : Z) (w0 : World CB Env)
    (c' : Component) (self : ref) (next' : Z) (w1 : World CB Env)
    (ops : list Write) (w : World CB Env) :
  class_ok k ->
  store_ok w0 ->
  callbacks_keep_store_ok call ->
  (forall cb a w r, is_Some (params w !! r) -> is_Some (params (call cb a w) !! r)) ->
  add_param c pname nrows ncols k ro next_id w0 = (c', self, next', w1) ->
  run_writes call ops w1 = Some w ->
  (exists p,
     params w !! self = Some p /\
     forall r c, 0 <= r < rows p -> 0 <= c < cols p ->
       has_declared_type (cls p) (get_value p r c) /\
       within_bounds (cls p) (get_value p r c)) /\
  (forall fuel websocket m request r p d,
     WebServer.msg_type request = Some "set_param" ->
     WebServer.lookup_param local_components w request = Some r ->
     params w !! r = Some p ->
     cls p = IntParameter 0 100 d ->
     read_only p = false ->
     WebServer.value request = VInt 150 ->
     (forall cb a w, params (call cb a w) = params w) ->
     (length (_on_change_callbacks p) <= fuel)%nat ->
     exists calls w' p',
       WebServer._handle_message call local_components fuel websocket request m w
       = (calls, Returned (WebServer.Success, m, w')) /\
       params w' !! r = Some p' /\
       get_value p' (WebServer.row request) (WebServer.col request) = VInt 100).
Proof.
  intros Hk Hw0 Hcb Hkeep Hadd Hrun.
  unfold add_param in Hadd. inversion Hadd; subst; clear Hadd.
  set (self := fresh (dom (params w0))) in *.
  set (p0 := new_parameter pname next_id nrows ncols k ro) in *.
  assert (store_ok (put self p0 w0)) as Hw1.
  { apply put_store_ok; [exact Hw0 | apply new_parameter_ok, Hk]. }
  assert (store_ok w) as Hw by (eapply run_writes_store_ok; eauto).
  split.
  - destruct (run_writes_keeps_objects call ops self (fun cb a w => Hkeep cb a w self)
                (put self p0 w0) w) as [p Hp]; [|exact Hrun|].
    { unfold put. simpl. rewrite lookup_insert_eq. eauto. }
    exists p. split; [exact Hp|]. intros r c0 Hr Hc. apply (Hw _ _ Hp); assumption.
  - intros fuel websocket m request r p d Ht Hl Hp Hcls Hro Hv Hq Hfuel.
    assert (coerce (cls p) (VInt 150) = inr (VInt 100)) as Hc.
    { rewrite Hcls. reflexivity. }
    destruct (set_value_stores call fuel r (WebServer.row request) (WebServer.col request)
                (VInt 150) (VInt 100) true w p Hp Hc Hq Hfuel)
      as (calls & w' & p' & Hs & Hp' & Hg & _).
    exists calls, w', p'. split; [|auto].
    unfold WebServer._handle_message. rewrite Ht.
    cbn -[WebServer.handle_set_param].
    unfold WebServer.handle_set_param. rewrite Hv, Hl, Hp, Hro, Hs. reflexivity.
Qed.

Lemma C1_witness :
  let '(c', self, _, w1) :=
    add_param (new_component "X") "y" 1 1 (IntParameter 0 100 0) false 1
      (mkWorld (CB:=nat) ∅ tt) in
  let ops := [mkWrite self 0 0 (VInt 150) true 0; mkWrite self 0 0 (VStr "abc") true 0;
              mkWrite self 0 0 (VFloat (-2)) false 0] in
  exists w, run_writes idle ops w1 = Some w /\
  (exists p,
     params w !! self = Some p /\
     forall r c, 0 <= r < rows p -> 0 <= c < cols p ->
       has_declared_type (cls p) (get_value p r c) /\
       within_bounds (cls p) (get_value p r c)) /\
  (forall fuel websocket m request r p d,
     WebServer.msg_type request = Some "set_param" ->
     WebServer.lookup_param [("X", c')] w request = Some r ->
     params w !! r = Some p ->
     cls p = IntParameter 0 100 d ->
     read_only p = false ->
     WebServer.value request = VInt 150 ->
     (forall cb a w, params (idle cb a w) = params w) ->
     (length (_on_change_callbacks p) <= fuel)%nat ->
     exists calls w' p',
       WebServer._handle_message idle [("X", c')] fuel websocket request m w
       = (calls, Returned (WebServer.Success, m, w')) /\
       params w' !! r = Some p' /\
       get_value p' (WebServer.row request) (WebServer.col request) = VInt 100).
Proof.
  simpl. eexists. split; [vm_compute; reflexivity|].
  refine (C1_local_cells_typed_and_clamped idle _
            (new_component "X") "y" 1 1 (IntParameter 0 100 0) false 1 (mkWorld ∅ tt)
            _ _ _ _
            [mkWrite 0%nat 0 0 (VInt 150) true 0; mkWrite 0%nat 0 0 (VStr "abc") true 0;
             mkWrite 0%nat 0 0 (VFloat (-2)) false 0] _ _ _ _ _ _ _).
  - unfold class_ok. simpl. lia.
  - intros r p Hp. simpl in Hp. rewrite lookup_empty in Hp. discriminate.
  - intros cb a w Hw. exact Hw.
  - intros cb a w r Hr. exact Hr.
  - reflexivity.
  - vm_compute. reflexivity.
Defined.

(** ** The trigger cell of NetworkActions (C6) *)

Module TriggerFacts.
Import NetworkActions.

Section Trigger.
Context `{PyBuiltins}.
Variable other : nat -> CallArgs -> World Callback Env -> World Callback Env.

(** The broadcast closures, one after the other, each create their task
    and touch nothing else. *)
Lemma notify_broadcasts trigger a : forall pids fuel pre (w : World Callback Env) q,
  params w !! trigger = Some q ->
  _on_change_callbacks q = pre ++ map Broadcast pids ->
  (length pids <= fuel)%nat ->
  notify (call other) fuel trigger a (length pre) w
  = (map (fun pid => (Broadcast pid, a)) pids,
     Returned (mkWorld (params w)
                 (env w ++ map (fun pid => BroadcastUpdate pid (cb_row a) (cb_col a) (cb_new a))
                               pids))).
Proof.
  induction pids as [|pid pids IH]; intros fuel pre w q Hq Hl Hfuel.
  - simpl in *. rewrite app_nil_r in *. destruct fuel; simpl; rewrite Hq, Hl;
      rewrite (proj2 (lookup_ge_None _ _)) by lia; destruct w; reflexivity.
  - destruct fuel as [|fuel]; [simpl in Hfuel; lia|].
    simpl in Hl. simpl. rewrite Hq, Hl. rewrite list_lookup_middle by reflexivity.
    cbn [call]. unfold broadcast_callback.
    specialize (IH fuel (pre ++ [Broadcast pid])
                  (mkWorld (params w)
                     (env w ++ [BroadcastUpdate pid (cb_row a) (cb_col a) (cb_new a)])) q).
    rewrite length_app in IH. simpl in IH. rewrite Nat.add_1_r in IH.
    rewrite IH.
    + simpl. rewrite <- app_assoc. reflexivity.
    + exact Hq.
    + rewrite Hl, <- app_assoc. reflexivity.
    + simpl in Hfuel. lia.
Qed.

(** A notified write of a value that the clamp leaves at or above zero:
    the action of that slot is started, the cell is back at [-1], and every
    subscriber has been called once, for the value written. *)
Lemma trigger_fires fuel trigger (pids : list Z) (k c : Z) (w : World Callback Env) p :
  params w !! trigger = Some p ->
  cls p = trigger_class ->
  _on_change_callbacks p = OnTriggerChange trigger :: map Broadcast pids ->
  get_value p 0 0 = VInt (-1) ->
  (S (length pids) <= fuel)%nat ->
  int_max (-1) (int_min 99 k) = c ->
  0 <= c ->
  exists w' p',
    set_value (call other) fuel trigger 0 0 (VInt k) true w
    = (map (fun cb => (cb, mkArgs trigger 0 0 (VInt c) (VInt (-1))))
           (OnTriggerChange trigger :: map Broadcast pids),
       Returned w') /\
    params w' !! trigger = Some p' /\
    get_value p' 0 0 = VInt (-1) /\
    env w' = env w ++ ExecuteAction (VInt c)
                   :: map (fun pid => BroadcastUpdate pid 0 0 (VInt c)) pids.
Proof.
  intros Hp Hcls Hcbs Hold Hfuel Hc Hpos.
  assert (coerce trigger_class (VInt k) = inr (VInt c)) as Hco.
  { unfold trigger_class, coerce, py_int. change (NUM_NETWORK_ACTIONS - 1) with 99.
    rewrite Hc. reflexivity. }
  assert (py_ne (VInt (-1)) (VInt c) = true) as Hne.
  { unfold py_ne, py_eq. apply negb_true_iff, Z.eqb_neq. lia. }
  assert (coerce trigger_class (VInt (-1)) = inr (VInt (-1))) as Hreset by reflexivity.
  unfold set_value. rewrite Hp, Hcls, Hco.
  unfold BaseParameter_set_value. rewrite Hp, Hold, Hne. cbn [andb].
  set (a := mkArgs trigger 0 0 (VInt c) (VInt (-1))).
  set (p1 := with_values p (<[(0, 0):=VInt c]> (_values p))).
  destruct fuel as [|fuel]; [lia|]. cbn [notify].
  unfold put at 1. cbn [params]. rewrite lookup_insert_eq.
  replace (_on_change_callbacks p1) with (OnTriggerChange trigger :: map Broadcast pids)
    by (symmetry; exact Hcbs).
  cbn [lookup list_lookup call]. unfold _on_trigger_change.
  replace (ge_zero (cb_new a)) with (Some true)
    by (unfold a; simpl; f_equal; symmetry; apply Z.leb_le; lia).
  unfold set_value_quiet. cbn [params env put]. rewrite lookup_insert_eq.
  replace (cls p1) with trigger_class by (symmetry; exact Hcls). rewrite Hreset.
  cbv beta iota.
  set (p2 := with_values p1 _). set (w2 := put trigger p2 _).
  pose proof (notify_broadcasts trigger a pids fuel [OnTriggerChange trigger] w2 p2) as Hn.
  cbn [length] in Hn. rewrite Hn.
  - exists (mkWorld (params w2)
              (env w2 ++ map (fun pid => BroadcastUpdate pid (cb_row a) (cb_col a) (cb_new a))
                             pids)), p2.
    split; [simpl; rewrite map_map; reflexivity|]. cbn [params env].
    split; [unfold w2, put; cbn [params]; apply lookup_insert_eq|].
    split; [unfold p2; rewrite get_value_insert; rewrite decide_True; reflexivity|].
    unfold w2, put. cbn [env]. rewrite <- app_assoc. reflexivity.
  - unfold w2, put. cbn [params]. apply lookup_insert_eq.
  - exact Hcbs.
  - lia.
Qed.

(** A notified write of a value that the clamp takes to [-1], on the idle
    cell: nothing changes and nobody is called. *)
Lemma trigger_idle fuel trigger (k : Z) (w : World Callback Env) p :
  params w !! trigger = Some p ->
  cls p = trigger_class ->
  get_value p 0 0 = VInt (-1) ->
  k <= -1 ->
  exists w' p',
    set_value (call other) fuel trigger 0 0 (VInt k) true w = ([], Returned w') /\
    params w' !! trigger = Some p' /\
    get_value p' 0 0 = VInt (-1) /\
    env w' = env w.
Proof.
  intros Hp Hcls Hold Hk.
  unfold set_value, BaseParameter_set_value. rewrite Hp, Hcls. simpl.
  change (NUM_NETWORK_ACTIONS - 1) with 99.
  assert (int_max (-1) (int_min 99 k) = -1) as ->.
  { unfold int_max, int_min. destruct (k <? 99) eqn:E1; [|lia].
    destruct (-1 <? k) eqn:E2; lia. }
  rewrite Hold. unfold py_ne. simpl.
  eexists _, _. split; [reflexivity|]. simpl.
  split; [apply lookup_insert_eq|].
  split; [rewrite get_value_insert; rewrite decide_True; reflexivity | reflexivity].
Qed.

(** The callbacks of the hub keep every cell of every parameter typed and
    within bounds, when the other callables do. *)
Lemma call_keeps_store_ok :
  (forall n a w, store_ok w -> store_ok (other n a w)) ->
  callbacks_keep_store_ok (call other).
Proof.
  intros Ho cb a w Hw. destruct cb as [trigger|pid|n]; simpl.
  - unfold _on_trigger_change. destruct (ge_zero (cb_new a)) as [[|]|]; try exact Hw.
    set (w1 := mkWorld (params w) (env w ++ [ExecuteAction (cb_new a)])).
    assert (store_ok w1) as Hw1 by exact Hw.
    destruct (set_value_quiet trigger 0 0 (VInt (-1)) w1) as [w2|e| |] eqn:E;
      try exact Hw1.
    eapply (set_value_store_ok (fun _ _ w => w) 0 trigger 0 0 (VInt (-1)) false w1 []);
      [intros ? ? ? Hs; exact Hs | exact Hw1 |].
    rewrite set_value_quiet_eq, E. reflexivity.
  - exact Hw.
  - apply Ho, Hw.
Qed.

End Trigger.
End TriggerFacts.


(** C6 at the failing write. A write of 150 to the idle trigger cell is
    not refused: the clamp of [IntParameter.set_value] turns it into 99,
    [_on_trigger_change] is called with 99 and creates the task
    [_execute_action(99)]. The guarded entries of the same component
    refuse the index: [send_message(150)] awaits nothing, where
    [send_message(99)] awaits that task, and [set_message_config(150, _)]
    writes nothing. *)
Lemma C6_write_above_range_starts_slot_99 :
  (exists calls w',
     set_value (NetworkActions.call TriggerExample.no_other) 5 0%nat 0 0 (VInt 150) true
       TriggerExample.trigger_world = (calls, Returned w') /\
     env w' = [NetworkActions.ExecuteAction (VInt 99);
               NetworkActions.BroadcastUpdate 2 0 0 (VInt 99)]) /\
  NetworkActionsComponent.send_message 150 = None /\
  NetworkActionsComponent.send_message 99 = Some (NetworkActions.ExecuteAction (VInt 99)) /\
  NetworkActionsComponent.set_message_config (NetworkActions.call TriggerExample.no_other)
    5 1%nat 150 "{}" TriggerExample.trigger_world
  = ([], Returned TriggerExample.trigger_world).
Proof.
  split; [eexists _, _; split; vm_compute; reflexivity|].
  split; [reflexivity|]. split; reflexivity.
Qed.

(** The writes to the trigger cell, as the code handles them. On the idle
    trigger cell (value [-1]), whose subscribers are [_on_trigger_change]
    and the broadcast closures of the server, a notified write of an
    integer [k] returns with the cell at [-1] again and: for
    [0 <= k < 100] the action of slot [k] is started and every subscriber
    is called once, for the value [k] (none for the reset); for [k <= -1]
    no action is started and nobody is called; for [k >= 100], where the
    guarded entries refuse the index, the action of slot [99] is
    started. *)
Theorem trigger_write_fires_or_idles `{PyBuiltins}
    (other : nat -> CallArgs -> World NetworkActions.Callback NetworkActions.Env
             -> World NetworkActions.Callback NetworkActions.Env)
    (fuel : nat) (trigger : ref) (pids : list Z) (k : Z)
    (w : World NetworkActions.Callback NetworkActions.Env)
    (p : BaseParameter NetworkActions.Callback) :
  params w !! trigger = Some p ->
  cls p = NetworkActions.trigger_class ->
  _on_change_callbacks p
  = NetworkActions.OnTriggerChange trigger :: map NetworkActions.Broadcast pids ->
  get_value p 0 0 = VInt (-1) ->
  (S (length pids) <= fuel)%nat ->
  exists calls w' p',
    set_value (NetworkActions.call other) fuel trigger 0 0 (VInt k) true w
    = (calls, Returned w') /\
    params w' !! trigger = Some p' /\
    get_value p' 0 0 = VInt (-1) /\
    (0 <= k < NetworkActions.NUM_NETWORK_ACTIONS ->
       calls = map (fun cb => (cb, mkArgs trigger 0 0 (VInt k) (VInt (-1))))
                   (_on_change_callbacks p) /\
       env w' = env w ++ NetworkActions.ExecuteAction (VInt k)
                      :: map (fun pid => NetworkActions.BroadcastUpdate pid 0 0 (VInt k)) pids) /\
    (k <= -1 -> calls = [] /\ env w' = env w) /\
    (NetworkActions.NUM_NETWORK_ACTIONS <= k ->
       calls = map (fun cb => (cb, mkArgs trigger 0 0 (VInt 99) (VInt (-1))))
                   (_on_change_callbacks p) /\
       env w' = env w ++ NetworkActions.ExecuteAction (VInt 99)
                      :: map (fun pid => NetworkActions.BroadcastUpdate pid 0 0 (VInt 99)) pids).
Proof.
  intros Hp Hcls Hcbs Hold Hfuel. unfold NetworkActions.NUM_NETWORK_ACTIONS.
  destruct (Z_le_gt_dec k (-1)) as [Hk|Hk].
  - destruct (TriggerFacts.trigger_idle other fuel trigger k w p Hp Hcls Hold Hk)
      as (w' & p' & Hs & Hp' & Hg & He).
    exists [], w', p'. repeat split; auto; lia.
  - set (c := int_max (-1) (int_min 99 k)).
    assert (c = if k <? 99 then k else 99) as Hc.
    { unfold c, int_max, int_min. destruct (k <? 99) eqn:E1.
      - destruct (-1 <? k) eqn:E2; lia.
      - reflexivity. }
    destruct (TriggerFacts.trigger_fires other fuel trigger pids k c w p
                Hp Hcls Hcbs Hold Hfuel eq_refl) as (w' & p' & Hs & Hp' & Hg & He).
    { rewrite Hc. destruct (k <? 99) eqn:E; lia. }
    eexists _, w', p'. split; [exact Hs|]. split; [exact Hp'|]. split; [exact Hg|].
    rewrite Hcbs, He. repeat split; try lia.
    + assert (c = k) as -> by (rewrite Hc; destruct (k <? 99) eqn:E; lia). reflexivity.
    + assert (c = k) as -> by (rewrite Hc; destruct (k <? 99) eqn:E; lia). reflexivity.
    + assert (c = 99) as -> by (rewrite Hc; destruct (k <? 99) eqn:E; lia). reflexivity.
    + assert (c = 99) as -> by (rewrite Hc; destruct (k <? 99) eqn:E; lia). reflexivity.
Qed.

Lemma trigger_write_of_7 :
  exists calls w' p',
    set_value (NetworkActions.call TriggerExample.no_other) 2 0%nat 0 0 (VInt 7) true
      TriggerExample.trigger_world = (calls, Returned w') /\
    params w' !! 0%nat = Some p' /\
    get_value p' 0 0 = VInt (-1) /\
    (0 <= 7 < NetworkActions.NUM_NETWORK_ACTIONS ->
       calls = map (fun cb => (cb, mkArgs 0%nat 0 0 (VInt 7) (VInt (-1))))
                   [NetworkActions.OnTriggerChange 0%nat; NetworkActions.Broadcast 2] /\
       env w' = [] ++ NetworkActions.ExecuteAction (VInt 7)
                      :: map (fun pid => NetworkActions.BroadcastUpdate pid 0 0 (VInt 7)) [2]) /\
    (7 <= -1 -> calls = [] /\ env w' = []) /\
    (NetworkActions.NUM_NETWORK_ACTIONS <= 7 ->
       calls = map (fun cb => (cb, mkArgs 0%nat 0 0 (VInt 99) (VInt (-1))))
                   [NetworkActions.OnTriggerChange 0%nat; NetworkActions.Broadcast 2] /\
       env w' = [] ++ NetworkActions.ExecuteAction (VInt 99)
                      :: map (fun pid => NetworkActions.BroadcastUpdate pid 0 0 (VInt 99)) [2]).
Proof.
  refine (trigger_write_fires_or_idles TriggerExample.no_other 2 0%nat [2] 7
            TriggerExample.trigger_world
            (with_callbacks (NetworkActions.new_trigger 0%nat 2)
               [NetworkActions.OnTriggerChange 0%nat; NetworkActions.Broadcast 2])
            _ _ _ _ _).
  - vm_compute. reflexivity.
  - reflexivity.
  - reflexivity.
  - vm_compute. reflexivity.
  - simpl. lia.
Defined.

(** ** Edges of the watcher (C3) *)

Module WatcherFacts.
Import Watcher WatcherSpec.

Section Edges.
Context {CB : Type}.
Variable _evaluate_expression : PyVal -> option bool.
Variable expressions : BaseParameter CB.


Lemma evaluate_slot_fired slot prev e :
  fst (evaluate_slot _evaluate_expression expressions slot prev) = Some e <->
  match e with
  | Rising => prev !! slot = Some false /\ evaluated _evaluate_expression expressions slot = Some true
  | Falling => prev !! slot = Some true /\ evaluated _evaluate_expression expressions slot = Some false
  end.
Proof.
  unfold evaluate_slot, evaluated.
  destruct (truthy (get_value expressions slot 0)); simpl.
  - destruct (_evaluate_expression (get_value expressions slot 0)) as [[]|]; simpl;
      destruct (prev !! slot) as [[]|]; simpl; destruct e;
      split; try (intros [? ?]); try congruence; auto.
  - destruct e; split; try (intros [? ?]); congruence.
Qed.

Lemma evaluate_slot_recorded slot prev :
  snd (evaluate_slot _evaluate_expression expressions slot prev) !! slot =
  match evaluated _evaluate_expression expressions slot with
  | Some b => Some b
  | None => prev !! slot
  end.
Proof.
  unfold evaluate_slot, evaluated.
  destruct (truthy (get_value expressions slot 0)); simpl; [|reflexivity].
  destruct (_evaluate_expression (get_value expressions slot 0)); simpl; [|reflexivity].
  apply lookup_insert_eq.
Qed.

Lemma evaluate_slot_other slot prev s :
  s <> slot ->
  snd (evaluate_slot _evaluate_expression expressions s prev) !! slot = prev !! slot.
Proof.
  intros Hne. unfold evaluate_slot.
  destruct (truthy (get_value expressions s 0)); simpl; [|reflexivity].
  destruct (_evaluate_expression (get_value expressions s 0)); simpl; [|reflexivity].
  apply lookup_insert_ne, Hne.
Qed.

Lemma evaluate_slot_depends slot prev1 prev2 :
  prev1 !! slot = prev2 !! slot ->
  fst (evaluate_slot _evaluate_expression expressions slot prev1)
  = fst (evaluate_slot _evaluate_expression expressions slot prev2).
Proof.
  intros Heq. unfold evaluate_slot.
  destruct (truthy (get_value expressions slot 0)); simpl; [|reflexivity].
  destruct (_evaluate_expression (get_value expressions slot 0)); simpl; [|reflexivity].
  rewrite Heq. reflexivity.
Qed.

(** A slot the loop does not visit fires nothing and keeps its record. *)
Lemma evaluate_slots_skipped slot : forall slots prev,
  slot ∉ slots ->
  snd (evaluate_slots _evaluate_expression expressions slots prev) !! slot = prev !! slot /\
  forall e, (slot, e) ∉ fst (evaluate_slots _evaluate_expression expressions slots prev).
Proof.
  induction slots as [|s slots IH]; intros prev Hnot; simpl.
  - split; [reflexivity|]. intros e Hin. inversion Hin.
  - apply not_elem_of_cons in Hnot as [Hne Hnot].
    destruct (evaluate_slot _evaluate_expression expressions s prev) as [fired prev1] eqn:E1.
    destruct (evaluate_slots _evaluate_expression expressions slots prev1)
      as [fired_rest prev2] eqn:E2.
    destruct (IH prev1 Hnot) as [Hrec Hfired]. rewrite E2 in Hrec, Hfired. simpl in *.
    split.
    + rewrite Hrec. replace prev1 with (snd (evaluate_slot _evaluate_expression expressions s prev))
        by (rewrite E1; reflexivity).
      apply evaluate_slot_other; congruence.
    + intros e. destruct fired; [|apply Hfired].
      intros [Heq|Hin]%elem_of_cons; [congruence | eapply Hfired, Hin].
Qed.

(** A slot the loop visits once fires what its own step fires and records
    what its own step records. *)
Lemma evaluate_slots_visited slot : forall slots prev,
  NoDup slots -> slot ∈ slots ->
  snd (evaluate_slots _evaluate_expression expressions slots prev) !! slot
  = snd (evaluate_slot _evaluate_expression expressions slot prev) !! slot /\
  forall e, (slot, e) ∈ fst (evaluate_slots _evaluate_expression expressions slots prev) <->
            fst (evaluate_slot _evaluate_expression expressions slot prev) = Some e.
Proof.
  induction slots as [|s slots IH]; intros prev Hnd Hin; [inversion Hin|].
  apply NoDup_cons in Hnd as [Hs Hnd]. simpl.
  destruct (evaluate_slot _evaluate_expression expressions s prev) as [fired prev1] eqn:E1.
  destruct (evaluate_slots _evaluate_expression expressions slots prev1)
    as [fired_rest prev2] eqn:E2.
  simpl. destruct (decide (s = slot)) as [->|Hne].
  - destruct (evaluate_slots_skipped slot slots prev1 Hs) as [Hrec Hfired].
    rewrite E2 in Hrec, Hfired. rewrite E1. simpl in *. split; [exact Hrec|].
    intros e. destruct fired as [e0|].
    + rewrite elem_of_cons. split.
      * intros [Heq|Hin']; [congruence | exfalso; eapply Hfired, Hin'].
      * intros Heq. left. congruence.
    + split; [intros Hin'; exfalso; eapply Hfired, Hin' | discriminate].
  - apply elem_of_cons in Hin as [Heq|Hin]; [congruence|].
    destruct (IH prev1 Hnd Hin) as [Hrec Hfired]. rewrite E2 in Hrec, Hfired. simpl in *.
    assert (prev1 !! slot = prev !! slot) as Hsame.
    { replace prev1 with (snd (evaluate_slot _evaluate_expression expressions s prev))
        by (rewrite E1; reflexivity).
      apply evaluate_slot_other, Hne. }
    split.
    + rewrite Hrec, !evaluate_slot_recorded, Hsame. reflexivity.
    + intros e. rewrite <- (evaluate_slot_depends slot prev1 prev Hsame), <- Hfired.
      destruct fired; [|reflexivity].
      rewrite elem_of_cons. split; [intros [?|?]; [congruence | assumption] | auto].
Qed.

End Edges.
End WatcherFacts.

(** C3. In a tick of the watcher, for every slot: the rising batch fires
    exactly when the result recorded before was false and the evaluation
    of the tick gives true; the falling batch exactly when the recorded
    result was true and the evaluation gives false; a slot with no recorded
    result fires neither; an evaluation that raises (or is not made:
    watcher disabled, empty expression) fires nothing and leaves the record
    as it was; and a result obtained is recorded. *)
Theorem C3_edge_detection {CB : Type}
    (_evaluate_expression : PyVal -> option bool)
    (enabled : PyVal) (expressions : BaseParameter CB)
    (_prev_results : gmap Z bool) (slot : Z) :
  0 <= slot < Watcher.NUM_WATCH_SLOTS ->
  let tick := Watcher.evaluation_tick _evaluate_expression enabled expressions _prev_results in
  let prev := _prev_results !! slot in
  let result := if truthy enabled
                then WatcherSpec.evaluated _evaluate_expression expressions slot
                else None in
  ((slot, Watcher.Rising) ∈ fst tick <-> prev = Some false /\ result = Some true) /\
  ((slot, Watcher.Falling) ∈ fst tick <-> prev = Some true /\ result = Some false) /\
  (prev = None -> forall e, (slot, e) ∉ fst tick) /\
  (result = None -> snd tick !! slot = prev /\ forall e, (slot, e) ∉ fst tick) /\
  (forall b, result = Some b -> snd tick !! slot = Some b).
Proof.
  intros Hslot tick prev result. unfold tick, result, Watcher.evaluation_tick.
  destruct (truthy enabled); cbn [negb fst snd].
  - assert (slot ∈ seqZ 0 Watcher.NUM_WATCH_SLOTS) as Hin by (apply elem_of_seqZ; lia).
    destruct (WatcherFacts.evaluate_slots_visited _evaluate_expression expressions slot
                (seqZ 0 Watcher.NUM_WATCH_SLOTS) _prev_results (NoDup_seqZ _ _) Hin)
      as [Hrec Hfired].
    rewrite WatcherFacts.evaluate_slot_recorded in Hrec.
    pose proof (fun e => WatcherFacts.evaluate_slot_fired _evaluate_expression expressions
                           slot _prev_results e) as Hstep.
    split; [rewrite Hfired; apply (Hstep Watcher.Rising)|].
    split; [rewrite Hfired; apply (Hstep Watcher.Falling)|].
    split; [|split].
    + intros Hnone e. rewrite Hfired, Hstep. unfold prev in Hnone.
      destruct e; intros [? _]; congruence.
    + intros Hnone. rewrite Hrec, Hnone. split; [reflexivity|].
      intros e. rewrite Hfired, Hstep. destruct e; intros [_ ?]; congruence.
    + intros b Hb. rewrite Hrec, Hb. reflexivity.
  - split; [split; [intros Hin; inversion Hin | intros [_ ?]; discriminate]|].
    split; [split; [intros Hin; inversion Hin | intros [_ ?]; discriminate]|].
    split; [intros _ e Hin; inversion Hin|].
    split; [intros _; split; [reflexivity | intros e Hin; inversion Hin] | discriminate].
Qed.


Lemma C3_witness :
  (3, Watcher.Rising)
  ∈ fst (Watcher.evaluation_tick WatcherExample.evaluate (VBool true)
           WatcherExample.expressions {[3 := false]}).
Proof.
  refine (proj2 (proj1 (C3_edge_detection WatcherExample.evaluate (VBool true)
                          WatcherExample.expressions {[3 := false]} 3 _)) _).
  - unfold Watcher.NUM_WATCH_SLOTS. lia.
  - split; vm_compute; reflexivity.
Defined.

(** ** Subscriptions of the protocol server (C10) *)

Module SubscriptionFacts.
Import WebServer SubscriptionSpec.
#[local] Set Warnings "-clear-no-such-hyp".


Lemma keys_of_subscribe ws pid row col m ws' :
  keys_of (subscribe ws pid row col m) ws' =
  if decide (ws' = ws) then keys_of m ws ∪ {[(pid, row, col)]} else keys_of m ws'.
Proof.
  unfold keys_of, subscribe. simpl.
  destruct (decide (ws' = ws)) as [->|Hne].
  - rewrite lookup_alter_eq. destruct (_subscriptions m !! ws) eqn:E; simpl.
    + rewrite E. reflexivity.
    + rewrite lookup_insert_eq. reflexivity.
  - rewrite lookup_alter_ne by congruence.
    destruct (_subscriptions m !! ws); [reflexivity|].
    rewrite lookup_insert_ne by congruence. reflexivity.
Qed.

Lemma subscribers_subscribe ws pid row col m key' :
  _param_subscribers (subscribe ws pid row col m) !! key' =
  if decide (key' = (pid, row, col))
  then Some (clients_of m (pid, row, col) ∪ {[ws]})
  else _param_subscribers m !! key'.
Proof.
  unfold clients_of, subscribe. simpl.
  destruct (decide (key' = (pid, row, col))) as [->|Hne].
  - rewrite lookup_alter_eq. destruct (_param_subscribers m !! (pid, row, col)) eqn:E; simpl.
    + rewrite E. reflexivity.
    + rewrite lookup_insert_eq. reflexivity.
  - rewrite lookup_alter_ne by congruence.
    destruct (_param_subscribers m !! (pid, row, col)); [reflexivity|].
    rewrite lookup_insert_ne by congruence. reflexivity.
Qed.

Lemma discard_subscriber_lookup ws key psubs key' :
  default ∅ (discard_subscriber ws key psubs !! key') =
  if decide (key' = key) then default ∅ (psubs !! key) ∖ {[ws]}
  else default ∅ (psubs !! key').
Proof.
  unfold discard_subscriber. destruct (psubs !! key) as [clients|] eqn:E.
  - destruct (decide (clients ∖ {[ws]} = ∅)) as [He|He];
      destruct (decide (key' = key)) as [->|Hne].
    + rewrite lookup_delete_eq. simpl. rewrite He. reflexivity.
    + rewrite lookup_delete_ne by congruence. reflexivity.
    + rewrite lookup_insert_eq. reflexivity.
    + rewrite lookup_insert_ne by congruence. reflexivity.
  - destruct (decide (key' = key)) as [->|Hne]; [|reflexivity].
    rewrite E. simpl. set_solver.
Qed.

Lemma discard_subscriber_nonempty ws key psubs :
  (forall k clients, psubs !! k = Some clients -> clients <> ∅) ->
  forall k clients, discard_subscriber ws key psubs !! k = Some clients -> clients <> ∅.
Proof.
  intros Hne k clients. unfold discard_subscriber.
  destruct (psubs !! key) as [old|] eqn:E; [|apply Hne].
  destruct (decide (old ∖ {[ws]} = ∅)) as [He|He].
  - destruct (decide (k = key)) as [->|Hk].
    + rewrite lookup_delete_eq. discriminate.
    + rewrite lookup_delete_ne by congruence. apply Hne.
  - destruct (decide (k = key)) as [->|Hk].
    + rewrite lookup_insert_eq. intros Heq; inversion Heq; subst. exact He.
    + rewrite lookup_insert_ne by congruence. apply Hne.
Qed.

Lemma discard_all_lookup ws (l : list Key) psubs key' :
  default ∅ (foldr (discard_subscriber ws) psubs l !! key') =
  if decide (key' ∈ l) then default ∅ (psubs !! key') ∖ {[ws]}
  else default ∅ (psubs !! key').
Proof.
  induction l as [|k l IH]; simpl.
  - destruct (decide (key' ∈ [])) as [Hin|]; [inversion Hin | reflexivity].
  - rewrite discard_subscriber_lookup.
    destruct (decide (key' = k)) as [->|Hne].
    + rewrite IH. destruct (decide (k ∈ k :: l)) as [_|Hn]; [|exfalso; apply Hn; left].
      destruct (decide (k ∈ l)); set_solver.
    + rewrite IH. destruct (decide (key' ∈ l)) as [Hin|Hin];
        destruct (decide (key' ∈ k :: l)) as [Hin'|Hin']; try reflexivity.
      * exfalso. apply Hin'. right. exact Hin.
      * exfalso. apply elem_of_cons in Hin' as [|]; auto.
Qed.

Lemma discard_all_nonempty ws (l : list Key) psubs :
  (forall k clients, psubs !! k = Some clients -> clients <> ∅) ->
  forall k clients, foldr (discard_subscriber ws) psubs l !! k = Some clients -> clients <> ∅.
Proof.
  intros Hne. induction l as [|key l IH]; simpl; [exact Hne|].
  apply discard_subscriber_nonempty, IH.
Qed.

Lemma subscribe_consistent ws pid row col m :
  consistent m -> consistent (subscribe ws pid row col m).
Proof.
  intros [Hagree Hne]. split.
  - intros ws' key'. unfold clients_of at 1. rewrite subscribers_subscribe, keys_of_subscribe.
    specialize (Hagree ws' key'). pose proof (Hagree) as Ha.
    destruct (decide (key' = (pid, row, col))) as [->|Hk];
      destruct (decide (ws' = ws)) as [->|Hw]; simpl.
    + set_solver.
    + rewrite elem_of_union, elem_of_singleton. tauto.
    + unfold clients_of in Ha. rewrite Ha. set_solver.
    + exact Ha.
  - intros key' clients. rewrite subscribers_subscribe.
    destruct (decide (key' = (pid, row, col))).
    + intros Heq; inversion Heq; subst. set_solver.
    + apply Hne.
Qed.

Lemma unsubscribe_consistent ws pid row col m :
  consistent m -> consistent (unsubscribe ws pid row col m).
Proof.
  intros [Hagree Hne]. split.
  - intros ws' key'. unfold clients_of, keys_of, unsubscribe. simpl.
    rewrite discard_subscriber_lookup.
    specialize (Hagree ws' key'). unfold clients_of, keys_of in Hagree.
    destruct (decide (ws' = ws)) as [->|Hw].
    + rewrite lookup_alter_eq.
      destruct (decide (key' = (pid, row, col))) as [->|Hk].
      * destruct (_subscriptions m !! ws); simpl; set_solver.
      * rewrite Hagree. destruct (_subscriptions m !! ws); simpl; set_solver.
    + rewrite lookup_alter_ne by congruence.
      destruct (decide (key' = (pid, row, col))) as [->|Hk]; [|exact Hagree].
      rewrite <- Hagree. set_solver.
  - apply discard_subscriber_nonempty, Hne.
Qed.

Lemma remove_client_consistent ws m :
  consistent m -> consistent (remove_client ws m).
Proof.
  intros [Hagree Hne]. unfold remove_client.
  destruct (_subscriptions m !! ws) as [keys|] eqn:E; [|split; assumption].
  split.
  - intros ws' key'. unfold clients_of, keys_of. simpl. rewrite discard_all_lookup.
    pose proof (Hagree ws' key') as Ha. pose proof (Hagree ws key') as Hb.
    unfold clients_of, keys_of in Ha, Hb. rewrite E in Hb. simpl in Hb.
    destruct (decide (ws' = ws)) as [->|Hw].
    + rewrite lookup_delete_eq. simpl.
      destruct (decide (key' ∈ elements keys)) as [Hin|Hin].
      * set_solver.
      * rewrite elem_of_elements in Hin. set_solver.
    + rewrite lookup_delete_ne by congruence.
      destruct (decide (key' ∈ elements keys)); [|exact Ha].
      rewrite <- Ha. set_solver.
  - simpl. apply discard_all_nonempty, Hne.
Qed.

End SubscriptionFacts.

(** C10. After any sequence of [subscribe], [unsubscribe] and
    [remove_client] calls on a new manager, a client is in the set of a key
    in [_param_subscribers] exactly when the key is in the set of the
    client in [_subscriptions], and [_param_subscribers] maps no key to the
    empty set. *)
Theorem C10_subscription_maps_consistent (ops : list SubscriptionSpec.Op) :
  let m := foldl SubscriptionSpec.apply_op WebServer.new_manager ops in
  (forall ws key,
     ws ∈ default ∅ (WebServer._param_subscribers m !! key) <->
     key ∈ default ∅ (WebServer._subscriptions m !! ws)) /\
  (forall key clients, WebServer._param_subscribers m !! key = Some clients -> clients <> ∅).
Proof.
  change (SubscriptionSpec.consistent
            (foldl SubscriptionSpec.apply_op WebServer.new_manager ops)).
  assert (SubscriptionSpec.consistent WebServer.new_manager) as H0.
  { split.
    - intros ws key. unfold SubscriptionSpec.clients_of, SubscriptionSpec.keys_of. simpl.
      rewrite !lookup_empty. simpl. set_solver.
    - intros key clients. simpl. rewrite lookup_empty. discriminate. }
  revert H0. generalize WebServer.new_manager.
  induction ops as [|op ops IH]; intros m Hm; simpl; [exact Hm|].
  apply IH. destruct op; simpl.
  - apply SubscriptionFacts.subscribe_consistent, Hm.
  - apply SubscriptionFacts.unsubscribe_consistent, Hm.
  - apply SubscriptionFacts.remove_client_consistent, Hm.
Qed.

(** ** The protocol handler: type names (C8) *)


(** The type names ["str"] and ["string"] give the same parameter in
    [get_param_by_type_and_index]. *)
Lemma get_param_by_type_and_index_string_alias {CB Env : Type}
    (w : World CB Env) (c : Component) (idx : Z) :
  get_param_by_type_and_index w c "string" idx
  = get_param_by_type_and_index w c "str" idx.
Proof. reflexivity. Qed.

(** C8 at the failing request. For the ActionManager component, whose two
    text parameters are [action_to_send] and [device_nicknames]:
    [get_param_by_type_and_index] finds [device_nicknames] under both
    names of the type, while the [get_param_info] handler counts 2 and
    describes [device_nicknames] for ["str"] but counts 0 and answers
    ["index out of range"] for ["string"]. *)
Theorem C8_get_param_info_ignores_string_alias :
  let lc := ServerExample.local_components in
  let w := ServerExample.hub_world in
  let c := ServerExample.action_manager.1.1 in
  get_param_by_type_and_index w c "string" 1 = Some 3%nat /\
  get_param_by_type_and_index w c "str" 1 = Some 3%nat /\
  WebServer.handle_get_param_info lc w (ServerExample.get_info "str" (-1))
  = WebServer.Count 2 /\
  WebServer.handle_get_param_info lc w (ServerExample.get_info "string" (-1))
  = WebServer.Count 0 /\
  WebServer.handle_get_param_info lc w (ServerExample.get_info "str" 1)
  = WebServer.ParamInfo
      (WebServer.mkMeta "device_nicknames" 4 "str" 1 1 false None None) /\
  WebServer.handle_get_param_info lc w (ServerExample.get_info "string" 1)
  = WebServer.Error "index out of range".
Proof. repeat split; vm_compute; reflexivity. Qed.

(** ** The timed queue (C4) *)

Module QueueFacts.
Import ActionManager FloatOrder QueueSpec.


Section Queue.
Context `{HeapQ}.

(** On a normal return the queue holds, besides what it held, each action
    of the batch with the time reached by adding the delays of the actions
    before it, one after the other from [cumulative_delay], to
    [current_time]. *)
Lemma queue_loop_stamps current_time : forall actions cumulative_delay queue queue',
  queue_loop current_time cumulative_delay actions queue = (queue', None) ->
  exists ds,
    Forall2 (fun a d => delay a = inr d) actions ds /\
    queue' ≡ₚ imap (fun k a =>
                      mkQueued (current_time
                                + foldl PrimFloat.add cumulative_delay (take k ds))%float a)
                   actions ++ queue.
Proof.
  induction actions as [|a rest IH]; intros c queue queue'; simpl.
  - intros Heq; inversion Heq; subst. exists []. split; [constructor | reflexivity].
  - destruct (delay a) as [e|d] eqn:Ed; [discriminate|].
    intros Hloop. destruct (IH _ _ _ Hloop) as (ds & Hds & Hperm).
    exists (d :: ds). split; [constructor; assumption|].
    rewrite Hperm, heappush_perm. simpl.
    rewrite <- Permutation_middle. reflexivity.
Qed.

Lemma queue_loop_heap current_time : forall actions cumulative_delay queue queue',
  queue_loop current_time cumulative_delay actions queue = (queue', None) ->
  is_heap queue -> Forall stamp_ordered queue' -> is_heap queue'.
Proof.
  induction actions as [|a rest IH]; intros c queue queue'; simpl.
  - intros Heq; inversion Heq; subst. auto.
  - destruct (delay a) as [e|d] eqn:Ed; [discriminate|].
    intros Hloop Hheap Hord. eapply IH; [exact Hloop | | exact Hord].
    apply heappush_heap; [exact Hheap|].
    destruct (queue_loop_stamps _ _ _ _ _ Hloop) as (ds & _ & Hperm).
    rewrite Hperm, heappush_perm in Hord.
    apply Forall_app in Hord as [_ Hord]. inversion Hord; subst. assumption.
Qed.

(** A turn that executes: the head was due, it is the item [heappop]
    removes, and what stays in the queue is due no earlier. *)
Lemma step_executes enabled now queue next_action queue' n :
  is_heap queue -> Forall stamp_ordered queue ->
  _process_queue_step enabled now queue = Execute next_action queue' n ->
  PrimFloat.leb (execute_at next_action) now = true /\
  queue ≡ₚ next_action :: queue' /\
  is_heap queue' /\
  Forall (due_before next_action) queue'.
Proof.
  intros Hheap Hord. unfold _process_queue_step.
  destruct (negb (truthy enabled)); [discriminate|].
  destruct queue as [|hd tl]; [discriminate|].
  destruct (PrimFloat.leb (execute_at hd) now) eqn:Edue; [|discriminate].
  destruct (heappop (hd :: tl)) as [[x rest]|] eqn:Epop; [|discriminate].
  intros Heq; inversion Heq; subst.
  destruct (heappop_heap _ _ _ Hheap Epop) as (Hhead & Hheap' & Hmin).
  simpl in Hhead. inversion Hhead; subst x.
  pose proof (heappop_perm _ _ _ Epop) as Hperm.
  split; [exact Edue|]. split; [exact Hperm|]. split; [exact Hheap'|].
  rewrite Hperm in Hord. inversion Hord as [|? ? Hx Hrest]; subst.
  rewrite Forall_forall in Hmin, Hrest |- *. intros y Hy.
  apply not_ltb_leb; [exact Hx | apply Hrest, Hy | apply Hmin, Hy].
Qed.

(** The loop executes only what is due, takes it from the queue, and in
    order of time. *)
Lemma process_queue_ordered : forall turns queue,
  is_heap queue -> Forall stamp_ordered queue ->
  let executed := _process_queue turns queue in
  Forall (fun x => PrimFloat.leb (execute_at x.2) x.1 = true) executed /\
  StronglySorted (fun x y => due_before x.2 y.2) executed /\
  (forall x, x ∈ executed -> x.2 ∈ queue).
Proof.
  induction turns as [|[enabled now] turns IH]; intros queue Hheap Hord; simpl.
  - split; [constructor|]. split; [constructor|]. intros x Hx. inversion Hx.
  - destruct (_process_queue_step enabled now queue) as [secs|next queue' n] eqn:Es.
    + apply IH; assumption.
    + destruct (step_executes _ _ _ _ _ _ Hheap Hord Es) as (Hdue & Hperm & Hheap' & Hmin).
      assert (Forall stamp_ordered queue') as Hord'.
      { rewrite Hperm in Hord. inversion Hord; assumption. }
      destruct (IH queue' Hheap' Hord') as (Hd & Hs & Hin).
      split; [constructor; [exact Hdue | exact Hd]|].
      split.
      * constructor; [exact Hs|]. apply Forall_forall. intros y Hy.
        apply (proj1 (Forall_forall _ _) Hmin), Hin, Hy.
      * intros x [->|Hx]%elem_of_cons; rewrite Hperm; [left | right; apply Hin, Hx].
Qed.

End Queue.

(** *** The list kept in order of time meets the contract *)


Lemma insert_by_time_perm h x : insert_by_time x h ≡ₚ x :: h.
Proof.
  induction h as [|y h IH]; simpl; [reflexivity|].
  destruct (QueuedAction_lt x y); [reflexivity|].
  rewrite IH. apply perm_swap.
Qed.

Lemma insert_by_time_heap h x :
  ordered_heap h -> stamp_ordered x -> ordered_heap (insert_by_time x h).
Proof.
  intros [Hs Ho] Hx. split; [|rewrite insert_by_time_perm; constructor; assumption].
  induction h as [|y h IH]; simpl.
  - repeat constructor.
  - inversion Hs as [|? ? Hs' Hy]; subst. inversion Ho as [|? ? Hoy Ho']; subst.
    unfold QueuedAction_lt. destruct (PrimFloat.ltb (execute_at x) (execute_at y)) eqn:E.
    + constructor; [exact Hs|]. apply ltb_leb in E.
      constructor; [exact E|]. rewrite Forall_forall in Hy |- *.
      intros z Hz. unfold due_before. eapply leb_trans; [exact E | apply Hy, Hz].
    + constructor; [apply IH; assumption|].
      rewrite insert_by_time_perm. constructor; [|exact Hy].
      apply not_ltb_leb; assumption.
Qed.

#[export, refine] Instance ordered_list_heap : HeapQ := {
  heappush h x := insert_by_time x h;
  heappop h := match h with [] => None | x :: h' => Some (x, h') end;
  is_heap := ordered_heap
}.
Proof.
  - split; constructor.
  - intros h x. apply insert_by_time_perm.
  - intros h x. apply insert_by_time_heap.
  - intros [|x h] Hne; [contradiction | eauto].
  - intros [|y h] x h' Heq; inversion Heq; subst. reflexivity.
  - intros [|y h] x h' [Hs Ho] Heq; inversion Heq; subst.
    inversion Hs; subst. inversion Ho; subst.
    split; [reflexivity|]. split; [split; assumption|].
    match goal with Hm : Forall (due_before _) _ |- _ =>
      eapply Forall_impl; [exact Hm|] end.
    intros z Hz. apply leb_not_ltb, Hz.
Defined.

End QueueFacts.


(** C4. A batch enqueued at [current_time] on a heap ([_queue_actions]
    returning normally, every time in the queue comparable) leaves in the
    queue, besides what was there, its [k]-th action stamped
    [current_time + (d_0 + ... + d_(k-1))], the delays [d_i] being
    [wait_after_ms / 1000.0] of the actions before it, summed from [0.0] in
    order; and over any turns of the processing loop every action executed
    had [execute_at <= now] at its turn, comes from the queue, and the
    actions are executed in non-decreasing order of [execute_at]. *)
Theorem C4_stamps_and_execution_order `{ActionManager.HeapQ}
    (current_time : float) (actions : list ActionManager.Action)
    (queue queue' : list ActionManager.QueuedAction)
    (turns : list (PyVal * float)) :
  ActionManager.is_heap queue ->
  ActionManager._queue_actions current_time actions queue = (queue', None) ->
  Forall (fun q => ActionManager.ordered_time (ActionManager.execute_at q)) queue' ->
  (exists ds,
     Forall2 (fun a d => ActionManager.delay a = inr d) actions ds /\
     queue' ≡ₚ imap (fun k a =>
                       ActionManager.mkQueued
                         (current_time + foldl PrimFloat.add 0 (take k ds))%float a)
                    actions ++ queue) /\
  let executed := ActionManager._process_queue turns queue' in
  Forall (fun x => PrimFloat.leb (ActionManager.execute_at x.2) x.1 = true) executed /\
  StronglySorted
    (fun x y => PrimFloat.leb (ActionManager.execute_at x.2)
                              (ActionManager.execute_at y.2) = true) executed /\
  (forall x, x ∈ executed -> x.2 ∈ queue').
Proof.
  intros Hheap Hq Hord. split.
  - apply QueueFacts.queue_loop_stamps, Hq.
  - apply QueueFacts.process_queue_ordered; [|exact Hord].
    eapply QueueFacts.queue_loop_heap; eassumption.
Qed.

Import QueueFacts.

Lemma C4_witness :
  let queue' := [ActionManager.mkQueued 1000%float QueueExample.first;
                 ActionManager.mkQueued 1000.5%float QueueExample.second] in
  (exists ds,
     Forall2 (fun a d => ActionManager.delay a = inr d)
       [QueueExample.first; QueueExample.second] ds /\
     queue' ≡ₚ imap (fun k a =>
                       ActionManager.mkQueued
                         (1000 + foldl PrimFloat.add 0 (take k ds))%float a)
                    [QueueExample.first; QueueExample.second] ++ []) /\
  let executed := ActionManager._process_queue QueueExample.turns queue' in
  Forall (fun x => PrimFloat.leb (ActionManager.execute_at x.2) x.1 = true) executed /\
  StronglySorted
    (fun x y => PrimFloat.leb (ActionManager.execute_at x.2)
                              (ActionManager.execute_at y.2) = true) executed /\
  (forall x, x ∈ executed -> x.2 ∈ queue').
Proof.
  refine (C4_stamps_and_execution_order 1000%float
            [QueueExample.first; QueueExample.second] [] _ QueueExample.turns _ _ _).
  - apply ActionManager.is_heap_nil.
  - vm_compute. reflexivity.
  - repeat constructor.
Defined.

(** ** Components: adding and finding parameters *)

Module ComponentFacts.
Import ComponentSpec.

Lemma od_get_set_eq {V} (k : string) (v : V) d : od_get k (od_set k v d) = Some v.
Proof.
  induction d as [|[k' v'] d IH]; simpl.
  - rewrite String.eqb_refl. reflexivity.
  - destruct (String.eqb k k') eqn:E; simpl; rewrite ?String.eqb_refl, ?E; auto.
Qed.

Lemma od_get_set_ne {V} (k k' : string) (v : V) d :
  k' <> k -> od_get k' (od_set k v d) = od_get k' d.
Proof.
  intros Hne. induction d as [|[k0 v0] d IH]; simpl.
  - apply String.eqb_neq in Hne. rewrite Hne. reflexivity.
  - destruct (String.eqb k k0) eqn:E; simpl.
    + apply String.eqb_eq in E. subst k0.
      apply String.eqb_neq in Hne. rewrite Hne. reflexivity.
    + rewrite IH. reflexivity.
Qed.

(** Assigning to a key not yet present appends it. *)
Lemma od_set_new {V} (k : string) (v : V) d :
  od_get k d = None -> od_set k v d = d ++ [(k, v)].
Proof.
  induction d as [|[k' v'] d IH]; simpl; [reflexivity|].
  destruct (String.eqb k k'); [discriminate|]. intros Hd. rewrite IH by exact Hd. reflexivity.
Qed.

Section Listing.
Context {CB Env : Type}.

(** The loop of [get_param_by_type_and_index] in closed form. *)
Lemma nth_of_type_filter (w : World CB Env) t idx : forall l count,
  nth_of_type w t idx count l =
  if idx <? count then None
  else List.filter (has_type w t) l !! Z.to_nat (idx - count).
Proof.
  induction l as [|r l IH]; intros count; simpl.
  - destruct (idx <? count); reflexivity.
  - unfold has_type at 1. destruct (params w !! r) as [p|] eqn:Ep.
    + destruct (ParameterType_eqb (param_type (cls p)) t).
      * destruct (Z.eqb_spec count idx) as [->|Hne].
        -- rewrite Z.ltb_irrefl, Z.sub_diag. reflexivity.
        -- rewrite IH. destruct (Z.ltb_spec idx count), (Z.ltb_spec idx (count + 1));
             try reflexivity; try lia.
           replace (Z.to_nat (idx - count)) with (S (Z.to_nat (idx - (count + 1)))) by lia.
           reflexivity.
      * apply IH.
    + apply IH.
Qed.

Lemma get_param_by_type_and_index_filter (w : World CB Env) c ptype idx :
  get_param_by_type_and_index w c ptype idx =
  match type_map (lower ptype) with
  | None => None
  | Some t => if idx <? 0 then None else of_type w t c !! Z.to_nat idx
  end.
Proof.
  unfold get_param_by_type_and_index. destruct (type_map (lower ptype)) as [t|]; [|reflexivity].
  rewrite nth_of_type_filter, Z.sub_0_r. reflexivity.
Qed.

Lemma has_type_put (w : World CB Env) t r p r0 :
  r0 <> r -> has_type (put r p w) t r0 = has_type w t r0.
Proof.
  intros Hne. unfold has_type, put. simpl. rewrite lookup_insert_ne by congruence. reflexivity.
Qed.

End Listing.

End ComponentFacts.

(** ** A read-only parameter written through the protocol (C5) *)

Module ReadOnlyFacts.
Import WebServer WebServerComponent ComponentSpec.

Section Facts.
Context `{PyBuiltins} {CB Env : Type}.
Variable call : CB -> CallArgs -> World CB Env -> World CB Env.
Variable local_components : list (string * Component).

(** A write of cells leaves the types of the objects as they are. *)
Lemma has_type_write (w : World CB Env) r0 p0 vs t r :
  params w !! r0 = Some p0 ->
  has_type (put r0 (with_values p0 vs) w) t r = has_type w t r.
Proof.
  intros Hp0. unfold has_type, put. simpl. rewrite lookup_insert.
  destruct (decide (r0 = r)) as [<-|]; [rewrite Hp0|]; reflexivity.
Qed.

(** So the lookup of a request finds the same object after it. *)
Lemma lookup_param_write (w : World CB Env) r0 p0 vs request :
  params w !! r0 = Some p0 ->
  lookup_param local_components (put r0 (with_values p0 vs) w) request
  = lookup_param local_components w request.
Proof.
  intros Hp0. unfold lookup_param.
  destruct (q_param_id request); [reflexivity|].
  destruct (nonempty (comp request) && nonempty (param request)); [reflexivity|].
  destruct (nonempty (comp request)); [|reflexivity].
  destruct (q_param_type request) as [ptype|]; [|reflexivity].
  destruct (idx request) as [i|]; [|reflexivity].
  destruct (od_get (default "" (comp request)) local_components) as [c|]; [|reflexivity].
  rewrite !ComponentFacts.get_param_by_type_and_index_filter.
  destruct (type_map (lower ptype)) as [t|]; [|reflexivity].
  destruct (i <? 0); [reflexivity|]. f_equal. unfold of_type.
  apply filter_ext. intros r. apply has_type_write, Hp0.
Qed.

End Facts.
End ReadOnlyFacts.

(** C5, as stated, fails on the counter of the server: the read-only
    [total_messages] (identifier 8, value 0) is the parameter the server
    counts its frames in. A [set_param] frame for it with the value 5 is
    answered ["parameter is read-only"], and the cell holds 1 afterwards:
    the frame itself was counted. *)
Lemma C5_counterexample_total_messages :
  exists r p w' p',
    WebServer.lookup_param WebServerExample.local_components WebServerExample.hub_world
      WebServerExample.set_total_messages = Some r /\
    params WebServerExample.hub_world !! r = Some p /\
    name p = "total_messages" /\ read_only p = true /\
    get_value p 0 0 = VInt 0 /\
    WebServerComponent.handle_frame idle WebServerExample.local_components 7%nat 3 0%nat
      (WebServerComponent.Decoded WebServerExample.set_total_messages None)
      WebServerExample.no_clients WebServerExample.hub_world
    = ([], Returned (WebServerComponent.Answer (WebServer.Failure "parameter is read-only")
                       None,
                     WebServerExample.no_clients, w')) /\
    params w' !! r = Some p' /\
    get_value p' 0 0 = VInt 1 /\
    VInt 1 <> VInt 0.
Proof.
  eexists _, _, _, _. split; [vm_compute; reflexivity|]. split; [vm_compute; reflexivity|].
  split; [reflexivity|]. split; [reflexivity|]. split; [reflexivity|].
  split; [vm_compute; reflexivity|]. split; [vm_compute; reflexivity|].
  split; [reflexivity | discriminate].
Qed.

(** X1. [add_*_param] registers the new object under its name and under
    the next identifier of the class counter: both lookups then return it,
    the object is a new one, the counter moves on by one, and the lookups
    by another name or another identifier, like the other objects of the
    store, are as they were. *)
Theorem add_param_registers_name_and_id {CB Env : Type} (c : Component)
    (pname : string) (nrows ncols : Z) (k : ParamClass) (ro : bool) (next_id : Z)
    (w : World CB Env) :
  let '(c', r, next', w') := add_param c pname nrows ncols k ro next_id w in
  get_param c' pname = Some r /\
  get_param_by_id c' next_id = Some r /\
  params w !! r = None /\
  params w' !! r = Some (new_parameter pname next_id nrows ncols k ro) /\
  next' = next_id + 1 /\
  (forall n, n <> pname -> get_param c' n = get_param c n) /\
  (forall i, i <> next_id -> get_param_by_id c' i = get_param_by_id c i) /\
  (forall r0, r0 <> r -> params w' !! r0 = params w !! r0).
Proof.
  unfold add_param, get_param, get_param_by_id, put. simpl.
  split; [apply ComponentFacts.od_get_set_eq|].
  split; [apply lookup_insert_eq|].
  split; [apply not_elem_of_dom, is_fresh|].
  split; [apply lookup_insert_eq|].
  split; [reflexivity|].
  split; [intros n Hn; apply ComponentFacts.od_get_set_ne, Hn|].
  split; [intros i Hi; apply lookup_insert_ne; congruence|].
  intros r0 Hr0. apply lookup_insert_ne. congruence.
Qed.

(** X2. [get_param_by_type_and_index] returns the parameter at position [idx]
    among the parameters of the named type, in the order they were added:
    nothing for a type name outside the five of [type_map] (compared in
    lower case), nothing for a negative index or one past the last; and a
    parameter it returns is listed by the component and has the type. *)
Theorem get_param_by_type_and_index_is_nth_of_type {CB Env : Type}
    (w : World CB Env) (c : Component) (ptype : string) (idx : Z) :
  get_param_by_type_and_index w c ptype idx =
    match type_map (lower ptype) with
    | None => None
    | Some t =>
        if idx <? 0 then None else ComponentSpec.of_type w t c !! Z.to_nat idx
    end /\
  (forall r, get_param_by_type_and_index w c ptype idx = Some r ->
     0 <= idx /\ r ∈ od_values (parameters c) /\
     exists p, params w !! r = Some p /\
               type_map (lower ptype) = Some (param_type (cls p))).
Proof.
  assert (get_param_by_type_and_index w c ptype idx =
          match type_map (lower ptype) with
          | None => None
          | Some t =>
              if idx <? 0 then None else ComponentSpec.of_type w t c !! Z.to_nat idx
          end) as Heq.
  { apply ComponentFacts.get_param_by_type_and_index_filter. }
  split; [exact Heq|]. intros r. rewrite Heq.
  destruct (type_map (lower ptype)) as [t|]; [|discriminate].
  destruct (Z.ltb_spec idx 0); [discriminate|]. intros Hl.
  apply list_elem_of_lookup_2 in Hl. unfold ComponentSpec.of_type in Hl.
  apply list_elem_of_In, filter_In in Hl as [Hin Ht].
  split; [assumption|]. split; [apply list_elem_of_In, Hin|].
  unfold ComponentSpec.has_type in Ht. destruct (params w !! r) as [p|]; [|discriminate].
  exists p. split; [reflexivity|]. f_equal.
  destruct (param_type (cls p)), t; try discriminate; reflexivity.
Qed.

(** X3. Adding a parameter under a name the component does not have yet never
    renumbers the others: a parameter found at an index of its type is
    found at the same index afterwards, and the new parameter takes the
    first index of its type that was free. *)
Theorem add_param_keeps_type_indices {CB Env : Type} (c : Component)
    (pname : string) (nrows ncols : Z) (k : ParamClass) (ro : bool) (next_id : Z)
    (w : World CB Env) (c' : Component) (r : ref) (next' : Z) (w' : World CB Env) :
  add_param c pname nrows ncols k ro next_id w = (c', r, next', w') ->
  get_param c pname = None ->
  ComponentSpec.listed_in_store w c ->
  (forall ptype idx r0,
     get_param_by_type_and_index w c ptype idx = Some r0 ->
     get_param_by_type_and_index w' c' ptype idx = Some r0) /\
  get_param_by_type_and_index w' c' (ParameterType_value (param_type k))
    (Z.of_nat (length (ComponentSpec.of_type w (param_type k) c))) = Some r.
Proof.
  intros Hadd Hnew Hlisted. unfold add_param in Hadd. inversion Hadd; subst; clear Hadd.
  set (r := fresh (dom (params w))).
  set (p := new_parameter pname next_id nrows ncols k ro).
  assert (params w !! r = None) as Hr by apply not_elem_of_dom, is_fresh.
  assert (forall t, List.filter (ComponentSpec.has_type (put r p w) t)
                      (od_values (od_set pname r (parameters c)))
                    = ComponentSpec.of_type w t c
                      ++ (if ParameterType_eqb (param_type k) t then [r] else [])) as Hf.
  { intros t. unfold get_param in Hnew. rewrite ComponentFacts.od_set_new by exact Hnew.
    unfold od_values. rewrite map_app, List.filter_app. simpl. f_equal.
    - unfold ComponentSpec.of_type, od_values. apply List.filter_ext_in.
      intros r0 Hin. apply ComponentFacts.has_type_put. intros ->.
      destruct (Hlisted r) as [q Hq]; [apply list_elem_of_In, Hin|]. congruence.
    - unfold ComponentSpec.has_type at 1, put. simpl. rewrite lookup_insert_eq.
      unfold p, new_parameter, post_init. simpl. destruct (ParameterType_eqb _ _); reflexivity. }
  split.
  - intros ptype idx r0.
    unfold get_param_by_type_and_index. simpl.
    destruct (type_map (lower ptype)) as [t|]; [|discriminate].
    rewrite !ComponentFacts.nth_of_type_filter, Hf.
    destruct (idx <? 0); [discriminate|]. rewrite Z.sub_0_r.
    intros Hl. apply lookup_app_l_Some, Hl.
  - unfold get_param_by_type_and_index. simpl.
    assert (type_map (lower (ParameterType_value (param_type k))) = Some (param_type k)) as ->.
    { destruct (param_type k); reflexivity. }
    rewrite ComponentFacts.nth_of_type_filter, Hf.
    destruct (Z.ltb_spec (Z.of_nat (length (ComponentSpec.of_type w (param_type k) c))) 0);
      [lia|].
    rewrite Z.sub_0_r, Nat2Z.id.
    assert (ParameterType_eqb (param_type k) (param_type k) = true) as ->.
    { destruct (param_type k); reflexivity. }
    apply list_lookup_middle. reflexivity.
Qed.

Lemma add_param_keeps_type_indices_witness :
  let c := ServerExample.action_manager.1.1 in
  let w := ServerExample.hub_world in
  let '(c', r, _, w') := add_param c "limit" 1 1 (IntParameter 0 10 0) false 5 w in
  (forall ptype idx r0,
     get_param_by_type_and_index w c ptype idx = Some r0 ->
     get_param_by_type_and_index w' c' ptype idx = Some r0) /\
  get_param_by_type_and_index w' c' (ParameterType_value (param_type (IntParameter 0 10 0)))
    (Z.of_nat (length (ComponentSpec.of_type w (param_type (IntParameter 0 10 0)) c)))
  = Some r.
Proof.
  refine (add_param_keeps_type_indices ServerExample.action_manager.1.1 "limit" 1 1
            (IntParameter 0 10 0) false 5 ServerExample.hub_world _ _ _ _ _ _ _).
  - reflexivity.
  - reflexivity.
  - intros r Hr. vm_compute in Hr.
    repeat (apply elem_of_cons in Hr as [->|Hr]; [vm_compute; eauto|]).
    inversion Hr.
Defined.

(** ** The protocol handler: listing, writing and reading back *)

Module HandlerFacts.
Import WebServer ComponentSpec.

Section Facts.
Context `{PyBuiltins} {CB Env : Type}.

(** The parameters [get_param_info] keeps for a type are the objects of
    the parameters of that type. *)
Lemma typed_params_of_type (w : World CB Env) t : forall l,
  filter (fun p : BaseParameter CB =>
            ParameterType_value (Base.param_type (cls p)) = ParameterType_value t)
         (objects_of w l)
  = omap (fun r => params w !! r) (List.filter (has_type w t) l).
Proof.
  induction l as [|r l IH]; [reflexivity|].
  unfold objects_of in *. simpl. unfold has_type at 1.
  destruct (params w !! r) as [p|] eqn:Ep; simpl; [|exact IH].
  destruct (ParameterType_eqb (Base.param_type (cls p)) t) eqn:Et.
  - rewrite filter_cons_True.
    + simpl. rewrite Ep. f_equal. exact IH.
    + destruct (Base.param_type (cls p)), t; try discriminate; reflexivity.
  - rewrite filter_cons_False; [exact IH|].
    destruct (Base.param_type (cls p)), t; try discriminate; simpl; congruence.
Qed.

Lemma omap_of_type_lookup (w : World CB Env) t : forall l i,
  omap (fun r => params w !! r) (List.filter (has_type w t) l) !! i
  = List.filter (has_type w t) l !! i ≫= (fun r => params w !! r).
Proof.
  induction l as [|r l IH]; intros i; [reflexivity|].
  simpl. destruct (has_type w t r) eqn:Ht; [|apply IH].
  unfold has_type in Ht. simpl. destruct (params w !! r) as [p|] eqn:Ep; [|discriminate].
  destruct i as [|i]; simpl; [rewrite Ep; reflexivity | apply IH].
Qed.

Lemma omap_of_type_length (w : World CB Env) t : forall l,
  length (omap (fun r => params w !! r) (List.filter (has_type w t) l))
  = length (List.filter (has_type w t) l).
Proof.
  induction l as [|r l IH]; [reflexivity|].
  simpl. destruct (has_type w t r) eqn:Ht; [|apply IH].
  unfold has_type in Ht. simpl. destruct (params w !! r) as [p|] eqn:Ep; [|discriminate].
  simpl. f_equal. exact IH.
Qed.

(** The lookups of the handler read the store for the classes of the
    objects only. *)
Lemma nth_of_type_classes (w w' : World CB Env) t idx :
  (forall r, cls <$> params w' !! r = cls <$> params w !! r) ->
  forall l count, nth_of_type w' t idx count l = nth_of_type w t idx count l.
Proof.
  intros Hcls. induction l as [|r l IH]; intros count; [reflexivity|].
  simpl. specialize (Hcls r).
  destruct (params w' !! r) as [p'|], (params w !! r) as [p|]; simpl in Hcls;
    try discriminate; [|apply IH].
  inversion Hcls as [Hc]. rewrite Hc, !IH. reflexivity.
Qed.

Lemma lookup_param_classes lc (w w' : World CB Env) request :
  (forall r, cls <$> params w' !! r = cls <$> params w !! r) ->
  lookup_param lc w' request = lookup_param lc w request.
Proof.
  intros Hcls. unfold lookup_param.
  destruct (q_param_id request); [reflexivity|].
  destruct (nonempty (comp request) && nonempty (param request)); [reflexivity|].
  destruct (nonempty (comp request)); [|reflexivity].
  destruct (q_param_type request) as [ptype|]; [|reflexivity].
  destruct (idx request) as [i|]; [|reflexivity].
  destruct (od_get (default "" (comp request)) lc) as [c|]; [|reflexivity].
  unfold get_param_by_type_and_index. destruct (type_map (lower ptype)); [|reflexivity].
  apply nth_of_type_classes, Hcls.
Qed.

Variable call : CB -> CallArgs -> World CB Env -> World CB Env.

(** A write through callbacks that leave the parameter objects alone
    changes the one cell of the one object. *)
Lemma set_value_writes_cell fuel self row col v v' nfy (w : World CB Env) p :
  params w !! self = Some p ->
  coerce (cls p) v = inr v' ->
  (forall cb a w, params (call cb a w) = params w) ->
  (length (_on_change_callbacks p) <= fuel)%nat ->
  exists calls w',
    set_value call fuel self row col v nfy w = (calls, Returned w') /\
    params w' = <[self := with_values p (<[(row, col) := v']> (_values p))]> (params w).
Proof.
  intros Hp Hc Hq Hfuel.
  unfold set_value, BaseParameter_set_value. rewrite Hp, Hc.
  set (p1 := with_values p (<[(row, col):=v']> (_values p))).
  assert (params (put self p1 w) !! self = Some p1) as Hp1.
  { unfold put. simpl. apply lookup_insert_eq. }
  destruct (nfy && py_ne (get_value p row col) v').
  - destruct (notify_quiet call self (mkArgs self row col v' (get_value p row col))
                fuel 0 (put self p1 w) p1 Hq Hp1) as (w' & Hn & Hw'); [simpl; lia|].
    rewrite Hn. eexists _, w'. split; [reflexivity|]. rewrite Hw'. reflexivity.
  - eexists _, _. split; reflexivity.
Qed.

End Facts.
End HandlerFacts.

(** X4. [get_param_info] serves the discovery of a component type by type:
    for a component that exists and one of the four type names of
    [ParameterType], the request without an index (or with [-1]) is
    answered with the number [n] of parameters of the type; every index
    from [0] to [n - 1] is answered with the description of the parameter
    that [get_param_by_type_and_index] finds at that index; every other
    index is answered ["index out of range"]. Nothing changes and no
    callback is called. *)
Theorem get_param_info_enumerates_type `{PyBuiltins} {CB Env : Type}
    (call : CB -> CallArgs -> World CB Env -> World CB Env)
    (local_components : list (string * Component)) (fuel : nat) (websocket : nat)
    (m : WebServer.SubscriptionManager) (w : World CB Env) (request : WebServer.Request)
    (cn : string) (c : Component) (t : ParameterType) :
  WebServer.msg_type request = Some "get_param_info" ->
  WebServer.comp request = Some cn -> cn <> "" ->
  WebServer.q_param_type request = Some (ParameterType_value t) ->
  od_get cn local_components = Some c ->
  let n := Z.of_nat (length (ComponentSpec.of_type w t c)) in
  let i := default (-1) (WebServer.idx request) in
  exists resp,
    WebServer._handle_message call local_components fuel websocket request m w
    = ([], Returned (resp, m, w)) /\
    (i = -1 -> resp = WebServer.Count n) /\
    (0 <= i < n ->
       exists r p,
         get_param_by_type_and_index w c (ParameterType_value t) i = Some r /\
         params w !! r = Some p /\
         Base.param_type (cls p) = t /\
         resp = WebServer.ParamInfo (WebServer.meta p)) /\
    (i < -1 \/ n <= i -> resp = WebServer.Error "index out of range").
Proof.
  intros Ht Hcomp Hcn Hty Hc n i.
  eexists. split.
  { unfold WebServer._handle_message. rewrite Ht. cbn -[WebServer.handle_get_param_info].
    reflexivity. }
  unfold WebServer.handle_get_param_info. rewrite Hcomp, Hty. simpl default.
  assert (WebServer.nonempty (Some cn) = true) as ->.
  { simpl. apply negb_true_iff, String.eqb_neq, Hcn. }
  assert (WebServer.nonempty (Some (ParameterType_value t)) = true) as ->
    by (destruct t; reflexivity).
  rewrite Hc. cbn [negb orb].
  rewrite HandlerFacts.typed_params_of_type, HandlerFacts.omap_of_type_length,
    HandlerFacts.omap_of_type_lookup.
  fold (ComponentSpec.of_type w t c). fold i. fold n.
  split; [intros ->; reflexivity|]. split.
  - intros Hi. destruct (Z.eqb_spec i (-1)); [lia|].
    destruct (Z.ltb_spec i 0); [lia|]. destruct (Z.leb_spec n i); [lia|]. cbn [orb].
    destruct (ComponentSpec.of_type w t c !! Z.to_nat i) as [r|] eqn:Er.
    + assert (ComponentSpec.has_type w t r = true) as Hr.
      { apply list_elem_of_lookup_2, list_elem_of_In, filter_In in Er. tauto. }
      unfold ComponentSpec.has_type in Hr. simpl.
      destruct (params w !! r) as [p|] eqn:Ep; [|discriminate].
      exists r, p. split; [|split; [exact Ep|split; [|reflexivity]]].
      * rewrite ComponentFacts.get_param_by_type_and_index_filter.
        assert (type_map (lower (ParameterType_value t)) = Some t) as ->
          by (destruct t; reflexivity).
        destruct (Z.ltb_spec i 0); [lia | exact Er].
      * destruct (Base.param_type (cls p)), t; try discriminate; reflexivity.
    + apply lookup_ge_None in Er. unfold n in Hi. lia.
  - intros Hi. destruct (Z.eqb_spec i (-1)); [lia|].
    destruct (Z.ltb_spec i 0); [reflexivity|]. destruct (Z.leb_spec n i); [reflexivity | lia].
Qed.

(** X5. What [set_param] (or [SET]) writes, [get_param] reads back. For a
    request that carries a value and finds a writable parameter: when the
    conversion of the class accepts the value, the reply is success and a
    [get_param] request with the same fields is then answered with the
    converted (and clamped) value; when the conversion raises, the reply
    carries the exception and nothing has changed (callbacks that leave
    the parameter objects alone, fuel for one call each). *)
Theorem set_param_then_get_param `{PyBuiltins} {CB Env : Type}
    (call : CB -> CallArgs -> World CB Env -> World CB Env)
    (local_components : list (string * Component)) (fuel : nat) (websocket : nat)
    (m : WebServer.SubscriptionManager) (w : World CB Env) (request : WebServer.Request)
    (r : ref) (p : BaseParameter CB) :
  WebServer.msg_type request = Some "set_param" \/ WebServer.msg_type request = Some "SET" ->
  WebServer.value request <> VNone ->
  WebServer.lookup_param local_components w request = Some r ->
  params w !! r = Some p ->
  read_only p = false ->
  (forall cb a w, params (call cb a w) = params w) ->
  (length (_on_change_callbacks p) <= fuel)%nat ->
  match coerce (cls p) (WebServer.value request) with
  | inr v' =>
      exists calls w',
        WebServer._handle_message call local_components fuel websocket request m w
        = (calls, Returned (WebServer.Success, m, w')) /\
        forall fuel' websocket' m',
          WebServer._handle_message call local_components fuel' websocket'
            (ProtocolSpec.with_type "get_param" request) m' w'
          = ([], Returned (WebServer.ParamValue (name p) (param_id p)
                             (ParameterType_value (param_type (cls p))) v', m', w'))
  | inl e =>
      WebServer._handle_message call local_components fuel websocket request m w
      = ([], Returned (WebServer.FailureExn e, m, w))
  end.
Proof.
  intros Ht Hv Hl Hp Hro Hq Hfuel.
  assert (WebServer._handle_message call local_components fuel websocket request m w
          = match WebServer.handle_set_param call local_components fuel w request with
            | (calls, Returned (resp, w')) => (calls, Returned (resp, m, w'))
            | (calls, Raised e) => (calls, Raised e)
            | (calls, NoFuel) => (calls, NoFuel)
            | (calls, Dangling) => (calls, Dangling)
            end) as ->.
  { unfold WebServer._handle_message. destruct Ht as [-> | ->]; reflexivity. }
  assert (WebServer.handle_set_param call local_components fuel w request
          = match set_value call fuel r (WebServer.row request) (WebServer.col request)
                    (WebServer.value request) true w with
            | (calls, Returned w') => (calls, Returned (WebServer.Success, w'))
            | (calls, Raised e) => (calls, Returned (WebServer.FailureExn e, w))
            | (calls, NoFuel) => (calls, NoFuel)
            | (calls, Dangling) => (calls, Dangling)
            end) as ->.
  { unfold WebServer.handle_set_param. rewrite Hl, Hp, Hro.
    destruct (WebServer.value request); [contradiction| | | |]; reflexivity. }
  destruct (coerce (cls p) (WebServer.value request)) as [e|v'] eqn:Hc.
  - unfold set_value. rewrite Hp, Hc. reflexivity.
  - destruct (HandlerFacts.set_value_writes_cell call fuel r (WebServer.row request)
                (WebServer.col request) _ v' true w p Hp Hc Hq Hfuel) as (calls & w' & Hs & Hw').
    rewrite Hs. exists calls, w'. split; [reflexivity|].
    intros fuel' websocket' m'.
    unfold WebServer._handle_message, ProtocolSpec.with_type.
    cbn -[WebServer.handle_get_param]. unfold WebServer.handle_get_param.
    assert (WebServer.lookup_param local_components w'
              (WebServer.mkRequest (Some "get_param") (WebServer.q_param_id request)
                 (WebServer.comp request) (WebServer.comp_id request)
                 (WebServer.param request) (WebServer.q_param_type request)
                 (WebServer.idx request) (WebServer.row request) (WebServer.col request)
                 (WebServer.value request)) = Some r) as ->.
    { rewrite <- Hl. etransitivity; [apply HandlerFacts.lookup_param_classes|reflexivity].
      intros r0. rewrite Hw', lookup_insert.
      destruct (decide (r = r0)) as [<-|]; [rewrite Hp|]; reflexivity. }
    rewrite Hw', lookup_insert_eq. cbn [WebServer.row WebServer.col].
    rewrite get_value_insert, decide_True by reflexivity. reflexivity.
Qed.

(** X6. The value a write leaves in a cell is a fixed point of the
    conversion of the class, whatever the bounds: writing it back stores
    the same value, and, unless it is a NaN, the write returns, calls
    nobody and leaves every cell of every parameter and every list of
    subscribers as it was. (The write sets [last_updated] anew all the
    same: that attribute is not part of the objects here.) *)
Theorem writing_back_a_stored_value_is_silent `{PyBuiltins} {CB Env : Type}
    (call : CB -> CallArgs -> World CB Env -> World CB Env)
    (fuel : nat) (self : ref) (row col : Z) (v v' : PyVal) (do_notify : bool)
    (w : World CB Env) (p : BaseParameter CB) :
  params w !! self = Some p ->
  coerce (cls p) v = inr v' ->
  get_value p row col = v' ->
  coerce (cls p) v' = inr v' /\
  (match v' with VFloat f => is_nan f = false | _ => True end ->
   exists w',
     set_value call fuel self row col v' do_notify w = ([], Returned w') /\
     env w' = env w /\
     forall r q, params w !! r = Some q ->
       exists q', params w' !! r = Some q' /\
                  _on_change_callbacks q' = _on_change_callbacks q /\
                  forall ro co, get_value q' ro co = get_value q ro co).
Proof.
  intros Hp Hc Hg.
  assert (coerce (cls p) v' = inr v') as Hfix.
  { clear Hg. destruct (cls p) as [lo hi d|lo hi d|d|d]; simpl in *.
    - destruct (py_int v) as [e|z]; inversion Hc; subst; simpl. do 2 f_equal.
      unfold int_max, int_min.
      repeat (match goal with
              | |- context [?a <? ?b] => is_var a; is_var b; destruct (Z.ltb_spec a b)
              end; cbv iota); lia.
    - destruct (py_float v) as [e|f]; inversion Hc; subst; simpl. do 2 f_equal.
      unfold float_max, float_min.
      assert (forall x, PrimFloat.ltb x x = false) as Hirr.
      { intros x. rewrite FloatAxioms.ltb_spec. unfold SFltb.
        rewrite FloatOrder.SFcompare_key.
        destruct (FloatKeys.key (Prim2SF x)) as [a|]; [|reflexivity].
        pose proof (FloatOrder.lex_le_refl a) as Hr.
        destruct (FloatKeys.lex a a) eqn:E; try reflexivity.
        apply FloatOrder.lex_lt_spec in E. contradiction. }
      destruct (PrimFloat.ltb f hi) eqn:E1.
      + destruct (PrimFloat.ltb lo f) eqn:E2; rewrite ?E1, ?E2; try reflexivity.
        destruct (PrimFloat.ltb lo hi) eqn:E3; rewrite ?Hirr, ?E3; reflexivity.
      + destruct (PrimFloat.ltb lo hi) eqn:E3; rewrite ?Hirr, ?E3; reflexivity.
    - inversion Hc; subst. reflexivity.
    - inversion Hc; subst. reflexivity. }
  split; [exact Hfix|]. intros Hnan.
  assert (py_eq v' v' = true) as Heq.
  { destruct v'; simpl; auto using Z.eqb_refl, String.eqb_refl.
    - destruct b; reflexivity.
    - unfold is_nan in Hnan. apply negb_false_iff in Hnan. exact Hnan. }
  assert (_values p !! (row, col) = Some v') as Hcell.
  { unfold get_value in Hg. destruct (_values p !! (row, col)) as [x|]; simpl in Hg;
      [congruence|].
    subst v'. destruct (cls p); simpl in Hc;
      repeat match type of Hc with context [match ?x with _ => _ end] => destruct x end;
      discriminate. }
  exists (put self (with_values p (<[(row, col) := v']> (_values p))) w).
  split; [|split; [reflexivity|]].
  - unfold set_value, BaseParameter_set_value. rewrite Hp, Hfix, Hg.
    unfold py_ne. rewrite Heq, andb_false_r. reflexivity.
  - intros r q Hq. unfold put. simpl. rewrite lookup_insert.
    destruct (decide (self = r)) as [<-|]; [|eauto].
    assert (q = p) by congruence. subst q.
    eexists. split; [reflexivity|]. split; [reflexivity|].
    intros ro co. rewrite ParameterFacts.get_value_insert.
    destruct (decide ((row, col) = (ro, co))) as [Heq'|]; [|reflexivity].
    inversion Heq'; subst. reflexivity.
Qed.

Lemma get_param_info_enumerates_type_witness :
  let c := ServerExample.action_manager.1.1 in
  let w := ServerExample.hub_world in
  let n := Z.of_nat (length (ComponentSpec.of_type w STRING c)) in
  exists resp,
    WebServer._handle_message idle ServerExample.local_components 0 0%nat
      (ServerExample.get_info "str" 1) WebServer.new_manager w
    = ([], Returned (resp, WebServer.new_manager, w)) /\
    (1 = -1 -> resp = WebServer.Count n) /\
    (0 <= 1 < n ->
       exists r p,
         get_param_by_type_and_index w c (ParameterType_value STRING) 1 = Some r /\
         params w !! r = Some p /\
         Base.param_type (cls p) = STRING /\
         resp = WebServer.ParamInfo (WebServer.meta p)) /\
    (1 < -1 \/ n <= 1 -> resp = WebServer.Error "index out of range").
Proof.
  refine (get_param_info_enumerates_type idle ServerExample.local_components 0 0%nat
            WebServer.new_manager ServerExample.hub_world (ServerExample.get_info "str" 1)
            "ActionManager" ServerExample.action_manager.1.1 STRING _ _ _ _ _).
  - reflexivity.
  - reflexivity.
  - discriminate.
  - reflexivity.
  - reflexivity.
Defined.

Lemma set_param_then_get_param_witness :
  let request :=
    WebServer.mkRequest (Some "SET") None (Some "ActionManager") None (Some "enabled")
      None None 0 0 (VStr "Yes") in
  exists calls w',
    WebServer._handle_message idle ServerExample.local_components 0 7%nat request
      WebServer.new_manager ServerExample.hub_world
    = (calls, Returned (WebServer.Success, WebServer.new_manager, w')) /\
    forall fuel' websocket' m',
      WebServer._handle_message idle ServerExample.local_components fuel' websocket'
        (ProtocolSpec.with_type "get_param" request) m' w'
      = ([], Returned (WebServer.ParamValue "enabled" 3 "bool" (VBool true), m', w')).
Proof.
  exact (set_param_then_get_param idle ServerExample.local_components 0 7%nat
           WebServer.new_manager ServerExample.hub_world
           (WebServer.mkRequest (Some "SET") None (Some "ActionManager") None (Some "enabled")
              None None 0 0 (VStr "Yes"))
           2%nat (new_parameter "enabled" 3 1 1 (BoolParameter true) false)
           (or_intror eq_refl) ltac:(discriminate) eq_refl eq_refl eq_refl
           (fun _ _ _ => eq_refl) (le_n 0)).
Defined.

Lemma writing_back_a_stored_value_is_silent_witness :
  coerce (IntParameter 0 100 0) (VInt 0) = inr (VInt 0) /\
  exists w',
    set_value idle 0 0%nat 0 0 (VInt 0) true one_int.2 = ([], Returned w') /\
    env w' = env one_int.2 /\
    forall r q, params one_int.2 !! r = Some q ->
      exists q', params w' !! r = Some q' /\
                 _on_change_callbacks q' = _on_change_callbacks q /\
                 forall ro co, get_value q' ro co = get_value q ro co.
Proof.
  destruct (writing_back_a_stored_value_is_silent idle 0 0%nat 0 0 (VInt (-5)) (VInt 0) true
              one_int.2
              (with_callbacks (new_parameter "y" 1 1 1 (IntParameter 0 100 0) false)
                 [7%nat; 8%nat])
              eq_refl eq_refl eq_refl) as [Hfix Hsilent].
  split; [exact Hfix | exact (Hsilent I)].
Defined.

(** ** The timed queue: failures and progress *)

Module QueueProgress.
Import ActionManager QueueSpec.

Section Queue.
Context `{HeapQ}.

Lemma queue_loop_failure current_time : forall actions cumulative_delay queue queue' e,
  queue_loop current_time cumulative_delay actions queue = (queue', Some e) ->
  exists k a ds,
    actions !! k = Some a /\ delay a = inl e /\
    Forall2 (fun a d => delay a = inr d) (take k actions) ds /\
    queue' ≡ₚ imap (fun i a =>
                      mkQueued (current_time
                                + foldl PrimFloat.add cumulative_delay (take i ds))%float a)
                   (take (S k) actions) ++ queue.
Proof.
  induction actions as [|a rest IH]; intros c queue queue' e; simpl; [discriminate|].
  destruct (delay a) as [e'|d] eqn:Ed.
  - intros Heq; inversion Heq; subst.
    exists 0%nat, a, []. split; [reflexivity|]. split; [exact Ed|].
    split; [constructor|]. rewrite take_0. simpl. apply heappush_perm.
  - intros Hloop. destruct (IH _ _ _ _ Hloop) as (k & b & ds & Hk & Hb & Hds & Hperm).
    exists (S k), b, (d :: ds). split; [exact Hk|]. split; [exact Hb|].
    split; [simpl; constructor; assumption|].
    rewrite Hperm, heappush_perm. simpl.
    rewrite <- Permutation_middle. reflexivity.
Qed.

(** With the queue enabled and the clock past every time of the queue,
    each turn executes the head. *)
Lemma process_queue_all_due : forall turns queue,
  is_heap queue ->
  Forall (fun '(enabled, now) =>
            truthy enabled = true /\
            Forall (fun q => PrimFloat.leb (execute_at q) now = true) queue) turns ->
  (length queue <= length turns)%nat ->
  map snd (_process_queue turns queue) ≡ₚ queue.
Proof.
  induction turns as [|[enabled now] turns IH]; intros queue Hheap Hturns Hlen.
  - destruct queue; [reflexivity | simpl in Hlen; lia].
  - inversion Hturns as [|? ? Hfirst Hrest]; subst. destruct Hfirst as [Hen Hdue]. simpl.
    unfold _process_queue_step. rewrite Hen. simpl.
    destruct queue as [|hd tl].
    + rewrite IH; [reflexivity | exact Hheap | | simpl; lia].
      eapply Forall_impl; [exact Hrest|]. intros [e n] [He _]. split; [exact He | constructor].
    + inversion Hdue as [|? ? Hhd Htl]; subst. rewrite Hhd.
      destruct (heappop_nonempty (hd :: tl)) as [[x queue'] Epop]; [discriminate|].
      rewrite Epop. simpl.
      destruct (heappop_heap _ _ _ Hheap Epop) as (Hhead & Hheap' & _).
      simpl in Hhead. inversion Hhead; subst x.
      pose proof (heappop_perm _ _ _ Epop) as Hperm.
      rewrite Hperm. constructor. apply IH; [exact Hheap' | |].
      * eapply Forall_impl; [exact Hrest|]. intros [e n] [He Hq]. split; [exact He|].
        rewrite Hperm in Hq. inversion Hq; assumption.
      * apply Permutation_length in Hperm. simpl in *. lia.
Qed.

End Queue.
End QueueProgress.

(** X7. When [_queue_actions] raises, on an action whose [wait_after_ms] is
    not a number, that action and the actions before it are in the queue,
    with the times the delays before them give, and the actions after it
    are not: the queue has grown by the start of the batch. *)
Theorem queue_actions_failure_keeps_the_start `{ActionManager.HeapQ}
    (current_time : float) (actions : list ActionManager.Action)
    (queue queue' : list ActionManager.QueuedAction) (e : Exn) :
  ActionManager._queue_actions current_time actions queue = (queue', Some e) ->
  exists k a ds,
    actions !! k = Some a /\
    ActionManager.delay a = inl e /\
    Forall2 (fun a d => ActionManager.delay a = inr d) (take k actions) ds /\
    queue' ≡ₚ imap (fun i a =>
                      ActionManager.mkQueued
                        (current_time + foldl PrimFloat.add 0 (take i ds))%float a)
                   (take (S k) actions) ++ queue.
Proof. apply QueueProgress.queue_loop_failure. Qed.

Lemma queue_actions_failure_keeps_the_start_witness :
  exists k a ds,
    [QueueExample.first;
     ActionManager.mkAction "self" None (Some "X") (Some "y") 0 0 (VInt 2) (Some (VStr "soon"));
     QueueExample.second] !! k = Some a /\
    ActionManager.delay a = inl TypeError /\
    Forall2 (fun a d => ActionManager.delay a = inr d)
      (take k [QueueExample.first;
               ActionManager.mkAction "self" None (Some "X") (Some "y") 0 0 (VInt 2)
                 (Some (VStr "soon"));
               QueueExample.second]) ds /\
    (ActionManager._queue_actions 1000
       [QueueExample.first;
        ActionManager.mkAction "self" None (Some "X") (Some "y") 0 0 (VInt 2)
          (Some (VStr "soon"));
        QueueExample.second] []).1
    ≡ₚ imap (fun i a =>
               ActionManager.mkQueued (1000 + foldl PrimFloat.add 0 (take i ds))%float a)
            (take (S k)
               [QueueExample.first;
                ActionManager.mkAction "self" None (Some "X") (Some "y") 0 0 (VInt 2)
                  (Some (VStr "soon"));
                QueueExample.second]) ++ [].
Proof.
  exact (queue_actions_failure_keeps_the_start 1000
           [QueueExample.first;
            ActionManager.mkAction "self" None (Some "X") (Some "y") 0 0 (VInt 2)
              (Some (VStr "soon"));
            QueueExample.second] [] _ TypeError eq_refl).
Defined.

(** X8. No queued action is lost: with the queue enabled and the clock past
    the time of every queued action, as many turns of the processing loop
    as the queue has items execute every item of the queue, each once. *)
Theorem process_queue_executes_every_due_action `{ActionManager.HeapQ}
    (turns : list (PyVal * float)) (queue : list ActionManager.QueuedAction) :
  ActionManager.is_heap queue ->
  Forall (fun '(enabled, now) =>
            truthy enabled = true /\
            Forall (fun q => PrimFloat.leb (ActionManager.execute_at q) now = true) queue)
         turns ->
  (length queue <= length turns)%nat ->
  map snd (ActionManager._process_queue turns queue) ≡ₚ queue.
Proof. apply QueueProgress.process_queue_all_due. Qed.

Lemma process_queue_executes_every_due_action_witness :
  let queue := [ActionManager.mkQueued 1000%float QueueExample.first;
                ActionManager.mkQueued 1000.5%float QueueExample.second] in
  map snd (ActionManager._process_queue [(VBool true, 2000%float); (VInt 1, 2000.5%float)] queue)
  ≡ₚ queue.
Proof.
  refine (process_queue_executes_every_due_action
            [(VBool true, 2000%float); (VInt 1, 2000.5%float)]
            [ActionManager.mkQueued 1000%float QueueExample.first;
             ActionManager.mkQueued 1000.5%float QueueExample.second] _ _ _).
  - split; repeat constructor.
  - repeat constructor.
  - simpl. lia.
Defined.

(** ** Subscriptions: who is notified *)

Module SubscriptionHistoryFacts.
Import WebServer SubscriptionSpec SubscriptionFacts SubscriptionHistory.
#[local] Set Warnings "-clear-no-such-hyp".

Lemma reachable_consistent (ops : list Op) : consistent (foldl apply_op new_manager ops).
Proof.
  assert (consistent new_manager) as H0.
  { split.
    - intros ws key. unfold clients_of, keys_of. simpl. rewrite !lookup_empty. simpl. set_solver.
    - intros key clients. simpl. rewrite lookup_empty. discriminate. }
  revert H0. generalize new_manager.
  induction ops as [|op ops IH]; intros m Hm; simpl; [exact Hm|].
  apply IH. destruct op; simpl.
  - apply subscribe_consistent, Hm.
  - apply unsubscribe_consistent, Hm.
  - apply remove_client_consistent, Hm.
Qed.

(** One operation, on a manager whose two maps agree. *)
Lemma clients_of_apply_op m op ws key :
  consistent m ->
  ws ∈ clients_of (apply_op m op) key <->
  after ws key (bool_decide (ws ∈ clients_of m key)) op = true.
Proof.
  intros [Hagree Hne]. destruct op as [ws' pid row col|ws' pid row col|ws']; simpl.
  - unfold clients_of at 1. rewrite subscribers_subscribe.
    destruct (decide (key = (pid, row, col))) as [->|Hk]; simpl.
    + destruct (decide (ws' = ws /\ (pid, row, col) = (pid, row, col))) as [[-> _]|Hn].
      * set_solver.
      * rewrite bool_decide_eq_true, elem_of_union, elem_of_singleton.
        split; [intros [? | ->]; [assumption | exfalso; apply Hn; auto] | auto].
    + destruct (decide (ws' = ws /\ (pid, row, col) = key)) as [[_ He]|Hn];
        [congruence|]. rewrite bool_decide_eq_true. reflexivity.
  - unfold clients_of at 1, unsubscribe. simpl. rewrite discard_subscriber_lookup.
    destruct (decide (key = (pid, row, col))) as [->|Hk].
    + destruct (decide (ws' = ws /\ (pid, row, col) = (pid, row, col))) as [[-> _]|Hn].
      * set_solver.
      * rewrite bool_decide_eq_true. unfold clients_of.
        rewrite elem_of_difference, elem_of_singleton.
        split; [tauto|]. intros Hin. split; [exact Hin|]. intros ->. apply Hn. auto.
    + destruct (decide (ws' = ws /\ (pid, row, col) = key)) as [[_ He]|Hn];
        [congruence|]. rewrite bool_decide_eq_true. reflexivity.
  - unfold remove_client. destruct (_subscriptions m !! ws') as [keys|] eqn:E.
    + unfold clients_of at 1. simpl. rewrite discard_all_lookup.
      pose proof (Hagree ws' key) as Hb. unfold clients_of, keys_of in Hb.
      rewrite E in Hb. simpl in Hb.
      destruct (decide (ws' = ws)) as [->|Hw].
      * destruct (decide (key ∈ elements keys)) as [Hin|Hin]; [set_solver|].
        rewrite elem_of_elements in Hin. set_solver.
      * rewrite bool_decide_eq_true. unfold clients_of.
        destruct (decide (key ∈ elements keys)); [|reflexivity]. set_solver.
    + destruct (decide (ws' = ws)) as [->|Hw]; [|rewrite bool_decide_eq_true; reflexivity].
      pose proof (Hagree ws key) as Hb. unfold keys_of in Hb. rewrite E in Hb. simpl in Hb.
      set_solver.
Qed.

Lemma clients_of_history (ops : list Op) ws key :
  ws ∈ clients_of (foldl apply_op new_manager ops) key <-> subscribed ops ws key = true.
Proof.
  unfold subscribed. induction ops as [|op ops IH] using rev_ind.
  - simpl. unfold clients_of. simpl. rewrite lookup_empty. simpl. set_solver.
  - rewrite !foldl_app. simpl.
    rewrite clients_of_apply_op by apply reachable_consistent.
    destruct (foldl (after ws key) false ops) eqn:Eb.
    + rewrite bool_decide_true by (apply IH; reflexivity). reflexivity.
    + rewrite bool_decide_false; [reflexivity|]. intros Hin. apply IH in Hin. discriminate.
Qed.

End SubscriptionHistoryFacts.

(** X9. After any sequence of [subscribe], [unsubscribe] and [remove_client]
    calls on a new manager, [get_subscribers] of a cell returns exactly
    the clients whose latest operation about that cell was a [subscribe],
    the removal of a client counting as its unsubscription from every
    cell. *)
Theorem get_subscribers_is_the_latest_subscriptions (ops : list SubscriptionSpec.Op)
    (ws : nat) (pid row col : Z) :
  ws ∈ WebServer.get_subscribers pid row col
         (foldl SubscriptionSpec.apply_op WebServer.new_manager ops) <->
  SubscriptionHistory.subscribed ops ws (pid, row, col) = true.
Proof. apply SubscriptionHistoryFacts.clients_of_history. Qed.

(** ** The variables of the watcher *)

Module VariableFacts.
Import WatcherComponent ComponentFacts.

Section Refresh.
Context {CB Env : Type}.
Variable hub : option (list (string * Component) * gmap string (gmap string PyVal)).
Variable w : World CB Env.
Variable nick : gmap string string.

Abbreviation source := (VariableSpec.source hub w nick).

Lemma refresh_loop_other name : forall defs vals,
  name ∉ map fst defs ->
  od_get name (refresh_loop hub w nick defs vals) = od_get name vals.
Proof.
  induction defs as [|[n [d|]] defs IH]; intros vals Hn; simpl; [reflexivity| |].
  - rewrite IH by (intros Hin; apply Hn; simpl; right; exact Hin).
    assert (name <> n) as Hne by (intros ->; apply Hn; simpl; left).
    destruct (_get_param_value _ _ _ _ _ _ _); try reflexivity;
      apply od_get_set_ne; exact Hne.
  - apply IH. intros Hin. apply Hn. simpl. right. exact Hin.
Qed.

Lemma refresh_loop_defined name d : forall defs vals,
  NoDup (map fst defs) -> (name, Some d) ∈ defs ->
  od_get name (refresh_loop hub w nick defs vals) =
  match source d with
  | VNone => od_get name vals
  | v => Some v
  end.
Proof.
  induction defs as [|[n x] defs IH]; intros vals Hnd Hin; [inversion Hin|].
  simpl in Hnd. inversion Hnd as [|? ? Hn Hnd']; subst.
  apply elem_of_cons in Hin as [Heq|Hin].
  - inversion Heq; subst n x. simpl. fold (source d).
    rewrite refresh_loop_other by exact Hn.
    destruct (source d); try reflexivity; apply od_get_set_eq.
  - assert (name <> n) as Hne.
    { intros ->. apply Hn. apply list_elem_of_fmap. exists (n, Some d). split; auto. }
    destruct x as [d0|]; simpl; [|apply IH; assumption].
    rewrite IH by assumption.
    destruct (source d); try reflexivity.
    destruct (_get_param_value _ _ _ _ _ _ _); try reflexivity;
      apply od_get_set_ne; exact Hne.
Qed.

Lemma refresh_loop_keeps name : forall defs vals,
  is_Some (od_get name vals) -> is_Some (od_get name (refresh_loop hub w nick defs vals)).
Proof.
  induction defs as [|[n [d|]] defs IH]; intros vals Hv; simpl; [exact Hv| |].
  - apply IH. destruct (_get_param_value _ _ _ _ _ _ _); try exact Hv;
      (destruct (decide (name = n)) as [->|Hne];
       [rewrite od_get_set_eq; eauto | rewrite od_get_set_ne by exact Hne; exact Hv]).
  - apply IH, Hv.
Qed.

Lemma refresh_loop_no_none name v : forall defs vals,
  od_get name (refresh_loop hub w nick defs vals) = Some v ->
  od_get name vals = Some v \/ v <> VNone.
Proof.
  induction defs as [|[n [d|]] defs IH]; intros vals Hv; simpl in Hv; [auto| |].
  - apply IH in Hv as [Hv|Hv]; [|auto].
    destruct (_get_param_value _ _ _ _ _ _ _) eqn:Es; auto;
      (destruct (decide (name = n)) as [->|Hne];
       [rewrite od_get_set_eq in Hv; inversion Hv; right; discriminate
       | rewrite od_get_set_ne in Hv by exact Hne; auto]).
  - apply IH, Hv.
Qed.

End Refresh.
End VariableFacts.

(** X10. [_refresh_variables] only ever adds to the values of the variables: a
    variable that had a value has one afterwards, no variable gets the
    value [None], and a variable that is defined takes the value its
    source gives, or keeps the value it had when the source gives none
    (a parameter or a device that is not there). *)
Theorem refresh_variables_keeps_stale_values {CB Env : Type}
    (hub : option (list (string * Component) * gmap string (gmap string PyVal)))
    (w : World CB Env) (nick : gmap string string)
    (_var_defs : list (string * option WatcherComponent.VarDef))
    (_var_values : list (string * PyVal)) :
  let values' := WatcherComponent._refresh_variables hub w nick _var_defs _var_values in
  (forall name, is_Some (od_get name _var_values) -> is_Some (od_get name values')) /\
  (forall name v, od_get name values' = Some v ->
     od_get name _var_values = Some v \/ v <> VNone) /\
  (forall name d,
     NoDup (map fst _var_defs) -> (name, Some d) ∈ _var_defs -> hub <> None ->
     WatcherComponent.get_variable_value values' name =
     match VariableSpec.source hub w nick d with
     | VNone => WatcherComponent.get_variable_value _var_values name
     | v => v
     end).
Proof.
  unfold WatcherComponent._refresh_variables, WatcherComponent.get_variable_value.
  destruct hub as [h|] eqn:Eh; simpl.
  - rewrite <- Eh. split; [intros name; apply VariableFacts.refresh_loop_keeps|].
    split; [intros name v; apply VariableFacts.refresh_loop_no_none|].
    intros name d Hnd Hin _.
    rewrite (VariableFacts.refresh_loop_defined hub w nick name d) by assumption.
    destruct (VariableSpec.source hub w nick d); reflexivity.
  - split; [auto|]. split; [auto|]. intros name d _ _ Hn. contradiction.
Qed.

(** X11. A value pushed by a device reaches the watcher: once
    [_handle_param_update] has handled a [param_update] frame for a known
    parameter, the cell of the mirror holds the value, and the next
    [_refresh_variables] gives it to every variable defined on that cell
    of that device by the names of the component and the parameter. *)
Theorem pushed_value_reaches_the_watcher {CB Env : Type}
    (d : CentralHub.ESP32Device) (cache : gmap string (gmap string PyVal))
    (data : CentralHub.ParamUpdate) (pid : Z) (c : Component) (r : ref)
    (prm : CentralHub.RemoteParameter)
    (local_components : list (string * Component)) (w : World CB Env)
    (nick : gmap string string)
    (_var_defs : list (string * option WatcherComponent.VarDef))
    (_var_values : list (string * PyVal)) (var dev : string) :
  CentralHub.u_param_id data = Some pid ->
  CentralHub.get_param_by_id d pid = Some (c, r) ->
  CentralHub.objects d !! r = Some prm ->
  CentralHub.u_value data <> VNone ->
  WatcherComponent._resolve_device nick dev = CentralHub.ip d ->
  CentralHub.ip d <> "self" ->
  NoDup (map fst _var_defs) ->
  (var, Some (WatcherComponent.mkVarDef dev (Some (comp_name c))
                (Some (CentralHub.name prm))
                (CentralHub.u_row data) (CentralHub.u_col data))) ∈ _var_defs ->
  let '(d', cache') := CentralHub._handle_param_update d cache data in
  (exists prm',
     CentralHub.objects d' !! r = Some prm' /\
     CentralHub.get_value prm' (CentralHub.u_row data) (CentralHub.u_col data)
     = CentralHub.u_value data) /\
  WatcherComponent.get_variable_value
    (WatcherComponent._refresh_variables (Some (local_components, cache')) w nick
       _var_defs _var_values) var
  = CentralHub.u_value data.
Proof.
  intros Hid Hfind Hobj Hval Hres Hself Hnd Hin.
  unfold CentralHub._handle_param_update. rewrite Hid, Hfind, Hobj.
  split.
  - eexists. split; [simpl; apply lookup_insert_eq|].
    unfold CentralHub.get_value, CentralHub.set_value. simpl.
    rewrite lookup_insert_eq. reflexivity.
  - unfold WatcherComponent._refresh_variables, WatcherComponent.get_variable_value.
    rewrite (VariableFacts.refresh_loop_defined _ w nick var _ _ _ Hnd Hin).
    unfold VariableSpec.source. simpl. rewrite Hres.
    unfold WatcherComponent._get_param_value.
    apply String.eqb_neq in Hself. rewrite Hself.
    rewrite lookup_insert_eq. simpl.
    rewrite lookup_insert.
    destruct (decide _) as [_|_]; [|rewrite lookup_insert_eq]; simpl;
      destruct (CentralHub.u_value data); try reflexivity; contradiction.
Qed.

Lemma pushed_value_reaches_the_watcher_witness :
  let '(d', cache') :=
    CentralHub._handle_param_update MirrorExample.device ∅
      (CentralHub.mkUpdate (Some 7) 0 0 (VInt 42)) in
  (exists prm',
     CentralHub.objects d' !! 0%nat = Some prm' /\
     CentralHub.get_value prm' 0 0 = VInt 42) /\
  WatcherComponent.get_variable_value
    (WatcherComponent._refresh_variables (CB:=nat) (Some ([], cache')) (mkWorld ∅ tt)
       MirrorExample.nicknames MirrorExample.variables []) "lux"
  = VInt 42.
Proof.
  refine (pushed_value_reaches_the_watcher MirrorExample.device ∅
            (CentralHub.mkUpdate (Some 7) 0 0 (VInt 42)) 7 MirrorExample.light 0%nat
            MirrorExample.level [] (mkWorld ∅ tt) MirrorExample.nicknames
            MirrorExample.variables [] "lux" "porch" _ _ _ _ _ _ _ _).
  - reflexivity.
  - reflexivity.
  - reflexivity.
  - discriminate.
  - reflexivity.
  - discriminate.
  - repeat constructor; set_solver.
  - left.
Defined.

(** ** Actions on the hub itself *)

(** X12. An action for the hub itself that carries a value does what the
    protocol request [SET] with the same fields does: the same parameter
    is found, a read-only or missing parameter is left alone, the same
    callbacks are called and the same state is left. Where the protocol
    answers with the exception of the conversion, the action raises it. *)
Theorem local_action_acts_like_set_request `{PyBuiltins} {CB Env : Type}
    (call : CB -> CallArgs -> World CB Env -> World CB Env)
    (local_components : list (string * Component))
    (devices : gmap string CentralHub.ESP32Device) (websockets : gset string)
    (nick : gmap string string) (fuel : nat) (action : ActionManager.Action)
    (w : World CB Env) :
  ActionManagerComponent._resolve_device nick (ActionManager.device action) = "self" ->
  ActionManager.value action <> VNone ->
  let request :=
    WebServer.mkRequest (Some "SET") (ActionManager.a_param_id action)
      (ActionManager.component action) None (ActionManager.param action) None None
      (ActionManager.a_row action) (ActionManager.a_col action)
      (ActionManager.value action) in
  let served := WebServer.handle_set_param call local_components fuel w request in
  match ActionManagerComponent._execute_action call
          (Some (local_components, devices, websockets)) nick fuel action w with
  | (calls, sent, Returned w') =>
      sent = None /\ exists resp, served = (calls, Returned (resp, w')) /\
                                  (resp = WebServer.Success \/ w' = w)
  | (calls, sent, Raised e) =>
      sent = None /\ served = (calls, Returned (WebServer.FailureExn e, w))
  | (calls, sent, NoFuel) => sent = None /\ served = (calls, NoFuel)
  | (calls, sent, Dangling) => sent = None /\ served = (calls, Dangling)
  end.
Proof.
  intros Hself Hv request served.
  unfold ActionManagerComponent._execute_action. rewrite Hself. simpl String.eqb. cbv iota.
  unfold ActionManagerComponent._execute_local_action.
  assert (WebServer.lookup_param local_components w request
          = ActionManagerComponent.find_local local_components action) as Hl.
  { unfold WebServer.lookup_param, ActionManagerComponent.find_local, request. simpl.
    destruct (ActionManager.a_param_id action); [reflexivity|].
    destruct (WebServer.nonempty (ActionManager.component action)
              && WebServer.nonempty (ActionManager.param action)); [reflexivity|].
    destruct (WebServer.nonempty (ActionManager.component action)); reflexivity. }
  assert (served = match WebServer.lookup_param local_components w request with
                   | None => ([], Returned (WebServer.Failure "parameter not found", w))
                   | Some r =>
                       match params w !! r with
                       | None => ([], Dangling)
                       | Some p =>
                           if read_only p
                           then ([], Returned (WebServer.Failure "parameter is read-only", w))
                           else
                             match set_value call fuel r (ActionManager.a_row action)
                                     (ActionManager.a_col action)
                                     (ActionManager.value action) true w with
                             | (calls, Returned w') => (calls, Returned (WebServer.Success, w'))
                             | (calls, Raised e) =>
                                 (calls, Returned (WebServer.FailureExn e, w))
                             | (calls, NoFuel) => (calls, NoFuel)
                             | (calls, Dangling) => (calls, Dangling)
                             end
                       end
                   end) as ->.
  { unfold served, WebServer.handle_set_param, request. simpl.
    destruct (ActionManager.value action); [contradiction| | | |]; reflexivity. }
  rewrite Hl.
  destruct (ActionManagerComponent.find_local local_components action) as [r|]; [|eauto 6].
  destruct (params w !! r) as [p|]; [|auto].
  destruct (read_only p); [eauto 6|].
  destruct (set_value call fuel r (ActionManager.a_row action) (ActionManager.a_col action)
              (ActionManager.value action) true w) as [calls [w'|e| |]]; eauto 6.
Qed.

Lemma local_action_acts_like_set_request_witness :
  let action := ActionManager.mkAction "Self" (Some 3) None None 0 0 (VInt 0) None in
  let request := WebServer.mkRequest (Some "SET") (Some 3) None None None None None 0 0 (VInt 0) in
  let served :=
    WebServer.handle_set_param idle ServerExample.local_components 0 ServerExample.hub_world
      request in
  match ActionManagerComponent._execute_action idle
          (Some (ServerExample.local_components, ∅, ∅)) ∅ 0 action ServerExample.hub_world with
  | (calls, sent, Returned w') =>
      sent = None /\ exists resp, served = (calls, Returned (resp, w')) /\
                                  (resp = WebServer.Success \/ w' = ServerExample.hub_world)
  | (calls, sent, Raised e) =>
      sent = None /\
      served = (calls, Returned (WebServer.FailureExn e, ServerExample.hub_world))
  | (calls, sent, NoFuel) => sent = None /\ served = (calls, NoFuel)
  | (calls, sent, Dangling) => sent = None /\ served = (calls, Dangling)
  end.
Proof.
  exact (local_action_acts_like_set_request idle ServerExample.local_components ∅ ∅ ∅ 0
           (ActionManager.mkAction "Self" (Some 3) None None 0 0 (VInt 0) None)
           ServerExample.hub_world eq_refl ltac:(discriminate)).
Defined.

(** ** The clients of the server *)

Module ClientFacts.
Import WebServer WebServerComponent SubscriptionSpec SubscriptionFacts StoreSpec.
#[local] Set Warnings "-clear-no-such-hyp".

Section Facts.
Context `{PyBuiltins} {CB Env : Type}.
Variable call : CB -> CallArgs -> World CB Env -> World CB Env.
Hypothesis call_keeps_params : forall cb a w, params (call cb a w) = params w.

Lemma notify_keeps_params self a : forall fuel i (w : World CB Env) calls w',
  notify call fuel self a i w = (calls, Returned w') -> params w' = params w.
Proof.
  induction fuel as [|fuel IH]; intros i w calls w'; simpl.
  - destruct (params w !! self) as [p|]; [|discriminate].
    destruct (_on_change_callbacks p !! i); [discriminate|].
    intros Heq; inversion Heq; reflexivity.
  - destruct (params w !! self) as [p|]; [|discriminate].
    destruct (_on_change_callbacks p !! i) as [cb|].
    + destruct (notify call fuel self a (S i) (call cb a w)) as [calls0 o] eqn:En.
      intros Heq; inversion Heq; subst. rewrite (IH _ _ _ _ En). apply call_keeps_params.
    + intros Heq; inversion Heq; reflexivity.
Qed.

(** A write that returns has changed the one cell. *)
Lemma set_value_returned fuel self row col v nfy (w : World CB Env) calls w' :
  set_value call fuel self row col v nfy w = (calls, Returned w') ->
  exists p v',
    params w !! self = Some p /\ coerce (cls p) v = inr v' /\
    params w' = <[self := with_values p (<[(row, col) := v']> (_values p))]> (params w).
Proof.
  unfold set_value. destruct (params w !! self) as [p|] eqn:Ep; [|discriminate].
  destruct (coerce (cls p) v) as [e|v'] eqn:Ec; [discriminate|].
  unfold BaseParameter_set_value. rewrite Ep.
  destruct (nfy && py_ne (get_value p row col) v').
  - intros Hn. apply notify_keeps_params in Hn. exists p, v'. auto.
  - intros Heq; inversion Heq; subst. exists p, v'. auto.
Qed.

(** A write ends: it returns or it raises in the conversion. *)
Lemma set_value_ends fuel self row col v nfy (w : World CB Env) p :
  params w !! self = Some p ->
  (length (_on_change_callbacks p) <= fuel)%nat ->
  exists calls, (exists w', set_value call fuel self row col v nfy w = (calls, Returned w')) \/
                (exists e, set_value call fuel self row col v nfy w = (calls, Raised e)).
Proof.
  intros Hp Hfuel. destruct (coerce (cls p) v) as [e|v'] eqn:Hc.
  - exists []. right. exists e. unfold set_value. rewrite Hp, Hc. reflexivity.
  - destruct (HandlerFacts.set_value_writes_cell call fuel self row col v v' nfy w p
                Hp Hc call_keeps_params Hfuel) as (calls & w' & Hs & _).
    exists calls. left. eauto.
Qed.

Lemma shape_write (p : BaseParameter CB) vs : shape (with_values p vs) = shape p.
Proof. reflexivity. Qed.

Lemma same_shapes_write (w w' : World CB Env) self p vs :
  params w !! self = Some p ->
  params w' = <[self := with_values p vs]> (params w) ->
  same_shapes w w'.
Proof.
  intros Hp Hw r. rewrite Hw, lookup_insert.
  destruct (decide (self = r)) as [<-|]; [rewrite Hp|]; reflexivity.
Qed.

Lemma same_shapes_refl (w : World CB Env) : same_shapes w w.
Proof. intros r. reflexivity. Qed.

Lemma same_shapes_trans (w1 w2 w3 : World CB Env) :
  same_shapes w1 w2 -> same_shapes w2 w3 -> same_shapes w1 w3.
Proof. intros H12 H23 r. rewrite H23. apply H12. Qed.

Lemma same_shapes_lookup (w w' : World CB Env) r p :
  same_shapes w w' -> params w !! r = Some p ->
  exists p', params w' !! r = Some p' /\ shape p' = shape p.
Proof.
  intros Hs Hp. specialize (Hs r). rewrite Hp in Hs.
  destruct (params w' !! r) as [p'|]; simpl in Hs; [|discriminate].
  exists p'. split; [reflexivity | congruence].
Qed.

Lemma same_shapes_in_store lc (w w' : World CB Env) :
  same_shapes w w' -> components_in_store lc w -> components_in_store lc w'.
Proof.
  intros Hs Hin n c Hc. destruct (Hin n c Hc) as [Hl Hi].
  split; [intros r Hr; destruct (Hl r Hr) as [p Hp]
         | intros i r Hr; destruct (Hi i r Hr) as [p Hp]];
    destruct (same_shapes_lookup w w' r p Hs Hp) as (p' & Hp' & _); eauto.
Qed.

Lemma same_shapes_callbacks fuel (w w' : World CB Env) :
  same_shapes w w' -> callbacks_within fuel w -> callbacks_within fuel w'.
Proof.
  intros Hs Hc r p' Hp'. specialize (Hs r). rewrite Hp' in Hs.
  destruct (params w !! r) as [p|] eqn:Hp; simpl in Hs; [|discriminate].
  assert (shape p' = shape p) as Hsh by congruence. specialize (Hc r p Hp).
  assert (_on_change_callbacks p' = _on_change_callbacks p) as ->; [|exact Hc].
  change (_on_change_callbacks (shape p') = _on_change_callbacks (shape p)).
  rewrite Hsh. reflexivity.
Qed.

Variable local_components : list (string * Component).

Lemma find_by_id_in_store (w : World CB Env) pid r :
  components_in_store local_components w ->
  find_by_id pid (od_values local_components) = Some r -> is_Some (params w !! r).
Proof.
  intros Hin. unfold od_values.
  assert (forall l, (forall n c, (n, c) ∈ l -> (n, c) ∈ local_components) ->
                    find_by_id pid (map snd l) = Some r -> is_Some (params w !! r)) as Hgen.
  { induction l as [|[n c] l IH]; intros Hl; simpl; [discriminate|].
    unfold Base.get_param_by_id. destruct (params_by_id c !! pid) as [r0|] eqn:E.
    - intros Heq; inversion Heq; subst.
      destruct (Hin n c) as [_ Hi]; [apply Hl; left|]. eapply Hi, E.
    - apply IH. intros n' c' Hc'. apply Hl. right. exact Hc'. }
  apply Hgen. auto.
Qed.

Lemma od_get_elem {V} (k : string) (v : V) d : od_get k d = Some v -> (k, v) ∈ d.
Proof.
  induction d as [|[k' v'] d IH]; simpl; [discriminate|].
  destruct (String.eqb_spec k k') as [->|Hne].
  - intros Heq; inversion Heq; subst. left.
  - intros Hd. right. auto.
Qed.

Lemma lookup_param_in_store (w : World CB Env) request r :
  components_in_store local_components w ->
  lookup_param local_components w request = Some r -> is_Some (params w !! r).
Proof.
  intros Hin. unfold lookup_param.
  destruct (q_param_id request) as [pid|]; [apply find_by_id_in_store, Hin|].
  destruct (nonempty (comp request) && nonempty (param request)).
  - destruct (od_get (default "" (comp request)) local_components) as [c|] eqn:Ec;
      [|discriminate].
    apply od_get_elem in Ec. destruct (Hin _ _ Ec) as [Hl _].
    unfold Base.get_param. intros Hr. apply od_get_elem in Hr. apply Hl.
    unfold od_values. apply list_elem_of_fmap. exists (default "" (param request), r). auto.
  - destruct (nonempty (comp request)); [|discriminate].
    destruct (q_param_type request) as [ptype|]; [|discriminate].
    destruct (idx request) as [i|]; [|discriminate].
    destruct (od_get (default "" (comp request)) local_components) as [c|] eqn:Ec;
      [|discriminate].
    rewrite ComponentFacts.get_param_by_type_and_index_filter.
    destruct (type_map (lower ptype)) as [t|]; [|discriminate].
    destruct (i <? 0); [discriminate|]. intros Hl.
    apply list_elem_of_lookup_2, list_elem_of_In, filter_In in Hl as [_ Ht].
    unfold ComponentSpec.has_type in Ht. destruct (params w !! r); [eauto | discriminate].
Qed.

(** What a request can have done once it is handled. *)
Lemma handle_message_effect fuel websocket request m (w : World CB Env) calls resp m' w' :
  _handle_message call local_components fuel websocket request m w
  = (calls, Returned (resp, m', w')) ->
  (w' = w \/
   exists r p v',
     params w !! r = Some p /\ read_only p = false /\
     params w' = <[r := with_values p (<[(row request, col request) := v']> (_values p))]>
                   (params w)) /\
  (m' = m \/
   (exists pid, m' = subscribe websocket pid (row request) (col request) m) \/
   (exists pid, m' = unsubscribe websocket pid (row request) (col request) m)).
Proof.
  unfold _handle_message.
  destruct (negb (nonempty (msg_type request)));
    [intros Heq; inversion Heq; auto|].
  destruct (String.eqb (default "" (msg_type request)) "get_components");
    [intros Heq; inversion Heq; auto|].
  destruct (String.eqb (default "" (msg_type request)) "get_component_params");
    [intros Heq; inversion Heq; auto|].
  destruct (String.eqb (default "" (msg_type request)) "get_param_info");
    [intros Heq; inversion Heq; auto|].
  destruct (String.eqb (default "" (msg_type request)) "get_param");
    [intros Heq; inversion Heq; auto|].
  destruct (String.eqb (default "" (msg_type request)) "set_param"
            || String.eqb (default "" (msg_type request)) "SET").
  - unfold handle_set_param.
    destruct (value request); try (intros Heq; inversion Heq; auto; fail);
      (destruct (lookup_param local_components w request) as [r|];
       [|intros Heq; inversion Heq; auto];
       destruct (params w !! r) as [p|] eqn:Ep; [|discriminate];
       destruct (read_only p) eqn:Ero; [intros Heq; inversion Heq; auto|];
       match goal with
       | |- context [set_value call fuel r ?ro ?co ?v true w] =>
           destruct (set_value call fuel r ro co v true w) as [calls0 [w0|e| |]] eqn:Es
       end; try discriminate; intros Heq; inversion Heq; subst; auto;
       apply set_value_returned in Es as (p0 & v' & Hp0 & _ & Hw0);
       split; [right; exists r, p0, v'; split; [exact Hp0|]; split; [congruence | exact Hw0]
              | auto]).
  - destruct (String.eqb (default "" (msg_type request)) "subscribe").
    + unfold handle_subscribe. destruct (q_param_id request) as [pid|];
        [|intros Heq; inversion Heq; auto].
      destruct (find_by_id pid (od_values local_components)) as [r|];
        [|intros Heq; inversion Heq; auto].
      destruct (params w !! r); intros Heq; inversion Heq; subst; (split; [auto|]);
        [right; left; eexists; reflexivity | auto].
    + destruct (String.eqb (default "" (msg_type request)) "unsubscribe").
      * unfold handle_unsubscribe. destruct (q_param_id request) as [pid|];
          intros Heq; inversion Heq; subst; (split; [auto|]);
          [right; right; eexists; reflexivity | auto].
      * intros Heq; inversion Heq; auto.
Qed.

(** On a store that holds the objects of the components, with fuel for
    the callbacks of any object, every request is answered. *)
Lemma handle_message_returns fuel websocket request m (w : World CB Env) :
  components_in_store local_components w -> callbacks_within fuel w ->
  exists calls resp m' w',
    _handle_message call local_components fuel websocket request m w
    = (calls, Returned (resp, m', w')).
Proof.
  intros Hin Hfuel. unfold _handle_message.
  destruct (negb (nonempty (msg_type request))); [eauto|].
  destruct (String.eqb (default "" (msg_type request)) "get_components"); [eauto|].
  destruct (String.eqb (default "" (msg_type request)) "get_component_params"); [eauto|].
  destruct (String.eqb (default "" (msg_type request)) "get_param_info"); [eauto|].
  destruct (String.eqb (default "" (msg_type request)) "get_param"); [eauto|].
  destruct (String.eqb (default "" (msg_type request)) "set_param"
            || String.eqb (default "" (msg_type request)) "SET").
  - unfold handle_set_param.
    destruct (value request) eqn:Ev; [eauto| | | |];
      (destruct (lookup_param local_components w request) as [r|] eqn:El; [|eauto];
       destruct (lookup_param_in_store w request r Hin El) as [p Hp]; rewrite Hp;
       destruct (read_only p); [eauto|];
       match goal with
       | |- context [set_value call fuel r ?ro ?co ?v true w] =>
           destruct (set_value_ends fuel r ro co v true w p Hp (Hfuel r p Hp))
             as (calls & [[w' Hs]|[e Hs]]); rewrite Hs; eauto
       end).
  - destruct (String.eqb (default "" (msg_type request)) "subscribe").
    + destruct (handle_subscribe local_components websocket m w request); eauto.
    + destruct (String.eqb (default "" (msg_type request)) "unsubscribe"); [|eauto].
      destruct (handle_unsubscribe websocket m request); eauto.
Qed.

End Facts.
End ClientFacts.

Module SessionFacts.
Import WebServer WebServerComponent SubscriptionSpec SubscriptionFacts StoreSpec ClientFacts.
Import SubscriptionHistory SubscriptionHistoryFacts.

Section Session.
Context `{PyBuiltins} {CB Env : Type}.
Variable call : CB -> CallArgs -> World CB Env -> World CB Env.
Hypothesis call_keeps_params : forall cb a w, params (call cb a w) = params w.
Variable local_components : list (string * Component).
Variable connected_clients_param total_messages_param : ref.
Variable fuel : nat.
Variable websocket : nat.

(** The clamp of a count that is not negative. *)
Lemma clamp_counts hi z : 0 <= hi -> 0 <= z -> int_max 0 (int_min hi z) = Z.min hi z.
Proof.
  intros Hhi Hz. unfold int_max, int_min.
  destruct (Z.ltb_spec z hi); cbv iota;
    [destruct (Z.ltb_spec 0 z) | destruct (Z.ltb_spec 0 hi)]; lia.
Qed.

Abbreviation others_as_in := (SessionSpec.others_as_in websocket).

Lemma others_after_request (request : Request) m m' :
  consistent m ->
  (m' = m \/
   (exists pid, m' = subscribe websocket pid (row request) (col request) m) \/
   (exists pid, m' = unsubscribe websocket pid (row request) (col request) m)) ->
  consistent m' /\ others_as_in m m'.
Proof.
  intros Hm [->|[[pid ->]|[pid ->]]].
  - split; [exact Hm|]. intros ws' key _. reflexivity.
  - split; [apply subscribe_consistent, Hm|]. intros ws' key Hne.
    rewrite (clients_of_apply_op m (Subscribe websocket pid (row request) (col request))
               ws' key Hm). simpl.
    destruct (decide _) as [[? _]|_]; [congruence|]. apply bool_decide_eq_true.
  - split; [apply unsubscribe_consistent, Hm|]. intros ws' key Hne.
    rewrite (clients_of_apply_op m (Unsubscribe websocket pid (row request) (col request))
               ws' key Hm). simpl.
    destruct (decide _) as [[? _]|_]; [congruence|]. apply bool_decide_eq_true.
Qed.

(** One frame: it is counted, answered, and leaves the counter to the
    count. *)
Lemma handle_frame_counts frame (s : Server) (w : World CB Env) counter d t :
  components_in_store local_components w -> callbacks_within fuel w ->
  consistent (subscriptions s) ->
  params w !! total_messages_param = Some counter ->
  cls counter = IntParameter 0 999999999 d -> read_only counter = true ->
  get_value counter 0 0 = VInt t -> 0 <= t <= 999999999 ->
  exists calls reply s' w' counter',
    handle_frame call local_components total_messages_param fuel websocket frame s w
    = (calls, Returned (reply, s', w')) /\
    same_shapes w w' /\
    params w' !! total_messages_param = Some counter' /\
    get_value counter' 0 0 = VInt (Z.min 999999999 (t + 1)) /\
    _clients s' = _clients s /\
    consistent (subscriptions s') /\
    others_as_in (subscriptions s) (subscriptions s').
Proof.
  intros Hin Hfuel Hm Hc Hcls Hro Ht Hrange.
  unfold handle_frame. rewrite Hc, Ht. cbn [add_one].
  unfold set_value_quiet. rewrite Hc, Hcls. cbn [coerce py_int].
  rewrite clamp_counts by lia.
  set (c1 := with_values counter _). set (w1 := put total_messages_param c1 w).
  assert (params w1 !! total_messages_param = Some c1) as Hc1
    by (unfold w1, put; simpl; apply lookup_insert_eq).
  assert (get_value c1 0 0 = VInt (Z.min 999999999 (t + 1))) as Ht1.
  { unfold c1. rewrite get_value_insert, decide_True by reflexivity. reflexivity. }
  assert (same_shapes w w1) as Hs1 by (eapply same_shapes_write; [exact Hc | reflexivity]).
  destruct frame as [| |request id].
  - eexists _, _, _, _, c1. split; [reflexivity|].
    split; [exact Hs1|]. split; [exact Hc1|]. split; [exact Ht1|].
    split; [reflexivity|]. split; [exact Hm|]. intros ws' key _. reflexivity.
  - eexists _, _, _, _, c1. split; [reflexivity|].
    split; [exact Hs1|]. split; [exact Hc1|]. split; [exact Ht1|].
    split; [reflexivity|]. split; [exact Hm|]. intros ws' key _. reflexivity.
  - destruct (handle_message_returns call call_keeps_params local_components fuel websocket
                request (subscriptions s) w1) as (calls & resp & m' & w2 & Hh).
    { eapply same_shapes_in_store; eassumption. }
    { eapply same_shapes_callbacks; eassumption. }
    rewrite Hh.
    destruct (handle_message_effect call call_keeps_params local_components fuel websocket
                request (subscriptions s) w1 calls resp m' w2 Hh) as [Hw Hm'].
    destruct (others_after_request request _ _ Hm Hm') as [Hcons Hothers].
    assert (same_shapes w1 w2 /\ params w2 !! total_messages_param = Some c1) as [Hs2 Hc2].
    { destruct Hw as [->|(r & p & v' & Hp & Hrop & Hw2)].
      - split; [apply same_shapes_refl | exact Hc1].
      - split; [eapply same_shapes_write; eassumption|].
        rewrite Hw2, lookup_insert_ne; [exact Hc1|]. intros ->.
        rewrite Hc1 in Hp. inversion Hp; subst p. unfold c1 in Hrop. simpl in Hrop. congruence. }
    eexists _, _, _, w2, c1. split; [reflexivity|].
    split; [eapply same_shapes_trans; eassumption|]. auto.
Qed.

Lemma handle_frames_count : forall frames (s : Server) (w : World CB Env) counter d t,
  components_in_store local_components w -> callbacks_within fuel w ->
  consistent (subscriptions s) ->
  params w !! total_messages_param = Some counter ->
  cls counter = IntParameter 0 999999999 d -> read_only counter = true ->
  get_value counter 0 0 = VInt t -> 0 <= t <= 999999999 ->
  exists calls replies s' w' counter',
    handle_frames call local_components total_messages_param fuel websocket frames s w
    = (calls, Returned (replies, s', w')) /\
    length replies = length frames /\
    same_shapes w w' /\
    params w' !! total_messages_param = Some counter' /\
    get_value counter' 0 0 = VInt (Z.min 999999999 (t + Z.of_nat (length frames))) /\
    _clients s' = _clients s /\
    consistent (subscriptions s') /\
    others_as_in (subscriptions s) (subscriptions s').
Proof.
  induction frames as [|frame frames IH]; intros s w counter d t Hin Hfuel Hm Hc Hcls Hro Ht Hr.
  - eexists [], [], s, w, counter. simpl. split; [reflexivity|]. split; [reflexivity|].
    split; [apply same_shapes_refl|]. split; [exact Hc|].
    split; [rewrite Ht; f_equal; lia|]. split; [reflexivity|]. split; [exact Hm|].
    intros ? ? ?; reflexivity.
  - destruct (handle_frame_counts frame s w counter d t Hin Hfuel Hm Hc Hcls Hro Ht Hr)
      as (calls & reply & s1 & w1 & c1 & Hf & Hs1 & Hc1 & Ht1 & Hcl1 & Hm1 & Ho1).
    assert (shape c1 = shape counter) as Hsh.
    { destruct (same_shapes_lookup w w1 _ _ Hs1 Hc) as (c' & Hc' & Hsh). congruence. }
    destruct (IH s1 w1 c1 d (Z.min 999999999 (t + 1)))
      as (calls' & replies & s2 & w2 & c2 & Hfs & Hlen & Hs2 & Hc2 & Ht2 & Hcl2 & Hm2 & Ho2).
    { eapply same_shapes_in_store; eassumption. }
    { eapply same_shapes_callbacks; eassumption. }
    { exact Hm1. }
    { exact Hc1. }
    { change (cls (shape c1) = IntParameter 0 999999999 d). rewrite Hsh. exact Hcls. }
    { change (read_only (shape c1) = true). rewrite Hsh. exact Hro. }
    { exact Ht1. }
    { lia. }
    simpl. rewrite Hf, Hfs. eexists _, _, s2, w2, c2. split; [reflexivity|].
    split; [simpl; lia|]. split; [eapply same_shapes_trans; eassumption|].
    split; [exact Hc2|]. split; [rewrite Ht2; f_equal; lia|].
    split; [congruence|]. split; [exact Hm2|].
    intros ws' key Hne. rewrite (Ho2 ws' key Hne). apply Ho1, Hne.
Qed.

End Session.
End SessionFacts.

(** X13. Every frame a connection delivers is counted, whatever it holds:
    over the frames of a connection, text that is no JSON included, each
    frame gets one reply and [total_messages] goes up by one, up to its
    maximum; no request of the protocol changes the count otherwise
    (callbacks that leave the parameter objects alone, fuel for the
    callbacks of any object). *)
Theorem every_frame_is_counted `{PyBuiltins} {CB Env : Type}
    (call : CB -> CallArgs -> World CB Env -> World CB Env)
    (local_components : list (string * Component)) (total_messages_param : ref)
    (fuel : nat) (websocket : nat) (frames : list WebServerComponent.Frame)
    (s : WebServerComponent.Server) (w : World CB Env)
    (counter : BaseParameter CB) (d t : Z) :
  (forall cb a w, params (call cb a w) = params w) ->
  StoreSpec.components_in_store local_components w ->
  StoreSpec.callbacks_within fuel w ->
  SubscriptionSpec.consistent (WebServerComponent.subscriptions s) ->
  params w !! total_messages_param = Some counter ->
  cls counter = IntParameter 0 999999999 d ->
  read_only counter = true ->
  get_value counter 0 0 = VInt t ->
  0 <= t <= 999999999 ->
  exists calls replies s' w' counter',
    WebServerComponent.handle_frames call local_components total_messages_param fuel
      websocket frames s w = (calls, Returned (replies, s', w')) /\
    length replies = length frames /\
    params w' !! total_messages_param = Some counter' /\
    get_value counter' 0 0 = VInt (Z.min 999999999 (t + Z.of_nat (length frames))).
Proof.
  intros Hq Hin Hfuel Hm Hc Hcls Hro Ht Hr.
  destruct (SessionFacts.handle_frames_count call Hq local_components total_messages_param
              fuel websocket frames s w counter d t Hin Hfuel Hm Hc Hcls Hro Ht Hr)
    as (calls & replies & s' & w' & c' & Hf & Hlen & _ & Hc' & Ht' & _).
  exists calls, replies, s', w', c'. auto.
Qed.

Module BroadcastFacts.
Import WebServer WebServerComponent SubscriptionSpec SubscriptionFacts StoreSpec ClientFacts.
Import SubscriptionHistory SubscriptionHistoryFacts SessionFacts.
#[local] Set Warnings "-clear-no-such-hyp".

Section Broadcast.
Context `{PyBuiltins}.

Lemma clients_of_remove_client ws m ws' key :
  consistent m ->
  ws' ∈ clients_of (remove_client ws m) key <-> ws' ∈ clients_of m key /\ ws' <> ws.
Proof.
  intros Hm. rewrite (clients_of_apply_op m (RemoveClient ws) ws' key Hm). simpl.
  destruct (decide (ws = ws')) as [->|Hne].
  - split; [discriminate | tauto].
  - rewrite bool_decide_eq_true. split; [auto | tauto].
Qed.

End Broadcast.
End BroadcastFacts.

(** ** Writes, requests and connections when callbacks write cells *)

Module WritingFacts.
Import WebServer WebServerComponent SubscriptionSpec SubscriptionFacts StoreSpec ClientFacts.
Import CallbackSpec.

Section Facts.
Context `{PyBuiltins} {CB Env : Type}.
Variable call : CB -> CallArgs -> World CB Env -> World CB Env.
Hypothesis keep_shapes : callbacks_keep_shapes call.

Lemma same_shapes_list (w w' : World CB Env) r p p' :
  same_shapes w w' -> params w !! r = Some p -> params w' !! r = Some p' ->
  _on_change_callbacks p' = _on_change_callbacks p /\ cls p' = cls p /\
  read_only p' = read_only p.
Proof.
  intros Hs Hp Hp'. destruct (same_shapes_lookup w w' r p Hs Hp) as (q & Hq & Hsh).
  assert (q = p') by congruence. subst q.
  split; [change (_on_change_callbacks (shape p') = _on_change_callbacks (shape p))
         |split; [change (cls (shape p') = cls (shape p))
                 |change (read_only (shape p') = read_only (shape p))]];
    rewrite Hsh; reflexivity.
Qed.

(** The loop returns, given fuel for the callbacks of the object, and
    leaves the shapes, and the objects the callbacks leave alone. *)
Lemma notify_returns self a : forall fuel i (w : World CB Env) p,
  params w !! self = Some p ->
  (length (_on_change_callbacks p) - i <= fuel)%nat ->
  exists calls w',
    notify call fuel self a i w = (calls, Returned w') /\
    same_shapes w w' /\
    forall r, callbacks_leave call r -> params w' !! r = params w !! r.
Proof.
  induction fuel as [|fuel IH]; intros i w p Hp Hfuel.
  - simpl. rewrite Hp. rewrite (proj2 (lookup_ge_None _ _)) by lia.
    exists [], w. split; [reflexivity|]. split; [apply same_shapes_refl | reflexivity].
  - cbn [notify]. rewrite Hp.
    destruct (_on_change_callbacks p !! i) as [cb|] eqn:Ei.
    + pose proof (keep_shapes cb a w) as Hs.
      destruct (same_shapes_lookup w (call cb a w) self p Hs Hp) as (p1 & Hp1 & _).
      destruct (same_shapes_list w (call cb a w) self p p1 Hs Hp Hp1) as (Hl & _ & _).
      destruct (IH (S i) (call cb a w) p1 Hp1) as (calls & w' & Hn & Hs' & Hleave).
      { rewrite Hl. apply lookup_lt_Some in Ei. lia. }
      rewrite Hn. exists ((cb, a) :: calls), w'. split; [reflexivity|].
      split; [eapply same_shapes_trans; eassumption|].
      intros r Hr. rewrite (Hleave r Hr). apply Hr.
    + exists [], w. split; [reflexivity|]. split; [apply same_shapes_refl | reflexivity].
Qed.

(** A write ends: it raises in the conversion, before anything is stored,
    or it returns with the value in the cell, unless a callback wrote the
    cell after it. *)
Lemma set_value_runs fuel self row col v nfy (w : World CB Env) p :
  params w !! self = Some p ->
  (length (_on_change_callbacks p) <= fuel)%nat ->
  (exists e, coerce (cls p) v = inl e /\
             set_value call fuel self row col v nfy w = ([], Raised e)) \/
  (exists v' calls w',
     coerce (cls p) v = inr v' /\
     set_value call fuel self row col v nfy w = (calls, Returned w') /\
     same_shapes w w' /\
     (forall r, callbacks_leave call r -> r <> self -> params w' !! r = params w !! r) /\
     (callbacks_leave call self ->
      params w' !! self = Some (with_values p (<[(row, col) := v']> (_values p))))).
Proof.
  intros Hp Hfuel. unfold set_value. rewrite Hp.
  destruct (coerce (cls p) v) as [e|v'] eqn:Hc; [left; eauto|]. right.
  unfold BaseParameter_set_value. rewrite Hp.
  set (p1 := with_values p (<[(row, col) := v']> (_values p))).
  set (w1 := put self p1 w).
  assert (params w1 !! self = Some p1) as Hp1
    by (unfold w1, put; simpl; apply lookup_insert_eq).
  assert (same_shapes w w1) as Hs1 by (eapply same_shapes_write; [exact Hp | reflexivity]).
  assert (forall r, r <> self -> params w1 !! r = params w !! r) as Ho1.
  { intros r Hne. unfold w1, put. simpl. apply lookup_insert_ne. congruence. }
  destruct (nfy && py_ne (get_value p row col) v').
  - destruct (notify_returns self (mkArgs self row col v' (get_value p row col)) fuel 0 w1 p1
                Hp1) as (calls & w' & Hn & Hs' & Hleave); [simpl; lia|].
    rewrite Hn. exists v', calls, w'. split; [reflexivity|]. split; [reflexivity|].
    split; [eapply same_shapes_trans; eassumption|].
    split; [intros r Hr Hne; rewrite (Hleave r Hr); apply Ho1, Hne|].
    intros Hself. rewrite (Hleave self Hself). exact Hp1.
  - exists v', [], w1. split; [reflexivity|]. split; [reflexivity|].
    split; [exact Hs1|]. split; [intros r _ Hne; apply Ho1, Hne|]. intros _. exact Hp1.
Qed.

(** The loop leaves the objects the subscribers of [self] leave alone. *)
Lemma notify_leaves self a r : forall fuel i (w : World CB Env) p calls w',
  params w !! self = Some p ->
  subscribers_leave call (_on_change_callbacks p) r ->
  notify call fuel self a i w = (calls, Returned w') ->
  params w' !! r = params w !! r.
Proof.
  induction fuel as [|fuel IH]; intros i w p calls w' Hp Hleave; cbn [notify]; rewrite Hp.
  - destruct (_on_change_callbacks p !! i); [discriminate|].
    intros Heq; inversion Heq; subst. reflexivity.
  - destruct (_on_change_callbacks p !! i) as [cb|] eqn:Ei.
    + pose proof (keep_shapes cb a w) as Hs.
      destruct (same_shapes_lookup w (call cb a w) self p Hs Hp) as (p1 & Hp1 & _).
      destruct (same_shapes_list w (call cb a w) self p p1 Hs Hp Hp1) as (Hl & _ & _).
      destruct (notify call fuel self a (S i) (call cb a w)) as [calls0 o] eqn:En.
      intros Heq; inversion Heq; subst.
      rewrite (IH (S i) (call cb a w) p1 calls0 w' Hp1); [| rewrite Hl; exact Hleave | exact En].
      apply Hleave. eapply list_elem_of_lookup_2, Ei.
    + intros Heq; inversion Heq; subst. reflexivity.
Qed.

(** A write lands in its cell when the subscribers of the object leave
    the object alone. *)
Lemma set_value_lands fuel self row col v v' nfy (w : World CB Env) p :
  params w !! self = Some p ->
  coerce (cls p) v = inr v' ->
  (length (_on_change_callbacks p) <= fuel)%nat ->
  subscribers_leave call (_on_change_callbacks p) self ->
  exists calls w',
    set_value call fuel self row col v nfy w = (calls, Returned w') /\
    params w' !! self = Some (with_values p (<[(row, col) := v']> (_values p))).
Proof.
  intros Hp Hc Hfuel Hleave.
  destruct (set_value_runs fuel self row col v nfy w p Hp Hfuel)
    as [(e & Hc' & _)|(v0 & calls & w' & Hc' & Hs & _)]; [congruence|].
  assert (v0 = v') by congruence. subst v0.
  exists calls, w'. split; [exact Hs|].
  revert Hs. unfold set_value. rewrite Hp, Hc. unfold BaseParameter_set_value. rewrite Hp.
  set (p1 := with_values p (<[(row, col) := v']> (_values p))).
  assert (params (put self p1 w) !! self = Some p1) as Hp1
    by (unfold put; simpl; apply lookup_insert_eq).
  destruct (nfy && py_ne (get_value p row col) v').
  - intros Hn. rewrite (notify_leaves _ _ self _ _ _ p1 _ _ Hp1 Hleave Hn). exact Hp1.
  - intros Heq; inversion Heq; subst. exact Hp1.
Qed.

Variable local_components : list (string * Component).

(** Every request is answered; the handler leaves the shapes, and the
    read-only objects the callbacks leave alone. *)
Lemma handle_message_serves fuel websocket request m (w : World CB Env) :
  components_in_store local_components w -> callbacks_within fuel w ->
  exists calls resp m' w',
    _handle_message call local_components fuel websocket request m w
    = (calls, Returned (resp, m', w')) /\
    same_shapes w w' /\
    (forall r p, callbacks_leave call r -> params w !! r = Some p -> read_only p = true ->
                 params w' !! r = Some p) /\
    (m' = m \/
     (exists pid, m' = subscribe websocket pid (row request) (col request) m) \/
     (exists pid, m' = unsubscribe websocket pid (row request) (col request) m)).
Proof.
  intros Hin Hfuel.
  assert (forall resp : Response,
            exists calls resp0 m' w',
              ([] : list (CB * CallArgs), Returned (resp, m, w))
              = (calls, Returned (resp0, m', w')) /\
              same_shapes w w' /\
              (forall r p, callbacks_leave call r -> params w !! r = Some p ->
                           read_only p = true -> params w' !! r = Some p) /\
              (m' = m \/
               (exists pid, m' = subscribe websocket pid (row request) (col request) m) \/
               (exists pid, m' = unsubscribe websocket pid (row request) (col request) m)))
    as Hquiet.
  { intros resp. exists [], resp, m, w. split; [reflexivity|].
    split; [apply same_shapes_refl|]. split; [auto | left; reflexivity]. }
  unfold _handle_message.
  destruct (negb (nonempty (msg_type request))); [apply Hquiet|].
  destruct (String.eqb (default "" (msg_type request)) "get_components"); [apply Hquiet|].
  destruct (String.eqb (default "" (msg_type request)) "get_component_params");
    [apply Hquiet|].
  destruct (String.eqb (default "" (msg_type request)) "get_param_info"); [apply Hquiet|].
  destruct (String.eqb (default "" (msg_type request)) "get_param").
  { unfold handle_get_param.
    destruct (lookup_param local_components w request) as [r|]; [|apply Hquiet].
    destruct (params w !! r); apply Hquiet. }
  destruct (String.eqb (default "" (msg_type request)) "set_param"
            || String.eqb (default "" (msg_type request)) "SET").
  - unfold handle_set_param.
    destruct (value request) eqn:Ev; [apply Hquiet| | | |];
      (destruct (lookup_param local_components w request) as [r|] eqn:El; [|apply Hquiet];
       destruct (lookup_param_in_store local_components w request r Hin El) as [p Hp];
       rewrite Hp; destruct (read_only p) eqn:Ero; [apply Hquiet|];
       match goal with
       | |- context [set_value call fuel r ?ro ?co ?v true w] =>
           destruct (set_value_runs fuel r ro co v true w p Hp (Hfuel r p Hp))
             as [(e & _ & Hs)|(v' & calls & w' & _ & Hs & Hsh & Hothers & _)];
             rewrite Hs; [apply Hquiet|];
             exists calls, Success, m, w'; split; [reflexivity|]; split; [exact Hsh|];
             split; [|left; reflexivity];
             intros r0 p0 Hr0 Hp0 Hro0; rewrite (Hothers r0 Hr0); [exact Hp0|];
             intros ->; congruence
       end).
  - destruct (String.eqb (default "" (msg_type request)) "subscribe").
    + unfold handle_subscribe. destruct (q_param_id request) as [pid|]; [|apply Hquiet].
      destruct (find_by_id pid (od_values local_components)) as [r|]; [|apply Hquiet].
      destruct (params w !! r); [|apply Hquiet].
      eexists [], _, _, w. split; [reflexivity|]. split; [apply same_shapes_refl|].
      split; [auto|]. right; left. eexists. reflexivity.
    + destruct (String.eqb (default "" (msg_type request)) "unsubscribe"); [|apply Hquiet].
      unfold handle_unsubscribe. destruct (q_param_id request) as [pid|]; [|apply Hquiet].
      eexists [], _, _, w. split; [reflexivity|]. split; [apply same_shapes_refl|].
      split; [auto|]. right; right. eexists. reflexivity.
Qed.

End Facts.
End WritingFacts.

Module WritingSessionFacts.
Import WebServer WebServerComponent SubscriptionSpec SubscriptionFacts StoreSpec ClientFacts.
Import SubscriptionHistory SubscriptionHistoryFacts CallbackSpec WritingFacts.
#[local] Set Warnings "-clear-no-such-hyp".

Section Session.
Context `{PyBuiltins} {CB Env : Type}.
Variable call : CB -> CallArgs -> World CB Env -> World CB Env.
Hypothesis keep_shapes : callbacks_keep_shapes call.
Variable local_components : list (string * Component).
Variable connected_clients_param total_messages_param : ref.
Hypothesis leave_connected_clients : callbacks_leave call connected_clients_param.
Variable fuel : nat.

(** One frame is answered, whatever it holds. *)
Lemma handle_frame_serves websocket frame (s : Server) (w : World CB Env) :
  components_in_store local_components w -> callbacks_within fuel w ->
  consistent (subscriptions s) ->
  is_Some (params w !! total_messages_param) ->
  exists calls reply s' w',
    handle_frame call local_components total_messages_param fuel websocket frame s w
    = (calls, Returned (reply, s', w')) /\
    same_shapes w w' /\
    _clients s' = _clients s /\
    consistent (subscriptions s') /\
    SessionSpec.others_as_in websocket (subscriptions s) (subscriptions s').
Proof.
  intros Hin Hfuel Hm [counter Hc].
  assert (forall (reply : Reply) (w' : World CB Env), same_shapes w w' ->
            exists calls reply0 s' w0,
              ([] : list (CB * CallArgs), Returned (reply, s, w'))
              = (calls, Returned (reply0, s', w0)) /\
              same_shapes w w0 /\ _clients s' = _clients s /\
              consistent (subscriptions s') /\
              SessionSpec.others_as_in websocket (subscriptions s) (subscriptions s'))
    as Hquiet.
  { intros reply w' Hs. exists [], reply, s, w'. split; [reflexivity|].
    split; [exact Hs|]. split; [reflexivity|]. split; [exact Hm|].
    intros ws' key _. reflexivity. }
  unfold handle_frame. rewrite Hc.
  destruct (add_one (get_value counter 0 0)) as [e|total];
    [apply Hquiet, same_shapes_refl|].
  unfold set_value_quiet. rewrite Hc.
  destruct (coerce (cls counter) total) as [e|v']; [apply Hquiet, same_shapes_refl|].
  set (w1 := put total_messages_param _ w).
  assert (same_shapes w w1) as Hs1 by (eapply same_shapes_write; [exact Hc | reflexivity]).
  destruct frame as [| |request id]; [apply Hquiet, Hs1 | apply Hquiet, Hs1 |].
  destruct (handle_message_serves call keep_shapes local_components fuel websocket request
              (subscriptions s) w1) as (calls & resp & m' & w2 & Hh & Hs2 & _ & Hm').
  { eapply same_shapes_in_store; eassumption. }
  { eapply same_shapes_callbacks; eassumption. }
  rewrite Hh.
  destruct (SessionFacts.others_after_request websocket request _ _ Hm Hm')
    as [Hcons Hothers].
  eexists calls, _, _, w2. split; [reflexivity|].
  split; [eapply same_shapes_trans; eassumption|]. split; [reflexivity|].
  split; [exact Hcons | exact Hothers].
Qed.

Lemma handle_frames_serve websocket : forall frames (s : Server) (w : World CB Env),
  components_in_store local_components w -> callbacks_within fuel w ->
  consistent (subscriptions s) ->
  is_Some (params w !! total_messages_param) ->
  exists calls replies s' w',
    handle_frames call local_components total_messages_param fuel websocket frames s w
    = (calls, Returned (replies, s', w')) /\
    length replies = length frames /\
    same_shapes w w' /\
    _clients s' = _clients s /\
    consistent (subscriptions s') /\
    SessionSpec.others_as_in websocket (subscriptions s) (subscriptions s').
Proof.
  induction frames as [|frame frames IH]; intros s w Hin Hfuel Hm Hc.
  - exists [], [], s, w. simpl. split; [reflexivity|]. split; [reflexivity|].
    split; [apply same_shapes_refl|]. split; [reflexivity|]. split; [exact Hm|].
    intros ? ? ?; reflexivity.
  - destruct (handle_frame_serves websocket frame s w Hin Hfuel Hm Hc)
      as (calls & reply & s1 & w1 & Hf & Hs1 & Hcl1 & Hm1 & Ho1).
    destruct (IH s1 w1) as (calls' & replies & s2 & w2 & Hfs & Hlen & Hs2 & Hcl2 & Hm2 & Ho2).
    { eapply same_shapes_in_store; eassumption. }
    { eapply same_shapes_callbacks; eassumption. }
    { exact Hm1. }
    { destruct Hc as [c Hc]. destruct (same_shapes_lookup w w1 _ _ Hs1 Hc) as (c' & Hc' & _).
      eauto. }
    simpl. rewrite Hf, Hfs. eexists _, _, s2, w2. split; [reflexivity|].
    split; [simpl; lia|]. split; [eapply same_shapes_trans; eassumption|].
    split; [congruence|]. split; [exact Hm2|].
    intros ws' key Hne. rewrite (Ho2 ws' key Hne). apply Ho1, Hne.
Qed.

(** The count of the clients is written with the size of the set. *)
Lemma set_connected_clients_runs (s : Server) (w : World CB Env) p d :
  callbacks_within fuel w ->
  params w !! connected_clients_param = Some p ->
  cls p = IntParameter 0 1000 d ->
  exists calls w' p',
    set_connected_clients call connected_clients_param fuel s w = (calls, Returned (s, w')) /\
    same_shapes w w' /\
    params w' !! connected_clients_param = Some p' /\
    get_value p' 0 0 = VInt (Z.min 1000 (Z.of_nat (size (_clients s)))).
Proof.
  intros Hfuel Hp Hcls. unfold set_connected_clients.
  destruct (set_value_runs call keep_shapes fuel connected_clients_param 0 0
              (VInt (Z.of_nat (size (_clients s)))) true w p Hp (Hfuel _ _ Hp))
    as [(e & Hc & _)|(v' & calls & w' & Hc & Hs & Hsh & _ & Hself)].
  - rewrite Hcls in Hc. discriminate.
  - rewrite Hs. rewrite Hcls in Hc. cbn [coerce py_int] in Hc.
    rewrite SessionFacts.clamp_counts in Hc by lia. inversion Hc; subst v'.
    eexists calls, w', _. split; [reflexivity|]. split; [exact Hsh|].
    split; [apply Hself, leave_connected_clients|].
    rewrite get_value_insert, decide_True by reflexivity. reflexivity.
Qed.

Lemma remove_client_runs ws (s : Server) (w : World CB Env) p d :
  callbacks_within fuel w -> consistent (subscriptions s) ->
  params w !! connected_clients_param = Some p ->
  cls p = IntParameter 0 1000 d ->
  exists calls s' w' p',
    _remove_client call connected_clients_param fuel ws s w = (calls, Returned (s', w')) /\
    same_shapes w w' /\
    consistent (subscriptions s') /\
    _clients s' = _clients s ∖ {[ws]} /\
    (forall ws' key, ws' ∈ clients_of (subscriptions s') key <->
                     ws' ∈ clients_of (subscriptions s) key /\ ws' <> ws) /\
    params w' !! connected_clients_param = Some p' /\
    get_value p' 0 0 = VInt (Z.min 1000 (Z.of_nat (size (_clients s')))).
Proof.
  intros Hfuel Hm Hp Hcls. unfold _remove_client.
  destruct (set_connected_clients_runs
              (mkServer (remove_client ws (subscriptions s)) (_clients s ∖ {[ws]})) w p d
              Hfuel Hp Hcls) as (calls & w' & p' & Hs & Hsh & Hp' & Hv).
  rewrite Hs. eexists calls, _, w', p'. split; [reflexivity|].
  split; [exact Hsh|]. split; [apply remove_client_consistent, Hm|].
  split; [reflexivity|].
  split; [intros ws' key; apply BroadcastFacts.clients_of_remove_client, Hm|]. auto.
Qed.

Lemma remove_clients_run : forall dead (s : Server) (w : World CB Env) p d,
  callbacks_within fuel w -> consistent (subscriptions s) ->
  params w !! connected_clients_param = Some p ->
  cls p = IntParameter 0 1000 d ->
  exists calls s' w',
    remove_clients call connected_clients_param fuel dead s w = (calls, Returned (s', w')) /\
    same_shapes w w' /\
    consistent (subscriptions s') /\
    (forall ws, ws ∈ _clients s' <-> ws ∈ _clients s /\ ws ∉ dead) /\
    (forall ws key, ws ∈ clients_of (subscriptions s') key <->
                    ws ∈ clients_of (subscriptions s) key /\ ws ∉ dead) /\
    (dead = [] -> calls = [] /\ s' = s /\ w' = w) /\
    (dead <> [] ->
     exists p', params w' !! connected_clients_param = Some p' /\
                get_value p' 0 0 = VInt (Z.min 1000 (Z.of_nat (size (_clients s'))))).
Proof.
  induction dead as [|ws dead IH]; intros s w p d Hfuel Hm Hp Hcls.
  - exists [], s, w. simpl. split; [reflexivity|]. split; [apply same_shapes_refl|].
    split; [exact Hm|]. split; [set_solver|]. split; [set_solver|].
    split; [auto | congruence].
  - destruct (remove_client_runs ws s w p d Hfuel Hm Hp Hcls)
      as (calls & s1 & w1 & p1 & Hr & Hsh1 & Hm1 & Hcl1 & Hsub1 & Hp1 & Hv1).
    assert (cls p1 = IntParameter 0 1000 d) as Hcls1.
    { destruct (same_shapes_list w w1 _ _ _ Hsh1 Hp Hp1) as (_ & -> & _). exact Hcls. }
    destruct (IH s1 w1 p1 d) as (calls' & s2 & w2 & Hrs & Hsh2 & Hm2 & Hcl2 & Hsub2 & Hnil & Hne);
      [eapply same_shapes_callbacks; eassumption | exact Hm1 | exact Hp1 | exact Hcls1 |].
    simpl. rewrite Hr, Hrs. exists (calls ++ calls'), s2, w2.
    split; [reflexivity|]. split; [eapply same_shapes_trans; eassumption|].
    split; [exact Hm2|].
    split; [intros ws'; rewrite Hcl2, Hcl1; set_solver|].
    split; [intros ws' key; rewrite Hsub2, Hsub1; set_solver|].
    split; [discriminate|]. intros _.
    destruct dead as [|ws0 dead]; [|apply Hne; discriminate].
    destruct (Hnil eq_refl) as (_ & -> & ->). eauto.
Qed.

End Session.
End WritingSessionFacts.

(** X14. [_broadcast_update] hands the update of a cell to every client
    subscribed to the cell, once each, and then forgets the clients whose
    connection turned out closed: they leave [_clients] and every set of
    subscribers, the other clients stay where they were, and
    [connected_clients] is written with the number of clients left; when
    every send succeeds nothing changes and nobody is called. The
    callbacks may write cells, as those of the hub do: they are taken to
    add, remove and reshape no object and to leave the object
    [connected_clients] alone, and there is fuel for the callbacks of any
    object. *)
Theorem broadcast_update_drops_closed_connections `{PyBuiltins} {CB Env : Type}
    (call : CB -> CallArgs -> World CB Env -> World CB Env)
    (connected_clients_param : ref) (fuel : nat) (send_ok : nat -> bool)
    (param_id row col : Z) (value : PyVal)
    (s : WebServerComponent.Server) (w : World CB Env) (p : BaseParameter CB) (d : Z) :
  CallbackSpec.callbacks_keep_shapes call ->
  CallbackSpec.callbacks_leave call connected_clients_param ->
  StoreSpec.callbacks_within fuel w ->
  SubscriptionSpec.consistent (WebServerComponent.subscriptions s) ->
  params w !! connected_clients_param = Some p ->
  cls p = IntParameter 0 1000 d ->
  let subscribers :=
    WebServer.get_subscribers param_id row col (WebServerComponent.subscriptions s) in
  let closed ws := ws ∈ subscribers /\ send_ok ws = false in
  exists targets calls s' w',
    WebServerComponent._broadcast_update call connected_clients_param fuel send_ok
      param_id row col value s w
    = ((CentralHub.mkUpdate (Some param_id) row col value, targets), calls,
       Returned (s', w')) /\
    NoDup targets /\
    (forall ws, ws ∈ targets <-> ws ∈ subscribers) /\
    (forall ws, ws ∈ WebServerComponent._clients s' <->
                ws ∈ WebServerComponent._clients s /\ ~ closed ws) /\
    (forall ws pid r c,
       ws ∈ WebServer.get_subscribers pid r c (WebServerComponent.subscriptions s') <->
       ws ∈ WebServer.get_subscribers pid r c (WebServerComponent.subscriptions s) /\
       ~ closed ws) /\
    ((forall ws, ~ closed ws) -> calls = [] /\ s' = s /\ w' = w) /\
    ((exists ws, closed ws) ->
     exists p', params w' !! connected_clients_param = Some p' /\
                get_value p' 0 0
                = VInt (Z.min 1000 (Z.of_nat (size (WebServerComponent._clients s'))))).
Proof.
  intros Hshapes Hleave Hfuel Hm Hp Hcls subscribers closed.
  unfold WebServerComponent._broadcast_update. fold subscribers.
  destruct (decide (subscribers = ∅)) as [He|Hne].
  - exists [], [], s, w. split; [reflexivity|]. split; [constructor|].
    assert (forall ws, ~ closed ws) as Hnc
      by (intros ws [Hin _]; rewrite He in Hin; apply not_elem_of_empty in Hin; exact Hin).
    split; [intros ws; rewrite He, elem_of_nil; split; [tauto | apply not_elem_of_empty]|].
    split; [intros ws; specialize (Hnc ws); tauto|].
    split; [intros ws pid r c; specialize (Hnc ws); tauto|].
    split; [auto|]. intros [ws Hc]. destruct (Hnc ws Hc).
  - set (dead := List.filter (fun ws => negb (send_ok ws)) (elements subscribers)).
    assert (forall ws, ws ∈ dead <-> closed ws) as Hdead.
    { intros ws. unfold dead, closed. rewrite list_elem_of_In, filter_In, <- list_elem_of_In.
      rewrite elem_of_elements, negb_true_iff. reflexivity. }
    destruct (WritingSessionFacts.remove_clients_run call Hshapes connected_clients_param
                Hleave fuel dead s w p d Hfuel Hm Hp Hcls)
      as (calls & s' & w' & Hr & _ & _ & Hcl & Hsub & Hnil & Hcons).
    rewrite Hr. exists (elements subscribers), calls, s', w'. split; [reflexivity|].
    split; [apply NoDup_elements|]. split; [intros ws; apply elem_of_elements|].
    split; [intros ws; rewrite Hcl, Hdead; reflexivity|].
    split; [intros ws pid r c; rewrite <- Hdead; apply Hsub|].
    split.
    + intros Hnc. apply Hnil. destruct dead as [|ws dead'] eqn:Ed; [reflexivity|].
      exfalso. apply (Hnc ws), Hdead. left.
    + intros [ws Hc]. apply Hcons. intros Hd. apply Hdead in Hc. rewrite Hd in Hc.
      inversion Hc.
Qed.

(** X15. A connection that closes leaves nothing behind: after
    [_handle_client] has handled the frames of a connection, whatever
    they were, the connection is in [_clients] no more and in no set of
    subscribers, the subscriptions of the other clients are as they were,
    each frame was replied to, and [connected_clients] holds the number of
    clients left. The callbacks may write cells, as those of the hub do:
    they are taken to add, remove and reshape no object and to leave the
    object [connected_clients] alone, and there is fuel for the callbacks
    of any object. *)
Theorem closed_connection_leaves_nothing_behind `{PyBuiltins} {CB Env : Type}
    (call : CB -> CallArgs -> World CB Env -> World CB Env)
    (local_components : list (string * Component))
    (connected_clients_param total_messages_param : ref)
    (fuel : nat) (websocket : nat) (frames : list WebServerComponent.Frame)
    (s : WebServerComponent.Server) (w : World CB Env)
    (clients : BaseParameter CB) (dc : Z) :
  CallbackSpec.callbacks_keep_shapes call ->
  CallbackSpec.callbacks_leave call connected_clients_param ->
  StoreSpec.components_in_store local_components w ->
  StoreSpec.callbacks_within fuel w ->
  SubscriptionSpec.consistent (WebServerComponent.subscriptions s) ->
  params w !! connected_clients_param = Some clients ->
  cls clients = IntParameter 0 1000 dc ->
  is_Some (params w !! total_messages_param) ->
  exists calls replies s' w' clients',
    WebServerComponent._handle_client call local_components connected_clients_param
      total_messages_param fuel websocket frames s w
    = (calls, Returned (replies, s', w')) /\
    length replies = length frames /\
    WebServerComponent._clients s' = WebServerComponent._clients s ∖ {[websocket]} /\
    (forall ws pid r c,
       ws ∈ WebServer.get_subscribers pid r c (WebServerComponent.subscriptions s') <->
       ws ∈ WebServer.get_subscribers pid r c (WebServerComponent.subscriptions s) /\
       ws <> websocket) /\
    params w' !! connected_clients_param = Some clients' /\
    get_value clients' 0 0
    = VInt (Z.min 1000 (Z.of_nat (size (WebServerComponent._clients s ∖ {[websocket]})))).
Proof.
  intros Hshapes Hleave Hin Hfuel Hm Hcc Hccls Hc.
  unfold WebServerComponent._handle_client.
  set (s0 := WebServerComponent.mkServer (WebServerComponent.subscriptions s)
               (WebServerComponent._clients s ∪ {[websocket]})).
  destruct (WritingSessionFacts.set_connected_clients_runs call Hshapes
              connected_clients_param Hleave fuel s0 w clients dc Hfuel Hcc Hccls)
    as (calls0 & w0 & clients0 & Hs0 & Hsh0 & Hcc0 & _).
  rewrite Hs0.
  destruct (WritingSessionFacts.handle_frames_serve call Hshapes local_components
              total_messages_param fuel websocket frames s0 w0)
    as (calls1 & replies & s1 & w1 & Hf & Hlen & Hsh1 & Hcl1 & Hm1 & Ho1);
    [eapply ClientFacts.same_shapes_in_store; eassumption
    |eapply ClientFacts.same_shapes_callbacks; eassumption
    |exact Hm
    |destruct Hc as [c Hc];
     destruct (ClientFacts.same_shapes_lookup w w0 _ _ Hsh0 Hc) as (c' & Hc' & _); eauto |].
  rewrite Hf.
  destruct (ClientFacts.same_shapes_lookup w0 w1 _ _ Hsh1 Hcc0) as (clients1 & Hcc1 & _).
  assert (cls clients1 = IntParameter 0 1000 dc) as Hccls1.
  { destruct (WritingFacts.same_shapes_list w0 w1 _ _ _ Hsh1 Hcc0 Hcc1) as (_ & -> & _).
    destruct (WritingFacts.same_shapes_list w w0 _ _ _ Hsh0 Hcc Hcc0) as (_ & -> & _).
    exact Hccls. }
  destruct (WritingSessionFacts.remove_client_runs call Hshapes connected_clients_param
              Hleave fuel websocket s1 w1 clients1 dc)
    as (calls2 & s2 & w2 & clients2 & Hrm & _ & _ & Hcl2 & Hsub2 & Hcc2 & Hv2);
    [eapply ClientFacts.same_shapes_callbacks; [exact Hsh1|];
     eapply ClientFacts.same_shapes_callbacks; eassumption
    |exact Hm1 | exact Hcc1 | exact Hccls1 |].
  rewrite Hrm. exists (calls0 ++ calls1 ++ calls2), replies, s2, w2, clients2.
  split; [reflexivity|]. split; [exact Hlen|].
  assert (WebServerComponent._clients s2 = WebServerComponent._clients s ∖ {[websocket]})
    as Hclients.
  { rewrite Hcl2, Hcl1. unfold s0. simpl. apply set_eq. intros x.
    rewrite !elem_of_difference, elem_of_union. tauto. }
  split; [exact Hclients|].
  split.
  - intros ws pid r c.
    change (ws ∈ SubscriptionSpec.clients_of (WebServerComponent.subscriptions s2) (pid, r, c)
            <-> ws ∈ SubscriptionSpec.clients_of (WebServerComponent.subscriptions s) (pid, r, c)
                /\ ws <> websocket).
    rewrite Hsub2. split.
    + intros [Hin1 Hw]. split; [|exact Hw]. apply (Ho1 ws (pid, r, c) Hw) in Hin1. exact Hin1.
    + intros [Hin0 Hw]. split; [|exact Hw]. apply (Ho1 ws (pid, r, c) Hw). exact Hin0.
  - split; [exact Hcc2|]. rewrite Hv2, Hclients. reflexivity.
Qed.

(** C5, amended. The server counts every frame in [total_messages] before
    it handles it. A frame with a [set_param] or [SET] request that
    carries a value and resolves to a read-only local parameter is
    answered [{success: false, error: "parameter is read-only"}]; no
    callback is called, the subscriptions are as before, and so is every
    parameter object but [total_messages], whose cell [(0, 0)] has gone up
    by one, within its bounds, also when the request is for
    [total_messages] itself. A direct [set_value] on the object of the
    request returns normally with the coerced value in the cell, when the
    callbacks add, remove and reshape no object, the subscribers of the
    object leave it alone and there is fuel for one call each. *)
Theorem C5_read_only_rejected `{PyBuiltins} {CB Env : Type}
    (call : CB -> CallArgs -> World CB Env -> World CB Env)
    (local_components : list (string * Component)) (total_messages_param : ref)
    (fuel : nat) (websocket : WebServer.WS) (request : WebServer.Request)
    (id : option PyVal) (s : WebServerComponent.Server) (w : World CB Env)
    (r : ref) (p counter : BaseParameter CB) (d t : Z) :
  WebServer.msg_type request = Some "set_param" \/ WebServer.msg_type request = Some "SET" ->
  WebServer.value request <> VNone ->
  WebServer.lookup_param local_components w request = Some r ->
  params w !! r = Some p ->
  read_only p = true ->
  params w !! total_messages_param = Some counter ->
  cls counter = IntParameter 0 999999999 d ->
  get_value counter 0 0 = VInt t ->
  (exists w' counter',
     WebServerComponent.handle_frame call local_components total_messages_param fuel
       websocket (WebServerComponent.Decoded request id) s w
     = ([], Returned (WebServerComponent.Answer (WebServer.Failure "parameter is read-only") id,
                      s, w')) /\
     env w' = env w /\
     (forall r', r' <> total_messages_param -> params w' !! r' = params w !! r') /\
     params w' !! total_messages_param = Some counter' /\
     get_value counter' 0 0 = VInt (int_max 0 (int_min 999999999 (t + 1))) /\
     (forall row col, (row, col) <> (0, 0) ->
        get_value counter' row col = get_value counter row col)) /\
  (forall row col v v' do_notify,
     coerce (cls p) v = inr v' ->
     CallbackSpec.callbacks_keep_shapes call ->
     CallbackSpec.subscribers_leave call (_on_change_callbacks p) r ->
     (length (_on_change_callbacks p) <= fuel)%nat ->
     exists calls w' p',
       set_value call fuel r row col v do_notify w = (calls, Returned w') /\
       params w' !! r = Some p' /\
       get_value p' row col = v').
Proof.
  intros Ht Hv Hl Hp Hro Hc Hcls Hold. split.
  - set (total := VInt (int_max 0 (int_min 999999999 (t + 1)))).
    set (counter' := with_values counter (<[(0, 0) := total]> (_values counter))).
    set (w1 := put total_messages_param counter' w).
    assert (set_value_quiet total_messages_param 0 0 (VInt (t + 1)) w = Returned w1) as Hq.
    { unfold set_value_quiet. rewrite Hc, Hcls. reflexivity. }
    assert (exists p1, params w1 !! r = Some p1 /\ read_only p1 = true) as (p1 & Hp1 & Hro1).
    { unfold w1, put. simpl. rewrite lookup_insert.
      destruct (decide (total_messages_param = r)) as [<-|].
      - exists counter'. split; [reflexivity|].
        assert (counter = p) by congruence. subst. exact Hro.
      - exists p. auto. }
    assert (WebServer.handle_set_param call local_components fuel w1 request
            = ([], Returned (WebServer.Failure "parameter is read-only", w1))) as Hs.
    { assert (WebServer.lookup_param local_components w1 request = Some r) as Hl1.
      { unfold w1, counter'. rewrite (ReadOnlyFacts.lookup_param_write _ _ _ _ _ _ Hc).
        exact Hl. }
      unfold WebServer.handle_set_param. rewrite Hl1, Hp1, Hro1.
      destruct (WebServer.value request); [contradiction| | | |]; reflexivity. }
    assert (WebServer._handle_message call local_components fuel websocket request
              (WebServerComponent.subscriptions s) w1
            = ([], Returned (WebServer.Failure "parameter is read-only",
                             WebServerComponent.subscriptions s, w1))) as Hm.
    { unfold WebServer._handle_message.
      destruct Ht as [Ht|Ht]; rewrite Ht; cbn -[WebServer.handle_set_param];
        rewrite Hs; reflexivity. }
    exists w1, counter'. split.
    { unfold WebServerComponent.handle_frame. rewrite Hc, Hold. cbn [WebServerComponent.add_one].
      rewrite Hq, Hm. destruct s. reflexivity. }
    split; [reflexivity|]. split.
    { intros r' Hne. unfold w1, put. simpl. apply lookup_insert_ne. congruence. }
    split; [unfold w1, put; simpl; apply lookup_insert_eq|].
    split.
    { unfold counter'. rewrite ParameterFacts.get_value_insert, decide_True by reflexivity.
      reflexivity. }
    intros row col Hne. unfold counter'. rewrite ParameterFacts.get_value_insert.
    rewrite decide_False by congruence. reflexivity.
  - intros row col v v' do_notify Hcv Hshapes Hleave Hfuel.
    destruct (WritingFacts.set_value_lands call Hshapes fuel r row col v v' do_notify w p
                Hp Hcv Hfuel Hleave) as (calls & w' & Hs & Hp').
    eexists calls, w', _. split; [exact Hs|]. split; [exact Hp'|].
    rewrite ParameterFacts.get_value_insert, decide_True by reflexivity. reflexivity.
Qed.

Module WebServerExampleFacts.
Import WebServerExample StoreSpec.

Lemma in_store : components_in_store local_components hub_world.
Proof.
  intros n c Hc. unfold local_components in Hc.
  repeat (apply elem_of_cons in Hc as [Hc|Hc]; [inversion Hc; subst; clear Hc|]);
    [| |inversion Hc];
    (split;
     [intros r Hr; vm_compute in Hr;
      repeat (apply elem_of_cons in Hr as [->|Hr]; [vm_compute; eauto|]); inversion Hr
     |intros i r Hr; apply elem_of_map_to_list in Hr; vm_compute in Hr;
      repeat (apply elem_of_cons in Hr as [Hr|Hr];
              [inversion Hr; subst; vm_compute; eauto|]); inversion Hr]).
Qed.

Lemma no_callbacks : callbacks_within 0 hub_world.
Proof.
  intros r p Hp. apply elem_of_map_to_list in Hp. vm_compute in Hp.
  repeat (apply elem_of_cons in Hp as [Hp|Hp]; [inversion Hp; subst; simpl; lia|]).
  inversion Hp.
Qed.

End WebServerExampleFacts.

Lemma every_frame_is_counted_witness :
  exists calls replies s' w' counter',
    WebServerComponent.handle_frames idle WebServerExample.local_components 7%nat 0 5%nat
      WebServerExample.frames WebServerExample.no_clients WebServerExample.hub_world
    = (calls, Returned (replies, s', w')) /\
    length replies = length WebServerExample.frames /\
    params w' !! 7%nat = Some counter' /\
    get_value counter' 0 0
    = VInt (Z.min 999999999 (0 + Z.of_nat (length WebServerExample.frames))).
Proof.
  refine (every_frame_is_counted idle WebServerExample.local_components 7%nat 0 5%nat
            WebServerExample.frames WebServerExample.no_clients WebServerExample.hub_world
            (new_parameter "total_messages" 8 1 1 (IntParameter 0 999999999 0) true) 0 0
            (fun _ _ _ => eq_refl) WebServerExampleFacts.in_store
            WebServerExampleFacts.no_callbacks
            (SubscriptionHistoryFacts.reachable_consistent []) eq_refl eq_refl eq_refl eq_refl _).
  lia.
Defined.

(** X16. The purpose of the server: a client that has subscribed to a cell is
    sent the update of a later write to it. On a parameter that carries
    the broadcast closure [_setup_broadcast_callbacks] registers, the
    [subscribe] request is answered with the value of the cell, a
    [set_param] request of any client that changes the cell is answered
    with success and creates the task [_broadcast_update] with the
    identifier, the cell and the value stored, and that task hands the
    [param_update] frame with these to the subscriber. *)
Theorem subscribed_client_is_sent_the_update `{PyBuiltins}
    (other : nat -> CallArgs -> World NetworkActions.Callback NetworkActions.Env
             -> World NetworkActions.Callback NetworkActions.Env)
    (local_components : list (string * Component)) (connected_clients_param : ref)
    (fuel : nat) (subscriber writer : nat) (send_ok : nat -> bool)
    (m : WebServer.SubscriptionManager)
    (w : World NetworkActions.Callback NetworkActions.Env)
    (pid row col : Z) (value v' : PyVal) (r : ref)
    (p : BaseParameter NetworkActions.Callback) :
  WebServer.find_by_id pid (od_values local_components) = Some r ->
  params w !! r = Some p ->
  read_only p = false ->
  _on_change_callbacks p = [NetworkActions.Broadcast pid] ->
  value <> VNone ->
  coerce (cls p) value = inr v' ->
  py_eq (get_value p row col) v' = false ->
  (1 <= fuel)%nat ->
  let subscription :=
    WebServer.mkRequest (Some "subscribe") (Some pid) None None None None None row col VNone in
  let write :=
    WebServer.mkRequest (Some "set_param") (Some pid) None None None None None row col value in
  exists m1 calls w1,
    WebServer._handle_message (NetworkActions.call other) local_components fuel subscriber
      subscription m w
    = ([], Returned (WebServer.Value (get_value p row col), m1, w)) /\
    WebServer._handle_message (NetworkActions.call other) local_components fuel writer
      write m1 w
    = (calls, Returned (WebServer.Success, m1, w1)) /\
    env w1 = env w ++ [NetworkActions.BroadcastUpdate pid row col v'] /\
    forall clients,
      exists targets,
        (WebServerComponent._broadcast_update (NetworkActions.call other)
           connected_clients_param fuel send_ok pid row col v'
           (WebServerComponent.mkServer m1 clients) w1).1.1
        = (CentralHub.mkUpdate (Some pid) row col v', targets) /\
        subscriber ∈ targets.
Proof.
  intros Hfind Hp Hro Hcbs Hv Hc Hne Hfuel subscription write.
  exists (WebServer.subscribe subscriber pid row col m).
  set (p1 := with_values p (<[(row, col):=v']> (_values p))).
  set (w0 := put r p1 w).
  set (a := mkArgs r row col v' (get_value p row col)).
  assert (notify (NetworkActions.call other) fuel r a 0 w0
          = ([(NetworkActions.Broadcast pid, a)],
             Returned (mkWorld (params w0)
                         (env w0 ++ [NetworkActions.BroadcastUpdate pid row col v']))))
    as Hn.
  { apply (TriggerFacts.notify_broadcasts other r a [pid] fuel [] w0 p1).
    - unfold w0, put. simpl. apply lookup_insert_eq.
    - exact Hcbs.
    - exact Hfuel. }
  eexists _, _. split; [|split; [|split]].
  - unfold WebServer._handle_message, subscription. cbn -[WebServer.handle_subscribe].
    unfold WebServer.handle_subscribe. cbn [WebServer.q_param_id].
    rewrite Hfind, Hp. reflexivity.
  - unfold WebServer._handle_message, write. cbn -[WebServer.handle_set_param].
    unfold WebServer.handle_set_param, WebServer.lookup_param.
    cbn [WebServer.value WebServer.q_param_id WebServer.row WebServer.col].
    rewrite Hfind, Hp, Hro. unfold set_value. rewrite Hp, Hc.
    unfold BaseParameter_set_value. rewrite Hp. unfold py_ne. rewrite Hne.
    cbn [negb andb]. fold p1. fold w0. fold a. rewrite Hn.
    destruct value; [contradiction| | | |]; reflexivity.
  - reflexivity.
  - intros clients. unfold WebServerComponent._broadcast_update.
    cbn [WebServerComponent.subscriptions].
    set (subscribers := WebServer.get_subscribers pid row col
                          (WebServer.subscribe subscriber pid row col m)).
    assert (subscriber ∈ subscribers) as Hin.
    { unfold subscribers, WebServer.get_subscribers.
      rewrite SubscriptionFacts.subscribers_subscribe, decide_True by reflexivity.
      simpl. apply elem_of_union_r, elem_of_singleton. reflexivity. }
    destruct (decide (subscribers = ∅)) as [He|_].
    + rewrite He in Hin. apply not_elem_of_empty in Hin. contradiction.
    + destruct (WebServerComponent.remove_clients _ _ _ _ _ _) as [calls o].
      exists (elements subscribers). split; [reflexivity|]. apply elem_of_elements, Hin.
Qed.

Lemma subscribed_client_is_sent_the_update_witness :
  let lc := DeliveryExample.local_components in
  let w := DeliveryExample.served.2 in
  let subscription :=
    WebServer.mkRequest (Some "subscribe") (Some 3) None None None None None 0 0 VNone in
  let write :=
    WebServer.mkRequest (Some "set_param") (Some 3) None None None None None 0 0
      (VStr "no") in
  exists m1 calls w1,
    WebServer._handle_message (NetworkActions.call TriggerExample.no_other) lc 1 1%nat
      subscription WebServer.new_manager w
    = ([], Returned (WebServer.Value (VBool true), m1, w)) /\
    WebServer._handle_message (NetworkActions.call TriggerExample.no_other) lc 1 2%nat
      write m1 w
    = (calls, Returned (WebServer.Success, m1, w1)) /\
    env w1 = env w ++ [NetworkActions.BroadcastUpdate 3 0 0 (VBool false)] /\
    forall clients,
      exists targets,
        (WebServerComponent._broadcast_update (NetworkActions.call TriggerExample.no_other)
           6%nat 1 (fun _ => true) 3 0 0 (VBool false)
           (WebServerComponent.mkServer m1 clients) w1).1.1
        = (CentralHub.mkUpdate (Some 3) 0 0 (VBool false), targets) /\
        1%nat ∈ targets.
Proof.
  exact (subscribed_client_is_sent_the_update TriggerExample.no_other
           DeliveryExample.local_components 6%nat 1 1%nat 2%nat (fun _ => true)
           WebServer.new_manager DeliveryExample.served.2 3 0 0 (VStr "no") (VBool false)
           0%nat
           (with_callbacks (new_parameter "enabled" 3 1 1 (BoolParameter true) false)
              [NetworkActions.Broadcast 3])
           eq_refl eq_refl eq_refl eq_refl ltac:(discriminate) eq_refl eq_refl (le_n 1)).
Defined.

(** ** The callbacks of the hub *)

Module HubFacts.
Import Hub.

Section Facts.
Context `{PyBuiltins} `{ActionManager.HeapQ} `{Json}.
Variable self : Attributes.
Variable fuel : nat.

Lemma set_value_quiet_store_ok r v (w w' : World Callback State) :
  store_ok w -> set_value_quiet r 0 0 v w = Returned w' -> store_ok w'.
Proof.
  intros Hw Hs.
  eapply (set_value_store_ok (fun _ _ w => w) 0 r 0 0 v false w []);
    [intros ? ? ? Hok; exact Hok | exact Hw |].
  rewrite set_value_quiet_eq, Hs. reflexivity.
Qed.

(** Every callback the hub registers keeps every cell of every parameter
    typed and within bounds. *)
Lemma hub_call_keeps_store_ok depth : callbacks_keep_store_ok (call self fuel depth).
Proof.
  induction depth as [|depth IH]; intros cb a w Hw;
    (destruct cb as [| | | | |pid]; cbn [call];
     [ unfold _on_trigger_change; destruct (NetworkActions.ge_zero (cb_new a)) as [[|]|];
       try exact Hw;
       match goal with
       | |- context [set_value_quiet ?r 0 0 ?v ?w1] =>
           destruct (set_value_quiet r 0 0 v w1) as [w2|e| |] eqn:E; try exact Hw;
           eapply set_value_quiet_store_ok; [|exact E]; exact Hw
       end
     | unfold network_parse_nicknames; destruct (cell _ w) as [raw|]; [|exact Hw];
       destruct (parsed_nicknames raw); exact Hw
     |
     | unfold _parse_nicknames; destruct (cell _ w) as [raw|]; [|exact Hw];
       destruct (parsed_nicknames raw); exact Hw
     | unfold _parse_variables; destruct (cell _ w) as [raw|]; [|exact Hw];
       destruct (truthy raw); [destruct raw|]; exact Hw
     | exact Hw ]).
  - exact Hw.
  - unfold _on_action_to_send_change. destruct (negb (truthy (cb_new a))); [exact Hw|].
    set (w1 := match cb_new a with VStr s => _ | _ => w end).
    assert (store_ok w1) as Hw1.
    { unfold w1. destruct (cb_new a) as [| | | |s]; try exact Hw.
      destruct (loads_actions s) as [| |[|action actions]]; try exact Hw.
      unfold _queue_actions.
      destruct (ActionManager._queue_actions _ _ _) as [queue [e|]]; [exact Hw|].
      match goal with
      | |- context [set_value ?c ?f ?r 0 0 ?v true ?w0] =>
          destruct (set_value c f r 0 0 v true w0) as [calls [w2|e| |]] eqn:E; try exact Hw
      end.
      simpl. eapply set_value_store_ok; [exact IH| |exact E]. exact Hw. }
    destruct (set_value_quiet (action_to_send self) 0 0 (VStr "") w1) as [w2|e| |] eqn:E;
      try exact Hw1.
    eapply set_value_quiet_store_ok; [exact Hw1 | exact E].
Qed.

End Facts.
End HubFacts.

Module StoreFacts.
Import WebServer WebServerComponent.

Section Facts.
Context `{PyBuiltins} {CB Env : Type}.
Variable call : CB -> CallArgs -> World CB Env -> World CB Env.
Hypothesis call_keeps_store_ok : callbacks_keep_store_ok call.
Variable local_components : list (string * Component).

Lemma handle_message_store_ok fuel websocket request m (w : World CB Env) calls resp m' w' :
  store_ok w ->
  _handle_message call local_components fuel websocket request m w
  = (calls, Returned (resp, m', w')) ->
  store_ok w'.
Proof.
  intros Hw. unfold _handle_message.
  destruct (negb (nonempty (msg_type request)));
    [intros Heq; inversion Heq; subst; exact Hw|].
  destruct (String.eqb (default "" (msg_type request)) "get_components");
    [intros Heq; inversion Heq; subst; exact Hw|].
  destruct (String.eqb (default "" (msg_type request)) "get_component_params");
    [intros Heq; inversion Heq; subst; exact Hw|].
  destruct (String.eqb (default "" (msg_type request)) "get_param_info");
    [intros Heq; inversion Heq; subst; exact Hw|].
  destruct (String.eqb (default "" (msg_type request)) "get_param");
    [intros Heq; inversion Heq; subst; exact Hw|].
  destruct (String.eqb (default "" (msg_type request)) "set_param"
            || String.eqb (default "" (msg_type request)) "SET").
  - unfold handle_set_param.
    destruct (value request); try (intros Heq; inversion Heq; subst; exact Hw);
      (destruct (lookup_param local_components w request) as [r|];
       [|intros Heq; inversion Heq; subst; exact Hw];
       destruct (params w !! r) as [p|]; [|discriminate];
       destruct (read_only p); [intros Heq; inversion Heq; subst; exact Hw|];
       match goal with
       | |- context [set_value call fuel r ?ro ?co ?v true w] =>
           destruct (set_value call fuel r ro co v true w) as [calls0 [w0|e| |]] eqn:Es
       end; try discriminate; intros Heq; inversion Heq; subst; try exact Hw;
       eapply set_value_store_ok; [exact call_keeps_store_ok | exact Hw | exact Es]).
  - destruct (String.eqb (default "" (msg_type request)) "subscribe").
    + destruct (handle_subscribe local_components websocket m w request).
      intros Heq; inversion Heq; subst; exact Hw.
    + destruct (String.eqb (default "" (msg_type request)) "unsubscribe").
      * destruct (handle_unsubscribe websocket m request).
        intros Heq; inversion Heq; subst; exact Hw.
      * intros Heq; inversion Heq; subst; exact Hw.
Qed.

Variable total_messages_param : ref.

Lemma handle_frame_store_ok fuel websocket frame s (w : World CB Env) calls reply s' w' :
  store_ok w ->
  handle_frame call local_components total_messages_param fuel websocket frame s w
  = (calls, Returned (reply, s', w')) ->
  store_ok w'.
Proof.
  intros Hw. unfold handle_frame.
  destruct (params w !! total_messages_param) as [counter|]; [|discriminate].
  destruct (add_one (get_value counter 0 0)) as [e|total];
    [intros Heq; inversion Heq; subst; exact Hw|].
  destruct (set_value_quiet total_messages_param 0 0 total w) as [w1|e| |] eqn:Eq;
    try discriminate; [|intros Heq; inversion Heq; subst; exact Hw].
  assert (store_ok w1) as Hw1.
  { eapply (set_value_store_ok (fun _ _ w => w) 0 total_messages_param 0 0 total false w []);
      [intros ? ? ? Hok; exact Hok | exact Hw |].
    rewrite set_value_quiet_eq, Eq. reflexivity. }
  destruct frame as [| |request id]; try (intros Heq; inversion Heq; subst; exact Hw1).
  destruct (_handle_message call local_components fuel websocket request (subscriptions s) w1)
    as [calls0 [[[resp m'] w2]|e| |]] eqn:Eh; try discriminate;
    intros Heq; inversion Heq; subst; [|exact Hw1].
  eapply handle_message_store_ok; [exact Hw1 | exact Eh].
Qed.

Lemma handle_frames_store_ok fuel websocket : forall frames s (w : World CB Env)
    calls replies s' w',
  store_ok w ->
  handle_frames call local_components total_messages_param fuel websocket frames s w
  = (calls, Returned (replies, s', w')) ->
  store_ok w'.
Proof.
  induction frames as [|frame frames IH]; intros s w calls replies s' w' Hw; simpl.
  - intros Heq; inversion Heq; subst; exact Hw.
  - destruct (handle_frame call local_components total_messages_param fuel websocket frame s w)
      as [calls0 [[[reply s1] w1]|e| |]] eqn:Ef; try discriminate.
    destruct (handle_frames call local_components total_messages_param fuel websocket frames
                s1 w1) as [calls1 [[[replies1 s2] w2]|e| |]] eqn:Efs; try discriminate.
    intros Heq; inversion Heq; subst.
    eapply IH; [|exact Efs]. eapply handle_frame_store_ok; [exact Hw | exact Ef].
Qed.

End Facts.
End StoreFacts.

(** X17. With the callbacks the hub itself registers, nothing a client sends
    takes a parameter out of its type or its bounds: on a store whose
    cells are typed and within bounds, after the frames of a connection
    have been handled, whatever they hold, every cell of the grid of every
    parameter holds a value of the declared type, within the bounds for
    the numeric types. *)
Theorem hub_keeps_cells_typed_and_bounded `{PyBuiltins} `{ActionManager.HeapQ} `{Hub.Json}
    (self : Hub.Attributes) (fuel depth : nat)
    (local_components : list (string * Component)) (total_messages_param : ref)
    (fuel' : nat) (websocket : nat) (frames : list WebServerComponent.Frame)
    (s s' : WebServerComponent.Server) (w w' : World Hub.Callback Hub.State)
    (calls : list (Hub.Callback * CallArgs)) (replies : list WebServerComponent.Reply) :
  store_ok w ->
  WebServerComponent.handle_frames (Hub.call self fuel depth) local_components
    total_messages_param fuel' websocket frames s w
  = (calls, Returned (replies, s', w')) ->
  forall r p, params w' !! r = Some p ->
  forall row col, 0 <= row < rows p -> 0 <= col < cols p ->
    has_declared_type (cls p) (get_value p row col) /\
    within_bounds (cls p) (get_value p row col).
Proof.
  intros Hw Hf.
  assert (store_ok w') as Hw'.
  { eapply StoreFacts.handle_frames_store_ok; [|exact Hw | exact Hf].
    apply HubFacts.hub_call_keeps_store_ok. }
  intros r p Hp row col Hrow Hcol. destruct (Hw' r p Hp) as [_ Hgrid].
  apply Hgrid; assumption.
Qed.

Module StoreCheckFacts.
Import StoreCheck.

Lemma has_declared_typeb_sound k v : has_declared_typeb k v = true -> has_declared_type k v.
Proof. destruct k, v; simpl; intros Hb; try discriminate; exact I. Qed.

Lemma within_boundsb_sound k v : within_boundsb k v = true -> within_bounds k v.
Proof.
  destruct k, v; simpl; intros Hb; try exact I.
  - apply andb_true_iff in Hb as [H1 H2]. apply Z.leb_le in H1, H2. lia.
  - apply andb_true_iff in Hb. exact Hb.
Qed.

Lemma param_okb_sound {CB} (p : BaseParameter CB) : param_okb p = true -> param_ok p.
Proof.
  unfold param_okb. intros Hb. apply andb_true_iff in Hb as [Hk Hg].
  split; [apply within_boundsb_sound, Hk|].
  intros r c Hr Hc. rewrite forallb_forall in Hg.
  specialize (Hg (r, c)). simpl in Hg.
  assert ((r, c) ∈ cells (rows p) (cols p)) as Hin by (apply elem_of_cells; auto).
  apply list_elem_of_In in Hin. apply Hg in Hin. apply andb_true_iff in Hin as [Ht Hbd].
  split; [apply has_declared_typeb_sound, Ht | apply within_boundsb_sound, Hbd].
Qed.

Lemma store_okb_sound {CB Env} (w : World CB Env) : store_okb w = true -> store_ok w.
Proof.
  unfold store_okb. intros Hb r p Hp. rewrite forallb_forall in Hb.
  apply param_okb_sound. apply (Hb (r, p)).
  apply list_elem_of_In, elem_of_map_to_list, Hp.
Qed.

Lemma in_storeb_sound {CB Env} (w : World CB Env) r :
  in_storeb w r = true -> is_Some (params w !! r).
Proof. unfold in_storeb. destruct (params w !! r); [eauto | discriminate]. Qed.

Lemma components_in_storeb_sound {CB Env} lc (w : World CB Env) :
  components_in_storeb lc w = true -> StoreSpec.components_in_store lc w.
Proof.
  unfold components_in_storeb. intros Hb n c Hc. rewrite forallb_forall in Hb.
  apply list_elem_of_In, Hb, andb_true_iff in Hc as [Hn Hi]. simpl in Hn, Hi.
  rewrite forallb_forall in Hn, Hi. split.
  - intros r Hr. apply in_storeb_sound, Hn, list_elem_of_In, Hr.
  - intros i r Hr. apply in_storeb_sound.
    apply (Hi (i, r)), list_elem_of_In, elem_of_map_to_list, Hr.
Qed.

Lemma callbacks_withinb_sound {CB Env} fuel (w : World CB Env) :
  callbacks_withinb fuel w = true -> StoreSpec.callbacks_within fuel w.
Proof.
  unfold callbacks_withinb. intros Hb r p Hp. rewrite forallb_forall in Hb.
  apply Nat.leb_le. apply (Hb (r, p)), list_elem_of_In, elem_of_map_to_list, Hp.
Qed.

End StoreCheckFacts.

Import HubExample.

Lemma hub_keeps_cells_typed_and_bounded_witness :
  length HubExample.after_session.1.1 = 3%nat /\
  forall r p, params HubExample.after_session.2 !! r = Some p ->
  forall row col, 0 <= row < rows p -> 0 <= col < cols p ->
    has_declared_type (cls p) (get_value p row col) /\
    within_bounds (cls p) (get_value p row col).
Proof.
  split; [vm_compute; reflexivity|].
  refine (hub_keeps_cells_typed_and_bounded (Hub.attributes HubExample.hub) 2 1
            (Hub.local_components HubExample.hub) (Hub.total_messages_param HubExample.hub)
            3 1%nat HubExample.frames WebServerExample.no_clients
            HubExample.after_session.1.2 (Hub.world HubExample.hub)
            HubExample.after_session.2 HubExample.session.1
            HubExample.after_session.1.1 _ _).
  - apply StoreCheckFacts.store_okb_sound. vm_compute. reflexivity.
  - vm_compute. reflexivity.
Defined.

(** ** Properties kept across notifications *)

Module InvariantFacts.

Section Facts.
Context `{PyBuiltins} {CB Env : Type}.
Variable call : CB -> CallArgs -> World CB Env -> World CB Env.
Variable P : World CB Env -> Prop.
Hypothesis call_keeps : forall cb a w, P w -> P (call cb a w).

Lemma notify_keeps fuel : forall self a i (w : World CB Env) calls w',
  P w -> notify call fuel self a i w = (calls, Returned w') -> P w'.
Proof.
  induction fuel as [|fuel IH]; intros self a i w calls w' Hw; simpl.
  - destruct (params w !! self) as [p|]; [|discriminate].
    destruct (_on_change_callbacks p !! i); [discriminate|].
    intros Heq; inversion Heq; subst. exact Hw.
  - destruct (params w !! self) as [p|]; [|discriminate].
    destruct (_on_change_callbacks p !! i) as [cb|].
    + destruct (notify call fuel self a (S i) (call cb a w)) as [calls0 o] eqn:En.
      intros Heq; inversion Heq; subst.
      eapply IH; [apply call_keeps, Hw | exact En].
    + intros Heq; inversion Heq; subst. exact Hw.
Qed.

(** A write keeps what the write of the cell alone keeps. *)
Lemma set_value_keeps fuel self row col v nfy (w : World CB Env) calls w' :
  (forall p v', params w !! self = Some p ->
     P (put self (with_values p (<[(row, col) := v']> (_values p))) w)) ->
  set_value call fuel self row col v nfy w = (calls, Returned w') -> P w'.
Proof.
  intros Hput. unfold set_value.
  destruct (params w !! self) as [p|] eqn:Ep; [|discriminate].
  destruct (coerce (cls p) v) as [e|v'] eqn:Ec; [discriminate|].
  unfold BaseParameter_set_value. rewrite Ep.
  destruct (nfy && py_ne (get_value p row col) v').
  - intros Hn. eapply notify_keeps; [|exact Hn]. apply Hput. reflexivity.
  - intros Heq; inversion Heq; subst. apply Hput. reflexivity.
Qed.

Lemma set_value_quiet_keeps self row col v (w w' : World CB Env) :
  (forall p v', params w !! self = Some p ->
     P (put self (with_values p (<[(row, col) := v']> (_values p))) w)) ->
  set_value_quiet self row col v w = Returned w' -> P w'.
Proof.
  intros Hput. unfold set_value_quiet.
  destruct (params w !! self) as [p|] eqn:Ep; [|discriminate].
  destruct (coerce (cls p) v) as [e|v']; [discriminate|].
  intros Heq; inversion Heq; subst. apply Hput. reflexivity.
Qed.

End Facts.
End InvariantFacts.

(** ** The callbacks of the hub write cells only *)

Module HubWritingFacts.
Import Hub StoreSpec CallbackSpec.

Section Facts.
Context `{PyBuiltins} `{ActionManager.HeapQ} `{Json}.
Variable self : Attributes.
Variable fuel : nat.

(** What the state besides the objects does not touch, and the writes of
    the cells of [trigger], [action_to_send] and [queue_length] keep. *)
Variable P : World Callback State -> Prop.
Hypothesis env_keeps : forall f w, P w -> P (on_env f w).
Hypothesis write_keeps : forall r p vs w,
  r = trigger self \/ r = action_to_send self \/ r = queue_length self ->
  params w !! r = Some p -> P w -> P (put r (with_values p vs) w).

Lemma hub_quiet_keeps r v (w w' : World Callback State) :
  r = trigger self \/ r = action_to_send self \/ r = queue_length self ->
  P w -> set_value_quiet r 0 0 v w = Returned w' -> P w'.
Proof.
  intros Hr Hw. apply (InvariantFacts.set_value_quiet_keeps P).
  intros p v' Hp. apply write_keeps; assumption.
Qed.

Lemma hub_call_keeps depth : forall cb a (w : World Callback State),
  P w -> P (call self fuel depth cb a w).
Proof.
  induction depth as [|depth IH]; intros cb a w Hw;
    (destruct cb as [| | | | |pid]; cbn [call];
     [ unfold _on_trigger_change; destruct (NetworkActions.ge_zero (cb_new a)) as [[|]|];
       try exact Hw;
       match goal with
       | |- context [set_value_quiet ?r 0 0 ?v ?w1] =>
           destruct (set_value_quiet r 0 0 v w1) as [w2|e| |] eqn:E;
           try (repeat apply env_keeps; exact Hw);
           eapply hub_quiet_keeps; [left; reflexivity | | exact E]; apply env_keeps, Hw
       end
     | unfold network_parse_nicknames; destruct (cell _ w) as [raw|];
       [|apply env_keeps, Hw];
       destruct (parsed_nicknames raw); [apply env_keeps|]; exact Hw
     |
     | unfold _parse_nicknames; destruct (cell _ w) as [raw|]; [|apply env_keeps, Hw];
       destruct (parsed_nicknames raw); [apply env_keeps|]; exact Hw
     | unfold _parse_variables; destruct (cell _ w) as [raw|]; [|apply env_keeps, Hw];
       destruct (truthy raw); [destruct raw|]; try apply env_keeps; exact Hw
     | apply env_keeps, Hw ]).
  - apply env_keeps, Hw.
  - unfold _on_action_to_send_change. destruct (negb (truthy (cb_new a))); [exact Hw|].
    set (w1 := match cb_new a with VStr s => _ | _ => w end).
    assert (P w1) as Hw1.
    { unfold w1. destruct (cb_new a) as [| | | |s]; try exact Hw.
      destruct (loads_actions s) as [| |[|action actions]]; try exact Hw.
      unfold _queue_actions.
      destruct (ActionManager._queue_actions _ _ _) as [queue [e|]];
        [apply env_keeps, Hw|].
      match goal with
      | |- context [set_value ?c ?f ?r 0 0 ?v true ?w0] =>
          destruct (set_value c f r 0 0 v true w0) as [calls [w2|e| |]] eqn:E;
          try (repeat apply env_keeps; exact Hw)
      end.
      simpl. eapply (InvariantFacts.set_value_keeps _ P); [exact IH | | exact E].
      intros p v' Hp. apply write_keeps; [right; right; reflexivity | exact Hp |].
      apply env_keeps, Hw. }
    destruct (set_value_quiet (action_to_send self) 0 0 (VStr "") w1) as [w2|e| |] eqn:E;
      try (repeat apply env_keeps; exact Hw1).
    eapply hub_quiet_keeps; [right; left; reflexivity | exact Hw1 | exact E].
Qed.

End Facts.

Section Hub.
Context `{PyBuiltins} `{ActionManager.HeapQ} `{Json}.
Variable self : Attributes.
Variable fuel depth : nat.

(** The callbacks of the hub add, remove and reshape no object. *)
Lemma hub_call_keeps_shapes : callbacks_keep_shapes (call self fuel depth).
Proof.
  intros cb a w. apply (hub_call_keeps self fuel (same_shapes w)).
  - intros f w' Hs. exact Hs.
  - intros r p vs w' _ Hp Hs. eapply ClientFacts.same_shapes_trans; [exact Hs|].
    eapply ClientFacts.same_shapes_write; [exact Hp | reflexivity].
  - apply ClientFacts.same_shapes_refl.
Qed.

(** They write to [trigger], [action_to_send] and [queue_length] only. *)
Lemma hub_call_leaves r :
  r <> trigger self -> r <> action_to_send self -> r <> queue_length self ->
  callbacks_leave (call self fuel depth) r.
Proof.
  intros Ht Ha Hq cb a w.
  apply (hub_call_keeps self fuel (fun w' => params w' !! r = params w !! r)).
  - intros f w' Hs. exact Hs.
  - intros r' p vs w' Hr' _ Hs. unfold put. cbn [params].
    rewrite lookup_insert_ne by (intros ->; destruct Hr' as [?|[?|?]]; congruence).
    exact Hs.
  - reflexivity.
Qed.

End Hub.
End HubWritingFacts.

(** ** The nickname dictionaries of the hub *)

Module NicknameFacts.
Import Hub.

Section Facts.
Context `{PyBuiltins} `{ActionManager.HeapQ} `{Json}.
Variable self : Attributes.
Variable fuel : nat.

Variable r0 : ref.
Variable m0 : gmap string string.

Abbreviation holds := (NicknameSpec.watcher_holds r0 m0).

Lemma fresh_dict_is_new (st : State) : holds st -> fresh (dom (dicts st)) <> r0.
Proof.
  intros [_ Hd] Heq.
  apply (is_fresh (dom (dicts st))). rewrite Heq. apply elem_of_dom. eauto.
Qed.

Lemma bind_network_holds m st : holds st -> holds (bind_network_nicknames m st).
Proof.
  intros Hh. pose proof (fresh_dict_is_new st Hh) as Hf. destruct Hh as [Hw Hd].
  split; simpl; [exact Hw|]. rewrite lookup_insert_ne; [exact Hd | exact Hf].
Qed.

Lemma bind_action_holds m st : holds st -> holds (bind_action_nicknames m st).
Proof.
  intros Hh. pose proof (fresh_dict_is_new st Hh) as Hf. destruct Hh as [Hw Hd].
  split; simpl; [exact Hw|]. rewrite lookup_insert_ne; [exact Hd | exact Hf].
Qed.

Lemma quiet_holds r v (w w' : World Callback State) :
  holds (env w) -> set_value_quiet r 0 0 v w = Returned w' -> holds (env w').
Proof.
  intros Hh. apply (InvariantFacts.set_value_quiet_keeps (fun w => holds (env w))).
  intros p v' _. exact Hh.
Qed.

Lemma call_holds depth : forall cb a (w : World Callback State),
  holds (env w) -> holds (env (call self fuel depth cb a w)).
Proof.
  induction depth as [|depth IH]; intros cb a w Hw;
    (destruct cb as [| | | | |pid]; cbn [call];
     [ unfold _on_trigger_change; destruct (NetworkActions.ge_zero (cb_new a)) as [[|]|];
       try exact Hw;
       match goal with
       | |- context [set_value_quiet ?r 0 0 ?v ?w1] =>
           destruct (set_value_quiet r 0 0 v w1) as [w2|e| |] eqn:E; try exact Hw;
           eapply quiet_holds; [|exact E]; exact Hw
       end
     | unfold network_parse_nicknames; destruct (cell _ w) as [raw|]; [|exact Hw];
       destruct (parsed_nicknames raw); [apply bind_network_holds|]; exact Hw
     |
     | unfold _parse_nicknames; destruct (cell _ w) as [raw|]; [|exact Hw];
       destruct (parsed_nicknames raw); [apply bind_action_holds|]; exact Hw
     | unfold _parse_variables; destruct (cell _ w) as [raw|]; [|exact Hw];
       destruct (truthy raw); [destruct raw|]; exact Hw
     | exact Hw ]).
  - exact Hw.
  - unfold _on_action_to_send_change. destruct (negb (truthy (cb_new a))); [exact Hw|].
    set (w1 := match cb_new a with VStr s => _ | _ => w end).
    assert (holds (env w1)) as Hw1.
    { unfold w1. destruct (cb_new a) as [| | | |s]; try exact Hw.
      destruct (loads_actions s) as [| |[|action actions]]; try exact Hw.
      unfold _queue_actions.
      destruct (ActionManager._queue_actions _ _ _) as [queue [e|]]; [exact Hw|].
      match goal with
      | |- context [set_value ?c ?f ?r 0 0 ?v true ?w0] =>
          destruct (set_value c f r 0 0 v true w0) as [calls [w2|e| |]] eqn:E; try exact Hw
      end.
      simpl.
      eapply (InvariantFacts.set_value_keeps _ (fun w => holds (env w)));
        [exact IH | | exact E].
      intros p v' _. exact Hw. }
    destruct (set_value_quiet (action_to_send self) 0 0 (VStr "") w1) as [w2|e| |] eqn:E;
      try exact Hw1.
    eapply quiet_holds; [exact Hw1 | exact E].
Qed.

End Facts.
End NicknameFacts.

(** X18. Nothing written to a parameter of the hub reaches the Watcher's
    nicknames: when a write returns, through whatever callbacks it
    notified, the Watcher resolves every device name as before. The
    callbacks of the ActionManager and of NetworkActions bind new
    dictionaries and leave the one the Watcher holds alone. *)
Theorem parameter_writes_never_reach_the_watcher_nicknames
    `{PyBuiltins} `{ActionManager.HeapQ} `{Hub.Json}
    (self : Hub.Attributes) (fuel depth fuel' : nat) (r : ref) (row col : Z) (v : PyVal)
    (nfy : bool) (w : World Hub.Callback Hub.State) calls w' :
  is_Some (Hub.dicts (env w) !! Hub.watcher_nickname_map (env w)) ->
  set_value (Hub.call self fuel depth) fuel' r row col v nfy w = (calls, Returned w') ->
  forall device, Hub.watcher_resolves (env w') device = Hub.watcher_resolves (env w) device.
Proof.
  intros [m0 Hm0] Hset device.
  assert (NicknameSpec.watcher_holds (Hub.watcher_nickname_map (env w)) m0 (env w')) as [Hr Hd].
  { eapply (InvariantFacts.set_value_keeps _
              (fun w0 => NicknameSpec.watcher_holds (Hub.watcher_nickname_map (env w)) m0 (env w0)));
      [apply NicknameFacts.call_holds | | exact Hset].
    intros p v' _. split; [reflexivity | exact Hm0]. }
  unfold Hub.watcher_resolves. rewrite Hr, Hd, Hm0. reflexivity.
Qed.

(** X19. Once the ActionManager has parsed its nickname text, as
    [initialize] does, [add_nickname] no longer reaches the Watcher: the
    entry goes into the dictionary [_parse_nicknames] bound, and the
    Watcher resolves every device name as before. *)
Theorem add_nickname_after_parse_misses_the_watcher
    `{PyBuiltins} `{ActionManager.HeapQ} `{Hub.Json}
    (self : Hub.Attributes) (fuel depth fuel' : nat) (nickname ip_address : string)
    (w : World Hub.Callback Hub.State) raw m calls w' :
  is_Some (Hub.dicts (env w) !! Hub.watcher_nickname_map (env w)) ->
  Hub.cell (Hub.device_nicknames self) w = Some raw ->
  Hub.parsed_nicknames raw = Some m ->
  Hub.add_nickname self fuel depth fuel' nickname ip_address (Hub._parse_nicknames self w)
  = (calls, Returned w') ->
  forall device, Hub.watcher_resolves (env w') device = Hub.watcher_resolves (env w) device.
Proof.
  intros [m0 Hm0] Hcell Hparsed Hadd device.
  set (r0 := Hub.watcher_nickname_map (env w)) in *.
  assert (NicknameSpec.watcher_holds r0 m0 (env w)) as Hw by (split; [reflexivity | exact Hm0]).
  pose proof (NicknameFacts.fresh_dict_is_new r0 m0 (env w) Hw) as Hfresh.
  assert (NicknameSpec.watcher_holds r0 m0 (env w')) as [Hr Hd].
  { revert Hadd. unfold Hub.add_nickname, Hub._parse_nicknames.
    rewrite Hcell, Hparsed. simpl.
    rewrite lookup_insert_eq.
    apply (InvariantFacts.set_value_keeps _ (fun w0 => NicknameSpec.watcher_holds r0 m0 (env w0)));
      [apply NicknameFacts.call_holds|].
    intros p v' _. split; simpl; [reflexivity|].
    rewrite !lookup_insert_ne by exact Hfresh. exact Hm0. }
  unfold Hub.watcher_resolves. fold r0. rewrite Hr, Hd, Hm0. reflexivity.
Qed.

(** X20. While the Watcher and the ActionManager hold the same
    dictionary, as they do when the hub is built, [add_nickname] returns
    and the nickname added is one the Watcher resolves to the address
    given. [device_nicknames] is a text parameter, as the constructor
    makes it, and there is fuel for its callbacks. *)
Theorem add_nickname_reaches_the_watcher_sharing_the_dictionary
    `{PyBuiltins} `{ActionManager.HeapQ} `{Hub.Json}
    (self : Hub.Attributes) (fuel depth fuel' : nat) (nickname ip_address : string)
    (w : World Hub.Callback Hub.State) (m : gmap string string)
    (p : BaseParameter Hub.Callback) (d : string) :
  Hub.action_nickname_map (env w) = Hub.watcher_nickname_map (env w) ->
  Hub.dicts (env w) !! Hub.action_nickname_map (env w) = Some m ->
  params w !! Hub.device_nicknames self = Some p ->
  cls p = StringParameter d ->
  (length (_on_change_callbacks p) <= fuel')%nat ->
  String.eqb (lower nickname) "self" = false ->
  exists calls w',
    Hub.add_nickname self fuel depth fuel' nickname ip_address w = (calls, Returned w') /\
    Hub.watcher_resolves (env w') nickname = ip_address.
Proof.
  intros Hshare Em Hp Hcls Hfuel Hself. unfold Hub.add_nickname. rewrite Em.
  set (w1 := Hub.on_env _ w).
  destruct (WritingFacts.set_value_runs (Hub.call self fuel depth)
              (HubWritingFacts.hub_call_keeps_shapes self fuel depth) fuel'
              (Hub.device_nicknames self) 0 0
              (VStr (Hub.dumps_nicknames (<[nickname := ip_address]> m))) true w1 p Hp Hfuel)
    as [(e & Hc & _)|(v' & calls & w' & _ & Hset & _)];
    [rewrite Hcls in Hc; discriminate|].
  exists calls, w'. split; [exact Hset|].
  assert (NicknameSpec.watcher_holds (Hub.watcher_nickname_map (env w))
            (<[nickname := ip_address]> m) (env w')) as [Hr Hd].
  { eapply (InvariantFacts.set_value_keeps _
              (fun w0 => NicknameSpec.watcher_holds (Hub.watcher_nickname_map (env w))
                           (<[nickname := ip_address]> m) (env w0)));
      [apply NicknameFacts.call_holds | | exact Hset].
    intros q v0 _. split; simpl; [reflexivity|].
    rewrite Hshare. apply lookup_insert_eq. }
  unfold Hub.watcher_resolves, WatcherComponent._resolve_device.
  rewrite Hr, Hd, Hself. simpl. rewrite lookup_insert_eq. reflexivity.
Qed.

(** ** The [action_to_send] cell *)

Module ClearingFacts.
Import Hub ActionToSendSpec.

Section Facts.
Context `{PyBuiltins} `{ActionManager.HeapQ} `{Json}.
Variable self : Attributes.
Variable fuel : nat.
Hypothesis trigger_differs : trigger self <> action_to_send self.
Hypothesis queue_length_differs : queue_length self <> action_to_send self.

Lemma holds_put_other R r p' (w : World Callback State) :
  r <> action_to_send self -> holds self R w -> holds self R (put r p' w).
Proof.
  intros Hne (p & d & Hp & Hc & HR). exists p, d. split; [|auto].
  unfold put. simpl. rewrite lookup_insert_ne; [exact Hp | exact Hne].
Qed.

Lemma holds_write R row col (w : World Callback State) p v' :
  holds self (fun _ => True) w ->
  params w !! action_to_send self = Some p ->
  R (if decide ((row, col) = (0, 0)) then v' else get_value p 0 0) ->
  holds self R (put (action_to_send self)
                  (with_values p (<[(row, col) := v']> (_values p))) w).
Proof.
  intros (p0 & d & Hp0 & Hc & _) Hp HR.
  assert (p0 = p) by congruence. subst p0.
  exists (with_values p (<[(row, col) := v']> (_values p))), d.
  split; [unfold put; simpl; apply lookup_insert_eq|].
  split; [exact Hc|]. rewrite ParameterFacts.get_value_insert. exact HR.
Qed.

Lemma quiet_clears (w : World Callback State) :
  holds self (fun _ => True) w ->
  exists w2, set_value_quiet (action_to_send self) 0 0 (VStr "") w = Returned w2 /\
             holds self (eq (VStr "")) w2.
Proof.
  intros Hw. pose proof Hw as (p & d & Hp & Hc & _).
  unfold set_value_quiet. rewrite Hp, Hc. simpl.
  eexists. split; [reflexivity|].
  apply holds_write; [exact Hw | exact Hp|]. rewrite decide_True by reflexivity. reflexivity.
Qed.

Lemma call_keeps depth : forall (R : PyVal -> Prop), R (VStr "") ->
  forall cb a (w : World Callback State),
  holds self R w -> holds self R (call self fuel depth cb a w).
Proof.
  induction depth as [|depth IH]; intros R HR cb a w Hw;
    (destruct cb as [| | | | |pid]; cbn [call];
     [ unfold _on_trigger_change; destruct (NetworkActions.ge_zero (cb_new a)) as [[|]|];
       try exact Hw;
       match goal with
       | |- context [set_value_quiet ?r 0 0 ?v ?w1] =>
           destruct (set_value_quiet r 0 0 v w1) as [w2|e| |] eqn:E; try exact Hw;
           eapply (InvariantFacts.set_value_quiet_keeps (holds self R)); [|exact E];
           intros p v' _; apply holds_put_other; [exact trigger_differs | exact Hw]
       end
     | unfold network_parse_nicknames; destruct (cell _ w) as [raw|]; [|exact Hw];
       destruct (parsed_nicknames raw); exact Hw
     |
     | unfold _parse_nicknames; destruct (cell _ w) as [raw|]; [|exact Hw];
       destruct (parsed_nicknames raw); exact Hw
     | unfold _parse_variables; destruct (cell _ w) as [raw|]; [|exact Hw];
       destruct (truthy raw); [destruct raw|]; exact Hw
     | exact Hw ]).
  - exact Hw.
  - unfold _on_action_to_send_change. destruct (negb (truthy (cb_new a))); [exact Hw|].
    set (w1 := match cb_new a with VStr s => _ | _ => w end).
    assert (holds self (fun _ => True) w) as Hw0.
    { destruct Hw as (p & d & Hp & Hc & _). exists p, d. auto. }
    assert (holds self (fun _ => True) w1) as Hw1.
    { unfold w1. destruct (cb_new a) as [| | | |s]; try exact Hw0.
      destruct (loads_actions s) as [| |[|action actions]]; try exact Hw0.
      unfold _queue_actions.
      destruct (ActionManager._queue_actions _ _ _) as [queue [e|]]; [exact Hw0|].
      match goal with
      | |- context [set_value ?c ?f ?r 0 0 ?v true ?w0] =>
          destruct (set_value c f r 0 0 v true w0) as [calls [w2|e| |]] eqn:E; try exact Hw0
      end.
      simpl.
      eapply (InvariantFacts.set_value_keeps _ (holds self (fun _ => True)));
        [apply IH; exact I | | exact E].
      intros p v' _. apply holds_put_other; [exact queue_length_differs | exact Hw0]. }
    destruct (quiet_clears w1 Hw1) as (w2 & E & (p & d & Hp & Hc & Hv)).
    rewrite E. exists p, d. rewrite <- Hv. auto.
Qed.

(** The callback of the cell leaves it empty, or finds it empty. *)
Lemma on_action_to_send_change_clears depth a (w : World Callback State) :
  holds self (fun _ => True) w ->
  (truthy (cb_new a) = false -> holds self (eq (VStr "")) w) ->
  holds self (eq (VStr "")) (call self fuel (S depth) OnActionToSendChange a w).
Proof.
  intros Hw Hempty. cbn [call]. unfold _on_action_to_send_change.
  destruct (truthy (cb_new a)) eqn:Et; simpl; [|apply Hempty; reflexivity].
  set (w1 := match cb_new a with VStr s => _ | _ => w end).
  assert (holds self (fun _ => True) w1) as Hw1.
  { unfold w1. destruct (cb_new a) as [| | | |s]; try exact Hw.
    destruct (loads_actions s) as [| |[|action actions]]; try exact Hw.
    unfold _queue_actions.
    destruct (ActionManager._queue_actions _ _ _) as [queue [e|]]; [exact Hw|].
    match goal with
    | |- context [set_value ?c ?f ?r 0 0 ?v true ?w0] =>
        destruct (set_value c f r 0 0 v true w0) as [calls [w2|e| |]] eqn:E; try exact Hw
    end.
    simpl.
    eapply (InvariantFacts.set_value_keeps _ (holds self (fun _ => True)));
      [apply call_keeps; exact I | | exact E].
    intros p v' _. apply holds_put_other; [exact queue_length_differs | exact Hw]. }
  destruct (quiet_clears w1 Hw1) as (w2 & E & Hw2). rewrite E. exact Hw2.
Qed.

End Facts.
End ClearingFacts.

(** X21. The [action_to_send] cell of the hub never keeps a text: while
    the cell is empty and its first callback is the one the ActionManager
    registered, every write with notification that returns, to whichever
    parameter and cell, leaves it empty again. *)
Theorem action_to_send_is_empty_after_every_write
    `{PyBuiltins} `{ActionManager.HeapQ} `{Hub.Json}
    (self : Hub.Attributes) (fuel depth fuel' : nat) (r : ref) (row col : Z) (v : PyVal)
    (w : World Hub.Callback Hub.State) p d calls w' :
  Hub.trigger self <> Hub.action_to_send self ->
  Hub.queue_length self <> Hub.action_to_send self ->
  params w !! Hub.action_to_send self = Some p ->
  cls p = StringParameter d ->
  get_value p 0 0 = VStr "" ->
  _on_change_callbacks p !! 0%nat = Some Hub.OnActionToSendChange ->
  set_value (Hub.call self fuel (S depth)) fuel' r row col v true w = (calls, Returned w') ->
  Hub.cell (Hub.action_to_send self) w' = Some (VStr "").
Proof.
  intros Ht Hq Hp Hc Hv Hcb Hset.
  assert (ActionToSendSpec.holds self (eq (VStr "")) w) as Hw
    by (exists p, d; auto).
  assert (ActionToSendSpec.holds self (fun _ => True) w) as Hw0
    by (exists p, d; auto).
  assert (ActionToSendSpec.holds self (eq (VStr "")) w') as (p' & d' & Hp' & _ & Hv').
  { remember (Hub.call self fuel (S depth)) as c eqn:Ec.
    destruct (decide (r = Hub.action_to_send self)) as [->|Hne].
    - revert Hset. unfold set_value. rewrite Hp, Hc. simpl.
      set (v' := VStr _). unfold BaseParameter_set_value. rewrite Hp.
      set (w1 := put _ _ w).
      assert (ActionToSendSpec.holds self (fun _ => True) w1) as Hw1
        by (apply ClearingFacts.holds_write; auto).
      assert (py_ne (get_value p row col) v' = false ->
              ActionToSendSpec.holds self (eq (VStr "")) w1) as Hsame.
      { intros Hne. apply ClearingFacts.holds_write; [exact Hw0 | exact Hp|].
        destruct (decide ((row, col) = (0, 0))) as [Heq|]; [|auto].
        inversion Heq; subst. rewrite Hv in Hne. unfold py_ne, py_eq, v' in Hne.
        apply negb_false_iff, String.eqb_eq in Hne. unfold v'. congruence. }
      destruct (py_ne (get_value p row col) v') eqn:Ene; simpl;
        [|intros Heq; inversion Heq; subst; apply Hsame; reflexivity].
      assert (params w1 !! Hub.action_to_send self
              = Some (with_values p (<[(row, col) := v']> (_values p)))) as Hp1
        by (unfold w1, put; simpl; apply lookup_insert_eq).
      destruct fuel' as [|fuel']; cbn [notify]; rewrite Hp1; simpl; rewrite Hcb;
        [discriminate|].
      destruct (notify c fuel' _ _ 1 _) as [calls0 o] eqn:En.
      intros Heq; inversion Heq; subst.
      eapply (InvariantFacts.notify_keeps _ (ActionToSendSpec.holds self (eq (VStr ""))));
          [| |exact En].
        * intros cb a w0. apply ClearingFacts.call_keeps; auto.
        * apply ClearingFacts.on_action_to_send_change_clears; auto.
          simpl. intros Hfalse. apply ClearingFacts.holds_write; [exact Hw0 | exact Hp|].
          destruct (decide ((row, col) = (0, 0))); [|auto].
          unfold v' in *. simpl in Hfalse. apply negb_false_iff, String.eqb_eq in Hfalse.
          congruence.
    - eapply (InvariantFacts.set_value_keeps _ (ActionToSendSpec.holds self (eq (VStr ""))));
        [| |exact Hset].
      + subst c. intros cb a w0. apply ClearingFacts.call_keeps; auto.
      + intros p0 v0 _. apply ClearingFacts.holds_put_other; auto. }
  unfold Hub.cell. rewrite Hp'. simpl. rewrite <- Hv'. reflexivity.
Qed.

Module FollowingFacts.
Import Hub NicknameSpec.

Section Facts.
Context `{PyBuiltins} `{ActionManager.HeapQ} `{Json}.
Variable self : Attributes.
Variable fuel : nat.
Hypothesis trigger_differs : trigger self <> device_nicknames self.
Hypothesis queue_length_differs : queue_length self <> device_nicknames self.
Hypothesis action_to_send_differs : action_to_send self <> device_nicknames self.






End Facts.
End FollowingFacts.


(** ** A batch written to [action_to_send] *)

Module BatchFacts.
Import Hub HubSpec.

Lemma with_tasks_fields ts : forall st,
  tasks (with_tasks ts st) = tasks st ++ ts /\
  dicts (with_tasks ts st) = dicts st /\
  _action_queue (with_tasks ts st) = _action_queue st /\
  time_time (with_tasks ts st) = time_time st /\
  stuck (with_tasks ts st) = stuck st.
Proof.
  induction ts as [|t ts IH]; intros st; simpl.
  - rewrite app_nil_r. auto.
  - destruct (IH (add_task t st)) as (Ht & Hd & Hq & Hn & Hs).
    fold (with_tasks ts (add_task t st)).
    rewrite Ht, Hd, Hq, Hn, Hs. simpl. rewrite <- app_assoc. auto.
Qed.

Section Facts.
Context `{PyBuiltins} `{ActionManager.HeapQ} `{Json}.
Variable self : Attributes.
Variable fuel : nat.

(** A notification that has only broadcast closures left to call creates
    their tasks and changes nothing else. *)
Lemma notify_broadcast_closures depth r a : forall pids fuel' pre (w : World Callback State) q,
  params w !! r = Some q ->
  _on_change_callbacks q = pre ++ map Broadcast pids ->
  (length pids <= fuel')%nat ->
  notify (call self fuel depth) fuel' r a (length pre) w
  = (map (fun pid => (Broadcast pid, a)) pids,
     Returned (on_env (with_tasks (broadcasts pids a)) w)).
Proof.
  induction pids as [|pid pids IH]; intros fuel' pre w q Hq Hl Hfuel.
  - simpl in *. rewrite app_nil_r in *. destruct fuel'; simpl; rewrite Hq, Hl;
      rewrite (proj2 (lookup_ge_None _ _)) by lia; destruct w; reflexivity.
  - destruct fuel' as [|fuel']; [simpl in Hfuel; lia|].
    simpl in Hl. cbn [notify]. rewrite Hq, Hl. rewrite list_lookup_middle by reflexivity.
    assert (call self fuel depth (Broadcast pid) a w
            = on_env (add_task (NetworkActions.BroadcastUpdate pid (cb_row a) (cb_col a)
                                  (cb_new a))) w) as ->
      by (destruct depth; reflexivity).
    specialize (IH fuel' (pre ++ [Broadcast pid])
                  (on_env (add_task (NetworkActions.BroadcastUpdate pid (cb_row a) (cb_col a)
                                       (cb_new a))) w) q).
    rewrite length_app in IH. simpl in IH. rewrite Nat.add_1_r in IH.
    rewrite IH.
    + reflexivity.
    + exact Hq.
    + rewrite Hl, <- app_assoc. reflexivity.
    + simpl in Hfuel. lia.
Qed.

End Facts.
End BatchFacts.

Module WrittenBatchFacts.
Import Hub HubSpec.

Section Facts.
Context `{PyBuiltins} `{ActionManager.HeapQ} `{Json}.
Variable self : Attributes.
Variable fuel : nat.

Lemma notify_step {CB Env : Type} (call : CB -> CallArgs -> World CB Env -> World CB Env)
    fuel' r a i (w : World CB Env) q cb :
  params w !! r = Some q ->
  _on_change_callbacks q !! i = Some cb ->
  notify call (S fuel') r a i w
  = let '(calls, o) := notify call fuel' r a (S i) (call cb a w) in ((cb, a) :: calls, o).
Proof. intros Hq Hi. cbn [notify]. rewrite Hq, Hi. reflexivity. Qed.

(** A text written to the empty [action_to_send] cell: the callback of
    the ActionManager runs on the state that holds the text, and the
    broadcast closures are then called with the text. *)
Lemma write_text depth fuel' s (w : World Callback State) p d pids w5 p5 :
  params w !! action_to_send self = Some p ->
  cls p = StringParameter d ->
  get_value p 0 0 = VStr "" ->
  _on_change_callbacks p = OnActionToSendChange :: map Broadcast pids ->
  s <> "" ->
  (length pids < fuel')%nat ->
  let args := mkArgs (action_to_send self) 0 0 (VStr s) (VStr "") in
  let w1 := put (action_to_send self)
              (with_values p (<[(0, 0) := VStr s]> (_values p))) w in
  call self fuel (S depth) OnActionToSendChange args w1 = w5 ->
  params w5 !! action_to_send self = Some p5 ->
  _on_change_callbacks p5 = _on_change_callbacks p ->
  set_value (call self fuel (S depth)) fuel' (action_to_send self) 0 0 (VStr s) true w
  = ((OnActionToSendChange, args) :: map (fun pid => (Broadcast pid, args)) pids,
     Returned (on_env (with_tasks (broadcasts pids args)) w5)).
Proof.
  intros Hp Hc Hv Hcb Hs Hfuel args w1 Hcall Hp5 Hcb5.
  unfold set_value. rewrite Hp, Hc. cbn [coerce py_str].
  unfold BaseParameter_set_value. rewrite Hp, Hv.
  assert (py_ne (VStr "") (VStr s) = true) as ->
    by (unfold py_ne, py_eq; destruct s; [congruence | reflexivity]).
  cbn [andb]. fold args. fold w1.
  destruct fuel' as [|fuel']; [lia|].
  assert (params w1 !! action_to_send self
          = Some (with_values p (<[(0, 0) := VStr s]> (_values p)))) as Hp1
    by (unfold w1, put; simpl; apply lookup_insert_eq).
  rewrite (notify_step _ fuel' _ args 0%nat w1 _ OnActionToSendChange Hp1)
    by (cbn [_on_change_callbacks with_values]; rewrite Hcb; reflexivity).
  rewrite Hcall.
  rewrite (BatchFacts.notify_broadcast_closures self fuel (S depth) (action_to_send self) args pids
             fuel' [OnActionToSendChange] w5 p5 Hp5);
    [reflexivity | rewrite Hcb5, Hcb; reflexivity | lia].
Qed.

End Facts.
End WrittenBatchFacts.

Module CallbackFacts.
Import Hub HubSpec.

Section Facts.
Context `{PyBuiltins} `{ActionManager.HeapQ} `{Json}.
Variable self : Attributes.
Variable fuel : nat.
Hypothesis queue_length_differs : queue_length self <> action_to_send self.

(** The callback on a batch that [_queue_actions] queues whole. *)
Lemma on_change_queues depth a s action actions queue' (w : World Callback State)
    p d q dq qpids :
  cb_new a = VStr s -> s <> "" ->
  loads_actions s = Batch (action :: actions) ->
  ActionManager._queue_actions (time_time (env w)) (action :: actions)
    (_action_queue (env w)) = (queue', None) ->
  params w !! action_to_send self = Some p ->
  cls p = StringParameter d ->
  params w !! queue_length self = Some q ->
  cls q = IntParameter 0 999999 dq ->
  _on_change_callbacks q = map Broadcast qpids ->
  (length qpids <= fuel)%nat ->
  let n := VInt (Z.min 999999 (Z.of_nat (length queue'))) in
  let ts := if py_ne (get_value q 0 0) n
            then broadcasts qpids (mkArgs (queue_length self) 0 0 n (get_value q 0 0))
            else [] in
  call self fuel (S depth) OnActionToSendChange a w
  = put (action_to_send self) (with_values p (<[(0, 0) := VStr ""]> (_values p)))
      (on_env (with_tasks ts)
         (put (queue_length self) (with_values q (<[(0, 0) := n]> (_values q)))
            (on_env (with_queue queue') w))).
Proof.
  intros Hnew Hs Hload Hqueue Hp Hc Hq Hcq Hcbq Hfuel n ts.
  cbn [call]. unfold _on_action_to_send_change. rewrite Hnew.
  assert (truthy (VStr s) = true) as ->
    by (simpl; destruct s; [congruence | reflexivity]).
  cbn [negb]. rewrite Hload. unfold _queue_actions. rewrite Hqueue.
  set (w2 := on_env (with_queue queue') w).
  assert (params w2 !! queue_length self = Some q) as Hq2 by exact Hq.
  unfold set_value at 1. rewrite Hq2, Hcq. cbn [coerce py_int].
  rewrite SessionFacts.clamp_counts by lia. fold n.
  unfold BaseParameter_set_value. rewrite Hq2.
  set (w3 := put (queue_length self) (with_values q (<[(0, 0) := n]> (_values q))) w2).
  assert (params w3 !! queue_length self
          = Some (with_values q (<[(0, 0) := n]> (_values q)))) as Hq3
    by (unfold w3, put; simpl; apply lookup_insert_eq).
  assert (params w3 !! action_to_send self = Some p) as Hp3.
  { unfold w3, put. simpl. rewrite lookup_insert_ne by exact queue_length_differs. exact Hp. }
  cbn [andb]. unfold ts.
  destruct (py_ne (get_value q 0 0) n).
  - rewrite (BatchFacts.notify_broadcast_closures self fuel depth (queue_length self) _ qpids
               fuel [] w3 _ Hq3) by (try exact Hfuel; exact Hcbq).
    cbn [fst snd]. unfold set_value_quiet.
    assert (params (on_env (with_tasks (broadcasts qpids
                      (mkArgs (queue_length self) 0 0 n (get_value q 0 0)))) w3)
              !! action_to_send self = Some p) as -> by exact Hp3.
    rewrite Hc. reflexivity.
  - cbn [fst snd]. unfold set_value_quiet. rewrite Hp3, Hc. reflexivity.
Qed.

(** The callback on a batch on which [_queue_actions] raises. *)
Lemma on_change_fails depth a s action actions queue' e (w : World Callback State) p d :
  cb_new a = VStr s -> s <> "" ->
  loads_actions s = Batch (action :: actions) ->
  ActionManager._queue_actions (time_time (env w)) (action :: actions)
    (_action_queue (env w)) = (queue', Some e) ->
  params w !! action_to_send self = Some p ->
  cls p = StringParameter d ->
  call self fuel (S depth) OnActionToSendChange a w
  = put (action_to_send self) (with_values p (<[(0, 0) := VStr ""]> (_values p)))
      (on_env (with_queue queue') w).
Proof.
  intros Hnew Hs Hload Hqueue Hp Hc.
  cbn [call]. unfold _on_action_to_send_change. rewrite Hnew.
  assert (truthy (VStr s) = true) as ->
    by (simpl; destruct s; [congruence | reflexivity]).
  cbn [negb]. rewrite Hload. unfold _queue_actions. rewrite Hqueue.
  cbn [fst]. unfold set_value_quiet.
  assert (params (on_env (with_queue queue') w) !! action_to_send self = Some p) as ->
    by exact Hp.
  rewrite Hc. reflexivity.
Qed.

End Facts.
End CallbackFacts.

(** X23. A batch written to the empty [action_to_send] cell of the hub is
    queued, counted and cleared: when [_queue_actions] queues the batch
    whole, the write returns, the queue is the one [_queue_actions]
    leaves, [queue_length] holds its length (at most 999999), the cell is
    empty again, and the tasks created are the broadcasts of the new
    length, if it changed, and then those of the text written. *)
Theorem written_batch_is_queued_counted_and_cleared
    `{PyBuiltins} `{ActionManager.HeapQ} `{Hub.Json}
    (self : Hub.Attributes) (fuel depth fuel' : nat) (s : string)
    (action : ActionManager.Action) (actions : list ActionManager.Action)
    (queue' : list ActionManager.QueuedAction)
    (w : World Hub.Callback Hub.State) (p q : BaseParameter Hub.Callback)
    (d : string) (dq : Z) (pids qpids : list Z) :
  Hub.queue_length self <> Hub.action_to_send self ->
  params w !! Hub.action_to_send self = Some p ->
  cls p = StringParameter d ->
  get_value p 0 0 = VStr "" ->
  _on_change_callbacks p = Hub.OnActionToSendChange :: map Hub.Broadcast pids ->
  params w !! Hub.queue_length self = Some q ->
  cls q = IntParameter 0 999999 dq ->
  _on_change_callbacks q = map Hub.Broadcast qpids ->
  s <> "" ->
  Hub.loads_actions s = Hub.Batch (action :: actions) ->
  ActionManager._queue_actions (Hub.time_time (env w)) (action :: actions)
    (Hub._action_queue (env w)) = (queue', None) ->
  (length qpids <= fuel)%nat ->
  (length pids < fuel')%nat ->
  let n := VInt (Z.min 999999 (Z.of_nat (length queue'))) in
  exists calls w',
    set_value (Hub.call self fuel (S depth)) fuel' (Hub.action_to_send self) 0 0 (VStr s)
      true w = (calls, Returned w') /\
    Hub._action_queue (env w') = queue' /\
    Hub.cell (Hub.queue_length self) w' = Some n /\
    Hub.cell (Hub.action_to_send self) w' = Some (VStr "") /\
    Hub.tasks (env w')
    = Hub.tasks (env w)
      ++ (if py_ne (get_value q 0 0) n
          then map (fun pid => NetworkActions.BroadcastUpdate pid 0 0 n) qpids
          else [])
      ++ map (fun pid => NetworkActions.BroadcastUpdate pid 0 0 (VStr s)) pids /\
    Hub.stuck (env w') = Hub.stuck (env w).
Proof.
  intros Hne Hp Hc Hv Hcb Hq Hcq Hcbq Hs Hload Hqueue Hfq Hfa n.
  set (args := mkArgs (Hub.action_to_send self) 0 0 (VStr s) (VStr "")).
  set (p1 := with_values p (<[(0, 0) := VStr s]> (_values p))).
  set (w1 := put (Hub.action_to_send self) p1 w).
  assert (params w1 !! Hub.action_to_send self = Some p1) as Hp1
    by (unfold w1, put; simpl; apply lookup_insert_eq).
  assert (params w1 !! Hub.queue_length self = Some q) as Hq1.
  { unfold w1, put. simpl. rewrite lookup_insert_ne by congruence. exact Hq. }
  pose proof (CallbackFacts.on_change_queues self fuel Hne depth args s action actions queue'
                w1 p1 d q dq qpids eq_refl Hs Hload Hqueue Hp1 Hc Hq1 Hcq Hcbq Hfq)
    as Hcall.
  cbv zeta in Hcall. fold n in Hcall.
  eexists _, _. split.
  { eapply (WrittenBatchFacts.write_text self fuel depth fuel' s w p d pids);
      [exact Hp | exact Hc | exact Hv | exact Hcb | exact Hs | exact Hfa | exact Hcall | |].
    - unfold put at 1. simpl. apply lookup_insert_eq.
    - reflexivity. }
  set (ts := if py_ne (get_value q 0 0) n then _ else _).
  destruct (BatchFacts.with_tasks_fields (HubSpec.broadcasts pids args)
              (HubSpec.with_tasks ts (Hub.with_queue queue' (env w))))
    as (Ht & _ & Hqu & _ & Hst).
  destruct (BatchFacts.with_tasks_fields ts (Hub.with_queue queue' (env w)))
    as (Ht' & _ & Hqu' & _ & Hst').
  set (st' := HubSpec.with_tasks (HubSpec.broadcasts pids args)
                (HubSpec.with_tasks ts (Hub.with_queue queue' (env w)))) in *.
  split; [change (Hub._action_queue st' = queue'); rewrite Hqu, Hqu'; reflexivity|].
  split.
  { unfold Hub.cell, put, Hub.on_env. cbn [params].
    rewrite lookup_insert_ne by congruence. rewrite lookup_insert_eq. cbn [mbind option_bind].
    unfold get_value. cbn [_values with_values]. rewrite lookup_insert_eq. reflexivity. }
  split.
  { unfold Hub.cell, put, Hub.on_env. cbn [params]. rewrite lookup_insert_eq.
    cbn [mbind option_bind].
    unfold get_value. cbn [_values with_values]. rewrite lookup_insert_eq. reflexivity. }
  split; [|change (Hub.stuck st' = Hub.stuck (env w)); rewrite Hst, Hst'; reflexivity].
  change (Hub.tasks st' = Hub.tasks (env w) ++ ts
          ++ map (fun pid => NetworkActions.BroadcastUpdate pid 0 0 (VStr s)) pids).
  rewrite Ht, Ht'. cbn [Hub.tasks Hub.with_queue]. rewrite <- app_assoc. reflexivity.
Qed.

(** X24. A batch on which [_queue_actions] raises leaves [queue_length]
    stale: written to the empty [action_to_send] cell of the hub, it is
    queued up to the action that fails, so the queue grows, but the
    [queue_length] parameter is not written; the cell is cleared all the
    same and the text is broadcast. *)
Theorem failed_batch_leaves_queue_length_stale
    `{PyBuiltins} `{ActionManager.HeapQ} `{Hub.Json}
    (self : Hub.Attributes) (fuel depth fuel' : nat) (s : string)
    (action : ActionManager.Action) (actions : list ActionManager.Action)
    (queue' : list ActionManager.QueuedAction) (e : Exn)
    (w : World Hub.Callback Hub.State) (p : BaseParameter Hub.Callback)
    (d : string) (pids : list Z) :
  Hub.queue_length self <> Hub.action_to_send self ->
  params w !! Hub.action_to_send self = Some p ->
  cls p = StringParameter d ->
  get_value p 0 0 = VStr "" ->
  _on_change_callbacks p = Hub.OnActionToSendChange :: map Hub.Broadcast pids ->
  s <> "" ->
  Hub.loads_actions s = Hub.Batch (action :: actions) ->
  ActionManager._queue_actions (Hub.time_time (env w)) (action :: actions)
    (Hub._action_queue (env w)) = (queue', Some e) ->
  (length pids < fuel')%nat ->
  exists calls w',
    set_value (Hub.call self fuel (S depth)) fuel' (Hub.action_to_send self) 0 0 (VStr s)
      true w = (calls, Returned w') /\
    Hub._action_queue (env w') = queue' /\
    (length (Hub._action_queue (env w)) < length queue')%nat /\
    params w' !! Hub.queue_length self = params w !! Hub.queue_length self /\
    Hub.cell (Hub.action_to_send self) w' = Some (VStr "") /\
    Hub.tasks (env w')
    = Hub.tasks (env w)
      ++ map (fun pid => NetworkActions.BroadcastUpdate pid 0 0 (VStr s)) pids.
Proof.
  intros Hne Hp Hc Hv Hcb Hs Hload Hqueue Hfa.
  set (args := mkArgs (Hub.action_to_send self) 0 0 (VStr s) (VStr "")).
  set (p1 := with_values p (<[(0, 0) := VStr s]> (_values p))).
  set (w1 := put (Hub.action_to_send self) p1 w).
  assert (params w1 !! Hub.action_to_send self = Some p1) as Hp1
    by (unfold w1, put; simpl; apply lookup_insert_eq).
  pose proof (CallbackFacts.on_change_fails self fuel depth args s action actions queue' e
                w1 p1 d eq_refl Hs Hload Hqueue Hp1 Hc) as Hcall.
  eexists _, _. split.
  { eapply (WrittenBatchFacts.write_text self fuel depth fuel' s w p d pids);
      [exact Hp | exact Hc | exact Hv | exact Hcb | exact Hs | exact Hfa | exact Hcall | |].
    - unfold put at 1. simpl. apply lookup_insert_eq.
    - reflexivity. }
  destruct (BatchFacts.with_tasks_fields (HubSpec.broadcasts pids args)
              (Hub.with_queue queue' (env w))) as (Ht & _ & Hqu & _ & _).
  set (st' := HubSpec.with_tasks (HubSpec.broadcasts pids args)
                (Hub.with_queue queue' (env w))) in *.
  split; [change (Hub._action_queue st' = queue'); rewrite Hqu; reflexivity|].
  split.
  { destruct (QueueProgress.queue_loop_failure _ _ _ _ _ _ Hqueue)
      as (k & a0 & ds & Hk & _ & _ & Hperm).
    rewrite Hperm, length_app, length_imap, length_take.
    apply lookup_lt_Some in Hk. lia. }
  split.
  { unfold w1, put, Hub.on_env. cbn [params].
    rewrite !lookup_insert_ne by congruence. reflexivity. }
  split.
  { unfold Hub.cell, put, Hub.on_env. cbn [params]. rewrite lookup_insert_eq.
    cbn [mbind option_bind].
    unfold get_value. cbn [_values with_values]. rewrite lookup_insert_eq. reflexivity. }
  change (Hub.tasks st' = Hub.tasks (env w)
          ++ map (fun pid => NetworkActions.BroadcastUpdate pid 0 0 (VStr s)) pids).
  rewrite Ht. reflexivity.
Qed.

Lemma parameter_writes_never_reach_the_watcher_nicknames_witness :
  Hub.action_manager_resolves (env HubExample.after_porch_written) "porch" = "10.0.0.46" /\
  Hub.watcher_resolves (env (Hub.world HubExample.hub)) "porch" = "porch" /\
  forall device,
    Hub.watcher_resolves (env HubExample.after_porch_written) device
    = Hub.watcher_resolves (env (Hub.world HubExample.hub)) device.
Proof.
  split; [vm_compute; reflexivity|]. split; [vm_compute; reflexivity|].
  refine (parameter_writes_never_reach_the_watcher_nicknames
            (Hub.attributes HubExample.hub) 2 1 3
            (Hub.device_nicknames (Hub.attributes HubExample.hub)) 0 0
            (VStr "{porch: 10.0.0.46}") true (Hub.world HubExample.hub)
            HubExample.porch_written.1 HubExample.after_porch_written _ _).
  - vm_compute. eexists. reflexivity.
  - vm_compute. reflexivity.
Defined.

Lemma add_nickname_after_parse_misses_the_watcher_witness :
  Hub.action_manager_resolves (env HubExample.after_porch_added_late) "porch" = "10.0.0.46" /\
  Hub.watcher_resolves (env (Hub.world HubExample.built)) "porch" = "porch" /\
  forall device,
    Hub.watcher_resolves (env HubExample.after_porch_added_late) device
    = Hub.watcher_resolves (env (Hub.world HubExample.built)) device.
Proof.
  split; [vm_compute; reflexivity|]. split; [vm_compute; reflexivity|].
  refine (add_nickname_after_parse_misses_the_watcher
            (Hub.attributes HubExample.built) 2 1 3 "porch" "10.0.0.46"
            (Hub.world HubExample.built) (VStr "{}") ∅
            HubExample.porch_added_late.1 HubExample.after_porch_added_late _ _ _ _).
  - vm_compute. eexists. reflexivity.
  - vm_compute. reflexivity.
  - vm_compute. reflexivity.
  - vm_compute. reflexivity.
Defined.

Module HubExampleFacts.
Import HubExample StoreSpec.

Lemma hub_in_store : components_in_store (Hub.local_components hub) (Hub.world hub).
Proof. apply StoreCheckFacts.components_in_storeb_sound. vm_compute. reflexivity. Qed.

Lemma hub_two_callbacks : callbacks_within 2 (Hub.world hub).
Proof. apply StoreCheckFacts.callbacks_withinb_sound. vm_compute. reflexivity. Qed.

(** The subscribers of [queue_length], the broadcast closure of its
    identifier, leave the object alone. *)
Lemma queue_length_subscribers :
  CallbackSpec.subscribers_leave (Hub.call (Hub.attributes hub) 2 1)
    (_on_change_callbacks (object (Hub.queue_length (Hub.attributes hub))))
    (Hub.queue_length (Hub.attributes hub)).
Proof.
  intros cb a w Hcb. vm_compute in Hcb. apply list_elem_of_singleton in Hcb. subst cb.
  reflexivity.
Qed.

End HubExampleFacts.

Lemma C5_witness :
  (exists w' counter',
     WebServerComponent.handle_frame (Hub.call (Hub.attributes HubExample.hub) 2 1)
       (Hub.local_components HubExample.hub) (Hub.total_messages_param HubExample.hub)
       2 0%nat
       (WebServerComponent.Decoded HubExample.set_queue_length (Some (VInt 4)))
       WebServerExample.no_clients (Hub.world HubExample.hub)
     = ([], Returned (WebServerComponent.Answer (WebServer.Failure "parameter is read-only")
                        (Some (VInt 4)),
                      WebServerExample.no_clients, w')) /\
     env w' = env (Hub.world HubExample.hub) /\
     (forall r', r' <> Hub.total_messages_param HubExample.hub ->
        params w' !! r' = params (Hub.world HubExample.hub) !! r') /\
     params w' !! Hub.total_messages_param HubExample.hub = Some counter' /\
     get_value counter' 0 0 = VInt 1) /\
  exists calls w' p',
    set_value (Hub.call (Hub.attributes HubExample.hub) 2 1) 2
      (Hub.queue_length (Hub.attributes HubExample.hub)) 0 0 (VInt 2) true
      (Hub.world HubExample.hub)
    = (calls, Returned w') /\
    params w' !! Hub.queue_length (Hub.attributes HubExample.hub) = Some p' /\
    get_value p' 0 0 = VInt 2.
Proof.
  destruct (C5_read_only_rejected (Hub.call (Hub.attributes HubExample.hub) 2 1)
              (Hub.local_components HubExample.hub)
              (Hub.total_messages_param HubExample.hub) 2 0%nat
              HubExample.set_queue_length (Some (VInt 4)) WebServerExample.no_clients
              (Hub.world HubExample.hub) (Hub.queue_length (Hub.attributes HubExample.hub))
              (HubExample.object (Hub.queue_length (Hub.attributes HubExample.hub)))
              (HubExample.object (Hub.total_messages_param HubExample.hub)) 0 0)
    as [Hrej Hint].
  - left. reflexivity.
  - discriminate.
  - vm_compute. reflexivity.
  - vm_compute. reflexivity.
  - vm_compute. reflexivity.
  - vm_compute. reflexivity.
  - vm_compute. reflexivity.
  - vm_compute. reflexivity.
  - split.
    { destruct Hrej as (w' & counter' & Hf & He & Ho & Hc & Hg & _).
      exists w', counter'. auto. }
    apply (Hint 0 0 (VInt 2) (VInt 2) true).
    + reflexivity.
    + apply HubWritingFacts.hub_call_keeps_shapes.
    + apply HubExampleFacts.queue_length_subscribers.
    + vm_compute. lia.
Defined.

Lemma closed_connection_leaves_nothing_behind_witness :
  map fst HubExample.connection.1
  = [Hub.Broadcast 17; Hub.OnTriggerChange; Hub.Broadcast 2; Hub.OnActionToSendChange;
     Hub.Broadcast 5; Hub.Broadcast 17] /\
  exists calls replies s' w' clients',
    WebServerComponent._handle_client (Hub.call (Hub.attributes HubExample.hub) 2 1)
      (Hub.local_components HubExample.hub) (Hub.connected_clients_param HubExample.hub)
      (Hub.total_messages_param HubExample.hub) 2 5%nat HubExample.frames
      WebServerExample.no_clients (Hub.world HubExample.hub)
    = (calls, Returned (replies, s', w')) /\
    length replies = length HubExample.frames /\
    WebServerComponent._clients s' = ∅ ∖ {[5%nat]} /\
    (forall ws pid r c,
       ws ∈ WebServer.get_subscribers pid r c (WebServerComponent.subscriptions s') <->
       ws ∈ WebServer.get_subscribers pid r c WebServer.new_manager /\ ws <> 5%nat) /\
    params w' !! Hub.connected_clients_param HubExample.hub = Some clients' /\
    get_value clients' 0 0 = VInt (Z.min 1000 (Z.of_nat (size (∅ ∖ {[5%nat]} : gset nat)))).
Proof.
  split; [vm_compute; reflexivity|].
  refine (closed_connection_leaves_nothing_behind
            (Hub.call (Hub.attributes HubExample.hub) 2 1)
            (Hub.local_components HubExample.hub)
            (Hub.connected_clients_param HubExample.hub)
            (Hub.total_messages_param HubExample.hub) 2 5%nat HubExample.frames
            WebServerExample.no_clients (Hub.world HubExample.hub)
            (HubExample.object 16%nat) 0
            (HubWritingFacts.hub_call_keeps_shapes _ 2 1)
            (HubWritingFacts.hub_call_leaves _ 2 1 _ _ _ _)
            HubExampleFacts.hub_in_store HubExampleFacts.hub_two_callbacks
            (SubscriptionHistoryFacts.reachable_consistent []) _ _ _).
  - vm_compute. lia.
  - vm_compute. lia.
  - vm_compute. lia.
  - vm_compute. reflexivity.
  - vm_compute. reflexivity.
  - apply StoreCheckFacts.in_storeb_sound. vm_compute. reflexivity.
Defined.

Lemma broadcast_update_drops_closed_connections_witness :
  map fst HubExample.client_dropped.1.2 = [Hub.Broadcast 17] /\
  let s := WebServerExample.two_clients in
  let subscribers := WebServer.get_subscribers 3 0 0 (WebServerComponent.subscriptions s) in
  let closed ws := ws ∈ subscribers /\ Nat.eqb ws 1 = false in
  exists targets calls s' w',
    WebServerComponent._broadcast_update (Hub.call (Hub.attributes HubExample.hub) 2 1)
      (Hub.connected_clients_param HubExample.hub) 2 (fun ws => Nat.eqb ws 1) 3 0 0
      (VStr "ok") s (Hub.world HubExample.hub)
    = ((CentralHub.mkUpdate (Some 3) 0 0 (VStr "ok"), targets), calls, Returned (s', w')) /\
    NoDup targets /\
    (forall ws, ws ∈ targets <-> ws ∈ subscribers) /\
    (forall ws, ws ∈ WebServerComponent._clients s' <->
                ws ∈ WebServerComponent._clients s /\ ~ closed ws) /\
    (forall ws pid r c,
       ws ∈ WebServer.get_subscribers pid r c (WebServerComponent.subscriptions s') <->
       ws ∈ WebServer.get_subscribers pid r c (WebServerComponent.subscriptions s) /\
       ~ closed ws) /\
    ((forall ws, ~ closed ws) -> calls = [] /\ s' = s /\ w' = Hub.world HubExample.hub) /\
    ((exists ws, closed ws) ->
     exists p', params w' !! Hub.connected_clients_param HubExample.hub = Some p' /\
                get_value p' 0 0
                = VInt (Z.min 1000 (Z.of_nat (size (WebServerComponent._clients s'))))).
Proof.
  split; [vm_compute; reflexivity|].
  refine (broadcast_update_drops_closed_connections
           (Hub.call (Hub.attributes HubExample.hub) 2 1)
           (Hub.connected_clients_param HubExample.hub) 2 (fun ws => Nat.eqb ws 1) 3 0 0
           (VStr "ok") WebServerExample.two_clients (Hub.world HubExample.hub)
           (HubExample.object 16%nat) 0
           (HubWritingFacts.hub_call_keeps_shapes _ 2 1)
           (HubWritingFacts.hub_call_leaves _ 2 1 _ _ _ _)
           HubExampleFacts.hub_two_callbacks
           (SubscriptionHistoryFacts.reachable_consistent
              [SubscriptionSpec.Subscribe 1%nat 3 0 0; SubscriptionSpec.Subscribe 2%nat 3 0 0])
           _ _).
  - vm_compute. lia.
  - vm_compute. lia.
  - vm_compute. lia.
  - vm_compute. reflexivity.
  - vm_compute. reflexivity.
Defined.

Lemma add_nickname_reaches_the_watcher_sharing_the_dictionary_witness :
  Hub.watcher_resolves (env (Hub.world HubExample.built)) "porch" = "porch" /\
  map fst HubExample.porch_added.1 = [Hub.OnNicknamesChange] /\
  exists calls w',
    Hub.add_nickname (Hub.attributes HubExample.built) 2 1 3 "porch" "10.0.0.46"
      (Hub.world HubExample.built) = (calls, Returned w') /\
    Hub.watcher_resolves (env w') "porch" = "10.0.0.46".
Proof.
  split; [vm_compute; reflexivity|]. split; [vm_compute; reflexivity|].
  refine (add_nickname_reaches_the_watcher_sharing_the_dictionary
            (Hub.attributes HubExample.built) 2 1 3 "porch" "10.0.0.46"
            (Hub.world HubExample.built) ∅
            (default (HubExample.object 0%nat)
               (params (Hub.world HubExample.built)
                  !! Hub.device_nicknames (Hub.attributes HubExample.built)))
            "{}" _ _ _ _ _ _).
  - vm_compute. reflexivity.
  - vm_compute. reflexivity.
  - vm_compute. reflexivity.
  - vm_compute. reflexivity.
  - vm_compute. lia.
  - vm_compute. reflexivity.
Defined.

Lemma action_to_send_is_empty_after_every_write_witness :
  length (Hub._action_queue (env (Hub.world HubExample.hub))) = 0%nat /\
  length (Hub._action_queue (env HubExample.after_batch_written)) = 2%nat /\
  Hub.cell (Hub.action_to_send (Hub.attributes HubExample.hub)) HubExample.after_batch_written
  = Some (VStr "").
Proof.
  split; [vm_compute; reflexivity|]. split; [vm_compute; reflexivity|].
  refine (action_to_send_is_empty_after_every_write
            (Hub.attributes HubExample.hub) 2 0 3
            (Hub.action_to_send (Hub.attributes HubExample.hub)) 0 0
            (VStr "{actions: [first, second]}") (Hub.world HubExample.hub) _ ""
            HubExample.batch_written.1 HubExample.after_batch_written _ _ _ _ _ _ _).
  - vm_compute. lia.
  - vm_compute. lia.
  - vm_compute. reflexivity.
  - vm_compute. reflexivity.
  - vm_compute. reflexivity.
  - vm_compute. reflexivity.
  - vm_compute. reflexivity.
Defined.


Lemma written_batch_is_queued_counted_and_cleared_witness :
  exists calls w',
    set_value (Hub.call (Hub.attributes HubExample.hub) 2 1) 3
      (Hub.action_to_send (Hub.attributes HubExample.hub)) 0 0
      (VStr "{actions: [first, second]}") true (Hub.world HubExample.hub)
    = (calls, Returned w') /\
    Hub._action_queue (env w')
    = [ActionManager.mkQueued 1000 QueueExample.first;
       ActionManager.mkQueued 1000.5 QueueExample.second] /\
    Hub.cell (Hub.queue_length (Hub.attributes HubExample.hub)) w' = Some (VInt 2) /\
    Hub.cell (Hub.action_to_send (Hub.attributes HubExample.hub)) w' = Some (VStr "").
Proof.
  pose proof (written_batch_is_queued_counted_and_cleared
                (Hub.attributes HubExample.hub) 2 0 3 "{actions: [first, second]}"
                QueueExample.first [QueueExample.second]
                [ActionManager.mkQueued 1000 QueueExample.first;
                 ActionManager.mkQueued 1000.5 QueueExample.second]
                (Hub.world HubExample.hub)
                (HubExample.object (Hub.action_to_send (Hub.attributes HubExample.hub)))
                (HubExample.object (Hub.queue_length (Hub.attributes HubExample.hub)))
                "" 0 [5] [6]) as T.
  assert (Hub.queue_length (Hub.attributes HubExample.hub)
          <> Hub.action_to_send (Hub.attributes HubExample.hub)) as H1
    by (vm_compute; lia).
  specialize (T H1). clear H1.
  specialize (T ltac:(vm_compute; reflexivity)). specialize (T ltac:(vm_compute; reflexivity)).
  specialize (T ltac:(vm_compute; reflexivity)). specialize (T ltac:(vm_compute; reflexivity)).
  specialize (T ltac:(vm_compute; reflexivity)). specialize (T ltac:(vm_compute; reflexivity)).
  specialize (T ltac:(vm_compute; reflexivity)). specialize (T ltac:(discriminate)).
  specialize (T ltac:(vm_compute; reflexivity)). specialize (T ltac:(vm_compute; reflexivity)).
  specialize (T ltac:(simpl; lia)). specialize (T ltac:(simpl; lia)).
  destruct T as (calls & w' & Hrun & Hqueue & Hlength & Hcell & _).
  exists calls, w'. split; [exact Hrun|]. split; [exact Hqueue|].
  split; [exact Hlength | exact Hcell].
Defined.

Lemma failed_batch_leaves_queue_length_stale_witness :
  exists calls w',
    set_value (Hub.call (Hub.attributes HubExample.hub) 2 1) 3
      (Hub.action_to_send (Hub.attributes HubExample.hub)) 0 0
      (VStr "{actions: [first, broken, second]}") true (Hub.world HubExample.hub)
    = (calls, Returned w') /\
    Hub._action_queue (env w')
    = [ActionManager.mkQueued 1000 QueueExample.first;
       ActionManager.mkQueued 1000.5 HubExample.broken] /\
    Hub.cell (Hub.queue_length (Hub.attributes HubExample.hub)) (Hub.world HubExample.hub)
    = Some (VInt 0) /\
    params w' !! Hub.queue_length (Hub.attributes HubExample.hub)
    = params (Hub.world HubExample.hub) !! Hub.queue_length (Hub.attributes HubExample.hub).
Proof.
  pose proof (failed_batch_leaves_queue_length_stale
                (Hub.attributes HubExample.hub) 2 0 3 "{actions: [first, broken, second]}"
                QueueExample.first [HubExample.broken; QueueExample.second]
                [ActionManager.mkQueued 1000 QueueExample.first;
                 ActionManager.mkQueued 1000.5 HubExample.broken]
                TypeError
                (Hub.world HubExample.hub)
                (HubExample.object (Hub.action_to_send (Hub.attributes HubExample.hub)))
                "" [5]) as T.
  assert (Hub.queue_length (Hub.attributes HubExample.hub)
          <> Hub.action_to_send (Hub.attributes HubExample.hub)) as H1
    by (vm_compute; lia).
  specialize (T H1). clear H1.
  specialize (T ltac:(vm_compute; reflexivity)). specialize (T ltac:(vm_compute; reflexivity)).
  specialize (T ltac:(vm_compute; reflexivity)). specialize (T ltac:(vm_compute; reflexivity)).
  specialize (T ltac:(discriminate)).
  specialize (T ltac:(vm_compute; reflexivity)). specialize (T ltac:(vm_compute; reflexivity)).
  specialize (T ltac:(simpl; lia)).
  destruct T as (calls & w' & Hrun & Hqueue & _ & Hstale & _).
  exists calls, w'. split; [exact Hrun|]. split; [exact Hqueue|].
  split; [vm_compute; reflexivity | exact Hstale].
Defined.
